(** * AArch32 VFP translator (translate-vfp.inc.c): a shallow embedding

    The translator is modelled the way it is written: a handler receives the
    per-block [DisasContext] and a decoded argument record, may reject the
    encoding ([false]), and otherwise appends TCG operations to the op buffer
    and reports the instruction as handled ([true]).  C [int] / [uint32_t]
    values are [Z] with the wrap-around written out. *)

From Stdlib Require Import ZArith List Bool Lia.
Import ListNotations.
Open Scope Z_scope.

(** ** Machine integers *)

(** Wrap to a C [uint32_t]. *)
Definition u32 (x : Z) : Z := x mod 2 ^ 32.

(** Wrap to a C [int] (two's complement, 32 bit). *)
Definition wrap_int (x : Z) : Z := (x + 2 ^ 31) mod 2 ^ 32 - 2 ^ 31.

(** ** Register addressing (translate-vfp.inc.c, lines 1666-1700) *)

(** [(reg & 0x18) == 0]: the S register is one of s0..s7. *)
Definition vfp_sreg_is_scalar (reg : Z) : bool := Z.land reg 24 =? 0.

(** [(reg & 0xc) == 0]: the D register is one of d0..d3 or d16..d19. *)
Definition vfp_dreg_is_scalar (reg : Z) : bool := Z.land reg 12 =? 0.

(** [((reg + delta) & 0x7) | (reg & ~0x7)]. *)
Definition vfp_advance_sreg (reg delta : Z) : Z :=
  Z.lor (Z.land (wrap_int (reg + delta)) 7) (Z.land reg (Z.lnot 7)).

(** [((reg + delta) & 0x3) | (reg & ~0x3)]. *)
Definition vfp_advance_dreg (reg delta : Z) : Z :=
  Z.lor (Z.land (wrap_int (reg + delta)) 3) (Z.land reg (Z.lnot 3)).

(** Closed form of a bank-preserving advance over [k] low bits; the
    lemmas below show both advance functions compute it. *)
Definition advance_bank (k reg delta : Z) : Z :=
  (reg + delta) mod 2 ^ k + 2 ^ k * (reg / 2 ^ k).

(** ** TCG intermediate representation

    The translator never touches processor state: it appends operations to
    the op buffer of the TCG context.  Temporaries and labels are handed out
    by the TCG context and are identified by their index. *)

Definition temp := nat.
Definition label := nat.

Inductive TCGCond := TCG_COND_EQ | TCG_COND_NE | TCG_COND_LT | TCG_COND_GE.

Definition tcg_invert_cond (c : TCGCond) : TCGCond :=
  match c with
  | TCG_COND_EQ => TCG_COND_NE
  | TCG_COND_NE => TCG_COND_EQ
  | TCG_COND_LT => TCG_COND_GE
  | TCG_COND_GE => TCG_COND_LT
  end.

(** Floating-point system register selectors ([a->reg], [regno]).  Their
    numeric values live in cpu.h; the translator only compares them. *)
Inductive sysreg :=
| ARM_VFP_FPSID | ARM_VFP_FPSCR | ARM_VFP_FPSCR_NZCVQC | QEMU_VFP_FPSCR_NZCV
| ARM_VFP_MVFR0 | ARM_VFP_MVFR1 | ARM_VFP_MVFR2
| ARM_VFP_FPEXC | ARM_VFP_FPINST | ARM_VFP_FPINST2
| ARM_VFP_FPCXT_NS | ARM_VFP_FPCXT_S
| ARM_VFP_other (n : Z).

(** Register banks of M-profile: [M_REG_NS] and [M_REG_S]. *)
Inductive m_bank := M_REG_NS | M_REG_S.

(** Fields of [CPUARMState] reached through [load_cpu_field] and
    [store_cpu_field]. *)
Inductive cpu_field :=
| v7m_fpccr (b : m_bank)
| v7m_control (b : m_bank)
| v7m_fpdscr (b : m_bank)
| vfp_xregs (r : sysreg).

(** The two float_status blocks used here ([fpstatus_ptr]). *)
Inductive ARMFPStatusFlavour := FPST_FPCR | FPST_FPCR_F16.

Inductive excp_kind := EXCP_UDEF | EXCP_NOCP.

Inductive syndrome :=
| syn_uncategorized
| syn_fp_access_trap (cv cond : Z) (is_16bit : bool).

(** Floating-point library entry points called by the handlers modelled
    below ([gen_helper_...]). *)
Inductive fp_helper :=
| helper_rinth | helper_rints | helper_rintd
| helper_vfp_tosld | helper_vfp_tould
| helper_vfp_toslh | helper_vfp_toulh
| helper_vfp_tosls | helper_vfp_touls
| helper_vfp_negh | helper_vfp_negs | helper_vfp_negd
| helper_vfp_muladdh | helper_vfp_muladds | helper_vfp_muladdd.

Inductive MemWidth := MO_32 | MO_64.

Inductive tcg_op :=
| op_movi (d : temp) (c : Z)
| op_mov (d s : temp)
| op_andi (d s : temp) (c : Z)
| op_ori (d s : temp) (c : Z)
| op_xori (d s : temp) (c : Z)
| op_or (d a b : temp)
| op_shri (d s : temp) (c : Z)
| op_shli (d s : temp) (c : Z)
| op_addi (d s : temp) (c : Z)
| op_deposit (d a b : temp) (ofs len : Z)
| op_movcond (c : TCGCond) (d c1 c2 v1 v2 : temp)
| op_extrl_i64_i32 (d s : temp)
| op_brcondi (c : TCGCond) (a : temp) (imm : Z) (l : label)
| op_br (l : label)
| op_set_label (l : label)
| op_ld_field (d : temp) (f : cpu_field)
| op_st_field (f : cpu_field) (s : temp)
| op_load_reg (d : temp) (r : Z)
| op_store_reg (r : Z) (s : temp)
| op_add_reg_for_lit (d : temp) (r ofs : Z)
| op_set_nzcv (s : temp)
| op_movi_pc (pc : Z)
| op_vfp_load_reg32 (d : temp) (reg : Z)
| op_vfp_store_reg32 (s : temp) (reg : Z)
| op_vfp_load_reg64 (d : temp) (reg : Z)
| op_vfp_store_reg64 (s : temp) (reg : Z)
| op_aa32_ld (w : MemWidth) (be b32 : bool) (d addr : temp)
| op_aa32_st (w : MemWidth) (be b32 : bool) (s addr : temp)
| op_fpstatus_ptr (d : temp) (f : ARMFPStatusFlavour)
| op_helper_fp (h : fp_helper) (d : temp) (args : list temp) (fpst : option temp)
| op_helper_set_rmode (d s fpst : temp)
| op_helper_vfp_set_fpscr (s : temp)
| op_helper_vfp_get_fpscr (d : temp)
| op_helper_v7m_preserve_fp_state
| op_helper_v8m_stackcheck (addr : temp)
| op_helper_check_hcr_el2_trap (rt reg : temp)
| op_io_start
| op_set_condexec
| op_exception_insn (pc : Z) (e : excp_kind) (syn : syndrome) (el : Z).

(** ** Translation context *)

Inductive DisasJumpType :=
| DISAS_NEXT | DISAS_NORETURN | DISAS_EXIT | DISAS_UPDATE_EXIT.

(** The part of [DisasContext] that is fixed for the block: feature bits
    ([arm_dc_feature], [dc_isar_feature]), mode bits, the data endianness
    ([be_data] is set when [s->be_data] is [MO_BE]; [sctlr_b] is the legacy
    BE32 mode) and the short-vector configuration. *)
Record DisasConfig := {
  ARM_FEATURE_M : bool;
  ARM_FEATURE_V8_1M : bool;
  ARM_FEATURE_MVFR : bool;
  ARM_FEATURE_V8 : bool;
  aa32_fpsp_v2 : bool;
  aa32_fpsp_v3 : bool;
  aa32_fpdp_v2 : bool;
  aa32_fpshvec : bool;
  aa32_simd_r32 : bool;
  aa32_simdfmac : bool;
  aa32_fp16_arith : bool;
  aa32_vrint : bool;
  aa32_vcvt_dr : bool;
  fp_excp_el : Z;
  vfp_enabled : bool;
  v8m_secure : bool;
  v8m_stackcheck : bool;
  vec_len : Z;
  vec_stride : Z;
  current_el : Z;
  user : bool;
  be_data : bool;
  sctlr_b : bool;
  default_exception_el : Z;
  pc_curr : Z;
  pc_next : Z;
  CF_USE_ICOUNT : bool
}.

(** [DisasContext]: the fixed part and the fields the handlers assign. *)
Record DisasContext := {
  cfg : DisasConfig;
  v7m_lspact : bool;
  v8m_fpccr_s_wrong : bool;
  v7m_new_fp_ctxt_needed : bool;
  is_jmp : DisasJumpType
}.

Definition set_v7m_lspact (b : bool) (s : DisasContext) : DisasContext :=
  {| cfg := cfg s; v7m_lspact := b;
     v8m_fpccr_s_wrong := v8m_fpccr_s_wrong s;
     v7m_new_fp_ctxt_needed := v7m_new_fp_ctxt_needed s;
     is_jmp := is_jmp s |}.

Definition set_v8m_fpccr_s_wrong (b : bool) (s : DisasContext) : DisasContext :=
  {| cfg := cfg s; v7m_lspact := v7m_lspact s;
     v8m_fpccr_s_wrong := b;
     v7m_new_fp_ctxt_needed := v7m_new_fp_ctxt_needed s;
     is_jmp := is_jmp s |}.

Definition set_v7m_new_fp_ctxt_needed (b : bool) (s : DisasContext)
  : DisasContext :=
  {| cfg := cfg s; v7m_lspact := v7m_lspact s;
     v8m_fpccr_s_wrong := v8m_fpccr_s_wrong s;
     v7m_new_fp_ctxt_needed := b;
     is_jmp := is_jmp s |}.

Definition set_is_jmp (j : DisasJumpType) (s : DisasContext) : DisasContext :=
  {| cfg := cfg s; v7m_lspact := v7m_lspact s;
     v8m_fpccr_s_wrong := v8m_fpccr_s_wrong s;
     v7m_new_fp_ctxt_needed := v7m_new_fp_ctxt_needed s;
     is_jmp := j |}.

(** The TCG context hands out temporaries and labels. *)
Record TCGContext := { next_temp : nat; next_label : nat }.

Record GenState := { dc : DisasContext; tcg : TCGContext }.

(** ** The emission monad

    A translation-time computation reads and updates the translation state
    and appends operations; [None] is an aborted translation (a failed
    [assert], [g_assert_not_reached], or a loop that ran out of fuel). *)
Definition Gen (A : Type) : Type :=
  GenState -> option (A * GenState * list tcg_op).

Definition ret {A} (a : A) : Gen A := fun g => Some (a, g, []).

Definition bind {A B} (m : Gen A) (k : A -> Gen B) : Gen B :=
  fun g =>
    match m g with
    | None => None
    | Some (a, g1, o1) =>
        match k a g1 with
        | None => None
        | Some (b, g2, o2) => Some (b, g2, o1 ++ o2)
        end
    end.

Declare Scope gen_scope.
Delimit Scope gen_scope with gen.
Notation "x <- m ;; k" := (bind m (fun x => k))
  (at level 61, m at next level, right associativity) : gen_scope.
Notation "m ;; k" := (bind m (fun _ => k))
  (at level 61, right associativity) : gen_scope.
Open Scope gen_scope.

Definition abort {A} : Gen A := fun _ => None.

Definition assert (b : bool) : Gen unit := if b then ret tt else abort.

Definition emit (o : tcg_op) : Gen unit := fun g => Some (tt, g, [o]).

Definition get_s : Gen DisasContext := fun g => Some (dc g, g, []).

Definition update_s (f : DisasContext -> DisasContext) : Gen unit :=
  fun g => Some (tt, {| dc := f (dc g); tcg := tcg g |}, []).

Definition when (b : bool) (m : Gen unit) : Gen unit :=
  if b then m else ret tt.

(** [tcg_temp_new_i32], [tcg_temp_new_i64]: a fresh temporary. *)
Definition tcg_temp_new : Gen temp :=
  fun g =>
    let t := next_temp (tcg g) in
    Some (t, {| dc := dc g;
                tcg := {| next_temp := S t;
                          next_label := next_label (tcg g) |} |}, []).

(** Releasing a temporary emits nothing. *)
Definition tcg_temp_free (t : temp) : Gen unit := ret tt.

Definition gen_new_label : Gen label :=
  fun g =>
    let l := next_label (tcg g) in
    Some (l, {| dc := dc g;
                tcg := {| next_temp := next_temp (tcg g);
                          next_label := S l |} |}, []).

(** A callback that only receives the [TCGContext] (the [fn] arguments of
    the generic templates) cannot see or change the [DisasContext]. *)
Definition TCGGen : Type := TCGContext -> TCGContext * list tcg_op.

Definition call_tcg (f : TCGGen) : Gen unit :=
  fun g =>
    let '(t, o) := f (tcg g) in
    Some (tt, {| dc := dc g; tcg := t |}, o).

(** ** Primitives of translate.c used by the handlers

    Modelled from the spec: translate.c and cpu.h are not under src/.  Each
    primitive appends the operation of the same name; the masks are the
    architectural bit positions the source comments refer to (FPCCR.S,
    FPCCR.ASPEN, CONTROL.FPCA, CONTROL.SFPA, FPSCR bits [31:28]). *)

Definition R_V7M_FPCCR_S_MASK : Z := 4.
Definition R_V7M_FPCCR_ASPEN_MASK : Z := 2 ^ 31.
Definition R_V7M_CONTROL_FPCA_MASK : Z := 4.
Definition R_V7M_CONTROL_SFPA_MASK : Z := 8.
Definition R_V7M_CONTROL_SFPA_SHIFT : Z := 3.
Definition FPCR_NZCV_MASK : Z := 15 * 2 ^ 28.

(** Table [fp_decode_rm] (lines 348-353) and the encodings it holds. *)
Definition FPROUNDING_TIEEVEN : Z := 0.
Definition FPROUNDING_POSINF : Z := 1.
Definition FPROUNDING_NEGINF : Z := 2.
Definition FPROUNDING_ZERO : Z := 3.
Definition FPROUNDING_TIEAWAY : Z := 4.

Definition fp_decode_rm (rm : Z) : Z :=
  nth (Z.to_nat rm)
      [FPROUNDING_TIEAWAY; FPROUNDING_TIEEVEN;
       FPROUNDING_POSINF; FPROUNDING_NEGINF] 0.

(** softfloat's [float_round_to_zero]. *)
Definition float_round_to_zero : Z := 3.

Definition load_cpu_field (f : cpu_field) : Gen temp :=
  t <- tcg_temp_new ;; emit (op_ld_field t f) ;; ret t.

Definition store_cpu_field (t : temp) (f : cpu_field) : Gen unit :=
  emit (op_st_field f t) ;; tcg_temp_free t.

Definition tcg_const (c : Z) : Gen temp :=
  t <- tcg_temp_new ;; emit (op_movi t c) ;; ret t.

Definition load_reg (r : Z) : Gen temp :=
  t <- tcg_temp_new ;; emit (op_load_reg t r) ;; ret t.

Definition store_reg (r : Z) (t : temp) : Gen unit :=
  emit (op_store_reg r t).

Definition add_reg_for_lit (r ofs : Z) : Gen temp :=
  t <- tcg_temp_new ;; emit (op_add_reg_for_lit t r ofs) ;; ret t.

Definition fpstatus_ptr (f : ARMFPStatusFlavour) : Gen temp :=
  t <- tcg_temp_new ;; emit (op_fpstatus_ptr t f) ;; ret t.

Definition gen_exception_insn (pc : Z) (e : excp_kind) (syn : syndrome)
    (el : Z) : Gen unit :=
  emit (op_exception_insn pc e syn el) ;;
  update_s (set_is_jmp DISAS_NORETURN).

Definition unallocated_encoding : Gen unit :=
  s <- get_s ;;
  gen_exception_insn (pc_curr (cfg s)) EXCP_UDEF syn_uncategorized
                     (default_exception_el (cfg s)).

Definition gen_lookup_tb : Gen unit :=
  s <- get_s ;;
  emit (op_movi_pc (pc_next (cfg s))) ;;
  update_s (set_is_jmp DISAS_EXIT).

Definition gen_set_nzcv (t : temp) : Gen unit := emit (op_set_nzcv t).

(** Memory accesses.  [gen_aa32_ld_i32] and [gen_aa32_st_i32] are given
    the endianness bit of their [MemOp]; the sized forms take it from
    [s->be_data].  All of them record whether the block is in BE32 mode,
    which changes how a 64-bit access is laid out. *)
Definition gen_aa32_ld_i32 (val addr : temp) (be : bool) : Gen unit :=
  s <- get_s ;; emit (op_aa32_ld MO_32 be (sctlr_b (cfg s)) val addr).

Definition gen_aa32_st_i32 (val addr : temp) (be : bool) : Gen unit :=
  s <- get_s ;; emit (op_aa32_st MO_32 be (sctlr_b (cfg s)) val addr).

Definition gen_aa32_ld32u (val addr : temp) : Gen unit :=
  s <- get_s ;; gen_aa32_ld_i32 val addr (be_data (cfg s)).

Definition gen_aa32_st32 (val addr : temp) : Gen unit :=
  s <- get_s ;; gen_aa32_st_i32 val addr (be_data (cfg s)).

Definition gen_aa32_ld64 (val addr : temp) : Gen unit :=
  s <- get_s ;;
  emit (op_aa32_ld MO_64 (be_data (cfg s)) (sctlr_b (cfg s)) val addr).

Definition gen_aa32_st64 (val addr : temp) : Gen unit :=
  s <- get_s ;;
  emit (op_aa32_st MO_64 (be_data (cfg s)) (sctlr_b (cfg s)) val addr).

Definition vfp_load_reg32 (t : temp) (reg : Z) : Gen unit :=
  emit (op_vfp_load_reg32 t reg).
Definition vfp_store_reg32 (t : temp) (reg : Z) : Gen unit :=
  emit (op_vfp_store_reg32 t reg).
Definition vfp_load_reg64 (t : temp) (reg : Z) : Gen unit :=
  emit (op_vfp_load_reg64 t reg).
Definition vfp_store_reg64 (t : temp) (reg : Z) : Gen unit :=
  emit (op_vfp_store_reg64 t reg).

Definition m_bank_of_bool (b : bool) : m_bank :=
  if b then M_REG_S else M_REG_NS.

(** ** FPU access checks (lines 86-201) *)

Definition gen_preserve_fp_state : Gen unit :=
  s <- get_s ;;
  when (v7m_lspact s)
    (when (CF_USE_ICOUNT (cfg s))
       (update_s (set_is_jmp DISAS_UPDATE_EXIT) ;; emit op_io_start) ;;
     emit op_helper_v7m_preserve_fp_state ;;
     update_s (set_v7m_lspact false)).

Definition full_vfp_access_check (ignore_vfp_enabled : bool) : Gen bool :=
  s <- get_s ;;
  if negb (fp_excp_el (cfg s) =? 0) then
    assert (negb (ARM_FEATURE_M (cfg s))) ;;
    gen_exception_insn (pc_curr (cfg s)) EXCP_UDEF
                       (syn_fp_access_trap 1 14 false)
                       (fp_excp_el (cfg s)) ;;
    ret false
  else if negb (vfp_enabled (cfg s)) && negb ignore_vfp_enabled then
    assert (negb (ARM_FEATURE_M (cfg s))) ;;
    unallocated_encoding ;;
    ret false
  else
    when (ARM_FEATURE_M (cfg s))
      (gen_preserve_fp_state ;;
       s <- get_s ;;
       when (v8m_fpccr_s_wrong s)
         (tmp <- load_cpu_field (v7m_fpccr M_REG_S) ;;
          (if v8m_secure (cfg s)
           then emit (op_ori tmp tmp R_V7M_FPCCR_S_MASK)
           else emit (op_andi tmp tmp (Z.lnot R_V7M_FPCCR_S_MASK))) ;;
          store_cpu_field tmp (v7m_fpccr M_REG_S) ;;
          update_s (set_v8m_fpccr_s_wrong false)) ;;
       s <- get_s ;;
       when (v7m_new_fp_ctxt_needed s)
         (fpscr <- load_cpu_field
                     (v7m_fpdscr (m_bank_of_bool (v8m_secure (cfg s)))) ;;
          emit (op_helper_vfp_set_fpscr fpscr) ;;
          tcg_temp_free fpscr ;;
          let bits :=
            if v8m_secure (cfg s)
            then Z.lor R_V7M_CONTROL_FPCA_MASK R_V7M_CONTROL_SFPA_MASK
            else R_V7M_CONTROL_FPCA_MASK in
          control <- load_cpu_field (v7m_control M_REG_S) ;;
          emit (op_ori control control bits) ;;
          store_cpu_field control (v7m_control M_REG_S) ;;
          update_s (set_v7m_new_fp_ctxt_needed false))) ;;
    ret true.

Definition vfp_access_check : Gen bool := full_vfp_access_check false.

(** ** System-register access framework (lines 630-1212) *)

Inductive FPSysRegCheckResult :=
| FPSysRegCheckFailed
| FPSysRegCheckDone
| FPSysRegCheckContinue.

(** The [return false] statements of the C function return the enumerator
    with value 0, [FPSysRegCheckFailed]. *)
Definition fp_sysreg_checks (regno : sysreg) : Gen FPSysRegCheckResult :=
  s <- get_s ;;
  if negb (aa32_fpsp_v2 (cfg s)) then ret FPSysRegCheckFailed
  else
    let after_switch : Gen FPSysRegCheckResult :=
      match regno with
      | ARM_VFP_FPCXT_NS => ret FPSysRegCheckContinue
      | _ =>
          ok <- vfp_access_check ;;
          if negb ok then ret FPSysRegCheckDone
          else ret FPSysRegCheckContinue
      end in
    match regno with
    | ARM_VFP_FPSCR | QEMU_VFP_FPSCR_NZCV => after_switch
    | ARM_VFP_FPSCR_NZCVQC =>
        if negb (ARM_FEATURE_V8_1M (cfg s)) then ret FPSysRegCheckFailed
        else after_switch
    | ARM_VFP_FPCXT_S | ARM_VFP_FPCXT_NS =>
        if negb (ARM_FEATURE_V8_1M (cfg s)) then ret FPSysRegCheckFailed
        else if negb (v8m_secure (cfg s)) then ret FPSysRegCheckFailed
        else after_switch
    | _ => ret FPSysRegCheckFailed
    end.

Definition gen_branch_fpInactive (cond : TCGCond) (lab : label) : Gen unit :=
  assert (match cond with
          | TCG_COND_EQ | TCG_COND_NE => true
          | _ => false
          end) ;;
  aspen <- load_cpu_field (v7m_fpccr M_REG_NS) ;;
  fpca <- load_cpu_field (v7m_control M_REG_S) ;;
  emit (op_andi aspen aspen R_V7M_FPCCR_ASPEN_MASK) ;;
  emit (op_xori aspen aspen R_V7M_FPCCR_ASPEN_MASK) ;;
  emit (op_andi fpca fpca R_V7M_CONTROL_FPCA_MASK) ;;
  emit (op_or fpca fpca aspen) ;;
  emit (op_brcondi (tcg_invert_cond cond) fpca 0 lab) ;;
  tcg_temp_free aspen ;;
  tcg_temp_free fpca.

Definition gen_set_label_opt (l : option label) : Gen unit :=
  match l with
  | Some l => emit (op_set_label l)
  | None => ret tt
  end.

Section SysRegFramework.

(** The callbacks receive the handler's argument record as [opaque]. *)
Context {O : Type}.

(** The [FPCXT_S] arm of the writer, entered directly and by fall-through
    from the [FPCXT_NS] arm. *)
Definition gen_M_fp_sysreg_write_fpcxt_s
    (loadfn : O -> Gen temp) (opaque : O) : Gen unit :=
  tmp <- loadfn opaque ;;
  sfpa <- tcg_temp_new ;;
  emit (op_shri sfpa tmp 31) ;;
  control <- load_cpu_field (v7m_control M_REG_S) ;;
  emit (op_deposit control control sfpa R_V7M_CONTROL_SFPA_SHIFT 1) ;;
  store_cpu_field control (v7m_control M_REG_S) ;;
  emit (op_andi tmp tmp (Z.lnot FPCR_NZCV_MASK)) ;;
  emit (op_helper_vfp_set_fpscr tmp) ;;
  tcg_temp_free tmp ;;
  tcg_temp_free sfpa.

Definition gen_M_fp_sysreg_write (regno : sysreg)
    (loadfn : O -> Gen temp) (opaque : O) : Gen bool :=
  chk <- fp_sysreg_checks regno ;;
  match chk with
  | FPSysRegCheckFailed => ret false
  | FPSysRegCheckDone => ret true
  | FPSysRegCheckContinue =>
      lab_end <-
        match regno with
        | ARM_VFP_FPSCR =>
            tmp <- loadfn opaque ;;
            emit (op_helper_vfp_set_fpscr tmp) ;;
            tcg_temp_free tmp ;;
            gen_lookup_tb ;;
            ret None
        | ARM_VFP_FPSCR_NZCVQC =>
            tmp <- loadfn opaque ;;
            emit (op_andi tmp tmp FPCR_NZCV_MASK) ;;
            fpscr <- load_cpu_field (vfp_xregs ARM_VFP_FPSCR) ;;
            emit (op_andi fpscr fpscr (Z.lnot FPCR_NZCV_MASK)) ;;
            emit (op_or fpscr fpscr tmp) ;;
            store_cpu_field fpscr (vfp_xregs ARM_VFP_FPSCR) ;;
            tcg_temp_free tmp ;;
            ret None
        | ARM_VFP_FPCXT_NS =>
            lab_end <- gen_new_label ;;
            gen_branch_fpInactive TCG_COND_NE lab_end ;;
            gen_preserve_fp_state ;;
            gen_M_fp_sysreg_write_fpcxt_s loadfn opaque ;;
            ret (Some lab_end)
        | ARM_VFP_FPCXT_S =>
            gen_M_fp_sysreg_write_fpcxt_s loadfn opaque ;;
            ret None
        | _ => abort
        end ;;
      gen_set_label_opt lab_end ;;
      ret true
  end.

Definition gen_M_fp_sysreg_read (regno : sysreg)
    (storefn : O -> temp -> Gen unit) (opaque : O) : Gen bool :=
  chk <- fp_sysreg_checks regno ;;
  match chk with
  | FPSysRegCheckFailed => ret false
  | FPSysRegCheckDone => ret true
  | FPSysRegCheckContinue =>
      r <-
        match regno with
        | ARM_VFP_FPSCR =>
            tmp <- tcg_temp_new ;;
            emit (op_helper_vfp_get_fpscr tmp) ;;
            storefn opaque tmp ;;
            ret (None, false)
        | ARM_VFP_FPSCR_NZCVQC | QEMU_VFP_FPSCR_NZCV =>
            tmp <- load_cpu_field (vfp_xregs ARM_VFP_FPSCR) ;;
            emit (op_andi tmp tmp FPCR_NZCV_MASK) ;;
            storefn opaque tmp ;;
            ret (None, false)
        | ARM_VFP_FPCXT_S =>
            tmp <- tcg_temp_new ;;
            sfpa <- tcg_temp_new ;;
            emit (op_helper_vfp_get_fpscr tmp) ;;
            emit (op_andi tmp tmp (Z.lnot FPCR_NZCV_MASK)) ;;
            control <- load_cpu_field (v7m_control M_REG_S) ;;
            emit (op_andi sfpa control R_V7M_CONTROL_SFPA_MASK) ;;
            emit (op_shli sfpa sfpa (31 - R_V7M_CONTROL_SFPA_SHIFT)) ;;
            emit (op_or tmp tmp sfpa) ;;
            tcg_temp_free sfpa ;;
            storefn opaque tmp ;;
            emit (op_andi control control
                          (Z.lnot R_V7M_CONTROL_SFPA_MASK)) ;;
            store_cpu_field control (v7m_control M_REG_S) ;;
            fpscr <- load_cpu_field (v7m_fpdscr M_REG_NS) ;;
            emit (op_helper_vfp_set_fpscr fpscr) ;;
            tcg_temp_free fpscr ;;
            ret (None, true)
        | ARM_VFP_FPCXT_NS =>
            lab_active <- gen_new_label ;;
            gen_branch_fpInactive TCG_COND_EQ lab_active ;;
            tmp <- load_cpu_field (v7m_fpdscr M_REG_NS) ;;
            storefn opaque tmp ;;
            lab_end <- gen_new_label ;;
            emit (op_br lab_end) ;;
            emit (op_set_label lab_active) ;;
            gen_preserve_fp_state ;;
            tmp <- tcg_temp_new ;;
            sfpa <- tcg_temp_new ;;
            fpscr <- tcg_temp_new ;;
            emit (op_helper_vfp_get_fpscr fpscr) ;;
            emit (op_andi tmp fpscr (Z.lnot FPCR_NZCV_MASK)) ;;
            control <- load_cpu_field (v7m_control M_REG_S) ;;
            emit (op_andi sfpa control R_V7M_CONTROL_SFPA_MASK) ;;
            emit (op_shli sfpa sfpa (31 - R_V7M_CONTROL_SFPA_SHIFT)) ;;
            emit (op_or tmp tmp sfpa) ;;
            tcg_temp_free control ;;
            storefn opaque tmp ;;
            fpdscr <- load_cpu_field (v7m_fpdscr M_REG_NS) ;;
            zero <- tcg_const 0 ;;
            emit (op_movcond TCG_COND_EQ fpscr sfpa zero fpdscr fpscr) ;;
            emit (op_helper_vfp_set_fpscr fpscr) ;;
            tcg_temp_free zero ;;
            tcg_temp_free sfpa ;;
            tcg_temp_free fpdscr ;;
            tcg_temp_free fpscr ;;
            ret (Some lab_end, true)
        | _ => abort
        end ;;
      gen_set_label_opt (fst r) ;;
      when (snd r) gen_lookup_tb ;;
      ret true
  end.

End SysRegFramework.

(** ** VMSR/VMRS and VLDR/VSTR (system register) handlers *)

Record arg_VMSR_VMRS := {
  vmsr_l : bool;
  vmsr_rt : Z;
  vmsr_reg : sysreg
}.

Record arg_vldr_sysreg := {
  vldr_rn : Z;
  vldr_reg : sysreg;
  vldr_imm : Z;
  vldr_a : bool;
  vldr_w : bool;
  vldr_p : bool
}.

Definition fp_sysreg_to_gpr (a : arg_VMSR_VMRS) (value : temp) : Gen unit :=
  if vmsr_rt a =? 15 then
    gen_set_nzcv value ;;
    tcg_temp_free value
  else
    store_reg (vmsr_rt a) value.

Definition gpr_to_fp_sysreg (a : arg_VMSR_VMRS) : Gen temp :=
  load_reg (vmsr_rt a).

(** [a->reg = QEMU_VFP_FPSCR_NZCV]: the handler writes through the pointer
    to the argument record, so the record is returned with the result. *)
Definition set_vmsr_reg (r : sysreg) (a : arg_VMSR_VMRS) : arg_VMSR_VMRS :=
  {| vmsr_l := vmsr_l a; vmsr_rt := vmsr_rt a; vmsr_reg := r |}.

(** Modelled from the spec: the selector numbers of cpu.h, which is not
    under src/; only used where a selector is passed to a helper. *)
Definition sysreg_num (r : sysreg) : Z :=
  match r with
  | ARM_VFP_FPSID => 0 | ARM_VFP_FPSCR => 1 | ARM_VFP_FPSCR_NZCVQC => 2
  | ARM_VFP_MVFR2 => 5 | ARM_VFP_MVFR1 => 6 | ARM_VFP_MVFR0 => 7
  | ARM_VFP_FPEXC => 8 | ARM_VFP_FPINST => 9 | ARM_VFP_FPINST2 => 10
  | ARM_VFP_FPCXT_NS => 14 | ARM_VFP_FPCXT_S => 15
  | QEMU_VFP_FPSCR_NZCV => 65535
  | ARM_VFP_other n => n
  end.

Definition is_ARM_VFP_FPSCR (r : sysreg) : bool :=
  match r with ARM_VFP_FPSCR => true | _ => false end.

Definition gen_M_VMSR_VMRS (a : arg_VMSR_VMRS)
  : Gen (bool * arg_VMSR_VMRS) :=
  let continue (a : arg_VMSR_VMRS) : Gen (bool * arg_VMSR_VMRS) :=
    if vmsr_l a then
      b <- gen_M_fp_sysreg_read (vmsr_reg a) fp_sysreg_to_gpr a ;;
      ret (b, a)
    else
      b <- gen_M_fp_sysreg_write (vmsr_reg a) gpr_to_fp_sysreg a ;;
      ret (b, a) in
  if vmsr_rt a =? 15 then
    if vmsr_l a && is_ARM_VFP_FPSCR (vmsr_reg a) then
      continue (set_vmsr_reg QEMU_VFP_FPSCR_NZCV a)
    else ret (false, a)
  else continue a.

(** The first [switch (a->reg)] of [trans_VMSR_VMRS]: [None] is
    [return false]; otherwise the value of [ignore_vfp_enabled]. *)
Definition VMSR_VMRS_legality (s : DisasContext) (a : arg_VMSR_VMRS)
  : option bool :=
  match vmsr_reg a with
  | ARM_VFP_FPSID =>
      if user (cfg s) && aa32_fpsp_v3 (cfg s) then None else Some true
  | ARM_VFP_MVFR0 | ARM_VFP_MVFR1 =>
      if user (cfg s) || negb (ARM_FEATURE_MVFR (cfg s))
      then None else Some true
  | ARM_VFP_MVFR2 =>
      if user (cfg s) || negb (ARM_FEATURE_V8 (cfg s))
      then None else Some true
  | ARM_VFP_FPSCR => Some false
  | ARM_VFP_FPEXC =>
      if user (cfg s) then None else Some true
  | ARM_VFP_FPINST | ARM_VFP_FPINST2 =>
      if user (cfg s) || aa32_fpsp_v3 (cfg s) then None else Some false
  | _ => None
  end.

(** VMRS, move VFP special register to gp register. *)
Definition VMRS_body (s : DisasContext) (a : arg_VMSR_VMRS) : Gen unit :=
  tmp <-
    match vmsr_reg a with
    | ARM_VFP_MVFR0 | ARM_VFP_MVFR1 | ARM_VFP_MVFR2 =>
        when (current_el (cfg s) =? 1)
          (emit op_set_condexec ;;
           emit (op_movi_pc (pc_curr (cfg s))) ;;
           tcg_reg <- tcg_const (sysreg_num (vmsr_reg a)) ;;
           tcg_rt <- tcg_const (vmsr_rt a) ;;
           emit (op_helper_check_hcr_el2_trap tcg_rt tcg_reg) ;;
           tcg_temp_free tcg_reg ;;
           tcg_temp_free tcg_rt) ;;
        load_cpu_field (vfp_xregs (vmsr_reg a))
    | ARM_VFP_FPSID | ARM_VFP_FPEXC
    | ARM_VFP_FPINST | ARM_VFP_FPINST2 =>
        load_cpu_field (vfp_xregs (vmsr_reg a))
    | ARM_VFP_FPSCR =>
        if vmsr_rt a =? 15 then
          tmp <- load_cpu_field (vfp_xregs ARM_VFP_FPSCR) ;;
          emit (op_andi tmp tmp FPCR_NZCV_MASK) ;;
          ret tmp
        else
          tmp <- tcg_temp_new ;;
          emit (op_helper_vfp_get_fpscr tmp) ;;
          ret tmp
    | _ => abort
    end ;;
  if vmsr_rt a =? 15 then
    gen_set_nzcv tmp ;;
    tcg_temp_free tmp
  else store_reg (vmsr_rt a) tmp.

(** VMSR, move gp register to VFP special register. *)
Definition VMSR_body (s : DisasContext) (a : arg_VMSR_VMRS) : Gen unit :=
  match vmsr_reg a with
  | ARM_VFP_FPSID | ARM_VFP_MVFR0 | ARM_VFP_MVFR1 | ARM_VFP_MVFR2 =>
      (* Writes are ignored. *)
      ret tt
  | ARM_VFP_FPSCR =>
      tmp <- load_reg (vmsr_rt a) ;;
      emit (op_helper_vfp_set_fpscr tmp) ;;
      tcg_temp_free tmp ;;
      gen_lookup_tb
  | ARM_VFP_FPEXC =>
      tmp <- load_reg (vmsr_rt a) ;;
      emit (op_andi tmp tmp (2 ^ 30)) ;;
      store_cpu_field tmp (vfp_xregs (vmsr_reg a)) ;;
      gen_lookup_tb
  | ARM_VFP_FPINST | ARM_VFP_FPINST2 =>
      tmp <- load_reg (vmsr_rt a) ;;
      store_cpu_field tmp (vfp_xregs (vmsr_reg a))
  | _ => abort
  end.

Definition trans_VMSR_VMRS (a : arg_VMSR_VMRS)
  : Gen (bool * arg_VMSR_VMRS) :=
  s <- get_s ;;
  if ARM_FEATURE_M (cfg s) then gen_M_VMSR_VMRS a
  else if negb (aa32_fpsp_v2 (cfg s)) then ret (false, a)
  else
    match VMSR_VMRS_legality s a with
    | None => ret (false, a)
    | Some ignore_vfp_enabled =>
        ok <- full_vfp_access_check ignore_vfp_enabled ;;
        if negb ok then ret (true, a)
        else
          (if vmsr_l a then VMRS_body s a else VMSR_body s a) ;;
          ret (true, a)
    end.

Definition sysreg_mem_offset (a : arg_vldr_sysreg) : Z :=
  if vldr_a a then u32 (vldr_imm a) else u32 (- u32 (vldr_imm a)).

Definition fp_sysreg_to_memory (a : arg_vldr_sysreg) (value : temp)
  : Gen unit :=
  s <- get_s ;;
  let offset := sysreg_mem_offset a in
  addr <- load_reg (vldr_rn a) ;;
  when (vldr_p a) (emit (op_addi addr addr offset)) ;;
  when (v8m_stackcheck (cfg s) && (vldr_rn a =? 13) && vldr_w a)
       (emit (op_helper_v8m_stackcheck addr)) ;;
  gen_aa32_st_i32 value addr (be_data (cfg s)) ;;
  tcg_temp_free value ;;
  if vldr_w a then
    when (negb (vldr_p a)) (emit (op_addi addr addr offset)) ;;
    store_reg (vldr_rn a) addr
  else tcg_temp_free addr.

Definition memory_to_fp_sysreg (a : arg_vldr_sysreg) : Gen temp :=
  s <- get_s ;;
  let offset := sysreg_mem_offset a in
  value <- tcg_temp_new ;;
  addr <- load_reg (vldr_rn a) ;;
  when (vldr_p a) (emit (op_addi addr addr offset)) ;;
  when (v8m_stackcheck (cfg s) && (vldr_rn a =? 13) && vldr_w a)
       (emit (op_helper_v8m_stackcheck addr)) ;;
  gen_aa32_ld_i32 value addr (be_data (cfg s)) ;;
  (if vldr_w a then
     when (negb (vldr_p a)) (emit (op_addi addr addr offset)) ;;
     store_reg (vldr_rn a) addr
   else tcg_temp_free addr) ;;
  ret value.

Definition trans_VLDR_sysreg (a : arg_vldr_sysreg) : Gen bool :=
  s <- get_s ;;
  if negb (ARM_FEATURE_V8_1M (cfg s)) then ret false
  else if vldr_rn a =? 15 then ret false
  else gen_M_fp_sysreg_write (vldr_reg a) memory_to_fp_sysreg a.

Definition trans_VSTR_sysreg (a : arg_vldr_sysreg) : Gen bool :=
  s <- get_s ;;
  if negb (ARM_FEATURE_V8_1M (cfg s)) then ret false
  else if vldr_rn a =? 15 then ret false
  else gen_M_fp_sysreg_read (vldr_reg a) fp_sysreg_to_memory a.

(** ** The M-profile coprocessor check (lines 4026-4058) *)

Record arg_NOCP := { nocp_cp : Z }.

Definition trans_NOCP (a : arg_NOCP) : Gen (bool * arg_NOCP) :=
  s <- get_s ;;
  assert (ARM_FEATURE_M (cfg s)) ;;
  let a := if nocp_cp a =? 11 then {| nocp_cp := 10 |} else a in
  let a :=
    if ARM_FEATURE_V8_1M (cfg s) &&
       ((nocp_cp a =? 8) || (nocp_cp a =? 9) ||
        (nocp_cp a =? 14) || (nocp_cp a =? 15))
    then {| nocp_cp := 10 |} else a in
  if negb (nocp_cp a =? 10) then
    gen_exception_insn (pc_curr (cfg s)) EXCP_NOCP syn_uncategorized
                       (default_exception_el (cfg s)) ;;
    ret (true, a)
  else if negb (fp_excp_el (cfg s) =? 0) then
    gen_exception_insn (pc_curr (cfg s)) EXCP_NOCP syn_uncategorized
                       (fp_excp_el (cfg s)) ;;
    ret (true, a)
  else ret (false, a).

(** ** Multi-register block transfer (lines 1478-1644) *)

Record arg_VLDM_VSTM := {
  vldm_rn : Z;
  vldm_vd : Z;
  vldm_imm : Z;
  vldm_l : bool;
  vldm_w : bool;
  vldm_p : bool
}.

(** [for (i = 0; i < n; i++)] of [trans_VLDM_VSTM_sp]. *)
Fixpoint VLDM_VSTM_sp_loop (fuel : nat) (a : arg_VLDM_VSTM)
    (tmp addr : temp) (offset i n : Z) : Gen unit :=
  match fuel with
  | O => abort
  | S fuel' =>
      if i <? n then
        (if vldm_l a then
           gen_aa32_ld32u tmp addr ;;
           vfp_store_reg32 tmp (vldm_vd a + i)
         else
           vfp_load_reg32 tmp (vldm_vd a + i) ;;
           gen_aa32_st32 tmp addr) ;;
        emit (op_addi addr addr offset) ;;
        VLDM_VSTM_sp_loop fuel' a tmp addr offset (i + 1) n
      else ret tt
  end.

Definition trans_VLDM_VSTM_sp (a : arg_VLDM_VSTM) : Gen bool :=
  s <- get_s ;;
  if negb (aa32_fpsp_v2 (cfg s)) then ret false
  else
    let n := vldm_imm a in
    if (n =? 0) || (vldm_vd a + n >? 32) then ret false
    else if (vldm_rn a =? 15) && vldm_w a then ret false
    else
      ok <- vfp_access_check ;;
      if negb ok then ret true
      else
        s <- get_s ;;
        addr <- add_reg_for_lit (vldm_rn a) 0 ;;
        when (vldm_p a)
             (emit (op_addi addr addr (- Z.shiftl (vldm_imm a) 2))) ;;
        when (v8m_stackcheck (cfg s) && (vldm_rn a =? 13) && vldm_w a)
             (emit (op_helper_v8m_stackcheck addr)) ;;
        let offset := 4 in
        tmp <- tcg_temp_new ;;
        VLDM_VSTM_sp_loop (S (Z.to_nat n)) a tmp addr offset 0 n ;;
        tcg_temp_free tmp ;;
        (if vldm_w a then
           when (vldm_p a)
                (let offset := u32 (u32 (- offset) * n) in
                 emit (op_addi addr addr offset)) ;;
           store_reg (vldm_rn a) addr
         else tcg_temp_free addr) ;;
        ret true.

(** [for (i = 0; i < n; i++)] of [trans_VLDM_VSTM_dp]. *)
Fixpoint VLDM_VSTM_dp_loop (fuel : nat) (a : arg_VLDM_VSTM)
    (tmp addr : temp) (offset i n : Z) : Gen unit :=
  match fuel with
  | O => abort
  | S fuel' =>
      if i <? n then
        (if vldm_l a then
           gen_aa32_ld64 tmp addr ;;
           vfp_store_reg64 tmp (vldm_vd a + i)
         else
           vfp_load_reg64 tmp (vldm_vd a + i) ;;
           gen_aa32_st64 tmp addr) ;;
        emit (op_addi addr addr offset) ;;
        VLDM_VSTM_dp_loop fuel' a tmp addr offset (i + 1) n
      else ret tt
  end.

Definition trans_VLDM_VSTM_dp (a : arg_VLDM_VSTM) : Gen bool :=
  s <- get_s ;;
  if negb (aa32_fpsp_v2 (cfg s)) then ret false
  else
    let n := Z.shiftr (vldm_imm a) 1 in
    if (n =? 0) || (vldm_vd a + n >? 32) || (n >? 16) then ret false
    else if (vldm_rn a =? 15) && vldm_w a then ret false
    else if negb (aa32_simd_r32 (cfg s)) && (vldm_vd a + n >? 16)
    then ret false
    else
      ok <- vfp_access_check ;;
      if negb ok then ret true
      else
        s <- get_s ;;
        addr <- add_reg_for_lit (vldm_rn a) 0 ;;
        when (vldm_p a)
             (emit (op_addi addr addr (- Z.shiftl (vldm_imm a) 2))) ;;
        when (v8m_stackcheck (cfg s) && (vldm_rn a =? 13) && vldm_w a)
             (emit (op_helper_v8m_stackcheck addr)) ;;
        let offset := 8 in
        tmp <- tcg_temp_new ;;
        VLDM_VSTM_dp_loop (S (Z.to_nat n)) a tmp addr offset 0 n ;;
        tcg_temp_free tmp ;;
        (if vldm_w a then
           let offset :=
             if vldm_p a then u32 (u32 (- offset) * n)
             else if negb (Z.land (vldm_imm a) 1 =? 0) then 4
             else 0 in
           when (negb (offset =? 0)) (emit (op_addi addr addr offset)) ;;
           store_reg (vldm_rn a) addr
         else tcg_temp_free addr) ;;
        ret true.

(** ** Generic operation templates (lines 1646-2102) *)

Definition VFPGen3OpFn : Type := temp -> temp -> temp -> temp -> TCGGen.
Definition VFPGen2OpFn : Type := temp -> temp -> TCGGen.

(** The legality prefix shared by the single-precision templates. *)
Definition shvec_unsupported (s : DisasContext) (veclen : Z) : bool :=
  negb (aa32_fpshvec (cfg s)) &&
  (negb (veclen =? 0) || negb (vec_stride (cfg s) =? 0)).

(** The [for (;;)] loop of [do_vfp_3op_sp]. *)
Fixpoint do_vfp_3op_sp_loop (fuel : nat) (fn : VFPGen3OpFn)
    (reads_vd : bool) (f0 f1 fd fpst : temp) (delta_d delta_m : Z)
    (veclen vd vn vm : Z) : Gen unit :=
  match fuel with
  | O => abort
  | S fuel' =>
      when reads_vd (vfp_load_reg32 fd vd) ;;
      call_tcg (fn fd f0 f1 fpst) ;;
      vfp_store_reg32 fd vd ;;
      if veclen =? 0 then ret tt
      else
        let veclen := wrap_int (veclen - 1) in
        let vd := vfp_advance_sreg vd (wrap_int delta_d) in
        let vn := vfp_advance_sreg vn (wrap_int delta_d) in
        vfp_load_reg32 f0 vn ;;
        if negb (delta_m =? 0) then
          let vm := vfp_advance_sreg vm (wrap_int delta_m) in
          vfp_load_reg32 f1 vm ;;
          do_vfp_3op_sp_loop fuel' fn reads_vd f0 f1 fd fpst
                             delta_d delta_m veclen vd vn vm
        else
          do_vfp_3op_sp_loop fuel' fn reads_vd f0 f1 fd fpst
                             delta_d delta_m veclen vd vn vm
  end.

Definition do_vfp_3op_sp (fn : VFPGen3OpFn) (vd vn vm : Z)
    (reads_vd : bool) : Gen bool :=
  s <- get_s ;;
  let veclen := vec_len (cfg s) in
  if negb (aa32_fpsp_v2 (cfg s)) then ret false
  else if shvec_unsupported s veclen then ret false
  else
    ok <- vfp_access_check ;;
    if negb ok then ret true
    else
      s <- get_s ;;
      let '(veclen, delta_d, delta_m) :=
        if veclen >? 0 then
          if vfp_sreg_is_scalar vd then (0, 0, 0)
          else
            let delta_d := u32 (vec_stride (cfg s) + 1) in
            if vfp_sreg_is_scalar vm then (veclen, delta_d, 0)
            else (veclen, delta_d, delta_d)
        else (veclen, 0, 0) in
      f0 <- tcg_temp_new ;;
      f1 <- tcg_temp_new ;;
      fd <- tcg_temp_new ;;
      fpst <- fpstatus_ptr FPST_FPCR ;;
      vfp_load_reg32 f0 vn ;;
      vfp_load_reg32 f1 vm ;;
      do_vfp_3op_sp_loop (S (Z.to_nat veclen)) fn reads_vd f0 f1 fd fpst
                         delta_d delta_m veclen vd vn vm ;;
      tcg_temp_free f0 ;;
      tcg_temp_free f1 ;;
      tcg_temp_free fd ;;
      tcg_temp_free fpst ;;
      ret true.

(** The inner [while (veclen--)] of the one-to-many shortcut. *)
Fixpoint do_vfp_2op_sp_bcast (fuel : nat) (fd : temp) (delta_d : Z)
    (veclen vd : Z) : Gen unit :=
  match fuel with
  | O => abort
  | S fuel' =>
      if veclen =? 0 then ret tt
      else
        let veclen := wrap_int (veclen - 1) in
        let vd := vfp_advance_sreg vd (wrap_int delta_d) in
        vfp_store_reg32 fd vd ;;
        do_vfp_2op_sp_bcast fuel' fd delta_d veclen vd
  end.

(** The [for (;;)] loop of [do_vfp_2op_sp] (lines 1962-1984). *)
Fixpoint do_vfp_2op_sp_loop (fuel : nat) (fn : VFPGen2OpFn)
    (f0 fd : temp) (delta_d delta_m : Z) (veclen vd vm : Z) : Gen unit :=
  match fuel with
  | O => abort
  | S fuel' =>
      call_tcg (fn fd f0) ;;
      vfp_store_reg32 fd vd ;;
      if veclen =? 0 then ret tt
      else if delta_m =? 0 then
        do_vfp_2op_sp_bcast (S (Z.to_nat veclen)) fd delta_d veclen vd
      else
        let veclen := wrap_int (veclen - 1) in
        let vd := vfp_advance_sreg vd (wrap_int delta_d) in
        let vm := vfp_advance_sreg vm (wrap_int delta_m) in
        vfp_load_reg32 f0 vm ;;
        do_vfp_2op_sp_loop fuel' fn f0 fd delta_d delta_m veclen vd vm
  end.

Definition do_vfp_2op_sp (fn : VFPGen2OpFn) (vd vm : Z) : Gen bool :=
  s <- get_s ;;
  let veclen := vec_len (cfg s) in
  if negb (aa32_fpsp_v2 (cfg s)) then ret false
  else if shvec_unsupported s veclen then ret false
  else
    ok <- vfp_access_check ;;
    if negb ok then ret true
    else
      s <- get_s ;;
      let '(veclen, delta_d, delta_m) :=
        if veclen >? 0 then
          if vfp_sreg_is_scalar vd then (0, 0, 0)
          else
            let delta_d := u32 (vec_stride (cfg s) + 1) in
            if vfp_sreg_is_scalar vm then (veclen, delta_d, 0)
            else (veclen, delta_d, delta_d)
        else (veclen, 0, 0) in
      f0 <- tcg_temp_new ;;
      fd <- tcg_temp_new ;;
      vfp_load_reg32 f0 vm ;;
      do_vfp_2op_sp_loop (S (Z.to_nat veclen)) fn f0 fd
                         delta_d delta_m veclen vd vm ;;
      tcg_temp_free f0 ;;
      tcg_temp_free fd ;;
      ret true.

Fixpoint do_vfp_2op_dp_bcast (fuel : nat) (fd : temp) (delta_d : Z)
    (veclen vd : Z) : Gen unit :=
  match fuel with
  | O => abort
  | S fuel' =>
      if veclen =? 0 then ret tt
      else
        let veclen := wrap_int (veclen - 1) in
        let vd := vfp_advance_dreg vd (wrap_int delta_d) in
        vfp_store_reg64 fd vd ;;
        do_vfp_2op_dp_bcast fuel' fd delta_d veclen vd
  end.

(** The [for (;;)] loop of [do_vfp_2op_dp] (lines 2074-2096).  Line 2094
    assigns [vd] a second time, from [vm]; [vm] itself is never advanced. *)
Fixpoint do_vfp_2op_dp_loop (fuel : nat) (fn : VFPGen2OpFn)
    (f0 fd : temp) (delta_d delta_m : Z) (veclen vd vm : Z) : Gen unit :=
  match fuel with
  | O => abort
  | S fuel' =>
      call_tcg (fn fd f0) ;;
      vfp_store_reg64 fd vd ;;
      if veclen =? 0 then ret tt
      else if delta_m =? 0 then
        do_vfp_2op_dp_bcast (S (Z.to_nat veclen)) fd delta_d veclen vd
      else
        let veclen := wrap_int (veclen - 1) in
        let vd := vfp_advance_dreg vd (wrap_int delta_d) in
        let vd := vfp_advance_dreg vm (wrap_int delta_m) in
        vfp_load_reg64 f0 vm ;;
        do_vfp_2op_dp_loop fuel' fn f0 fd delta_d delta_m veclen vd vm
  end.

Definition do_vfp_2op_dp (fn : VFPGen2OpFn) (vd vm : Z) : Gen bool :=
  s <- get_s ;;
  let veclen := vec_len (cfg s) in
  if negb (aa32_fpdp_v2 (cfg s)) then ret false
  else if negb (aa32_simd_r32 (cfg s)) &&
          negb (Z.land (Z.lor vd vm) 16 =? 0) then ret false
  else if shvec_unsupported s veclen then ret false
  else
    ok <- vfp_access_check ;;
    if negb ok then ret true
    else
      s <- get_s ;;
      let '(veclen, delta_d, delta_m) :=
        if veclen >? 0 then
          if vfp_dreg_is_scalar vd then (0, 0, 0)
          else
            let delta_d := u32 (Z.shiftr (vec_stride (cfg s)) 1 + 1) in
            if vfp_dreg_is_scalar vm then (veclen, delta_d, 0)
            else (veclen, delta_d, delta_d)
        else (veclen, 0, 0) in
      f0 <- tcg_temp_new ;;
      fd <- tcg_temp_new ;;
      vfp_load_reg64 f0 vm ;;
      do_vfp_2op_dp_loop (S (Z.to_nat veclen)) fn f0 fd
                         delta_d delta_m veclen vd vm ;;
      tcg_temp_free f0 ;;
      tcg_temp_free fd ;;
      ret true.

(** ** Fused multiply-add (lines 2470-2688) *)

Record arg_VFMA := { vfm_vd : Z; vfm_vn : Z; vfm_vm : Z }.

Definition do_vfm_hp (a : arg_VFMA) (neg_n neg_d : bool) : Gen bool :=
  s <- get_s ;;
  if negb (aa32_fp16_arith (cfg s)) || negb (aa32_simdfmac (cfg s)) ||
     negb (aa32_fpsp_v2 (cfg s)) then ret false
  else if negb (vec_len (cfg s) =? 0) || negb (vec_stride (cfg s) =? 0)
  then ret false
  else
    ok <- vfp_access_check ;;
    if negb ok then ret true
    else
      vn <- tcg_temp_new ;;
      vm <- tcg_temp_new ;;
      vd <- tcg_temp_new ;;
      vfp_load_reg32 vn (vfm_vn a) ;;
      vfp_load_reg32 vm (vfm_vm a) ;;
      when neg_n (emit (op_helper_fp helper_vfp_negh vn [vn] None)) ;;
      vfp_load_reg32 vd (vfm_vd a) ;;
      when neg_d (emit (op_helper_fp helper_vfp_negh vd [vd] None)) ;;
      fpst <- fpstatus_ptr FPST_FPCR_F16 ;;
      emit (op_helper_fp helper_vfp_muladdh vd [vn; vm; vd] (Some fpst)) ;;
      vfp_store_reg32 vd (vfm_vd a) ;;
      tcg_temp_free fpst ;;
      tcg_temp_free vn ;;
      tcg_temp_free vm ;;
      tcg_temp_free vd ;;
      ret true.

Definition do_vfm_sp (a : arg_VFMA) (neg_n neg_d : bool) : Gen bool :=
  s <- get_s ;;
  if negb (aa32_simdfmac (cfg s)) || negb (aa32_fpsp_v2 (cfg s))
  then ret false
  else if negb (vec_len (cfg s) =? 0) || negb (vec_stride (cfg s) =? 0)
  then ret false
  else
    ok <- vfp_access_check ;;
    if negb ok then ret true
    else
      vn <- tcg_temp_new ;;
      vm <- tcg_temp_new ;;
      vd <- tcg_temp_new ;;
      vfp_load_reg32 vn (vfm_vn a) ;;
      vfp_load_reg32 vm (vfm_vm a) ;;
      when neg_n (emit (op_helper_fp helper_vfp_negs vn [vn] None)) ;;
      vfp_load_reg32 vd (vfm_vd a) ;;
      when neg_d (emit (op_helper_fp helper_vfp_negs vd [vd] None)) ;;
      fpst <- fpstatus_ptr FPST_FPCR ;;
      emit (op_helper_fp helper_vfp_muladds vd [vn; vm; vd] (Some fpst)) ;;
      vfp_store_reg32 vd (vfm_vd a) ;;
      tcg_temp_free fpst ;;
      tcg_temp_free vn ;;
      tcg_temp_free vm ;;
      tcg_temp_free vd ;;
      ret true.

Definition do_vfm_dp (a : arg_VFMA) (neg_n neg_d : bool) : Gen bool :=
  s <- get_s ;;
  if negb (aa32_simdfmac (cfg s)) || negb (aa32_fpdp_v2 (cfg s))
  then ret false
  else if negb (vec_len (cfg s) =? 0) || negb (vec_stride (cfg s) =? 0)
  then ret false
  else if negb (aa32_simd_r32 (cfg s)) &&
          negb (Z.land (Z.lor (Z.lor (vfm_vd a) (vfm_vn a)) (vfm_vm a)) 16
                =? 0)
  then ret false
  else
    ok <- vfp_access_check ;;
    if negb ok then ret true
    else
      vn <- tcg_temp_new ;;
      vm <- tcg_temp_new ;;
      vd <- tcg_temp_new ;;
      vfp_load_reg64 vn (vfm_vn a) ;;
      vfp_load_reg64 vm (vfm_vm a) ;;
      when neg_n (emit (op_helper_fp helper_vfp_negd vn [vn] None)) ;;
      vfp_load_reg64 vd (vfm_vd a) ;;
      when neg_d (emit (op_helper_fp helper_vfp_negd vd [vd] None)) ;;
      fpst <- fpstatus_ptr FPST_FPCR ;;
      emit (op_helper_fp helper_vfp_muladdd vd [vn; vm; vd] (Some fpst)) ;;
      vfp_store_reg64 vd (vfm_vd a) ;;
      tcg_temp_free fpst ;;
      tcg_temp_free vn ;;
      tcg_temp_free vm ;;
      tcg_temp_free vd ;;
      ret true.

(** [MAKE_VFM_TRANS_FNS(hp)], [(sp)], [(dp)]. *)
Definition trans_VFMA_hp (a : arg_VFMA) := do_vfm_hp a false false.
Definition trans_VFMS_hp (a : arg_VFMA) := do_vfm_hp a true false.
Definition trans_VFNMA_hp (a : arg_VFMA) := do_vfm_hp a false true.
Definition trans_VFNMS_hp (a : arg_VFMA) := do_vfm_hp a true true.

Definition trans_VFMA_sp (a : arg_VFMA) := do_vfm_sp a false false.
Definition trans_VFMS_sp (a : arg_VFMA) := do_vfm_sp a true false.
Definition trans_VFNMA_sp (a : arg_VFMA) := do_vfm_sp a false true.
Definition trans_VFNMS_sp (a : arg_VFMA) := do_vfm_sp a true true.

Definition trans_VFMA_dp (a : arg_VFMA) := do_vfm_dp a false false.
Definition trans_VFMS_dp (a : arg_VFMA) := do_vfm_dp a true false.
Definition trans_VFNMA_dp (a : arg_VFMA) := do_vfm_dp a false true.
Definition trans_VFNMS_dp (a : arg_VFMA) := do_vfm_dp a true true.

(** ** Rounding-mode overriding handlers (lines 355-525, 3200-3294) *)

Record arg_VRINT := { vrint_vd : Z; vrint_vm : Z; vrint_sz : Z; vrint_rm : Z }.

Record arg_VCVT := {
  vcvt_vd : Z; vcvt_vm : Z; vcvt_sz : Z; vcvt_rm : Z; vcvt_op : bool
}.

Record arg_VRINTZ := { vrintz_vd : Z; vrintz_vm : Z }.

Section RoundingHandlers.

(** [arm_rmode_to_sf] is defined outside src/; the handlers only pass its
    result on as an immediate. *)
Variable arm_rmode_to_sf : Z -> Z.

Definition trans_VRINT (a : arg_VRINT) : Gen bool :=
  s <- get_s ;;
  let sz := vrint_sz a in
  let rounding := fp_decode_rm (vrint_rm a) in
  if negb (aa32_vrint (cfg s)) then ret false
  else if (sz =? 3) && negb (aa32_fpdp_v2 (cfg s)) then ret false
  else if (sz =? 1) && negb (aa32_fp16_arith (cfg s)) then ret false
  else if (sz =? 3) && negb (aa32_simd_r32 (cfg s)) &&
          negb (Z.land (Z.lor (vrint_vm a) (vrint_vd a)) 16 =? 0)
  then ret false
  else
    let rd := vrint_vd a in
    let rm := vrint_vm a in
    ok <- vfp_access_check ;;
    if negb ok then ret true
    else
      fpst <- fpstatus_ptr (if sz =? 1 then FPST_FPCR_F16 else FPST_FPCR) ;;
      tcg_rmode <- tcg_const (arm_rmode_to_sf rounding) ;;
      emit (op_helper_set_rmode tcg_rmode tcg_rmode fpst) ;;
      (if sz =? 3 then
         tcg_op <- tcg_temp_new ;;
         tcg_res <- tcg_temp_new ;;
         vfp_load_reg64 tcg_op rm ;;
         emit (op_helper_fp helper_rintd tcg_res [tcg_op] (Some fpst)) ;;
         vfp_store_reg64 tcg_res rd ;;
         tcg_temp_free tcg_op ;;
         tcg_temp_free tcg_res
       else
         tcg_op <- tcg_temp_new ;;
         tcg_res <- tcg_temp_new ;;
         vfp_load_reg32 tcg_op rm ;;
         (if sz =? 1
          then emit (op_helper_fp helper_rinth tcg_res [tcg_op] (Some fpst))
          else emit (op_helper_fp helper_rints tcg_res [tcg_op] (Some fpst))) ;;
         vfp_store_reg32 tcg_res rd ;;
         tcg_temp_free tcg_op ;;
         tcg_temp_free tcg_res) ;;
      emit (op_helper_set_rmode tcg_rmode tcg_rmode fpst) ;;
      tcg_temp_free tcg_rmode ;;
      tcg_temp_free fpst ;;
      ret true.

Definition trans_VCVT (a : arg_VCVT) : Gen bool :=
  s <- get_s ;;
  let sz := vcvt_sz a in
  let rounding := fp_decode_rm (vcvt_rm a) in
  let is_signed := vcvt_op a in
  if negb (aa32_vcvt_dr (cfg s)) then ret false
  else if (sz =? 3) && negb (aa32_fpdp_v2 (cfg s)) then ret false
  else if (sz =? 1) && negb (aa32_fp16_arith (cfg s)) then ret false
  else if (sz =? 3) && negb (aa32_simd_r32 (cfg s)) &&
          negb (Z.land (vcvt_vm a) 16 =? 0)
  then ret false
  else
    let rd := vcvt_vd a in
    let rm := vcvt_vm a in
    ok <- vfp_access_check ;;
    if negb ok then ret true
    else
      fpst <- fpstatus_ptr (if sz =? 1 then FPST_FPCR_F16 else FPST_FPCR) ;;
      tcg_shift <- tcg_const 0 ;;
      tcg_rmode <- tcg_const (arm_rmode_to_sf rounding) ;;
      emit (op_helper_set_rmode tcg_rmode tcg_rmode fpst) ;;
      (if sz =? 3 then
         tcg_double <- tcg_temp_new ;;
         tcg_res <- tcg_temp_new ;;
         tcg_tmp <- tcg_temp_new ;;
         vfp_load_reg64 tcg_double rm ;;
         emit (op_helper_fp
                 (if is_signed then helper_vfp_tosld else helper_vfp_tould)
                 tcg_res [tcg_double; tcg_shift] (Some fpst)) ;;
         emit (op_extrl_i64_i32 tcg_tmp tcg_res) ;;
         vfp_store_reg32 tcg_tmp rd ;;
         tcg_temp_free tcg_tmp ;;
         tcg_temp_free tcg_res ;;
         tcg_temp_free tcg_double
       else
         tcg_single <- tcg_temp_new ;;
         tcg_res <- tcg_temp_new ;;
         vfp_load_reg32 tcg_single rm ;;
         emit (op_helper_fp
                 (if sz =? 1
                  then if is_signed then helper_vfp_toslh
                       else helper_vfp_toulh
                  else if is_signed then helper_vfp_tosls
                       else helper_vfp_touls)
                 tcg_res [tcg_single; tcg_shift] (Some fpst)) ;;
         vfp_store_reg32 tcg_res rd ;;
         tcg_temp_free tcg_res ;;
         tcg_temp_free tcg_single) ;;
      emit (op_helper_set_rmode tcg_rmode tcg_rmode fpst) ;;
      tcg_temp_free tcg_rmode ;;
      tcg_temp_free tcg_shift ;;
      tcg_temp_free fpst ;;
      ret true.

End RoundingHandlers.

Definition trans_VRINTZ_hp (a : arg_VRINTZ) : Gen bool :=
  s <- get_s ;;
  if negb (aa32_fp16_arith (cfg s)) then ret false
  else
    ok <- vfp_access_check ;;
    if negb ok then ret true
    else
      tmp <- tcg_temp_new ;;
      vfp_load_reg32 tmp (vrintz_vm a) ;;
      fpst <- fpstatus_ptr FPST_FPCR_F16 ;;
      tcg_rmode <- tcg_const float_round_to_zero ;;
      emit (op_helper_set_rmode tcg_rmode tcg_rmode fpst) ;;
      emit (op_helper_fp helper_rinth tmp [tmp] (Some fpst)) ;;
      emit (op_helper_set_rmode tcg_rmode tcg_rmode fpst) ;;
      vfp_store_reg32 tmp (vrintz_vd a) ;;
      tcg_temp_free fpst ;;
      tcg_temp_free tcg_rmode ;;
      tcg_temp_free tmp ;;
      ret true.

Definition trans_VRINTZ_sp (a : arg_VRINTZ) : Gen bool :=
  s <- get_s ;;
  if negb (aa32_vrint (cfg s)) then ret false
  else
    ok <- vfp_access_check ;;
    if negb ok then ret true
    else
      tmp <- tcg_temp_new ;;
      vfp_load_reg32 tmp (vrintz_vm a) ;;
      fpst <- fpstatus_ptr FPST_FPCR ;;
      tcg_rmode <- tcg_const float_round_to_zero ;;
      emit (op_helper_set_rmode tcg_rmode tcg_rmode fpst) ;;
      emit (op_helper_fp helper_rints tmp [tmp] (Some fpst)) ;;
      emit (op_helper_set_rmode tcg_rmode tcg_rmode fpst) ;;
      vfp_store_reg32 tmp (vrintz_vd a) ;;
      tcg_temp_free fpst ;;
      tcg_temp_free tcg_rmode ;;
      tcg_temp_free tmp ;;
      ret true.

Definition trans_VRINTZ_dp (a : arg_VRINTZ) : Gen bool :=
  s <- get_s ;;
  if negb (aa32_fpdp_v2 (cfg s)) then ret false
  else if negb (aa32_vrint (cfg s)) then ret false
  else if negb (aa32_simd_r32 (cfg s)) &&
          negb (Z.land (Z.lor (vrintz_vd a) (vrintz_vm a)) 16 =? 0)
  then ret false
  else
    ok <- vfp_access_check ;;
    if negb ok then ret true
    else
      tmp <- tcg_temp_new ;;
      vfp_load_reg64 tmp (vrintz_vm a) ;;
      fpst <- fpstatus_ptr FPST_FPCR ;;
      tcg_rmode <- tcg_const float_round_to_zero ;;
      emit (op_helper_set_rmode tcg_rmode tcg_rmode fpst) ;;
      emit (op_helper_fp helper_rintd tmp [tmp] (Some fpst)) ;;
      emit (op_helper_set_rmode tcg_rmode tcg_rmode fpst) ;;
      vfp_store_reg64 tmp (vrintz_vd a) ;;
      tcg_temp_free tmp ;;
      tcg_temp_free tcg_rmode ;;
      tcg_temp_free fpst ;;
      ret true.

(** ** Execution of emitted code

    The emitted operations run later, against the processor state.  The
    model keeps the state the modelled handlers can reach: TCG temporaries,
    the core registers, the VFP bank as 32-bit S slots (a D register is the
    pair of slots [2n], [2n+1]), the FP system registers, the two
    float_status blocks, the banked M-profile registers and memory.  Once an
    exception is raised the rest of the block is not executed. *)

Record float_status := {
  float_rounding_mode : Z;
  float_exception_flags : Z
}.

Inductive raised :=
| raised_insn (pc : Z) (e : excp_kind) (syn : syndrome) (el : Z)
| raised_by_helper
| raised_mem_fault (addr : Z).

Record CPUARMState := {
  temps : temp -> Z;
  regs : Z -> Z;
  NZCV : Z;
  vfp_s : Z -> Z;
  xregs : sysreg -> Z;
  fp_status : ARMFPStatusFlavour -> float_status;
  fpccr : m_bank -> Z;
  control : m_bank -> Z;
  fpdscr : m_bank -> Z;
  memory : Z -> Z;
  pending : option raised
}.

(** What the model leaves open about code outside src/: the arithmetic of
    the floating-point library, the packing of FPSCR, the effect of lazy
    state preservation, the stack-limit and trap checks, and which addresses
    fault.  Each is confined to the state it can touch. *)
Record Externals := {
  fp_helper_sem : fp_helper -> list Z -> float_status -> Z * Z;
  vfp_get_fpscr_sem : Z -> (ARMFPStatusFlavour -> float_status) -> Z;
  vfp_set_fpscr_sem :
    Z -> Z -> (ARMFPStatusFlavour -> float_status) ->
    Z * (ARMFPStatusFlavour -> float_status);
  preserve_fp_state_sem :
    CPUARMState -> (Z -> Z) * (m_bank -> Z) * bool;
  stackcheck_fails : CPUARMState -> Z -> bool;
  hcr_el2_traps : CPUARMState -> Z -> Z -> bool;
  mem_ok : Z -> bool
}.

Definition upd_nat {A} (k : nat) (v : A) (f : nat -> A) : nat -> A :=
  fun x => if Nat.eqb x k then v else f x.

Definition upd_Z {A} (k : Z) (v : A) (f : Z -> A) : Z -> A :=
  fun x => if x =? k then v else f x.

Definition m_bank_eqb (a b : m_bank) : bool :=
  match a, b with
  | M_REG_NS, M_REG_NS | M_REG_S, M_REG_S => true
  | _, _ => false
  end.

Definition upd_bank {A} (k : m_bank) (v : A) (f : m_bank -> A)
  : m_bank -> A :=
  fun x => if m_bank_eqb x k then v else f x.

Definition flavour_eqb (a b : ARMFPStatusFlavour) : bool :=
  match a, b with
  | FPST_FPCR, FPST_FPCR | FPST_FPCR_F16, FPST_FPCR_F16 => true
  | _, _ => false
  end.

Definition sysreg_eqb (a b : sysreg) : bool :=
  match a, b with
  | ARM_VFP_other n, ARM_VFP_other m => n =? m
  | ARM_VFP_other _, _ | _, ARM_VFP_other _ => false
  | _, _ => sysreg_num a =? sysreg_num b
  end.

Definition set_temps (f : temp -> Z) (m : CPUARMState) : CPUARMState :=
  {| temps := f; regs := regs m; NZCV := NZCV m; vfp_s := vfp_s m;
     xregs := xregs m; fp_status := fp_status m; fpccr := fpccr m;
     control := control m; fpdscr := fpdscr m; memory := memory m;
     pending := pending m |}.

Definition set_temp (t : temp) (v : Z) (m : CPUARMState) : CPUARMState :=
  set_temps (upd_nat t v (temps m)) m.

Definition set_regs (f : Z -> Z) (m : CPUARMState) : CPUARMState :=
  {| temps := temps m; regs := f; NZCV := NZCV m; vfp_s := vfp_s m;
     xregs := xregs m; fp_status := fp_status m; fpccr := fpccr m;
     control := control m; fpdscr := fpdscr m; memory := memory m;
     pending := pending m |}.

Definition set_NZCV (v : Z) (m : CPUARMState) : CPUARMState :=
  {| temps := temps m; regs := regs m; NZCV := v; vfp_s := vfp_s m;
     xregs := xregs m; fp_status := fp_status m; fpccr := fpccr m;
     control := control m; fpdscr := fpdscr m; memory := memory m;
     pending := pending m |}.

Definition set_vfp_s (f : Z -> Z) (m : CPUARMState) : CPUARMState :=
  {| temps := temps m; regs := regs m; NZCV := NZCV m; vfp_s := f;
     xregs := xregs m; fp_status := fp_status m; fpccr := fpccr m;
     control := control m; fpdscr := fpdscr m; memory := memory m;
     pending := pending m |}.

Definition set_xregs (f : sysreg -> Z) (m : CPUARMState) : CPUARMState :=
  {| temps := temps m; regs := regs m; NZCV := NZCV m; vfp_s := vfp_s m;
     xregs := f; fp_status := fp_status m; fpccr := fpccr m;
     control := control m; fpdscr := fpdscr m; memory := memory m;
     pending := pending m |}.

Definition set_fp_status (f : ARMFPStatusFlavour -> float_status)
    (m : CPUARMState) : CPUARMState :=
  {| temps := temps m; regs := regs m; NZCV := NZCV m; vfp_s := vfp_s m;
     xregs := xregs m; fp_status := f; fpccr := fpccr m;
     control := control m; fpdscr := fpdscr m; memory := memory m;
     pending := pending m |}.

Definition set_fpccr (f : m_bank -> Z) (m : CPUARMState) : CPUARMState :=
  {| temps := temps m; regs := regs m; NZCV := NZCV m; vfp_s := vfp_s m;
     xregs := xregs m; fp_status := fp_status m; fpccr := f;
     control := control m; fpdscr := fpdscr m; memory := memory m;
     pending := pending m |}.

Definition set_control (f : m_bank -> Z) (m : CPUARMState) : CPUARMState :=
  {| temps := temps m; regs := regs m; NZCV := NZCV m; vfp_s := vfp_s m;
     xregs := xregs m; fp_status := fp_status m; fpccr := fpccr m;
     control := f; fpdscr := fpdscr m; memory := memory m;
     pending := pending m |}.

Definition set_fpdscr (f : m_bank -> Z) (m : CPUARMState) : CPUARMState :=
  {| temps := temps m; regs := regs m; NZCV := NZCV m; vfp_s := vfp_s m;
     xregs := xregs m; fp_status := fp_status m; fpccr := fpccr m;
     control := control m; fpdscr := f; memory := memory m;
     pending := pending m |}.

Definition set_memory (f : Z -> Z) (m : CPUARMState) : CPUARMState :=
  {| temps := temps m; regs := regs m; NZCV := NZCV m; vfp_s := vfp_s m;
     xregs := xregs m; fp_status := fp_status m; fpccr := fpccr m;
     control := control m; fpdscr := fpdscr m; memory := f;
     pending := pending m |}.

Definition raise (r : raised) (m : CPUARMState) : CPUARMState :=
  {| temps := temps m; regs := regs m; NZCV := NZCV m; vfp_s := vfp_s m;
     xregs := xregs m; fp_status := fp_status m; fpccr := fpccr m;
     control := control m; fpdscr := fpdscr m; memory := memory m;
     pending := Some r |}.

Definition read_field (f : cpu_field) (m : CPUARMState) : Z :=
  match f with
  | v7m_fpccr b => fpccr m b
  | v7m_control b => control m b
  | v7m_fpdscr b => fpdscr m b
  | vfp_xregs r => xregs m r
  end.

Definition write_field (f : cpu_field) (v : Z) (m : CPUARMState)
  : CPUARMState :=
  match f with
  | v7m_fpccr b => set_fpccr (upd_bank b v (fpccr m)) m
  | v7m_control b => set_control (upd_bank b v (control m)) m
  | v7m_fpdscr b => set_fpdscr (upd_bank b v (fpdscr m)) m
  | vfp_xregs r =>
      set_xregs (fun x => if sysreg_eqb x r then v else xregs m x) m
  end.

Definition eval_cond (c : TCGCond) (a b : Z) : bool :=
  match c with
  | TCG_COND_EQ => a =? b
  | TCG_COND_NE => negb (a =? b)
  | TCG_COND_LT => wrap_int a <? wrap_int b
  | TCG_COND_GE => wrap_int b <=? wrap_int a
  end.

Definition flavour_code (f : ARMFPStatusFlavour) : Z :=
  match f with FPST_FPCR => 0 | FPST_FPCR_F16 => 1 end.

Definition flavour_of_code (z : Z) : ARMFPStatusFlavour :=
  if z =? 1 then FPST_FPCR_F16 else FPST_FPCR.

Definition deposit32 (a b ofs len : Z) : Z :=
  u32 (Z.lor (Z.land a (Z.lnot (Z.shiftl (Z.ones len) ofs)))
             (Z.shiftl (Z.land b (Z.ones len)) ofs)).

(** Memory maps the address of a word access to the 32-bit word there, as
    an access of the block's data endianness reads it, so a word access
    does not depend on the endianness.  Accesses that overlap only in part
    (addresses less than four apart) are not related by the model, which
    therefore describes accesses aligned alike, as those of one transfer
    are.  A 64-bit access covers the words at [addr] and [addr + 4]: the
    low half of the value is the first word when the access is
    little-endian, the high half when it is big-endian, and in BE32 mode
    the two halves change places ([gen_aa32_frob64] and the rotation in
    [gen_aa32_st_i64]).  Which addresses fault, alignment included, is left
    to [mem_ok]. *)
Definition high_word_first (be b32 : bool) : bool := xorb be b32.

Definition read_mem (w : MemWidth) (be b32 : bool) (addr : Z)
    (m : CPUARMState) : Z :=
  match w with
  | MO_32 => memory m addr
  | MO_64 =>
      if high_word_first be b32
      then memory m (u32 (addr + 4)) + 2 ^ 32 * memory m addr
      else memory m addr + 2 ^ 32 * memory m (u32 (addr + 4))
  end.

Definition write_mem (w : MemWidth) (be b32 : bool) (addr v : Z)
    (m : CPUARMState) : CPUARMState :=
  match w with
  | MO_32 => set_memory (upd_Z addr (u32 v) (memory m)) m
  | MO_64 =>
      set_memory
        (if high_word_first be b32
         then upd_Z (u32 (addr + 4)) (u32 v)
                    (upd_Z addr (u32 (Z.shiftr v 32)) (memory m))
         else upd_Z (u32 (addr + 4)) (u32 (Z.shiftr v 32))
                    (upd_Z addr (u32 v) (memory m))) m
  end.

Section Execution.

Variable ext : Externals.

(** One operation on the processor state; the second component is the
    label of a taken branch. *)
Definition exec_op (o : tcg_op) (m : CPUARMState)
  : CPUARMState * option label :=
  let T := temps m in
  match o with
  | op_movi d c => (set_temp d (u32 c) m, None)
  | op_mov d s => (set_temp d (T s) m, None)
  | op_andi d s c => (set_temp d (u32 (Z.land (T s) c)) m, None)
  | op_ori d s c => (set_temp d (u32 (Z.lor (T s) c)) m, None)
  | op_xori d s c => (set_temp d (u32 (Z.lxor (T s) c)) m, None)
  | op_or d a b => (set_temp d (u32 (Z.lor (T a) (T b))) m, None)
  | op_shri d s c => (set_temp d (Z.shiftr (u32 (T s)) c) m, None)
  | op_shli d s c => (set_temp d (u32 (Z.shiftl (T s) c)) m, None)
  | op_addi d s c => (set_temp d (u32 (T s + c)) m, None)
  | op_deposit d a b ofs len =>
      (set_temp d (deposit32 (T a) (T b) ofs len) m, None)
  | op_movcond c d c1 c2 v1 v2 =>
      (set_temp d (if eval_cond c (T c1) (T c2) then T v1 else T v2) m,
       None)
  | op_extrl_i64_i32 d s => (set_temp d (u32 (T s)) m, None)
  | op_brcondi c a imm l =>
      (m, if eval_cond c (T a) imm then Some l else None)
  | op_br l => (m, Some l)
  | op_set_label _ => (m, None)
  | op_ld_field d f => (set_temp d (read_field f m) m, None)
  | op_st_field f s => (write_field f (T s) m, None)
  | op_load_reg d r => (set_temp d (regs m r) m, None)
  | op_store_reg r s => (set_regs (upd_Z r (T s) (regs m)) m, None)
  | op_add_reg_for_lit d r ofs =>
      let base := if r =? 15 then Z.land (regs m 15) (Z.lnot 3)
                  else regs m r in
      (set_temp d (u32 (base + ofs)) m, None)
  | op_set_nzcv s => (set_NZCV (Z.land (T s) FPCR_NZCV_MASK) m, None)
  | op_movi_pc pc => (set_regs (upd_Z 15 (u32 pc) (regs m)) m, None)
  | op_vfp_load_reg32 d reg => (set_temp d (vfp_s m reg) m, None)
  | op_vfp_store_reg32 s reg =>
      (set_vfp_s (upd_Z reg (u32 (T s)) (vfp_s m)) m, None)
  | op_vfp_load_reg64 d reg =>
      (set_temp d (vfp_s m (2 * reg) + 2 ^ 32 * vfp_s m (2 * reg + 1)) m,
       None)
  | op_vfp_store_reg64 s reg =>
      (set_vfp_s (upd_Z (2 * reg + 1) (u32 (Z.shiftr (T s) 32))
                        (upd_Z (2 * reg) (u32 (T s)) (vfp_s m))) m,
       None)
  | op_aa32_ld w be b32 d addr =>
      (if mem_ok ext (T addr)
       then set_temp d (read_mem w be b32 (T addr) m) m
       else raise (raised_mem_fault (T addr)) m, None)
  | op_aa32_st w be b32 s addr =>
      (if mem_ok ext (T addr)
       then write_mem w be b32 (T addr) (T s) m
       else raise (raised_mem_fault (T addr)) m, None)
  | op_fpstatus_ptr d f => (set_temp d (flavour_code f) m, None)
  | op_helper_fp h d args fpst =>
      let fl := match fpst with
                | Some p => flavour_of_code (T p)
                | None => FPST_FPCR
                end in
      let st := fp_status m fl in
      let res := fp_helper_sem ext h (map T args) st in
      let m1 :=
        match fpst with
        | Some _ =>
            set_fp_status
              (fun x => if flavour_eqb x fl
                        then {| float_rounding_mode :=
                                  float_rounding_mode st;
                                float_exception_flags := snd res |}
                        else fp_status m x) m
        | None => m
        end in
      (set_temp d (fst res) m1, None)
  | op_helper_set_rmode d s fpst =>
      let fl := flavour_of_code (T fpst) in
      let st := fp_status m fl in
      let m1 :=
        set_fp_status
          (fun x => if flavour_eqb x fl
                    then {| float_rounding_mode := T s;
                            float_exception_flags :=
                              float_exception_flags st |}
                    else fp_status m x) m in
      (set_temp d (float_rounding_mode st) m1, None)
  | op_helper_vfp_set_fpscr s =>
      let res :=
        vfp_set_fpscr_sem ext (T s) (xregs m ARM_VFP_FPSCR)
                          (fp_status m) in
      (set_fp_status (snd res)
                     (write_field (vfp_xregs ARM_VFP_FPSCR) (fst res) m),
       None)
  | op_helper_vfp_get_fpscr d =>
      (set_temp d (vfp_get_fpscr_sem ext (xregs m ARM_VFP_FPSCR)
                                     (fp_status m)) m, None)
  | op_helper_v7m_preserve_fp_state =>
      let res := preserve_fp_state_sem ext m in
      let m1 := set_fpccr (snd (fst res)) (set_memory (fst (fst res)) m) in
      (if snd res then raise raised_by_helper m1 else m1, None)
  | op_helper_v8m_stackcheck addr =>
      (if stackcheck_fails ext m (T addr)
       then raise raised_by_helper m else m, None)
  | op_helper_check_hcr_el2_trap rt reg =>
      (if hcr_el2_traps ext m (T rt) (T reg)
       then raise raised_by_helper m else m, None)
  | op_io_start => (m, None)
  | op_set_condexec => (m, None)
  | op_exception_insn pc e syn el =>
      (raise (raised_insn pc e syn el) m, None)
  end.

(** Position in the op stream: the state, and the label a taken forward
    branch is looking for. *)
Record RunState := { env : CPUARMState; skip_to : option label }.

Definition step (rs : RunState) (o : tcg_op) : RunState :=
  match pending (env rs) with
  | Some _ => rs
  | None =>
      match skip_to rs with
      | Some l =>
          match o with
          | op_set_label l' =>
              if Nat.eqb l l'
              then {| env := env rs; skip_to := None |}
              else rs
          | _ => rs
          end
      | None =>
          let r := exec_op o (env rs) in
          {| env := fst r; skip_to := snd r |}
      end
  end.

Definition run_from (ops : list tcg_op) (rs : RunState) : RunState :=
  fold_left step ops rs.

(** Run a block of operations from the state [m]. *)
Definition run (ops : list tcg_op) (m : CPUARMState) : CPUARMState :=
  env (run_from ops {| env := m; skip_to := None |}).

End Execution.

(** [fpInactive = FPCCR_NS.ASPEN == 1 && CONTROL.FPCA == 0]. *)
Definition fpInactive (m : CPUARMState) : bool :=
  Z.testbit (fpccr m M_REG_NS) 31 && negb (Z.testbit (control m M_REG_S) 2).

(** ** Observing a translation *)

(** The handler's verdict and the operations it appended. *)
Definition emitted {A} (m : Gen A) (g : GenState) : option (A * list tcg_op) :=
  match m g with
  | Some (a, _, o) => Some (a, o)
  | None => None
  end.

(** Operations that overwrite FP context state: a store to a CPU field
    (CONTROL, FPCCR, ...) or a reload of FPSCR. *)
Definition state_resetting (o : tcg_op) : bool :=
  match o with
  | op_st_field _ _ | op_helper_vfp_set_fpscr _ => true
  | _ => false
  end.

(** ** Descriptions taken from the specification

    These definitions follow the words of the design document and are
    compared with the translated source in the theorems below. *)

Inductive precision := HP | SP | DP.

Inductive vfm_insn := VFMA | VFMS | VFNMA | VFNMS.

(** "VFMS negates the first multiplicand, VFNMA negates the accumulator,
    VFNMS negates both". *)
Definition negates_first_multiplicand (i : vfm_insn) : bool :=
  match i with VFMS | VFNMS => true | _ => false end.

Definition negates_accumulator (i : vfm_insn) : bool :=
  match i with VFNMA | VFNMS => true | _ => false end.

Definition spec_load (p : precision) (t : temp) (reg : Z) : tcg_op :=
  match p with
  | DP => op_vfp_load_reg64 t reg
  | _ => op_vfp_load_reg32 t reg
  end.

Definition spec_store (p : precision) (t : temp) (reg : Z) : tcg_op :=
  match p with
  | DP => op_vfp_store_reg64 t reg
  | _ => op_vfp_store_reg32 t reg
  end.

Definition spec_neg (p : precision) : fp_helper :=
  match p with
  | HP => helper_vfp_negh | SP => helper_vfp_negs | DP => helper_vfp_negd
  end.

Definition spec_muladd (p : precision) : fp_helper :=
  match p with
  | HP => helper_vfp_muladdh
  | SP => helper_vfp_muladds
  | DP => helper_vfp_muladdd
  end.

Definition spec_flavour (p : precision) : ARMFPStatusFlavour :=
  match p with HP => FPST_FPCR_F16 | _ => FPST_FPCR end.

(** "Negation of operands must be emitted as an explicit, separate negate
    step before the fused op; multiply the two non-accumulator operands
    first, accumulate into the (possibly pre-negated) destination second."
    [t] is the first temporary the handler obtains. *)
Definition spec_fused_sequence (p : precision) (i : vfm_insn)
    (a : arg_VFMA) (t : temp) : list tcg_op :=
  let vn := t in
  let vm := S t in
  let vd := S (S t) in
  let fpst := S (S (S t)) in
  [spec_load p vn (vfm_vn a); spec_load p vm (vfm_vm a)]
  ++ (if negates_first_multiplicand i
      then [op_helper_fp (spec_neg p) vn [vn] None] else [])
  ++ [spec_load p vd (vfm_vd a)]
  ++ (if negates_accumulator i
      then [op_helper_fp (spec_neg p) vd [vd] None] else [])
  ++ [op_fpstatus_ptr fpst (spec_flavour p);
      op_helper_fp (spec_muladd p) vd [vn; vm; vd] (Some fpst);
      spec_store p vd (vfm_vd a)].

(** The twelve handlers generated by [MAKE_VFM_TRANS_FNS]. *)
Definition trans_vfm (i : vfm_insn) (p : precision) : arg_VFMA -> Gen bool :=
  match i, p with
  | VFMA, HP => trans_VFMA_hp | VFMA, SP => trans_VFMA_sp
  | VFMA, DP => trans_VFMA_dp
  | VFMS, HP => trans_VFMS_hp | VFMS, SP => trans_VFMS_sp
  | VFMS, DP => trans_VFMS_dp
  | VFNMA, HP => trans_VFNMA_hp | VFNMA, SP => trans_VFNMA_sp
  | VFNMA, DP => trans_VFNMA_dp
  | VFNMS, HP => trans_VFNMS_hp | VFNMS, SP => trans_VFNMS_sp
  | VFNMS, DP => trans_VFNMS_dp
  end.








(** ** Concrete translation contexts used in the examples *)

(** An A-profile core with VFPv3, 32 D registers and short vectors. *)
Definition cfg_vfpv3 (len stride : Z) : DisasConfig := {|
  ARM_FEATURE_M := false; ARM_FEATURE_V8_1M := false;
  ARM_FEATURE_MVFR := true; ARM_FEATURE_V8 := false;
  aa32_fpsp_v2 := true; aa32_fpsp_v3 := true; aa32_fpdp_v2 := true;
  aa32_fpshvec := true; aa32_simd_r32 := true; aa32_simdfmac := true;
  aa32_fp16_arith := true; aa32_vrint := true; aa32_vcvt_dr := true;
  fp_excp_el := 0; vfp_enabled := true; v8m_secure := false;
  v8m_stackcheck := false; vec_len := len; vec_stride := stride;
  current_el := 1; user := false; be_data := false; sctlr_b := false;
  default_exception_el := 1;
  pc_curr := 4096; pc_next := 4100; CF_USE_ICOUNT := false |}.

(** An Armv8.1-M core in Secure state with the FPU. *)
Definition cfg_v8_1m : DisasConfig := {|
  ARM_FEATURE_M := true; ARM_FEATURE_V8_1M := true;
  ARM_FEATURE_MVFR := false; ARM_FEATURE_V8 := true;
  aa32_fpsp_v2 := true; aa32_fpsp_v3 := true; aa32_fpdp_v2 := true;
  aa32_fpshvec := false; aa32_simd_r32 := false; aa32_simdfmac := true;
  aa32_fp16_arith := true; aa32_vrint := true; aa32_vcvt_dr := true;
  fp_excp_el := 0; vfp_enabled := true; v8m_secure := true;
  v8m_stackcheck := true; vec_len := 0; vec_stride := 0;
  current_el := 1; user := false; be_data := false; sctlr_b := false;
  default_exception_el := 1;
  pc_curr := 4096; pc_next := 4100; CF_USE_ICOUNT := false |}.

Definition gen_start (c : DisasConfig) (lazy : bool) : GenState :=
  {| dc := {| cfg := c; v7m_lspact := lazy; v8m_fpccr_s_wrong := lazy;
              v7m_new_fp_ctxt_needed := lazy; is_jmp := DISAS_NEXT |};
     tcg := {| next_temp := 0; next_label := 0 |} |}.

Definition fn_mov : VFPGen2OpFn := fun d s t => (t, [op_mov d s]).

Definition fn_or : VFPGen3OpFn := fun d a b _ t => (t, [op_or d a b]).

(** The legality conditions of the first [switch] of [trans_VMSR_VMRS] for
    the identification registers FPSID, MVFR0, MVFR1 and MVFR2. *)
Definition vmsr_id_register_legal (s : DisasContext) (r : sysreg) : bool :=
  aa32_fpsp_v2 (cfg s) &&
  match r with
  | ARM_VFP_FPSID => negb (user (cfg s) && aa32_fpsp_v3 (cfg s))
  | ARM_VFP_MVFR0 | ARM_VFP_MVFR1 =>
      negb (user (cfg s) || negb (ARM_FEATURE_MVFR (cfg s)))
  | ARM_VFP_MVFR2 =>
      negb (user (cfg s) || negb (ARM_FEATURE_V8 (cfg s)))
  | _ => false
  end.



(** A processor model for the examples: flat memory that never faults, no
    stack limit, no traps, FPSCR kept as written. *)
Definition ext_simple : Externals := {|
  fp_helper_sem := fun _ args _ => (nth 0 args 0, 0);
  vfp_get_fpscr_sem := fun x _ => x;
  vfp_set_fpscr_sem := fun v _ f => (v, f);
  preserve_fp_state_sem := fun m => (memory m, fpccr m, false);
  stackcheck_fails := fun _ _ => false;
  hcr_el2_traps := fun _ _ _ => false;
  mem_ok := fun _ => true
|}.

Definition arg_vmsr_mvfr0 : arg_VMSR_VMRS :=
  {| vmsr_l := false; vmsr_rt := 3; vmsr_reg := ARM_VFP_MVFR0 |}.


Definition arg_vfm_example : arg_VFMA :=
  {| vfm_vd := 2; vfm_vn := 5; vfm_vm := 7 |}.

(** The operations the design's example expects: vector length 3 (four
    iterations), stride 0, destination s8, sources s16 and s24, with the
    [fn_or] callback and the destination read. *)
Definition example_3op_ops : list tcg_op :=
  [op_fpstatus_ptr 3%nat FPST_FPCR;
   op_vfp_load_reg32 0%nat 16; op_vfp_load_reg32 1%nat 24;
   op_vfp_load_reg32 2%nat 8; op_or 2%nat 0%nat 1%nat;
   op_vfp_store_reg32 2%nat 8;
   op_vfp_load_reg32 0%nat 17; op_vfp_load_reg32 1%nat 25;
   op_vfp_load_reg32 2%nat 9; op_or 2%nat 0%nat 1%nat;
   op_vfp_store_reg32 2%nat 9;
   op_vfp_load_reg32 0%nat 18; op_vfp_load_reg32 1%nat 26;
   op_vfp_load_reg32 2%nat 10; op_or 2%nat 0%nat 1%nat;
   op_vfp_store_reg32 2%nat 10;
   op_vfp_load_reg32 0%nat 19; op_vfp_load_reg32 1%nat 27;
   op_vfp_load_reg32 2%nat 11; op_or 2%nat 0%nat 1%nat;
   op_vfp_store_reg32 2%nat 11].

(** No operation of the list overwrites FP context state. *)
Definition no_reset (l : list tcg_op) : bool :=
  forallb (fun o => negb (state_resetting o)) l.

(** A VMRS of FPCXT_S / FPCXT_NS to r3 and a VSTR of them to [r1, #-8]!. *)
Definition arg_vmrs (r : sysreg) : arg_VMSR_VMRS :=
  {| vmsr_l := true; vmsr_rt := 3; vmsr_reg := r |}.

Definition arg_vmsr (r : sysreg) : arg_VMSR_VMRS :=
  {| vmsr_l := false; vmsr_rt := 3; vmsr_reg := r |}.

Definition arg_vstr (r : sysreg) : arg_vldr_sysreg :=
  {| vldr_rn := 1; vldr_reg := r; vldr_imm := 8;
     vldr_a := false; vldr_w := true; vldr_p := true |}.

(** ** The rounding-mode overriding family *)

Inductive rounding_insn :=
| RI_VRINT (a : arg_VRINT)
| RI_VCVT (a : arg_VCVT)
| RI_VRINTZ_hp (a : arg_VRINTZ)
| RI_VRINTZ_sp (a : arg_VRINTZ)
| RI_VRINTZ_dp (a : arg_VRINTZ).

Definition trans_rounding (arm_rmode_to_sf : Z -> Z) (i : rounding_insn)
  : Gen bool :=
  match i with
  | RI_VRINT a => trans_VRINT arm_rmode_to_sf a
  | RI_VCVT a => trans_VCVT arm_rmode_to_sf a
  | RI_VRINTZ_hp a => trans_VRINTZ_hp a
  | RI_VRINTZ_sp a => trans_VRINTZ_sp a
  | RI_VRINTZ_dp a => trans_VRINTZ_dp a
  end.

(** The rounding modes of both float_status blocks. *)
Definition rounding_modes (m : CPUARMState) : Z * Z :=
  (float_rounding_mode (fp_status m FPST_FPCR),
   float_rounding_mode (fp_status m FPST_FPCR_F16)).

(** Modelled from the spec: [arm_rmode_to_sf] of the FP helper code, which
    is not under src/ ("install the instruction-specific mode"); used in
    the examples only. *)
Definition arm_rmode_to_sf_example (rmode : Z) : Z :=
  if rmode =? FPROUNDING_TIEAWAY then 4
  else if rmode =? FPROUNDING_POSINF then 2
  else if rmode =? FPROUNDING_NEGINF then 1
  else if rmode =? FPROUNDING_ZERO then 3
  else 0.

(** A processor state for the examples: every register and memory word
    zero, rounding mode [rm], FPCCR_NS and CONTROL_S as given. *)
Definition cpu_example (rm fpccr_ns control_s : Z) : CPUARMState := {|
  temps := fun _ => 0;
  regs := fun r => if r =? 1 then 4096 else 0;
  NZCV := 0;
  vfp_s := fun _ => 0;
  xregs := fun _ => 0;
  fp_status := fun _ => {| float_rounding_mode := rm;
                           float_exception_flags := 0 |};
  fpccr := fun b => match b with M_REG_NS => fpccr_ns | M_REG_S => 0 end;
  control := fun b => match b with M_REG_S => control_s | M_REG_NS => 0 end;
  fpdscr := fun b => match b with M_REG_NS => 50331648 | M_REG_S => 0 end;
  memory := fun _ => 0;
  pending := None
|}.

(** The feature and register tests a handler of the family makes before
    the access check (lines 364-381, 442-457, 3207-3209, 3236-3238, 3265-3276); it
    returns [false] when one of them fails. *)
Definition rounding_legal (c : DisasConfig) (i : rounding_insn) : bool :=
  match i with
  | RI_VRINT a =>
      aa32_vrint c &&
      negb ((vrint_sz a =? 3) && negb (aa32_fpdp_v2 c)) &&
      negb ((vrint_sz a =? 1) && negb (aa32_fp16_arith c)) &&
      negb ((vrint_sz a =? 3) && negb (aa32_simd_r32 c) &&
            negb (Z.land (Z.lor (vrint_vm a) (vrint_vd a)) 16 =? 0))
  | RI_VCVT a =>
      aa32_vcvt_dr c &&
      negb ((vcvt_sz a =? 3) && negb (aa32_fpdp_v2 c)) &&
      negb ((vcvt_sz a =? 1) && negb (aa32_fp16_arith c)) &&
      negb ((vcvt_sz a =? 3) && negb (aa32_simd_r32 c) &&
            negb (Z.land (vcvt_vm a) 16 =? 0))
  | RI_VRINTZ_hp _ => aa32_fp16_arith c
  | RI_VRINTZ_sp _ => aa32_vrint c
  | RI_VRINTZ_dp a =>
      aa32_fpdp_v2 c && aa32_vrint c &&
      negb (negb (aa32_simd_r32 c) &&
            negb (Z.land (Z.lor (vrintz_vd a) (vrintz_vm a)) 16 =? 0))
  end.







(** As [ext_simple], with a write of FPSCR setting the rounding mode of
    both float_status blocks from FPSCR.RMode, bits [23:22]. *)
Definition ext_rmode : Externals := {|
  fp_helper_sem := fp_helper_sem ext_simple;
  vfp_get_fpscr_sem := vfp_get_fpscr_sem ext_simple;
  vfp_set_fpscr_sem := fun v _ f =>
    (v, fun fl => {| float_rounding_mode :=
                       arm_rmode_to_sf_example (Z.land (Z.shiftr v 22) 3);
                     float_exception_flags :=
                       float_exception_flags (f fl) |});
  preserve_fp_state_sem := preserve_fp_state_sem ext_simple;
  stackcheck_fails := stackcheck_fails ext_simple;
  hcr_el2_traps := hcr_el2_traps ext_simple;
  mem_ok := mem_ok ext_simple
|}.

(** VRINTZ.F32 s2, s5. *)
Definition arg_vrintz_example : arg_VRINTZ :=
  {| vrintz_vd := 2; vrintz_vm := 5 |}.

(** The block binds the label [l]. *)
Definition has_label (l : label) (ops : list tcg_op) : bool :=
  existsb (fun o => match o with
                    | op_set_label l' => Nat.eqb l l'
                    | _ => false
                    end) ops.

Definition arg_vrint_example : arg_VRINT :=
  {| vrint_vd := 2; vrint_vm := 5; vrint_sz := 2; vrint_rm := 2 |}.

(** ** Accesses to FPCXT_NS while the FP context is inactive *)

(** The value tested by the branch of [gen_branch_fpInactive]:
    [(CONTROL_S & FPCA) | ((FPCCR_NS & ASPEN) ^ ASPEN)]. *)
Definition fpInactive_test (m : CPUARMState) : Z :=
  u32 (Z.lor (u32 (Z.land (control m M_REG_S) R_V7M_CONTROL_FPCA_MASK))
             (u32 (Z.lxor (u32 (Z.land (fpccr m M_REG_NS)
                                       R_V7M_FPCCR_ASPEN_MASK))
                          R_V7M_FPCCR_ASPEN_MASK))).

(** The FP context state: system registers, float status, the M-profile
    FP control words and the register file. *)
Definition fp_context (m : CPUARMState) :=
  (xregs m, fp_status m, fpccr m, control m, fpdscr m, vfp_s m).

(** The block has no branch and binds no label. *)
Definition straight_line (ops : list tcg_op) : bool :=
  forallb (fun o => match o with
                    | op_br _ | op_brcondi _ _ _ _ | op_set_label _ => false
                    | _ => true
                    end) ops.

(** A value sink ([storefn]) that always succeeds, emits straight-line
    code and does not rewind the label counter. *)
Definition sink_ok {O} (storefn : O -> temp -> Gen unit) (opaque : O)
  : Prop :=
  forall t gs, exists gs' sops,
    storefn opaque t gs = Some (tt, gs', sops) /\
    straight_line sops = true /\
    (next_label (tcg gs) <= next_label (tcg gs'))%nat.

(** A value source ([loadfn]) that always succeeds, emits straight-line
    code and leaves the translation context alone. *)
Definition source_ok {O} (loadfn : O -> Gen temp) (opaque : O) : Prop :=
  forall gs, exists t gs' lops,
    loadfn opaque gs = Some (t, gs', lops) /\
    straight_line lops = true /\
    dc gs' = dc gs.

(** What [gen_preserve_fp_state] does to the translation context (lines
    90-112): lazy state preservation is taken as done for the rest of the
    block and, with icount, the block is made to end after the
    instruction. *)
Definition after_preserve_fp_state (s : DisasContext) : DisasContext :=
  set_v7m_lspact false
    (if v7m_lspact s && CF_USE_ICOUNT (cfg s)
     then set_is_jmp DISAS_UPDATE_EXIT s else s).

(** As [ext_simple], with lazy state preservation visible: the helper
    saves s0-s15 in the sixteen words from address 8192 (the frame
    reserved on the stack) and clears FPCCR.LSPACT, bit 0, in the Secure
    bank. *)
Definition ext_lazy : Externals := {|
  fp_helper_sem := fp_helper_sem ext_simple;
  vfp_get_fpscr_sem := vfp_get_fpscr_sem ext_simple;
  vfp_set_fpscr_sem := vfp_set_fpscr_sem ext_simple;
  preserve_fp_state_sem := fun m =>
    (fun a => if (8192 <=? a) && (a <? 8256) && (a mod 4 =? 0)
              then vfp_s m ((a - 8192) / 4) else memory m a,
     upd_bank M_REG_S (Z.land (fpccr m M_REG_S) (Z.lnot 1)) (fpccr m),
     false);
  stackcheck_fails := stackcheck_fails ext_simple;
  hcr_el2_traps := hcr_el2_traps ext_simple;
  mem_ok := mem_ok ext_simple
|}.

(** A state in which the FP context is inactive (FPCCR_NS.ASPEN set,
    CONTROL.FPCA clear) and lazy state preservation is pending
    (FPCCR_S.LSPACT set), with s2 = 3 and s5 = 7. *)
Definition cpu_lazy_pending : CPUARMState :=
  set_vfp_s (fun r => if r =? 2 then 3 else if r =? 5 then 7 else 0)
    (set_fpccr (fun b => match b with
                         | M_REG_NS => 2147483648
                         | M_REG_S => 1
                         end)
               (cpu_example 0 2147483648 0)).
(** ** Block transfers: the two handlers side by side *)

(** [n] of the handlers: [a->imm] for single precision, [a->imm >> 1] for
    double precision. *)
Definition transfer_count (dp : bool) (a : arg_VLDM_VSTM) : Z :=
  if dp then Z.shiftr (vldm_imm a) 1 else vldm_imm a.

(** [offset] of the transfer loops: the size of one register. *)
Definition unit_size (dp : bool) : Z := if dp then 8 else 4.

Definition trans_VLDM_VSTM (dp : bool) : arg_VLDM_VSTM -> Gen bool :=
  if dp then trans_VLDM_VSTM_dp else trans_VLDM_VSTM_sp.

(** FLDMDBX d0-d0 with an odd immediate, base r1, writeback. *)
Definition arg_vldmdb_odd : arg_VLDM_VSTM :=
  {| vldm_rn := 1; vldm_vd := 0; vldm_imm := 3;
     vldm_l := true; vldm_w := true; vldm_p := true |}.

(** VSTMDB r1!, {s4-s6}. *)
Definition arg_vstmdb_sp : arg_VLDM_VSTM :=
  {| vldm_rn := 1; vldm_vd := 4; vldm_imm := 3;
     vldm_l := false; vldm_w := true; vldm_p := true |}.

(** VLDM r1, {} in the double-precision encoding: immediate 1, count 0. *)
Definition arg_vldm_empty : arg_VLDM_VSTM :=
  {| vldm_rn := 1; vldm_vd := 0; vldm_imm := 1;
     vldm_l := true; vldm_w := false; vldm_p := false |}.

(** What a transfer loop leaves behind when it runs to its end: the address
    temporary advanced by [offset] per register, the general registers as
    they were. *)
Definition loop_effect ext (lops : list tcg_op) (addr : temp)
    (total : Z) : Prop :=
  straight_line lops = true /\
  forall m, pending m = None ->
    pending (run ext lops m) = None ->
    u32 (temps (run ext lops m) addr) = u32 (temps m addr + total) /\
    regs (run ext lops m) = regs m.

(** * Further handlers of translate-vfp.inc.c *)

(** ** Immediate expansion (lines 33-64) *)

(** Modelled from the spec: [extract32] of bitops.h, which is not under
    src/: the [length] bits of [value] starting at bit [start]. *)
Definition extract32 (value start length : Z) : Z :=
  Z.land (Z.shiftr value start) (Z.ones length).

(** The [MemOp] size codes used as [size] arguments. *)
Module MemOp.
Definition MO_8 : Z := 0.
Definition MO_16 : Z := 1.
Definition MO_32 : Z := 2.
Definition MO_64 : Z := 3.
End MemOp.

(** [vfp_expand_imm]; the argument is converted to [uint8_t], and a size
    other than [MO_16], [MO_32], [MO_64] reaches [g_assert_not_reached]. *)
Definition vfp_expand_imm (size : Z) (imm : Z) : option Z :=
  let imm8 := imm mod 2 ^ 8 in
  if size =? MemOp.MO_64 then
    let imm :=
      Z.lor (Z.lor (if negb (extract32 imm8 7 1 =? 0) then 32768 else 0)
                   (if negb (extract32 imm8 6 1 =? 0) then 16320 else 16384))
            (extract32 imm8 0 6) in
    Some (Z.shiftl imm 48 mod 2 ^ 64)
  else if size =? MemOp.MO_32 then
    let imm :=
      Z.lor (Z.lor (if negb (extract32 imm8 7 1 =? 0) then 32768 else 0)
                   (if negb (extract32 imm8 6 1 =? 0) then 15872 else 16384))
            (Z.shiftl (extract32 imm8 0 6) 3) in
    Some (Z.shiftl imm 16 mod 2 ^ 64)
  else if size =? MemOp.MO_16 then
    let imm :=
      Z.lor (Z.lor (if negb (extract32 imm8 7 1 =? 0) then 32768 else 0)
                   (if negb (extract32 imm8 6 1 =? 0) then 12288 else 16384))
            (Z.shiftl (extract32 imm8 0 6) 6) in
    Some imm
  else None.

(** The fields of an IEEE 754 binary interchange format with [ebits]
    exponent bits and [fbits] fraction bits, read from an encoding. *)
Definition ieee_sign (ebits fbits x : Z) : Z := x / 2 ^ (ebits + fbits).
Definition ieee_exponent (ebits fbits x : Z) : Z :=
  (x / 2 ^ fbits) mod 2 ^ ebits.
Definition ieee_fraction (fbits x : Z) : Z := x mod 2 ^ fbits.
Definition ieee_bias (ebits : Z) : Z := 2 ^ (ebits - 1) - 1.

(** Exponent and fraction widths of the format selected by a size code. *)
Definition ieee_ebits (size : Z) : Z :=
  if size =? MemOp.MO_64 then 11 else if size =? MemOp.MO_32 then 8 else 5.
Definition ieee_fbits (size : Z) : Z :=
  if size =? MemOp.MO_64 then 52 else if size =? MemOp.MO_32 then 23 else 10.

(** All [n] in [0, 256) pass the test [f]. *)
Definition all_bytes (f : Z -> bool) : bool :=
  forallb f (map Z.of_nat (seq 0 256)).

(** ** Moves between general-purpose and VFP registers (lines 1214-1363) *)

Record arg_VMOV_single := {
  vmov_l : bool;
  vmov_rt : Z;
  vmov_vn : Z
}.

Definition trans_VMOV_half (a : arg_VMOV_single) : Gen bool :=
  s <- get_s ;;
  if negb (aa32_fp16_arith (cfg s)) then ret false
  else if vmov_rt a =? 15 then ret false
  else
    ok <- vfp_access_check ;;
    if negb ok then ret true
    else
      (if vmov_l a then
         tmp <- tcg_temp_new ;;
         vfp_load_reg32 tmp (vmov_vn a) ;;
         emit (op_andi tmp tmp 65535) ;;
         store_reg (vmov_rt a) tmp
       else
         tmp <- load_reg (vmov_rt a) ;;
         emit (op_andi tmp tmp 65535) ;;
         vfp_store_reg32 tmp (vmov_vn a) ;;
         tcg_temp_free tmp) ;;
      ret true.

Definition trans_VMOV_single (a : arg_VMOV_single) : Gen bool :=
  s <- get_s ;;
  if negb (aa32_fpsp_v2 (cfg s)) then ret false
  else
    ok <- vfp_access_check ;;
    if negb ok then ret true
    else
      (if vmov_l a then
         tmp <- tcg_temp_new ;;
         vfp_load_reg32 tmp (vmov_vn a) ;;
         if vmov_rt a =? 15 then
           gen_set_nzcv tmp ;;
           tcg_temp_free tmp
         else store_reg (vmov_rt a) tmp
       else
         tmp <- load_reg (vmov_rt a) ;;
         vfp_store_reg32 tmp (vmov_vn a) ;;
         tcg_temp_free tmp) ;;
      ret true.

Record arg_VMOV_64 := {
  vmov64_op : bool;
  vmov64_rt : Z;
  vmov64_rt2 : Z;
  vmov64_vm : Z
}.

(** The transfer of [trans_VMOV_64_sp] and [trans_VMOV_64_dp] between
    [rt], [rt2] and the S registers [lo], [hi]. *)
Definition VMOV_64_body (a : arg_VMOV_64) (lo hi : Z) : Gen unit :=
  if vmov64_op a then
    tmp <- tcg_temp_new ;;
    vfp_load_reg32 tmp lo ;;
    store_reg (vmov64_rt a) tmp ;;
    tmp <- tcg_temp_new ;;
    vfp_load_reg32 tmp hi ;;
    store_reg (vmov64_rt2 a) tmp
  else
    tmp <- load_reg (vmov64_rt a) ;;
    vfp_store_reg32 tmp lo ;;
    tcg_temp_free tmp ;;
    tmp <- load_reg (vmov64_rt2 a) ;;
    vfp_store_reg32 tmp hi ;;
    tcg_temp_free tmp.

Definition trans_VMOV_64_sp (a : arg_VMOV_64) : Gen bool :=
  s <- get_s ;;
  if negb (aa32_fpsp_v2 (cfg s)) then ret false
  else
    ok <- vfp_access_check ;;
    if negb ok then ret true
    else
      VMOV_64_body a (vmov64_vm a) (wrap_int (vmov64_vm a + 1)) ;;
      ret true.

Definition trans_VMOV_64_dp (a : arg_VMOV_64) : Gen bool :=
  s <- get_s ;;
  if negb (aa32_fpsp_v2 (cfg s)) then ret false
  else if negb (aa32_simd_r32 (cfg s)) &&
          negb (Z.land (vmov64_vm a) 16 =? 0) then ret false
  else
    ok <- vfp_access_check ;;
    if negb ok then ret true
    else
      VMOV_64_body a (wrap_int (vmov64_vm a * 2))
                   (wrap_int (wrap_int (vmov64_vm a * 2) + 1)) ;;
      ret true.

(** ** Single-register load and store (lines 1401-1476) *)

Record arg_VLDR_VSTR := {
  vldr_vstr_l : bool;
  vldr_vstr_u : bool;
  vldr_vstr_rn : Z;
  vldr_vstr_vd : Z;
  vldr_vstr_imm : Z
}.

(** [offset = a->imm << 2; if (!a->u) offset = -offset;] in [uint32_t],
    passed to the [int] parameter of [add_reg_for_lit]. *)
Definition vldr_vstr_offset (a : arg_VLDR_VSTR) : Z :=
  let offset := u32 (Z.shiftl (vldr_vstr_imm a) 2) in
  wrap_int (if vldr_vstr_u a then offset else u32 (- offset)).

Definition trans_VLDR_VSTR_sp (a : arg_VLDR_VSTR) : Gen bool :=
  s <- get_s ;;
  if negb (aa32_fpsp_v2 (cfg s)) then ret false
  else
    ok <- vfp_access_check ;;
    if negb ok then ret true
    else
      addr <- add_reg_for_lit (vldr_vstr_rn a) (vldr_vstr_offset a) ;;
      tmp <- tcg_temp_new ;;
      (if vldr_vstr_l a then
         gen_aa32_ld32u tmp addr ;;
         vfp_store_reg32 tmp (vldr_vstr_vd a)
       else
         vfp_load_reg32 tmp (vldr_vstr_vd a) ;;
         gen_aa32_st32 tmp addr) ;;
      tcg_temp_free tmp ;;
      tcg_temp_free addr ;;
      ret true.

Definition trans_VLDR_VSTR_dp (a : arg_VLDR_VSTR) : Gen bool :=
  s <- get_s ;;
  if negb (aa32_fpsp_v2 (cfg s)) then ret false
  else if negb (aa32_simd_r32 (cfg s)) &&
          negb (Z.land (vldr_vstr_vd a) 16 =? 0) then ret false
  else
    ok <- vfp_access_check ;;
    if negb ok then ret true
    else
      addr <- add_reg_for_lit (vldr_vstr_rn a) (vldr_vstr_offset a) ;;
      tmp <- tcg_temp_new ;;
      (if vldr_vstr_l a then
         gen_aa32_ld64 tmp addr ;;
         vfp_store_reg64 tmp (vldr_vstr_vd a)
       else
         vfp_load_reg64 tmp (vldr_vstr_vd a) ;;
         gen_aa32_st64 tmp addr) ;;
      tcg_temp_free tmp ;;
      tcg_temp_free addr ;;
      ret true.

(** ** Half-precision and double-precision templates (lines 1786-1916,
    1992-2023) *)

Definition do_vfp_3op_hp (fn : VFPGen3OpFn) (vd vn vm : Z)
    (reads_vd : bool) : Gen bool :=
  s <- get_s ;;
  if negb (aa32_fp16_arith (cfg s)) then ret false
  else if negb (vec_len (cfg s) =? 0) || negb (vec_stride (cfg s) =? 0)
  then ret false
  else
    ok <- vfp_access_check ;;
    if negb ok then ret true
    else
      f0 <- tcg_temp_new ;;
      f1 <- tcg_temp_new ;;
      fd <- tcg_temp_new ;;
      fpst <- fpstatus_ptr FPST_FPCR_F16 ;;
      vfp_load_reg32 f0 vn ;;
      vfp_load_reg32 f1 vm ;;
      when reads_vd (vfp_load_reg32 fd vd) ;;
      call_tcg (fn fd f0 f1 fpst) ;;
      vfp_store_reg32 fd vd ;;
      tcg_temp_free f0 ;;
      tcg_temp_free f1 ;;
      tcg_temp_free fd ;;
      tcg_temp_free fpst ;;
      ret true.

Definition do_vfp_2op_hp (fn : VFPGen2OpFn) (vd vm : Z) : Gen bool :=
  s <- get_s ;;
  if negb (aa32_fp16_arith (cfg s)) then ret false
  else if negb (vec_len (cfg s) =? 0) || negb (vec_stride (cfg s) =? 0)
  then ret false
  else
    ok <- vfp_access_check ;;
    if negb ok then ret true
    else
      f0 <- tcg_temp_new ;;
      vfp_load_reg32 f0 vm ;;
      call_tcg (fn f0 f0) ;;
      vfp_store_reg32 f0 vd ;;
      tcg_temp_free f0 ;;
      ret true.

(** The [for (;;)] loop of [do_vfp_3op_dp] (lines 1893-1909). *)
Fixpoint do_vfp_3op_dp_loop (fuel : nat) (fn : VFPGen3OpFn)
    (reads_vd : bool) (f0 f1 fd fpst : temp) (delta_d delta_m : Z)
    (veclen vd vn vm : Z) : Gen unit :=
  match fuel with
  | O => abort
  | S fuel' =>
      when reads_vd (vfp_load_reg64 fd vd) ;;
      call_tcg (fn fd f0 f1 fpst) ;;
      vfp_store_reg64 fd vd ;;
      if veclen =? 0 then ret tt
      else
        let veclen := wrap_int (veclen - 1) in
        let vd := vfp_advance_dreg vd (wrap_int delta_d) in
        let vn := vfp_advance_dreg vn (wrap_int delta_d) in
        vfp_load_reg64 f0 vn ;;
        if negb (delta_m =? 0) then
          let vm := vfp_advance_dreg vm (wrap_int delta_m) in
          vfp_load_reg64 f1 vm ;;
          do_vfp_3op_dp_loop fuel' fn reads_vd f0 f1 fd fpst
                             delta_d delta_m veclen vd vn vm
        else
          do_vfp_3op_dp_loop fuel' fn reads_vd f0 f1 fd fpst
                             delta_d delta_m veclen vd vn vm
  end.

Definition do_vfp_3op_dp (fn : VFPGen3OpFn) (vd vn vm : Z)
    (reads_vd : bool) : Gen bool :=
  s <- get_s ;;
  let veclen := vec_len (cfg s) in
  if negb (aa32_fpdp_v2 (cfg s)) then ret false
  else if negb (aa32_simd_r32 (cfg s)) &&
          negb (Z.land (Z.lor (Z.lor vd vn) vm) 16 =? 0) then ret false
  else if shvec_unsupported s veclen then ret false
  else
    ok <- vfp_access_check ;;
    if negb ok then ret true
    else
      s <- get_s ;;
      let '(veclen, delta_d, delta_m) :=
        if veclen >? 0 then
          if vfp_dreg_is_scalar vd then (0, 0, 0)
          else
            let delta_d := u32 (Z.shiftr (vec_stride (cfg s)) 1 + 1) in
            if vfp_dreg_is_scalar vm then (veclen, delta_d, 0)
            else (veclen, delta_d, delta_d)
        else (veclen, 0, 0) in
      f0 <- tcg_temp_new ;;
      f1 <- tcg_temp_new ;;
      fd <- tcg_temp_new ;;
      fpst <- fpstatus_ptr FPST_FPCR ;;
      vfp_load_reg64 f0 vn ;;
      vfp_load_reg64 f1 vm ;;
      do_vfp_3op_dp_loop (S (Z.to_nat veclen)) fn reads_vd f0 f1 fd fpst
                         delta_d delta_m veclen vd vn vm ;;
      tcg_temp_free f0 ;;
      tcg_temp_free f1 ;;
      tcg_temp_free fd ;;
      tcg_temp_free fpst ;;
      ret true.

(** ** Immediate moves (lines 2690-2762) *)

Record arg_VMOV_imm := {
  vmov_imm_vd : Z;
  vmov_imm_imm : Z
}.

(** [tcg_const_i32(vfp_expand_imm(size, imm))]. *)
Definition const_expand_imm (size imm : Z) : Gen temp :=
  match vfp_expand_imm size imm with
  | Some v => tcg_const v
  | None => abort
  end.

Definition trans_VMOV_imm_hp (a : arg_VMOV_imm) : Gen bool :=
  s <- get_s ;;
  if negb (aa32_fp16_arith (cfg s)) then ret false
  else if negb (vec_len (cfg s) =? 0) || negb (vec_stride (cfg s) =? 0)
  then ret false
  else
    ok <- vfp_access_check ;;
    if negb ok then ret true
    else
      fd <- const_expand_imm MemOp.MO_16 (vmov_imm_imm a) ;;
      vfp_store_reg32 fd (vmov_imm_vd a) ;;
      tcg_temp_free fd ;;
      ret true.

(** The [for (;;)] loop of [trans_VMOV_imm_sp]; [vd] is a [uint32_t]
    there and the register parameters it is passed to are [int]. *)
Fixpoint VMOV_imm_sp_loop (fuel : nat) (fd : temp) (delta_d : Z)
    (veclen vd : Z) : Gen unit :=
  match fuel with
  | O => abort
  | S fuel' =>
      vfp_store_reg32 fd (wrap_int vd) ;;
      if veclen =? 0 then ret tt
      else
        let veclen := wrap_int (veclen - 1) in
        let vd := u32 (vfp_advance_sreg (wrap_int vd) (wrap_int delta_d)) in
        VMOV_imm_sp_loop fuel' fd delta_d veclen vd
  end.

Definition trans_VMOV_imm_sp (a : arg_VMOV_imm) : Gen bool :=
  s <- get_s ;;
  let veclen := vec_len (cfg s) in
  let vd := u32 (vmov_imm_vd a) in
  if negb (aa32_fpsp_v3 (cfg s)) then ret false
  else if shvec_unsupported s veclen then ret false
  else
    ok <- vfp_access_check ;;
    if negb ok then ret true
    else
      s <- get_s ;;
      let '(veclen, delta_d) :=
        if veclen >? 0 then
          if vfp_sreg_is_scalar (wrap_int vd) then (0, 0)
          else (veclen, u32 (vec_stride (cfg s) + 1))
        else (veclen, 0) in
      fd <- const_expand_imm MemOp.MO_32 (vmov_imm_imm a) ;;
      VMOV_imm_sp_loop (S (Z.to_nat veclen)) fd delta_d veclen vd ;;
      tcg_temp_free fd ;;
      ret true.

(** ** Register moves and negation through the 2-operand templates
    (lines 2820-2836) *)

Record arg_2op := { op2_vd : Z; op2_vm : Z }.

(** [tcg_gen_mov_i32], [tcg_gen_mov_i64] as a template callback. *)
Definition gen_mov : VFPGen2OpFn := fun d s t => (t, [op_mov d s]).

(** [gen_helper_vfp_negs], [gen_helper_vfp_negd] as template callbacks. *)
Definition gen_helper_vfp_negs : VFPGen2OpFn :=
  fun d s t => (t, [op_helper_fp helper_vfp_negs d [s] None]).
Definition gen_helper_vfp_negd : VFPGen2OpFn :=
  fun d s t => (t, [op_helper_fp helper_vfp_negd d [s] None]).
Definition gen_helper_vfp_negh : VFPGen2OpFn :=
  fun d s t => (t, [op_helper_fp helper_vfp_negh d [s] None]).

Definition trans_VMOV_reg_sp (a : arg_2op) : Gen bool :=
  do_vfp_2op_sp gen_mov (op2_vd a) (op2_vm a).
Definition trans_VMOV_reg_dp (a : arg_2op) : Gen bool :=
  do_vfp_2op_dp gen_mov (op2_vd a) (op2_vm a).
Definition trans_VNEG_hp (a : arg_2op) : Gen bool :=
  do_vfp_2op_hp gen_helper_vfp_negh (op2_vd a) (op2_vm a).
Definition trans_VNEG_sp (a : arg_2op) : Gen bool :=
  do_vfp_2op_sp gen_helper_vfp_negs (op2_vd a) (op2_vm a).
Definition trans_VNEG_dp (a : arg_2op) : Gen bool :=
  do_vfp_2op_dp gen_helper_vfp_negd (op2_vd a) (op2_vm a).

(** ** Half-precision insert and extract (lines 4069-4121) *)

Definition trans_VINS (a : arg_2op) : Gen bool :=
  s <- get_s ;;
  if negb (aa32_fp16_arith (cfg s)) then ret false
  else if negb (vec_len (cfg s) =? 0) || negb (vec_stride (cfg s) =? 0)
  then ret false
  else
    ok <- vfp_access_check ;;
    if negb ok then ret true
    else
      rm <- tcg_temp_new ;;
      rd <- tcg_temp_new ;;
      vfp_load_reg32 rm (op2_vm a) ;;
      vfp_load_reg32 rd (op2_vd a) ;;
      emit (op_deposit rd rd rm 16 16) ;;
      vfp_store_reg32 rd (op2_vd a) ;;
      tcg_temp_free rm ;;
      tcg_temp_free rd ;;
      ret true.

Definition trans_VMOVX (a : arg_2op) : Gen bool :=
  s <- get_s ;;
  if negb (aa32_fp16_arith (cfg s)) then ret false
  else if negb (vec_len (cfg s) =? 0) || negb (vec_stride (cfg s) =? 0)
  then ret false
  else
    ok <- vfp_access_check ;;
    if negb ok then ret true
    else
      rm <- tcg_temp_new ;;
      vfp_load_reg32 rm (op2_vm a) ;;
      emit (op_shri rm rm 16) ;;
      vfp_store_reg32 rm (op2_vd a) ;;
      tcg_temp_free rm ;;
      ret true.

(** ** The v8.1-M coprocessor range check (lines 4060-4067) *)

Definition trans_NOCP_8_1 (a : arg_NOCP) : Gen (bool * arg_NOCP) :=
  s <- get_s ;;
  if negb (ARM_FEATURE_V8_1M (cfg s)) then ret (false, a)
  else trans_NOCP a.

(** ** Outcomes of a translation *)

(** Every result of [m] satisfies [P]. *)
Definition results_in {A} (m : Gen A) (P : A -> Prop) : Prop :=
  forall g r g' o, m g = Some (r, g', o) -> P r.

(** When [m] returns a result that [rej] classifies as a rejection, it has
    emitted nothing and left the translation state as it was. *)
Definition rejects_cleanly {A} (rej : A -> bool) (m : Gen A) : Prop :=
  forall g r g' o, m g = Some (r, g', o) -> rej r = true ->
                   g' = g /\ o = [].

(** [FPSysRegCheckFailed]: the caller returns [false]. *)
Definition is_failed (c : FPSysRegCheckResult) : bool :=
  match c with FPSysRegCheckFailed => true | _ => false end.

(** A call of one of the handlers and templates modelled here, with its
    arguments. *)
Inductive handler_call :=
| call_VMSR_VMRS (a : arg_VMSR_VMRS)
| call_VLDR_sysreg (a : arg_vldr_sysreg)
| call_VSTR_sysreg (a : arg_vldr_sysreg)
| call_NOCP (a : arg_NOCP)
| call_NOCP_8_1 (a : arg_NOCP)
| call_VLDM_VSTM_sp (a : arg_VLDM_VSTM)
| call_VLDM_VSTM_dp (a : arg_VLDM_VSTM)
| call_do_vfp_3op_sp (fn : VFPGen3OpFn) (vd vn vm : Z) (reads_vd : bool)
| call_do_vfp_3op_hp (fn : VFPGen3OpFn) (vd vn vm : Z) (reads_vd : bool)
| call_do_vfp_3op_dp (fn : VFPGen3OpFn) (vd vn vm : Z) (reads_vd : bool)
| call_do_vfp_2op_sp (fn : VFPGen2OpFn) (vd vm : Z)
| call_do_vfp_2op_hp (fn : VFPGen2OpFn) (vd vm : Z)
| call_do_vfp_2op_dp (fn : VFPGen2OpFn) (vd vm : Z)
| call_do_vfm_hp (a : arg_VFMA) (neg_n neg_d : bool)
| call_do_vfm_sp (a : arg_VFMA) (neg_n neg_d : bool)
| call_do_vfm_dp (a : arg_VFMA) (neg_n neg_d : bool)
| call_VRINT (arm_rmode_to_sf : Z -> Z) (a : arg_VRINT)
| call_VCVT (arm_rmode_to_sf : Z -> Z) (a : arg_VCVT)
| call_VRINTZ_hp (a : arg_VRINTZ)
| call_VRINTZ_sp (a : arg_VRINTZ)
| call_VRINTZ_dp (a : arg_VRINTZ)
| call_VMOV_half (a : arg_VMOV_single)
| call_VMOV_single (a : arg_VMOV_single)
| call_VMOV_64_sp (a : arg_VMOV_64)
| call_VMOV_64_dp (a : arg_VMOV_64)
| call_VLDR_VSTR_sp (a : arg_VLDR_VSTR)
| call_VLDR_VSTR_dp (a : arg_VLDR_VSTR)
| call_VMOV_imm_hp (a : arg_VMOV_imm)
| call_VMOV_imm_sp (a : arg_VMOV_imm)
| call_VINS (a : arg_2op)
| call_VMOVX (a : arg_2op).

(** The handler's verdict, dropping the argument record that the handlers
    writing through [a] return with it. *)
Definition verdict {A} (m : Gen (bool * A)) : Gen bool :=
  p <- m ;; ret (fst p).

Definition translate (h : handler_call) : Gen bool :=
  match h with
  | call_VMSR_VMRS a => verdict (trans_VMSR_VMRS a)
  | call_VLDR_sysreg a => trans_VLDR_sysreg a
  | call_VSTR_sysreg a => trans_VSTR_sysreg a
  | call_NOCP a => verdict (trans_NOCP a)
  | call_NOCP_8_1 a => verdict (trans_NOCP_8_1 a)
  | call_VLDM_VSTM_sp a => trans_VLDM_VSTM_sp a
  | call_VLDM_VSTM_dp a => trans_VLDM_VSTM_dp a
  | call_do_vfp_3op_sp fn vd vn vm r => do_vfp_3op_sp fn vd vn vm r
  | call_do_vfp_3op_hp fn vd vn vm r => do_vfp_3op_hp fn vd vn vm r
  | call_do_vfp_3op_dp fn vd vn vm r => do_vfp_3op_dp fn vd vn vm r
  | call_do_vfp_2op_sp fn vd vm => do_vfp_2op_sp fn vd vm
  | call_do_vfp_2op_hp fn vd vm => do_vfp_2op_hp fn vd vm
  | call_do_vfp_2op_dp fn vd vm => do_vfp_2op_dp fn vd vm
  | call_do_vfm_hp a n d => do_vfm_hp a n d
  | call_do_vfm_sp a n d => do_vfm_sp a n d
  | call_do_vfm_dp a n d => do_vfm_dp a n d
  | call_VRINT f a => trans_VRINT f a
  | call_VCVT f a => trans_VCVT f a
  | call_VRINTZ_hp a => trans_VRINTZ_hp a
  | call_VRINTZ_sp a => trans_VRINTZ_sp a
  | call_VRINTZ_dp a => trans_VRINTZ_dp a
  | call_VMOV_half a => trans_VMOV_half a
  | call_VMOV_single a => trans_VMOV_single a
  | call_VMOV_64_sp a => trans_VMOV_64_sp a
  | call_VMOV_64_dp a => trans_VMOV_64_dp a
  | call_VLDR_VSTR_sp a => trans_VLDR_VSTR_sp a
  | call_VLDR_VSTR_dp a => trans_VLDR_VSTR_dp a
  | call_VMOV_imm_hp a => trans_VMOV_imm_hp a
  | call_VMOV_imm_sp a => trans_VMOV_imm_sp a
  | call_VINS a => trans_VINS a
  | call_VMOVX a => trans_VMOVX a
  end.

(** The handlers without a vector loop, and those built on a template
    with one. *)
Definition scalar_only_handler (h : handler_call) : bool :=
  match h with
  | call_do_vfp_3op_hp _ _ _ _ _ | call_do_vfp_2op_hp _ _ _
  | call_do_vfm_hp _ _ _ | call_do_vfm_sp _ _ _ | call_do_vfm_dp _ _ _
  | call_VMOV_imm_hp _ | call_VINS _ | call_VMOVX _ => true
  | _ => false
  end.

Definition short_vector_handler (h : handler_call) : bool :=
  match h with
  | call_do_vfp_3op_sp _ _ _ _ _ | call_do_vfp_3op_dp _ _ _ _ _
  | call_do_vfp_2op_sp _ _ _ | call_do_vfp_2op_dp _ _ _
  | call_VMOV_imm_sp _ => true
  | _ => false
  end.

(** ** Operation sequences named in the statements *)

(** The call of the lazy state preservation helper. *)
Definition is_preserve_fp_state (o : tcg_op) : bool :=
  match o with
  | op_helper_v7m_preserve_fp_state => true
  | _ => false
  end.


(** The operations of one element-wise copy. *)
Definition copy_ops (f0 fd : temp) (p : Z * Z) : list tcg_op :=
  [op_vfp_load_reg32 f0 (fst p); op_mov fd f0; op_vfp_store_reg32 fd (snd p)].

(** The operations of one double-precision copy from [vm] to [d]. *)
Definition copy64_ops (f0 fd : temp) (vm d : Z) : list tcg_op :=
  [op_vfp_load_reg64 f0 vm; op_mov fd f0; op_vfp_store_reg64 fd d].

(** ** Fixtures for the further properties *)

(** The A-profile core of [cfg_vfpv3] with FP accesses trapped to EL2. *)
Definition cfg_fp_trapped : DisasConfig := {|
  ARM_FEATURE_M := false; ARM_FEATURE_V8_1M := false;
  ARM_FEATURE_MVFR := true; ARM_FEATURE_V8 := true;
  aa32_fpsp_v2 := true; aa32_fpsp_v3 := true; aa32_fpdp_v2 := true;
  aa32_fpshvec := true; aa32_simd_r32 := true; aa32_simdfmac := true;
  aa32_fp16_arith := true; aa32_vrint := true; aa32_vcvt_dr := true;
  fp_excp_el := 2; vfp_enabled := true; v8m_secure := false;
  v8m_stackcheck := false; vec_len := 0; vec_stride := 0;
  current_el := 1; user := false; be_data := false; sctlr_b := false;
  default_exception_el := 1;
  pc_curr := 4096; pc_next := 4100; CF_USE_ICOUNT := false |}.

(** The A-profile core of [cfg_vfpv3], short vectors off, with big-endian
    data accesses (CPSR.E set). *)
Definition cfg_vfpv3_be : DisasConfig := {|
  ARM_FEATURE_M := false; ARM_FEATURE_V8_1M := false;
  ARM_FEATURE_MVFR := true; ARM_FEATURE_V8 := false;
  aa32_fpsp_v2 := true; aa32_fpsp_v3 := true; aa32_fpdp_v2 := true;
  aa32_fpshvec := true; aa32_simd_r32 := true; aa32_simdfmac := true;
  aa32_fp16_arith := true; aa32_vrint := true; aa32_vcvt_dr := true;
  fp_excp_el := 0; vfp_enabled := true; v8m_secure := false;
  v8m_stackcheck := false; vec_len := 0; vec_stride := 0;
  current_el := 1; user := false; be_data := true; sctlr_b := false;
  default_exception_el := 1;
  pc_curr := 4096; pc_next := 4100; CF_USE_ICOUNT := false |}.

(** [cpu_example 0 0 0] with d2 holding the words 11 (s4) and 22 (s5). *)
Definition cpu_d2_example : CPUARMState :=
  set_vfp_s (fun r => if r =? 4 then 11 else if r =? 5 then 22 else 0)
            (cpu_example 0 0 0).

(** * RISC-V privileged instructions
      (target/riscv/insn_trans/trans_privileged.inc.c) *)

Module RiscvPrivileged.

(** Operations the handlers emit themselves; [op_other] stands for the
    operations of emitters defined elsewhere. *)
Inductive riscv_op :=
| op_movi_pc_risc (v : Z)
| op_helper_sret
| op_helper_mret
| op_helper_wfi
| op_helper_tlb_flush
| op_other (n : Z).

Inductive riscv_jmp := RISCV_DISAS_NEXT | RISCV_DISAS_NORETURN.

(** The fields of the RISC-V [DisasContext] the handlers touch. *)
Record DisasContextRisc := {
  base_pc_next : Z;
  pc_succ_insn : Z;
  base_is_jmp : riscv_jmp;
  misa : Z
}.

Definition RGen (A : Type) : Type :=
  DisasContextRisc -> A * DisasContextRisc * list riscv_op.

Definition rret {A} (a : A) : RGen A := fun c => (a, c, []).

Definition rbind {A B} (m : RGen A) (k : A -> RGen B) : RGen B :=
  fun c =>
    let '(a, c1, o1) := m c in
    let '(b, c2, o2) := k a c1 in
    (b, c2, o1 ++ o2).

Definition remit (o : riscv_op) : RGen unit := fun c => (tt, c, [o]).

Definition rget : RGen DisasContextRisc := fun c => (c, c, []).

(** [ctx->base.is_jmp = j]. *)
Definition set_base_is_jmp (j : riscv_jmp) : RGen unit :=
  fun c => (tt, {| base_pc_next := base_pc_next c;
                   pc_succ_insn := pc_succ_insn c;
                   base_is_jmp := j; misa := misa c |}, []).

Inductive priv_insn :=
| insn_ecall | insn_ebreak | insn_uret | insn_sret | insn_mret | insn_wfi
| insn_sfence_vma | insn_sfence_vm | insn_hfence_gvma | insn_hfence_bvma.

Section Handlers.

(** The build flavour, and what the file takes from translate.c and
    cpu.h, which are not under src/: the exception emitter, the block
    exit, the extension test and the constants passed to them. *)
Variable CONFIG_USER_ONLY : bool.
Variable generate_exception : Z -> RGen unit.
Variable exit_tb : RGen unit.
Variable has_ext : DisasContextRisc -> Z -> bool.
Variables RISCV_EXCP_U_ECALL RISCV_EXCP_BREAKPOINT RVS RVH : Z.

Definition trans_ecall : RGen bool :=
  rbind (generate_exception RISCV_EXCP_U_ECALL) (fun _ =>
  rbind exit_tb (fun _ =>
  rbind (set_base_is_jmp RISCV_DISAS_NORETURN) (fun _ =>
  rret true))).

Definition trans_ebreak : RGen bool :=
  rbind (generate_exception RISCV_EXCP_BREAKPOINT) (fun _ =>
  rbind exit_tb (fun _ =>
  rbind (set_base_is_jmp RISCV_DISAS_NORETURN) (fun _ =>
  rret true))).

Definition trans_uret : RGen bool := rret false.

Definition trans_sret : RGen bool :=
  if CONFIG_USER_ONLY then rret false
  else
    rbind rget (fun ctx =>
    rbind (remit (op_movi_pc_risc (base_pc_next ctx))) (fun _ =>
    if has_ext ctx RVS then
      rbind (remit op_helper_sret) (fun _ =>
      rbind exit_tb (fun _ =>
      rbind (set_base_is_jmp RISCV_DISAS_NORETURN) (fun _ =>
      rret true)))
    else rret false)).

Definition trans_mret : RGen bool :=
  if CONFIG_USER_ONLY then rret false
  else
    rbind rget (fun ctx =>
    rbind (remit (op_movi_pc_risc (base_pc_next ctx))) (fun _ =>
    rbind (remit op_helper_mret) (fun _ =>
    rbind exit_tb (fun _ =>
    rbind (set_base_is_jmp RISCV_DISAS_NORETURN) (fun _ =>
    rret true))))).

Definition trans_wfi : RGen bool :=
  if CONFIG_USER_ONLY then rret false
  else
    rbind rget (fun ctx =>
    rbind (remit (op_movi_pc_risc (pc_succ_insn ctx))) (fun _ =>
    rbind (remit op_helper_wfi) (fun _ =>
    rret true))).

Definition trans_sfence_vma : RGen bool :=
  if CONFIG_USER_ONLY then rret false
  else rbind (remit op_helper_tlb_flush) (fun _ => rret true).

Definition trans_sfence_vm : RGen bool := rret false.

Definition trans_hfence_gvma : RGen bool :=
  if CONFIG_USER_ONLY then rret false
  else
    rbind rget (fun ctx =>
    if has_ext ctx RVH then
      rbind (remit op_helper_tlb_flush) (fun _ => rret true)
    else rret false).

Definition trans_hfence_bvma : RGen bool :=
  if CONFIG_USER_ONLY then rret false
  else
    rbind rget (fun ctx =>
    if has_ext ctx RVH then
      rbind (remit op_helper_tlb_flush) (fun _ => rret true)
    else rret false).

Definition translate_priv (i : priv_insn) : RGen bool :=
  match i with
  | insn_ecall => trans_ecall
  | insn_ebreak => trans_ebreak
  | insn_uret => trans_uret
  | insn_sret => trans_sret
  | insn_mret => trans_mret
  | insn_wfi => trans_wfi
  | insn_sfence_vma => trans_sfence_vma
  | insn_sfence_vm => trans_sfence_vm
  | insn_hfence_gvma => trans_hfence_gvma
  | insn_hfence_bvma => trans_hfence_bvma
  end.

(** The handlers that end the translation block. *)
Definition ends_block (i : priv_insn) : bool :=
  match i with
  | insn_ecall | insn_ebreak | insn_sret | insn_mret => true
  | _ => false
  end.

End Handlers.

(** Fixtures: emitters that emit one placeholder operation each and an
    extension test on the bits of [misa]. *)
Definition generate_exception_example (e : Z) : RGen unit :=
  remit (op_other e).
Definition exit_tb_example : RGen unit := remit (op_other (- 1)).
Definition has_ext_example (c : DisasContextRisc) (ext : Z) : bool :=
  negb (Z.land (misa c) ext =? 0).
Definition ctx_example (m : Z) : DisasContextRisc :=
  {| base_pc_next := 4100; pc_succ_insn := 4100;
     base_is_jmp := RISCV_DISAS_NEXT; misa := m |}.

End RiscvPrivileged.
(** ** Arithmetic facts about the wrap-around and the bank masks *)

Section BankArith.

Lemma wrap_int_mod_pow2 (x k : Z) :
  0 <= k <= 32 -> wrap_int x mod 2 ^ k = x mod 2 ^ k.
Proof.
  intros Hk. unfold wrap_int.
  assert (E32 : 2 ^ 32 = 2 ^ k * 2 ^ (32 - k)).
  { rewrite <- Z.pow_add_r by lia. f_equal. lia. }
  assert (Hpos : 0 < 2 ^ k) by (apply Z.pow_pos_nonneg; lia).
  assert (Hpos' : 0 < 2 ^ (32 - k)) by (apply Z.pow_pos_nonneg; lia).
  pose proof (Z.div_mod (x + 2 ^ 31) (2 ^ 32) ltac:(lia)) as Hdm.
  set (q := (x + 2 ^ 31) / 2 ^ 32) in *.
  set (r := (x + 2 ^ 31) mod 2 ^ 32) in *.
  assert (Hr : r - 2 ^ 31 = x + (- (2 ^ (32 - k) * q)) * 2 ^ k).
  { rewrite E32 in Hdm. lia. }
  rewrite Hr. now rewrite Z_mod_plus_full.
Qed.

Lemma land_wrap_int_ones (x k : Z) :
  0 <= k <= 32 -> Z.land (wrap_int x) (Z.ones k) = x mod 2 ^ k.
Proof.
  intros Hk. rewrite Z.land_ones by lia. now apply wrap_int_mod_pow2.
Qed.

(** Clearing the low [k] bits. *)
Lemma land_lnot_ones (x k : Z) :
  0 <= k -> Z.land x (Z.lnot (Z.ones k)) = 2 ^ k * (x / 2 ^ k).
Proof.
  intros Hk.
  rewrite <- Z.ldiff_land, Z.ldiff_ones_r by lia.
  rewrite Z.shiftl_mul_pow2, Z.shiftr_div_pow2 by lia. lia.
Qed.

(** A value below [2^k] or-ed onto a multiple of [2^k] is their sum. *)
Lemma lor_low_high (a b k : Z) :
  0 <= k -> 0 <= a < 2 ^ k -> Z.lor a (2 ^ k * b) = a + 2 ^ k * b.
Proof.
  intros Hk Ha.
  assert (Hdisj : Z.land a (2 ^ k * b) = 0).
  { apply Z.bits_inj'. intros n Hn.
    rewrite Z.land_spec, Z.bits_0.
    destruct (Z_lt_le_dec n k) as [Hlt|Hge].
    - rewrite Z.mul_comm, Z.mul_pow2_bits_low by lia.
      apply andb_false_r.
    - replace (Z.testbit a n) with false; [reflexivity|].
      symmetry. destruct (Z.eq_dec a 0) as [->|Hnz].
      + apply Z.bits_0.
      + apply Z.bits_above_log2; [lia|].
        apply Z.log2_lt_pow2; [lia|].
        apply Z.lt_le_trans with (2 ^ k); [lia|].
        apply Z.pow_le_mono_r; lia. }
  rewrite <- Z.lxor_lor by exact Hdisj.
  symmetry. apply Z.add_nocarry_lxor. exact Hdisj.
Qed.

Lemma advance_bank_spec (k reg delta : Z) :
  0 <= k <= 32 ->
  Z.lor (Z.land (wrap_int (reg + delta)) (Z.ones k))
        (Z.land reg (Z.lnot (Z.ones k)))
  = advance_bank k reg delta.
Proof.
  intros Hk. unfold advance_bank.
  rewrite land_wrap_int_ones, land_lnot_ones by lia.
  apply lor_low_high; [lia|].
  apply Z.mod_pos_bound. apply Z.pow_pos_nonneg; lia.
Qed.

Lemma advance_bank_high (k reg delta : Z) :
  0 <= k -> advance_bank k reg delta / 2 ^ k = reg / 2 ^ k.
Proof.
  intros Hk. unfold advance_bank.
  assert (Hpos : 0 < 2 ^ k) by (apply Z.pow_pos_nonneg; lia).
  replace (2 ^ k * (reg / 2 ^ k)) with (reg / 2 ^ k * 2 ^ k) by lia.
  rewrite Z.div_add by lia.
  rewrite Z.div_small by (apply Z.mod_pos_bound; lia). lia.
Qed.

Lemma advance_bank_low (k reg delta : Z) :
  0 <= k -> advance_bank k reg delta mod 2 ^ k = (reg + delta) mod 2 ^ k.
Proof.
  intros Hk. unfold advance_bank.
  assert (Hpos : 0 < 2 ^ k) by (apply Z.pow_pos_nonneg; lia).
  rewrite Z.mul_comm, Z_mod_plus_full, Z.mod_mod by lia. reflexivity.
Qed.

Lemma advance_bank_cancel (k reg d d' : Z) :
  0 <= k -> (d + d') mod 2 ^ k = 0 ->
  advance_bank k (advance_bank k reg d) d' = reg.
Proof.
  intros Hk Hd.
  assert (Hpos : 0 < 2 ^ k) by (apply Z.pow_pos_nonneg; lia).
  unfold advance_bank at 1.
  rewrite advance_bank_high by lia.
  rewrite Zplus_mod, advance_bank_low by lia.
  rewrite <- Zplus_mod.
  replace (reg + d + d') with (reg + (d + d')) by lia.
  rewrite Zplus_mod, Hd, Z.add_0_r, Z.mod_mod by lia.
  rewrite Z.add_comm. symmetry. apply Z.div_mod. lia.
Qed.

Lemma neg_cancel_mod (d k : Z) : 0 <= k -> (d + - d) mod 2 ^ k = 0.
Proof. intros _. now rewrite Z.add_opp_diag_r. Qed.

Lemma neg_wrap_cancel_mod (d k : Z) :
  0 <= k <= 32 -> (d + wrap_int (- d)) mod 2 ^ k = 0.
Proof.
  intros Hk.
  assert (Hpos : 0 < 2 ^ k) by (apply Z.pow_pos_nonneg; lia).
  rewrite Zplus_mod, wrap_int_mod_pow2, <- Zplus_mod by lia.
  now rewrite Z.add_opp_diag_r.
Qed.

End BankArith.

Lemma vfp_advance_sreg_bank (reg delta : Z) :
  vfp_advance_sreg reg delta = advance_bank 3 reg delta.
Proof. apply (advance_bank_spec 3); lia. Qed.

Lemma vfp_advance_dreg_bank (reg delta : Z) :
  vfp_advance_dreg reg delta = advance_bank 2 reg delta.
Proof. apply (advance_bank_spec 2); lia. Qed.

(** C8.  Advancing an S or D register by [d] and then by [-d] gives the
    register back, and an advance changes nothing above the low 3 bits
    (single precision) or the low 2 bits (double precision) of the index. *)
Theorem vfp_advance_roundtrip_and_bank :
  forall reg d : Z,
    vfp_advance_sreg (vfp_advance_sreg reg d) (- d) = reg /\
    vfp_advance_dreg (vfp_advance_dreg reg d) (- d) = reg /\
    (forall n, 3 <= n ->
       Z.testbit (vfp_advance_sreg reg d) n = Z.testbit reg n) /\
    (forall n, 2 <= n ->
       Z.testbit (vfp_advance_dreg reg d) n = Z.testbit reg n).
Proof.
  intros reg d.
  rewrite !vfp_advance_sreg_bank, !vfp_advance_dreg_bank.
  repeat split.
  - apply advance_bank_cancel; [lia|]. apply neg_cancel_mod. lia.
  - apply advance_bank_cancel; [lia|]. apply neg_cancel_mod. lia.
  - intros n Hn.
    replace n with ((n - 3) + 3) by lia.
    rewrite <- !Z.shiftr_spec, !Z.shiftr_div_pow2 by lia.
    now rewrite advance_bank_high by lia.
  - intros n Hn.
    replace n with ((n - 2) + 2) by lia.
    rewrite <- !Z.shiftr_spec, !Z.shiftr_div_pow2 by lia.
    now rewrite advance_bank_high by lia.
Qed.

(** ** The emission monad *)

Lemma bind_Some {A B} (m : Gen A) (k : A -> Gen B) g a g1 o1 :
  m g = Some (a, g1, o1) ->
  bind m k g =
  match k a g1 with
  | None => None
  | Some (b, g2, o2) => Some (b, g2, o1 ++ o2)
  end.
Proof. intros H. unfold bind. now rewrite H. Qed.

Lemma bind_inv {A B} (m : Gen A) (k : A -> Gen B) g b g2 o :
  bind m k g = Some (b, g2, o) ->
  exists a g1 o1 o2,
    m g = Some (a, g1, o1) /\ k a g1 = Some (b, g2, o2) /\ o = o1 ++ o2.
Proof.
  unfold bind. destruct (m g) as [[[a g1] o1]|]; [|discriminate].
  destruct (k a g1) as [[[b' g2'] o2]|] eqn:E; [|discriminate].
  intros H. inversion H; subst. exists a, g1, o1, o2. repeat split.
  exact E.
Qed.

Lemma emitted_Some {A} (m : Gen A) g a g1 o :
  m g = Some (a, g1, o) -> emitted m g = Some (a, o).
Proof. intros H. unfold emitted. now rewrite H. Qed.

(** Symbolic evaluation of a translation: unfold the monad, the primitives
    and the access check, and reduce the projections of the (destructed)
    translation state. *)
Ltac gen_eval :=
  cbv beta iota zeta delta
    [bind ret emit get_s update_s when assert abort emitted
     tcg_temp_new tcg_temp_free gen_new_label call_tcg
     load_cpu_field store_cpu_field tcg_const load_reg store_reg
     add_reg_for_lit fpstatus_ptr gen_exception_insn unallocated_encoding
     gen_lookup_tb gen_set_nzcv gen_set_label_opt
     vfp_load_reg32 vfp_store_reg32 vfp_load_reg64 vfp_store_reg64
     gen_aa32_ld_i32 gen_aa32_st_i32 gen_aa32_ld32u gen_aa32_st32
     gen_aa32_ld64 gen_aa32_st64
     gen_preserve_fp_state full_vfp_access_check vfp_access_check
     dc tcg cfg v7m_lspact v8m_fpccr_s_wrong v7m_new_fp_ctxt_needed is_jmp
     set_v7m_lspact set_v8m_fpccr_s_wrong set_v7m_new_fp_ctxt_needed
     set_is_jmp next_temp next_label];
  cbn [app fst snd negb andb orb].

Ltac gen_eval_in H :=
  cbv beta iota zeta delta
    [bind ret emit get_s update_s when assert abort emitted
     tcg_temp_new tcg_temp_free gen_new_label call_tcg
     load_cpu_field store_cpu_field tcg_const load_reg store_reg
     add_reg_for_lit fpstatus_ptr gen_exception_insn unallocated_encoding
     gen_lookup_tb gen_set_nzcv gen_set_label_opt
     vfp_load_reg32 vfp_store_reg32 vfp_load_reg64 vfp_store_reg64
     gen_aa32_ld_i32 gen_aa32_st_i32 gen_aa32_ld32u gen_aa32_st32
     gen_aa32_ld64 gen_aa32_st64
     gen_preserve_fp_state full_vfp_access_check vfp_access_check
     dc tcg cfg v7m_lspact v8m_fpccr_s_wrong v7m_new_fp_ctxt_needed is_jmp
     set_v7m_lspact set_v8m_fpccr_s_wrong set_v7m_new_fp_ctxt_needed
     set_is_jmp next_temp next_label] in H;
  cbn [app fst snd negb andb orb] in H.

(** ** The access check *)

(** The check does not touch the fixed part of the context. *)
Lemma full_vfp_access_check_cfg ign g b g1 pre :
  full_vfp_access_check ign g = Some (b, g1, pre) ->
  cfg (dc g1) = cfg (dc g).
Proof.
  destruct g as [[c l w n j] [nt nl]].
  intros H. gen_eval_in H.
  repeat (match type of H with
          | context [if ?b then _ else _] => destruct b
          end;
          gen_eval_in H; try discriminate H);
    inversion H; reflexivity.
Qed.

Lemma vfp_access_check_cfg g b g1 pre :
  vfp_access_check g = Some (b, g1, pre) -> cfg (dc g1) = cfg (dc g).
Proof. apply full_vfp_access_check_cfg. Qed.

(** On a core that is not M-profile a passing check emits nothing and
    leaves the translation state alone. *)
Lemma full_vfp_access_check_not_M ign g :
  ARM_FEATURE_M (cfg (dc g)) = false ->
  fp_excp_el (cfg (dc g)) = 0 ->
  vfp_enabled (cfg (dc g)) || ign = true ->
  full_vfp_access_check ign g = Some (true, g, []).
Proof.
  destruct g as [[c l w n j] [nt nl]].
  cbn [dc cfg]. intros HM Hel Hen.
  gen_eval. rewrite Hel, HM. cbn.
  destruct (vfp_enabled c), ign; cbn in *; try discriminate; reflexivity.
Qed.

(** As [gen_eval], but the access check is kept folded so that a hypothesis
    about its result can be used. *)
Ltac gen_eval_body :=
  cbv beta iota zeta delta
    [bind ret emit get_s update_s when assert abort emitted
     tcg_temp_new tcg_temp_free gen_new_label call_tcg
     load_cpu_field store_cpu_field tcg_const load_reg store_reg
     add_reg_for_lit fpstatus_ptr gen_exception_insn unallocated_encoding
     gen_lookup_tb gen_set_nzcv gen_set_label_opt
     vfp_load_reg32 vfp_store_reg32 vfp_load_reg64 vfp_store_reg64
     gen_aa32_ld_i32 gen_aa32_st_i32 gen_aa32_ld32u gen_aa32_st32
     gen_aa32_ld64 gen_aa32_st64
     dc tcg cfg v7m_lspact v8m_fpccr_s_wrong v7m_new_fp_ctxt_needed is_jmp
     set_v7m_lspact set_v8m_fpccr_s_wrong set_v7m_new_fp_ctxt_needed
     set_is_jmp next_temp next_label];
  cbn [app fst snd negb andb orb].

Ltac gen_eval_body_in H :=
  cbv beta iota zeta delta
    [bind ret emit get_s update_s when assert abort emitted
     tcg_temp_new tcg_temp_free gen_new_label call_tcg
     load_cpu_field store_cpu_field tcg_const load_reg store_reg
     add_reg_for_lit fpstatus_ptr gen_exception_insn unallocated_encoding
     gen_lookup_tb gen_set_nzcv gen_set_label_opt
     vfp_load_reg32 vfp_store_reg32 vfp_load_reg64 vfp_store_reg64
     gen_aa32_ld_i32 gen_aa32_st_i32 gen_aa32_ld32u gen_aa32_st32
     gen_aa32_ld64 gen_aa32_st64
     dc tcg cfg v7m_lspact v8m_fpccr_s_wrong v7m_new_fp_ctxt_needed is_jmp
     set_v7m_lspact set_v8m_fpccr_s_wrong set_v7m_new_fp_ctxt_needed
     set_is_jmp next_temp next_label] in H;
  cbn [app fst snd negb andb orb] in H.

(** Decide the conditions a translation is stuck on, one at a time, and
    drop the branches that contradict the hypothesis. *)
Ltac destruct_cond b :=
  lazymatch b with
  | (if ?c then _ else _) => destruct_cond c
  | negb ?c => destruct_cond c
  | andb ?c _ => destruct_cond c
  | orb ?c _ => destruct_cond c
  | _ => destruct b
  end.

Ltac gen_cases H :=
  repeat (match type of H with
          | context [if ?b then _ else _] => destruct_cond b
          end;
          gen_eval_body_in H; try discriminate H).

(** ** Writes to the identification registers *)

(** C10.  On a core that is not M-profile, a VMSR to FPSID, MVFR0, MVFR1 or
    MVFR2 that is legal and passes the access check appends no operation at
    all and leaves the translation state as it was, so running what it
    emitted changes no processor state; the handler reports the instruction
    as handled. *)
Theorem vmsr_id_register_write_ignored :
  forall (ext : Externals) (a : arg_VMSR_VMRS) (g : GenState),
    ARM_FEATURE_M (cfg (dc g)) = false ->
    vmsr_l a = false ->
    vmsr_id_register_legal (dc g) (vmsr_reg a) = true ->
    fp_excp_el (cfg (dc g)) = 0 ->
    trans_VMSR_VMRS a g = Some ((true, a), g, []) /\
    emitted (trans_VMSR_VMRS a) g = Some ((true, a), []) /\
    forall m, run ext [] m = m.
Proof.
  intros ext [l rt reg] g HM Hl Hlegal Hel.
  cbn [vmsr_l vmsr_reg] in *. subst l.
  assert (Hchk : full_vfp_access_check true g = Some (true, g, [])).
  { apply full_vfp_access_check_not_M; auto using orb_true_r. }
  assert (Hres :
    trans_VMSR_VMRS {| vmsr_l := false; vmsr_rt := rt; vmsr_reg := reg |} g
    = Some ((true, {| vmsr_l := false; vmsr_rt := rt; vmsr_reg := reg |}),
            g, [])).
  { unfold trans_VMSR_VMRS, vmsr_id_register_legal in *.
    destruct g as [[c lz w n j] [nt nl]].
    cbn [dc cfg vmsr_l vmsr_rt vmsr_reg] in *.
    apply andb_true_iff in Hlegal as [Hv2 Hreg].
    unfold bind at 1, get_s. cbn [dc cfg].
    rewrite HM, Hv2. cbn [negb].
    unfold VMSR_VMRS_legality, VMSR_body.
    destruct reg; try discriminate Hreg;
      cbn [vmsr_reg vmsr_l dc cfg] in *;
      apply negb_true_iff in Hreg; rewrite Hreg;
      rewrite (bind_Some _ _ _ _ _ _ Hchk); reflexivity. }
  split; [exact Hres|]. split.
  - unfold emitted. now rewrite Hres.
  - reflexivity.
Qed.

Lemma vmsr_id_register_write_ignored_witness :
  (ARM_FEATURE_M (cfg (dc (gen_start (cfg_vfpv3 0 0) false))) = false /\
   vmsr_l arg_vmsr_mvfr0 = false /\
   vmsr_id_register_legal (dc (gen_start (cfg_vfpv3 0 0) false))
                          (vmsr_reg arg_vmsr_mvfr0) = true /\
   fp_excp_el (cfg (dc (gen_start (cfg_vfpv3 0 0) false))) = 0) /\
  trans_VMSR_VMRS arg_vmsr_mvfr0 (gen_start (cfg_vfpv3 0 0) false)
  = Some ((true, arg_vmsr_mvfr0), gen_start (cfg_vfpv3 0 0) false, []).
Proof.
  split; [repeat split|].
  apply (vmsr_id_register_write_ignored
           ext_simple arg_vmsr_mvfr0 (gen_start (cfg_vfpv3 0 0) false));
    reflexivity.
Defined.

(** ** Handlers that write to their argument record *)












(** ** Fused multiply-add *)

Lemma do_vfm_hp_sequence a neg_n neg_d g g1 pre :
  aa32_fp16_arith (cfg (dc g)) = true ->
  aa32_simdfmac (cfg (dc g)) = true ->
  aa32_fpsp_v2 (cfg (dc g)) = true ->
  vec_len (cfg (dc g)) = 0 -> vec_stride (cfg (dc g)) = 0 ->
  vfp_access_check g = Some (true, g1, pre) ->
  let t := next_temp (tcg g1) in
  do_vfm_hp a neg_n neg_d g
  = Some (true,
          {| dc := dc g1;
             tcg := {| next_temp := 4 + t;
                       next_label := next_label (tcg g1) |} |},
          pre ++
          [op_vfp_load_reg32 t (vfm_vn a); op_vfp_load_reg32 (S t) (vfm_vm a)]
          ++ (if neg_n then [op_helper_fp helper_vfp_negh t [t] None] else [])
          ++ [op_vfp_load_reg32 (S (S t)) (vfm_vd a)]
          ++ (if neg_d
              then [op_helper_fp helper_vfp_negh (S (S t)) [S (S t)] None]
              else [])
          ++ [op_fpstatus_ptr (S (S (S t))) FPST_FPCR_F16;
              op_helper_fp helper_vfp_muladdh (S (S t)) [t; S t; S (S t)]
                           (Some (S (S (S t))));
              op_vfp_store_reg32 (S (S t)) (vfm_vd a)]).
Proof.
  destruct g as [[c l w n j] [nt nl]]. destruct g1 as [s1 [nt1 nl1]].
  cbn [dc cfg tcg next_temp next_label].
  intros H16 Hfma Hsp Hlen Hstr Hchk.
  unfold do_vfm_hp. gen_eval_body.
  rewrite H16, Hfma, Hsp, Hlen, Hstr. cbn [negb orb Z.eqb].
  rewrite Hchk. gen_eval_body.
  destruct neg_n, neg_d; gen_eval_body; reflexivity.
Qed.

Lemma do_vfm_sp_sequence a neg_n neg_d g g1 pre :
  aa32_simdfmac (cfg (dc g)) = true ->
  aa32_fpsp_v2 (cfg (dc g)) = true ->
  vec_len (cfg (dc g)) = 0 -> vec_stride (cfg (dc g)) = 0 ->
  vfp_access_check g = Some (true, g1, pre) ->
  let t := next_temp (tcg g1) in
  do_vfm_sp a neg_n neg_d g
  = Some (true,
          {| dc := dc g1;
             tcg := {| next_temp := 4 + t;
                       next_label := next_label (tcg g1) |} |},
          pre ++
          [op_vfp_load_reg32 t (vfm_vn a); op_vfp_load_reg32 (S t) (vfm_vm a)]
          ++ (if neg_n then [op_helper_fp helper_vfp_negs t [t] None] else [])
          ++ [op_vfp_load_reg32 (S (S t)) (vfm_vd a)]
          ++ (if neg_d
              then [op_helper_fp helper_vfp_negs (S (S t)) [S (S t)] None]
              else [])
          ++ [op_fpstatus_ptr (S (S (S t))) FPST_FPCR;
              op_helper_fp helper_vfp_muladds (S (S t)) [t; S t; S (S t)]
                           (Some (S (S (S t))));
              op_vfp_store_reg32 (S (S t)) (vfm_vd a)]).
Proof.
  destruct g as [[c l w n j] [nt nl]]. destruct g1 as [s1 [nt1 nl1]].
  cbn [dc cfg tcg next_temp next_label].
  intros Hfma Hsp Hlen Hstr Hchk.
  unfold do_vfm_sp. gen_eval_body.
  rewrite Hfma, Hsp, Hlen, Hstr. cbn [negb orb Z.eqb].
  rewrite Hchk. gen_eval_body.
  destruct neg_n, neg_d; gen_eval_body; reflexivity.
Qed.

Lemma do_vfm_dp_sequence a neg_n neg_d g g1 pre :
  aa32_simdfmac (cfg (dc g)) = true ->
  aa32_fpdp_v2 (cfg (dc g)) = true ->
  aa32_simd_r32 (cfg (dc g)) = true \/
  Z.land (Z.lor (Z.lor (vfm_vd a) (vfm_vn a)) (vfm_vm a)) 16 = 0 ->
  vec_len (cfg (dc g)) = 0 -> vec_stride (cfg (dc g)) = 0 ->
  vfp_access_check g = Some (true, g1, pre) ->
  let t := next_temp (tcg g1) in
  do_vfm_dp a neg_n neg_d g
  = Some (true,
          {| dc := dc g1;
             tcg := {| next_temp := 4 + t;
                       next_label := next_label (tcg g1) |} |},
          pre ++
          [op_vfp_load_reg64 t (vfm_vn a); op_vfp_load_reg64 (S t) (vfm_vm a)]
          ++ (if neg_n then [op_helper_fp helper_vfp_negd t [t] None] else [])
          ++ [op_vfp_load_reg64 (S (S t)) (vfm_vd a)]
          ++ (if neg_d
              then [op_helper_fp helper_vfp_negd (S (S t)) [S (S t)] None]
              else [])
          ++ [op_fpstatus_ptr (S (S (S t))) FPST_FPCR;
              op_helper_fp helper_vfp_muladdd (S (S t)) [t; S t; S (S t)]
                           (Some (S (S (S t))));
              op_vfp_store_reg64 (S (S t)) (vfm_vd a)]).
Proof.
  destruct g as [[c l w n j] [nt nl]]. destruct g1 as [s1 [nt1 nl1]].
  cbn [dc cfg tcg next_temp next_label].
  intros Hfma Hdp Hreg Hlen Hstr Hchk.
  unfold do_vfm_dp. gen_eval_body.
  rewrite Hfma, Hdp, Hlen, Hstr. cbn [negb orb Z.eqb].
  replace (negb (aa32_simd_r32 c) &&
           negb (Z.land (Z.lor (Z.lor (vfm_vd a) (vfm_vn a)) (vfm_vm a)) 16
                 =? 0)) with false.
  2:{ destruct Hreg as [-> | ->]; [reflexivity|].
      cbn [Z.eqb negb]. now rewrite andb_false_r. }
  rewrite Hchk. gen_eval_body.
  destruct neg_n, neg_d; gen_eval_body; reflexivity.
Qed.

(** C3.  Each of VFMA, VFMS, VFNMA and VFNMS, in half, single and double
    precision, is accepted when the core has the fused multiply-add and the
    precision it needs (and, in double precision on a core with 16 D
    registers, names no register above d15) and short vectors are off; when
    the access check passes, the handler returns [true] and what it appends
    after the access-check code is exactly the sequence of the design:
    operands loaded, the first multiplicand negated by a separate operation
    for VFMS and VFNMS, the accumulator negated by a separate operation for
    VFNMA and VFNMS, then one fused multiply-add call whose multiplicands
    are the two non-accumulator operands and whose accumulator is the
    (possibly negated) destination, then the store of the destination. *)
Theorem fused_multiply_add_sequence :
  forall (i : vfm_insn) (p : precision) (a : arg_VFMA)
         (g g1 : GenState) (pre : list tcg_op),
    aa32_simdfmac (cfg (dc g)) = true ->
    match p with
    | HP => aa32_fp16_arith (cfg (dc g)) = true /\
            aa32_fpsp_v2 (cfg (dc g)) = true
    | SP => aa32_fpsp_v2 (cfg (dc g)) = true
    | DP => aa32_fpdp_v2 (cfg (dc g)) = true /\
            (aa32_simd_r32 (cfg (dc g)) = true \/
             Z.land (Z.lor (Z.lor (vfm_vd a) (vfm_vn a)) (vfm_vm a)) 16 = 0)
    end ->
    vec_len (cfg (dc g)) = 0 ->
    vec_stride (cfg (dc g)) = 0 ->
    vfp_access_check g = Some (true, g1, pre) ->
    trans_vfm i p a g
    = Some (true,
            {| dc := dc g1;
               tcg := {| next_temp := 4 + next_temp (tcg g1);
                         next_label := next_label (tcg g1) |} |},
            pre ++ spec_fused_sequence p i a (next_temp (tcg g1))).
Proof.
  intros i p a g g1 pre Hfma Hp Hlen Hstr Hchk.
  destruct p; [destruct Hp as [H16 Hsp] | | destruct Hp as [Hdp Hreg]];
    destruct i; cbn [trans_vfm];
    unfold trans_VFMA_hp, trans_VFMS_hp, trans_VFNMA_hp, trans_VFNMS_hp,
      trans_VFMA_sp, trans_VFMS_sp, trans_VFNMA_sp, trans_VFNMS_sp,
      trans_VFMA_dp, trans_VFMS_dp, trans_VFNMA_dp, trans_VFNMS_dp;
    first [ exact (do_vfm_hp_sequence _ _ _ _ _ _ H16 Hfma Hsp Hlen Hstr Hchk)
          | exact (do_vfm_sp_sequence _ _ _ _ _ _ Hfma Hp Hlen Hstr Hchk)
          | exact (do_vfm_dp_sequence _ _ _ _ _ _ Hfma Hdp Hreg Hlen Hstr
                                      Hchk) ].
Qed.

Lemma fused_multiply_add_sequence_witness :
  trans_vfm VFMA HP arg_vfm_example (gen_start (cfg_vfpv3 0 0) false)
  = Some (true,
          {| dc := dc (gen_start (cfg_vfpv3 0 0) false);
             tcg := {| next_temp := 4; next_label := 0 |} |},
          [op_vfp_load_reg32 0%nat 5; op_vfp_load_reg32 1%nat 7;
           op_vfp_load_reg32 2%nat 2;
           op_fpstatus_ptr 3%nat FPST_FPCR_F16;
           op_helper_fp helper_vfp_muladdh 2%nat [0%nat; 1%nat; 2%nat]
                        (Some 3%nat);
           op_vfp_store_reg32 2%nat 2]) /\
  trans_vfm VFMS SP arg_vfm_example (gen_start (cfg_vfpv3 0 0) false)
  = Some (true,
          {| dc := dc (gen_start (cfg_vfpv3 0 0) false);
             tcg := {| next_temp := 4; next_label := 0 |} |},
          [op_vfp_load_reg32 0%nat 5; op_vfp_load_reg32 1%nat 7;
           op_helper_fp helper_vfp_negs 0%nat [0%nat] None;
           op_vfp_load_reg32 2%nat 2;
           op_fpstatus_ptr 3%nat FPST_FPCR;
           op_helper_fp helper_vfp_muladds 2%nat [0%nat; 1%nat; 2%nat]
                        (Some 3%nat);
           op_vfp_store_reg32 2%nat 2]) /\
  trans_vfm VFNMA DP arg_vfm_example (gen_start (cfg_vfpv3 0 0) false)
  = Some (true,
          {| dc := dc (gen_start (cfg_vfpv3 0 0) false);
             tcg := {| next_temp := 4; next_label := 0 |} |},
          [op_vfp_load_reg64 0%nat 5; op_vfp_load_reg64 1%nat 7;
           op_vfp_load_reg64 2%nat 2;
           op_helper_fp helper_vfp_negd 2%nat [2%nat] None;
           op_fpstatus_ptr 3%nat FPST_FPCR;
           op_helper_fp helper_vfp_muladdd 2%nat [0%nat; 1%nat; 2%nat]
                        (Some 3%nat);
           op_vfp_store_reg64 2%nat 2]) /\
  trans_vfm VFNMS SP arg_vfm_example (gen_start (cfg_vfpv3 0 0) false)
  = Some (true,
          {| dc := dc (gen_start (cfg_vfpv3 0 0) false);
             tcg := {| next_temp := 4; next_label := 0 |} |},
          [op_vfp_load_reg32 0%nat 5; op_vfp_load_reg32 1%nat 7;
           op_helper_fp helper_vfp_negs 0%nat [0%nat] None;
           op_vfp_load_reg32 2%nat 2;
           op_helper_fp helper_vfp_negs 2%nat [2%nat] None;
           op_fpstatus_ptr 3%nat FPST_FPCR;
           op_helper_fp helper_vfp_muladds 2%nat [0%nat; 1%nat; 2%nat]
                        (Some 3%nat);
           op_vfp_store_reg32 2%nat 2]).
Proof.
  split; [|split; [|split]].
  - apply (fused_multiply_add_sequence VFMA HP arg_vfm_example
             (gen_start (cfg_vfpv3 0 0) false)
             (gen_start (cfg_vfpv3 0 0) false) []);
      try reflexivity. split; reflexivity.
  - apply (fused_multiply_add_sequence VFMS SP arg_vfm_example
             (gen_start (cfg_vfpv3 0 0) false)
             (gen_start (cfg_vfpv3 0 0) false) []); reflexivity.
  - apply (fused_multiply_add_sequence VFNMA DP arg_vfm_example
             (gen_start (cfg_vfpv3 0 0) false)
             (gen_start (cfg_vfpv3 0 0) false) []);
      try reflexivity. split; [reflexivity|left; reflexivity].
  - apply (fused_multiply_add_sequence VFNMS SP arg_vfm_example
             (gen_start (cfg_vfpv3 0 0) false)
             (gen_start (cfg_vfpv3 0 0) false) []); reflexivity.
Defined.

(** The conditions of C3 are the ones the handlers test: a fused
    multiply-add is handled ([true]) only on a core that has it in that
    precision, with short vectors off. *)
Lemma trans_vfm_handled_only_when_legal i p a g g2 ops :
  trans_vfm i p a g = Some (true, g2, ops) ->
  aa32_simdfmac (cfg (dc g)) = true /\
  match p with
  | HP => aa32_fp16_arith (cfg (dc g)) = true /\
          aa32_fpsp_v2 (cfg (dc g)) = true
  | SP => aa32_fpsp_v2 (cfg (dc g)) = true
  | DP => aa32_fpdp_v2 (cfg (dc g)) = true /\
          (aa32_simd_r32 (cfg (dc g)) = true \/
           Z.land (Z.lor (Z.lor (vfm_vd a) (vfm_vn a)) (vfm_vm a)) 16 = 0)
  end /\
  vec_len (cfg (dc g)) = 0 /\ vec_stride (cfg (dc g)) = 0.
Proof.
  destruct g as [[c l w n j] [nt nl]]. cbn [dc cfg].
  intros H.
  destruct p, i; cbn [trans_vfm] in H;
    unfold trans_VFMA_hp, trans_VFMS_hp, trans_VFNMA_hp, trans_VFNMS_hp,
      trans_VFMA_sp, trans_VFMS_sp, trans_VFNMA_sp, trans_VFNMS_sp,
      trans_VFMA_dp, trans_VFMS_dp, trans_VFNMA_dp, trans_VFNMS_dp,
      do_vfm_hp, do_vfm_sp, do_vfm_dp in H;
    gen_eval_body_in H;
    destruct (aa32_simdfmac c); cbn [negb orb] in H;
    try (destruct (aa32_fp16_arith c); cbn [negb orb] in H);
    try (destruct (aa32_fpsp_v2 c); cbn [negb orb] in H);
    try (destruct (aa32_fpdp_v2 c); cbn [negb orb] in H);
    try discriminate H;
    destruct (vec_len c =? 0) eqn:El; cbn [negb orb] in H;
    try discriminate H;
    destruct (vec_stride c =? 0) eqn:Es; cbn [negb orb] in H;
    try discriminate H;
    apply Z.eqb_eq in El, Es;
    try (destruct (aa32_simd_r32 c); cbn [negb andb] in H;
         [|destruct (Z.land (Z.lor (Z.lor (vfm_vd a) (vfm_vn a)) (vfm_vm a))
                            16 =? 0) eqn:Er;
           cbn [negb] in H; [apply Z.eqb_eq in Er|discriminate H]]);
    repeat split; auto.
Qed.

(** ** Generic 3-operand template, single precision *)

Lemma u32_mod_pow2 (x k : Z) : 0 <= k <= 32 -> u32 x mod 2 ^ k = x mod 2 ^ k.
Proof.
  intros Hk. unfold u32.
  assert (E32 : 2 ^ 32 = 2 ^ k * 2 ^ (32 - k)).
  { rewrite <- Z.pow_add_r by lia. f_equal. lia. }
  assert (Hpos : 0 < 2 ^ k) by (apply Z.pow_pos_nonneg; lia).
  assert (Hpos' : 0 < 2 ^ (32 - k)) by (apply Z.pow_pos_nonneg; lia).
  rewrite E32, Z.rem_mul_r by lia.
  rewrite (Z.mul_comm (2 ^ k)), Z_mod_plus_full, Z.mod_mod by lia.
  reflexivity.
Qed.

Lemma advance_bank_wrap k reg d :
  0 <= k <= 32 ->
  advance_bank k reg (wrap_int (u32 d)) = advance_bank k reg d.
Proof.
  intros Hk. unfold advance_bank. f_equal.
  assert (Hpos : 0 < 2 ^ k) by (apply Z.pow_pos_nonneg; lia).
  rewrite Zplus_mod, wrap_int_mod_pow2, u32_mod_pow2 by lia.
  now rewrite <- Zplus_mod.
Qed.

Lemma vfp_advance_sreg_wrap reg d :
  vfp_advance_sreg reg (wrap_int (u32 d)) = vfp_advance_sreg reg d.
Proof.
  rewrite !vfp_advance_sreg_bank. apply advance_bank_wrap. lia.
Qed.

Ltac mcbv :=
  cbv beta iota zeta delta
    [bind when ret emit vfp_load_reg32 vfp_store_reg32 call_tcg dc tcg];
  cbn [app negb].









(** The example of the design document, evaluated: four iterations touching
    s8..s11, the sources advancing alongside; and a scalar destination gives
    one iteration whatever the vector length. *)
Example do_vfp_3op_sp_four_iterations :
  emitted (do_vfp_3op_sp fn_or 8 16 24 true)
          (gen_start (cfg_vfpv3 3 0) false)
  = Some (true, example_3op_ops) /\
  emitted (do_vfp_3op_sp fn_or 3 16 24 false)
          (gen_start (cfg_vfpv3 7 0) false)
  = Some (true,
          [op_fpstatus_ptr 3%nat FPST_FPCR;
           op_vfp_load_reg32 0%nat 16; op_vfp_load_reg32 1%nat 24;
           op_or 2%nat 0%nat 1%nat; op_vfp_store_reg32 2%nat 3]).
Proof. split; reflexivity. Qed.

(** ** System-register reads: the value is stored before any reset *)

Lemma gen_preserve_fp_state_ops g :
  exists g' o,
    gen_preserve_fp_state g = Some (tt, g', o) /\
    tcg g' = tcg g /\ cfg (dc g') = cfg (dc g) /\ no_reset o = true.
Proof.
  destruct g as [[c l w n j] t].
  unfold gen_preserve_fp_state. gen_eval_body.
  destruct l; gen_eval_body; [destruct (CF_USE_ICOUNT c)|]; gen_eval_body;
    eexists; eexists; repeat split.
Qed.

Lemma no_reset_app l1 l2 :
  no_reset (l1 ++ l2) = no_reset l1 && no_reset l2.
Proof. apply forallb_app. Qed.

Lemma gen_M_fp_sysreg_read_fpcxt_s {O} (storefn : O -> temp -> Gen unit)
    (opaque : O) g g1 pre r g2 ops :
  fp_sysreg_checks ARM_VFP_FPCXT_S g
  = Some (FPSysRegCheckContinue, g1, pre) ->
  gen_M_fp_sysreg_read ARM_VFP_FPCXT_S storefn opaque g
  = Some (r, g2, ops) ->
  exists compute sink reset tmp control fpscr gs gs',
    ops = pre ++ compute ++ sink ++ reset /\
    storefn opaque tmp gs = Some (tt, gs', sink) /\
    no_reset compute = true /\
    In (op_st_field (v7m_control M_REG_S) control) reset /\
    In (op_helper_vfp_set_fpscr fpscr) reset.
Proof.
  intros Hchk H. unfold gen_M_fp_sysreg_read in H.
  rewrite (bind_Some _ _ _ _ _ _ Hchk) in H.
  destruct g1 as [s1 [nt1 nl1]].
  gen_eval_body_in H.
  match type of H with
  | context [storefn opaque ?t ?gs] =>
      destruct (storefn opaque t gs) as [[[[] gs'] sink]|] eqn:Est;
        [|discriminate H]
  end.
  destruct gs' as [[c' l' w' n' j'] [nt' nl']].
  gen_eval_body_in H. inversion H; subst; clear H.
  exists [op_helper_vfp_get_fpscr nt1;
          op_andi nt1 nt1 (Z.lnot FPCR_NZCV_MASK);
          op_ld_field (S (S nt1)) (v7m_control M_REG_S);
          op_andi (S nt1) (S (S nt1)) R_V7M_CONTROL_SFPA_MASK;
          op_shli (S nt1) (S nt1) (31 - R_V7M_CONTROL_SFPA_SHIFT);
          op_or nt1 nt1 (S nt1)],
    sink,
    [op_andi (S (S nt1)) (S (S nt1)) (Z.lnot R_V7M_CONTROL_SFPA_MASK);
     op_st_field (v7m_control M_REG_S) (S (S nt1));
     op_ld_field nt' (v7m_fpdscr M_REG_NS);
     op_helper_vfp_set_fpscr nt';
     op_movi_pc (pc_next c')],
    nt1, (S (S nt1)), nt'.
  eexists. eexists.
  split; [|split; [exact Est|]].
  - cbn [app]. rewrite <- app_assoc. reflexivity.
  - cbn. auto 10.
Qed.

Lemma gen_M_fp_sysreg_read_fpcxt_ns {O} (storefn : O -> temp -> Gen unit)
    (opaque : O) g g1 pre r g2 ops :
  fp_sysreg_checks ARM_VFP_FPCXT_NS g
  = Some (FPSysRegCheckContinue, g1, pre) ->
  gen_M_fp_sysreg_read ARM_VFP_FPCXT_NS storefn opaque g
  = Some (r, g2, ops) ->
  exists before sink_inactive mid sink_active reset
         tmp_i tmp_a fpscr gs_i gs_i' gs_a gs_a',
    ops = pre ++ before ++ sink_inactive ++ mid ++ sink_active ++ reset /\
    storefn opaque tmp_i gs_i = Some (tt, gs_i', sink_inactive) /\
    storefn opaque tmp_a gs_a = Some (tt, gs_a', sink_active) /\
    no_reset before = true /\
    no_reset mid = true /\
    In (op_helper_vfp_set_fpscr fpscr) reset.
Proof.
  intros Hchk H. unfold gen_M_fp_sysreg_read in H.
  rewrite (bind_Some _ _ _ _ _ _ Hchk) in H.
  destruct g1 as [s1 [nt1 nl1]].
  unfold gen_branch_fpInactive in H.
  gen_eval_body_in H.
  match type of H with
  | context [storefn opaque ?t ?gs] =>
      destruct (storefn opaque t gs) as [[[[] gs'] sink]|] eqn:Est;
        [|discriminate H]
  end.
  destruct gs' as [[c' l' w' n' j'] [nt' nl']].
  gen_eval_body_in H.
  match type of H with
  | context [gen_preserve_fp_state ?gs] =>
      destruct (gen_preserve_fp_state_ops gs)
        as ([[c3 l3 w3 n3 j3] t3] & po & Ep & Et & Ec & Hpo)
  end.
  rewrite Ep in H. cbn [tcg dc cfg] in Et, Ec. subst t3 c3.
  gen_eval_body_in H.
  match type of H with
  | context [storefn opaque ?t ?gs] =>
      destruct (storefn opaque t gs) as [[[[] gs''] sink2]|] eqn:Est2;
        [|discriminate H]
  end.
  destruct gs'' as [[c4 l4 w4 n4 j4] [nt4 nl4]].
  gen_eval_body_in H. inversion H; subst; clear H.
  exists [op_ld_field nt1 (v7m_fpccr M_REG_NS);
          op_ld_field (S nt1) (v7m_control M_REG_S);
          op_andi nt1 nt1 R_V7M_FPCCR_ASPEN_MASK;
          op_xori nt1 nt1 R_V7M_FPCCR_ASPEN_MASK;
          op_andi (S nt1) (S nt1) R_V7M_CONTROL_FPCA_MASK;
          op_or (S nt1) (S nt1) nt1;
          op_brcondi TCG_COND_NE (S nt1) 0 nl1;
          op_ld_field (S (S nt1)) (v7m_fpdscr M_REG_NS)],
    sink,
    ([op_br nl'; op_set_label nl1] ++ po ++
     [op_helper_vfp_get_fpscr (S (S nt'));
      op_andi nt' (S (S nt')) (Z.lnot FPCR_NZCV_MASK);
      op_ld_field (S (S (S nt'))) (v7m_control M_REG_S);
      op_andi (S nt') (S (S (S nt'))) R_V7M_CONTROL_SFPA_MASK;
      op_shli (S nt') (S nt') (31 - R_V7M_CONTROL_SFPA_SHIFT);
      op_or nt' nt' (S nt')]),
    sink2,
    [op_ld_field nt4 (v7m_fpdscr M_REG_NS);
     op_movi (S nt4) 0;
     op_movcond TCG_COND_EQ (S (S nt')) (S nt') (S nt4) nt4 (S (S nt'));
     op_helper_vfp_set_fpscr (S (S nt'));
     op_set_label nl'; op_movi_pc (pc_next c4)],
    (S (S nt1)), nt', (S (S nt')).
  do 4 eexists.
  split; [|split; [exact Est|split; [exact Est2|]]].
  - repeat (first [rewrite <- app_assoc | progress (cbn [app])]).
    reflexivity.
  - split; [reflexivity|]. split.
    + rewrite !no_reset_app, Hpo. reflexivity.
    + cbn. auto 10.
Qed.

(** C6.  A system-register read of FPCXT_S, or of FPCXT_NS, that passes the
    checks hands the value to the sink before it overwrites any FP context
    state: in what the reader appends after the checks, the operations in
    front of the sink's own (for FPCXT_NS: in front of either sink call)
    contain no store to a CPU field and no reload of FPSCR; the clearing of
    CONTROL.SFPA and the reload of FPSCR come after the sink.  This holds
    for every sink callback. *)
Theorem sysreg_read_stores_before_reset :
  forall (O : Type) (storefn : O -> temp -> Gen unit) (opaque : O)
         (g g1 : GenState) (pre : list tcg_op)
         (r : bool) (g2 : GenState) (ops : list tcg_op),
    (fp_sysreg_checks ARM_VFP_FPCXT_S g
     = Some (FPSysRegCheckContinue, g1, pre) ->
     gen_M_fp_sysreg_read ARM_VFP_FPCXT_S storefn opaque g
     = Some (r, g2, ops) ->
     exists compute sink reset tmp control fpscr gs gs',
       ops = pre ++ compute ++ sink ++ reset /\
       storefn opaque tmp gs = Some (tt, gs', sink) /\
       no_reset compute = true /\
       In (op_st_field (v7m_control M_REG_S) control) reset /\
       In (op_helper_vfp_set_fpscr fpscr) reset) /\
    (fp_sysreg_checks ARM_VFP_FPCXT_NS g
     = Some (FPSysRegCheckContinue, g1, pre) ->
     gen_M_fp_sysreg_read ARM_VFP_FPCXT_NS storefn opaque g
     = Some (r, g2, ops) ->
     exists before sink_inactive mid sink_active reset
            tmp_i tmp_a fpscr gs_i gs_i' gs_a gs_a',
       ops = pre ++ before ++ sink_inactive ++ mid ++ sink_active ++ reset /\
       storefn opaque tmp_i gs_i = Some (tt, gs_i', sink_inactive) /\
       storefn opaque tmp_a gs_a = Some (tt, gs_a', sink_active) /\
       no_reset before = true /\
       no_reset mid = true /\
       In (op_helper_vfp_set_fpscr fpscr) reset).
Proof.
  intros O storefn opaque g g1 pre r g2 ops. split.
  - apply gen_M_fp_sysreg_read_fpcxt_s.
  - apply gen_M_fp_sysreg_read_fpcxt_ns.
Qed.

Lemma sysreg_read_stores_before_reset_witness :
  exists r g2 ops,
    (fp_sysreg_checks ARM_VFP_FPCXT_S (gen_start cfg_v8_1m true)
     = Some (FPSysRegCheckContinue,
             {| dc := {| cfg := cfg_v8_1m; v7m_lspact := false;
                         v8m_fpccr_s_wrong := false;
                         v7m_new_fp_ctxt_needed := false;
                         is_jmp := DISAS_NEXT |};
                tcg := {| next_temp := 3; next_label := 0 |} |},
             [op_helper_v7m_preserve_fp_state;
              op_ld_field 0%nat (v7m_fpccr M_REG_S);
              op_ori 0%nat 0%nat 4;
              op_st_field (v7m_fpccr M_REG_S) 0%nat;
              op_ld_field 1%nat (v7m_fpdscr M_REG_S);
              op_helper_vfp_set_fpscr 1%nat;
              op_ld_field 2%nat (v7m_control M_REG_S);
              op_ori 2%nat 2%nat 12;
              op_st_field (v7m_control M_REG_S) 2%nat]) /\
     gen_M_fp_sysreg_read ARM_VFP_FPCXT_S fp_sysreg_to_gpr
                          (arg_vmrs ARM_VFP_FPCXT_S)
                          (gen_start cfg_v8_1m true)
     = Some (r, g2, ops)) /\
    exists compute sink reset tmp control fpscr gs gs',
      ops = [op_helper_v7m_preserve_fp_state;
             op_ld_field 0%nat (v7m_fpccr M_REG_S);
             op_ori 0%nat 0%nat 4;
             op_st_field (v7m_fpccr M_REG_S) 0%nat;
             op_ld_field 1%nat (v7m_fpdscr M_REG_S);
             op_helper_vfp_set_fpscr 1%nat;
             op_ld_field 2%nat (v7m_control M_REG_S);
             op_ori 2%nat 2%nat 12;
             op_st_field (v7m_control M_REG_S) 2%nat]
            ++ compute ++ sink ++ reset /\
      fp_sysreg_to_gpr (arg_vmrs ARM_VFP_FPCXT_S) tmp gs
      = Some (tt, gs', sink) /\
      no_reset compute = true /\
      In (op_st_field (v7m_control M_REG_S) control) reset /\
      In (op_helper_vfp_set_fpscr fpscr) reset.
Proof.
  do 3 eexists. split.
  - split; reflexivity.
  - refine (proj1 (sysreg_read_stores_before_reset
                     arg_VMSR_VMRS fp_sysreg_to_gpr
                     (arg_vmrs ARM_VFP_FPCXT_S)
                     (gen_start cfg_v8_1m true) _ _ _ _ _) _ _);
      reflexivity.
Defined.

(** ** Generic 2-operand template: the double-precision vector loop *)

(** One turn of the vector path of [do_vfp_2op_dp]: the next destination is
    computed from the source register and the source stays where it was. *)
Lemma do_vfp_2op_dp_loop_vector_step fuel fn f0 fd delta_d delta_m
    veclen vd vm :
  veclen <> 0 -> delta_m <> 0 ->
  do_vfp_2op_dp_loop (S fuel) fn f0 fd delta_d delta_m veclen vd vm
  = (call_tcg (fn fd f0) ;;
     vfp_store_reg64 fd vd ;;
     vfp_load_reg64 f0 vm ;;
     do_vfp_2op_dp_loop fuel fn f0 fd delta_d delta_m
       (wrap_int (veclen - 1))
       (vfp_advance_dreg vm (wrap_int delta_m)) vm).
Proof.
  intros Hv Hm. cbn [do_vfp_2op_dp_loop].
  apply Z.eqb_neq in Hv, Hm. now rewrite Hv, Hm.
Qed.

(** The single-precision loop advances both registers. *)
Lemma do_vfp_2op_sp_loop_vector_step fuel fn f0 fd delta_d delta_m
    veclen vd vm :
  veclen <> 0 -> delta_m <> 0 ->
  do_vfp_2op_sp_loop (S fuel) fn f0 fd delta_d delta_m veclen vd vm
  = (call_tcg (fn fd f0) ;;
     vfp_store_reg32 fd vd ;;
     vfp_load_reg32 f0 (vfp_advance_sreg vm (wrap_int delta_m)) ;;
     do_vfp_2op_sp_loop fuel fn f0 fd delta_d delta_m
       (wrap_int (veclen - 1))
       (vfp_advance_sreg vd (wrap_int delta_d))
       (vfp_advance_sreg vm (wrap_int delta_m))).
Proof.
  intros Hv Hm. cbn [do_vfp_2op_sp_loop].
  apply Z.eqb_neq in Hv, Hm. now rewrite Hv, Hm.
Qed.

(** C1.  The double-precision 2-operand template does not advance its
    registers the way the single-precision one does.  With vector length 1
    and stride 0, a VMOV-like operation from d8 to d4 is emitted a second
    time reading d8 again and writing d9 (the source advanced by
    [delta_m]), where the design has it read d9 and write d5; the
    single-precision template on s16, s8 reads s17 and writes s9. *)
Theorem do_vfp_2op_dp_vector_registers :
  emitted (do_vfp_2op_dp fn_mov 4 8) (gen_start (cfg_vfpv3 1 0) false)
  = Some (true,
          [op_vfp_load_reg64 0%nat 8; op_mov 1%nat 0%nat;
           op_vfp_store_reg64 1%nat 4;
           op_vfp_load_reg64 0%nat 8; op_mov 1%nat 0%nat;
           op_vfp_store_reg64 1%nat 9]) /\
  vfp_advance_dreg 4 1 = 5 /\ vfp_advance_dreg 8 1 = 9 /\
  emitted (do_vfp_2op_sp fn_mov 8 16) (gen_start (cfg_vfpv3 1 0) false)
  = Some (true,
          [op_vfp_load_reg32 0%nat 16; op_mov 1%nat 0%nat;
           op_vfp_store_reg32 1%nat 8;
           op_vfp_load_reg32 0%nat 17; op_mov 1%nat 0%nat;
           op_vfp_store_reg32 1%nat 9]).
Proof. repeat split. Qed.

(** ** Running emitted code *)

Lemma run_from_app ext a b rs :
  run_from ext (a ++ b) rs = run_from ext b (run_from ext a rs).
Proof. apply fold_left_app. Qed.

Lemma step_pending ext rs o r :
  pending (env rs) = Some r -> step ext rs o = rs.
Proof. intros H. unfold step. now rewrite H. Qed.

(** After an exception nothing more of the block is executed. *)
Lemma run_from_pending ext ops rs r :
  pending (env rs) = Some r -> run_from ext ops rs = rs.
Proof.
  revert rs. induction ops as [|o ops IH]; intros rs H; [reflexivity|].
  cbn [run_from fold_left]. rewrite (step_pending _ _ _ _ H).
  now apply IH.
Qed.

(** A taken branch skips everything up to its label. *)
Lemma run_from_skip ext ops m l :
  has_label l ops = false ->
  run_from ext ops {| env := m; skip_to := Some l |}
  = {| env := m; skip_to := Some l |}.
Proof.
  induction ops as [|o ops IH]; intros H; [reflexivity|].
  cbn [has_label existsb] in H. apply orb_false_iff in H as [Ho Hr].
  cbn [run_from fold_left].
  replace (step ext {| env := m; skip_to := Some l |} o)
    with {| env := m; skip_to := Some l |}.
  - now apply IH.
  - unfold step. cbn [env skip_to]. destruct (pending m); [reflexivity|].
    destruct o; try reflexivity. now rewrite Ho.
Qed.

Lemma run_from_cons ext o ops m :
  pending m = None ->
  run_from ext (o :: ops) {| env := m; skip_to := None |}
  = run_from ext ops {| env := fst (exec_op ext o m);
                        skip_to := snd (exec_op ext o m) |}.
Proof.
  intros H. cbn [run_from fold_left]. unfold step. cbn [env skip_to].
  now rewrite H.
Qed.

Lemma upd_nat_eq {A} k (v : A) f : upd_nat k v f k = v.
Proof. unfold upd_nat. now rewrite Nat.eqb_refl. Qed.

Lemma upd_nat_neq {A} k (v : A) f x : x <> k -> upd_nat k v f x = f x.
Proof. intros H. unfold upd_nat. apply Nat.eqb_neq in H. now rewrite H. Qed.

Lemma flavour_of_code_code f : flavour_of_code (flavour_code f) = f.
Proof. now destruct f. Qed.

Lemma flavour_eqb_refl f : flavour_eqb f f = true.
Proof. now destruct f. Qed.

Ltac temps_simpl :=
  repeat first [ rewrite upd_nat_eq
               | rewrite upd_nat_neq by lia
               | rewrite flavour_of_code_code
               | rewrite flavour_eqb_refl ].


(** ** Rounding-mode override and restore *)











(** A handler whose tests fail rejects the encoding and emits nothing. *)
Lemma trans_rounding_rejects rmsf i g :
  rounding_legal (cfg (dc g)) i = false ->
  trans_rounding rmsf i g = Some (false, g, []).
Proof.
  destruct g as [[c l w n j] [nt nl]]. cbn [dc cfg]. intros Hl.
  destruct i as [a|a|a|a|a]; cbn [trans_rounding rounding_legal] in *;
    unfold trans_VRINT, trans_VCVT, trans_VRINTZ_hp, trans_VRINTZ_sp,
      trans_VRINTZ_dp;
    gen_eval_body;
    repeat match goal with
           | |- context [if ?b then _ else _] =>
               destruct b eqn:?; try reflexivity
           end;
    exfalso;
    repeat match goal with
           | H : negb _ = false |- _ => apply negb_false_iff in H
           | H : negb _ = true |- _ => apply negb_true_iff in H
           | H : _ && _ = false |- _ => apply andb_false_iff in H
           | H : _ && _ = true |- _ => apply andb_true_iff in H as [? ?]
           | H : _ \/ _ |- _ => destruct H
           end;
    congruence.
Qed.




(** The same instruction, evaluated: the block VRINTZ.F32 s2, s5 gets when
    it creates the FP context, and the rounding modes before and after. *)
Example trans_VRINTZ_sp_new_context_run :
  emitted (trans_VRINTZ_sp arg_vrintz_example) (gen_start cfg_v8_1m true)
  = Some (true,
          [op_helper_v7m_preserve_fp_state;
           op_ld_field 0%nat (v7m_fpccr M_REG_S);
           op_ori 0%nat 0%nat R_V7M_FPCCR_S_MASK;
           op_st_field (v7m_fpccr M_REG_S) 0%nat;
           op_ld_field 1%nat (v7m_fpdscr M_REG_S);
           op_helper_vfp_set_fpscr 1%nat;
           op_ld_field 2%nat (v7m_control M_REG_S);
           op_ori 2%nat 2%nat 12;
           op_st_field (v7m_control M_REG_S) 2%nat;
           op_vfp_load_reg32 3%nat 5;
           op_fpstatus_ptr 4%nat FPST_FPCR;
           op_movi 5%nat 3;
           op_helper_set_rmode 5%nat 5%nat 4%nat;
           op_helper_fp helper_rints 3%nat [3%nat] (Some 4%nat);
           op_helper_set_rmode 5%nat 5%nat 4%nat;
           op_vfp_store_reg32 3%nat 2]) /\
  rounding_modes (cpu_example 3 0 0) = (3, 3) /\
  (forall ops,
     emitted (trans_VRINTZ_sp arg_vrintz_example) (gen_start cfg_v8_1m true)
     = Some (true, ops) ->
     rounding_modes (run ext_rmode ops (cpu_example 3 0 0)) = (0, 0)).
Proof.
  split; [reflexivity|]. split; [reflexivity|].
  intros ops H. vm_compute in H. injection H as <-. reflexivity.
Qed.

(** VRINTP.F32 s2, s5 with the ambient mode round-to-nearest (0): the mode
    is round-up (2) once the first four operations have run, and back to 0
    after the block. *)
Example trans_VRINT_installs_then_restores :
  emitted (trans_VRINT arm_rmode_to_sf_example arg_vrint_example)
          (gen_start (cfg_vfpv3 0 0) false)
  = Some (true,
          [op_fpstatus_ptr 0%nat FPST_FPCR; op_movi 1%nat 2;
           op_helper_set_rmode 1%nat 1%nat 0%nat;
           op_vfp_load_reg32 2%nat 5;
           op_helper_fp helper_rints 3%nat [2%nat] (Some 0%nat);
           op_vfp_store_reg32 3%nat 2;
           op_helper_set_rmode 1%nat 1%nat 0%nat]) /\
  rounding_modes
    (run ext_simple
         [op_fpstatus_ptr 0%nat FPST_FPCR; op_movi 1%nat 2;
          op_helper_set_rmode 1%nat 1%nat 0%nat;
          op_vfp_load_reg32 2%nat 5]
         (cpu_example 0 0 0)) = (2, 0) /\
  rounding_modes
    (run ext_simple
         [op_fpstatus_ptr 0%nat FPST_FPCR; op_movi 1%nat 2;
          op_helper_set_rmode 1%nat 1%nat 0%nat;
          op_vfp_load_reg32 2%nat 5;
          op_helper_fp helper_rints 3%nat [2%nat] (Some 0%nat);
          op_vfp_store_reg32 3%nat 2;
          op_helper_set_rmode 1%nat 1%nat 0%nat]
         (cpu_example 0 0 0)) = (0, 0).
Proof. repeat split. Qed.

(** ** C5: FPCXT_NS while the FP context is inactive *)

Lemma land_pow2 x k :
  0 <= k -> Z.land x (2 ^ k) = if Z.testbit x k then 2 ^ k else 0.
Proof.
  intros Hk. apply Z.bits_inj'. intros n Hn.
  rewrite Z.land_spec.
  destruct (Z.eq_dec n k) as [->|Hne].
  - rewrite Z.pow2_bits_true by lia. rewrite andb_true_r.
    destruct (Z.testbit x k); [now rewrite Z.pow2_bits_true by lia|].
    now rewrite Z.bits_0.
  - rewrite Z.pow2_bits_false by lia. rewrite andb_false_r.
    destruct (Z.testbit x k); [now rewrite Z.pow2_bits_false by lia|].
    now rewrite Z.bits_0.
Qed.

Lemma fpInactive_test_zero m : (fpInactive_test m =? 0) = fpInactive m.
Proof.
  unfold fpInactive_test, fpInactive, R_V7M_CONTROL_FPCA_MASK,
    R_V7M_FPCCR_ASPEN_MASK.
  change 4 with (2 ^ 2). rewrite !land_pow2 by lia.
  destruct (Z.testbit (fpccr m M_REG_NS) 31),
           (Z.testbit (control m M_REG_S) 2); reflexivity.
Qed.

Lemma straight_line_has_label l ops :
  straight_line ops = true -> has_label l ops = false.
Proof.
  unfold straight_line, has_label.
  induction ops as [|o ops IH]; [reflexivity|].
  cbn [forallb existsb].
  intros H. apply andb_true_iff in H as [Ho Hr].
  rewrite (IH Hr), orb_false_r. now destruct o.
Qed.

Lemma straight_line_app a b :
  straight_line (a ++ b) = straight_line a && straight_line b.
Proof. apply forallb_app. Qed.

Lemma has_label_app l a b :
  has_label l (a ++ b) = has_label l a || has_label l b.
Proof. apply existsb_app. Qed.

(** Straight-line code leaves no branch pending. *)
Lemma run_from_straight_line ext ops m :
  straight_line ops = true ->
  skip_to (run_from ext ops {| env := m; skip_to := None |}) = None.
Proof.
  revert m. induction ops as [|o ops IH]; intros m H; [reflexivity|].
  cbn [straight_line forallb] in H. apply andb_true_iff in H as [Ho Hr].
  cbn [run_from fold_left]. unfold step at 2. cbn [env skip_to].
  destruct (pending m); [now apply IH|].
  replace (snd (exec_op ext o m)) with (@None label)
    by (destruct o; try discriminate Ho; reflexivity).
  now apply IH.
Qed.

Lemma run_from_cons_skip ext o ops m l :
  has_label l [o] = false ->
  run_from ext (o :: ops) {| env := m; skip_to := Some l |}
  = run_from ext ops {| env := m; skip_to := Some l |}.
Proof.
  intros Hl. change (o :: ops) with ([o] ++ ops).
  now rewrite run_from_app, run_from_skip.
Qed.

Lemma run_from_app_skip ext a b m l :
  has_label l a = false ->
  run_from ext (a ++ b) {| env := m; skip_to := Some l |}
  = run_from ext b {| env := m; skip_to := Some l |}.
Proof. intros Hl. now rewrite run_from_app, run_from_skip. Qed.

Lemma run_from_cons_label ext ops m l :
  pending m = None ->
  run_from ext (op_set_label l :: ops) {| env := m; skip_to := Some l |}
  = run_from ext ops {| env := m; skip_to := None |}.
Proof.
  intros Hp. cbn [run_from fold_left]. f_equal.
  unfold step. cbn [env skip_to]. rewrite Hp. now rewrite Nat.eqb_refl.
Qed.

Lemma upd_Z_eq {A} k (v : A) f : upd_Z k v f k = v.
Proof. unfold upd_Z. now rewrite Z.eqb_refl. Qed.

Lemma upd_Z_neq {A} k (v : A) f x : x <> k -> upd_Z k v f x = f x.
Proof. intros H. unfold upd_Z. apply Z.eqb_neq in H. now rewrite H. Qed.

Lemma gen_preserve_fp_state_straight g :
  exists g' o,
    gen_preserve_fp_state g = Some (tt, g', o) /\
    tcg g' = tcg g /\ cfg (dc g') = cfg (dc g) /\ straight_line o = true.
Proof.
  destruct g as [[c l w n j] t].
  unfold gen_preserve_fp_state. gen_eval_body.
  destruct l; gen_eval_body; [destruct (CF_USE_ICOUNT c)|]; gen_eval_body;
    eexists; eexists; repeat split.
Qed.

Lemma gen_preserve_fp_state_context g g' o :
  gen_preserve_fp_state g = Some (tt, g', o) ->
  dc g' = after_preserve_fp_state (dc g).
Proof.
  destruct g as [[c l w n j] t].
  unfold gen_preserve_fp_state, after_preserve_fp_state. gen_eval_body.
  destruct l; gen_eval_body; [destruct (CF_USE_ICOUNT c)|]; gen_eval_body;
    intros H; inversion H; reflexivity.
Qed.

Lemma fp_sysreg_checks_fpcxt_ns g :
  aa32_fpsp_v2 (cfg (dc g)) = true ->
  ARM_FEATURE_V8_1M (cfg (dc g)) = true ->
  v8m_secure (cfg (dc g)) = true ->
  fp_sysreg_checks ARM_VFP_FPCXT_NS g = Some (FPSysRegCheckContinue, g, []).
Proof.
  destruct g as [[c l w n j] t]. cbn [dc cfg]. intros H1 H2 H3.
  unfold fp_sysreg_checks. gen_eval. now rewrite H1, H2, H3.
Qed.

Ltac run_step_pending :=
  rewrite run_from_cons by (cbn; assumption);
  cbn [exec_op fst snd set_temp set_temps temps regs NZCV vfp_s xregs
       fp_status fpccr control fpdscr memory pending set_fp_status set_regs
       set_NZCV set_vfp_s set_xregs set_fpccr set_control set_fpdscr
       set_memory write_field read_field];
  temps_simpl.

(** The test emitted by [gen_branch_fpInactive]. *)
Lemma run_fpInactive_head ext nt c l rest m :
  pending m = None ->
  exists T,
    run_from ext
      (op_ld_field nt (v7m_fpccr M_REG_NS) ::
       op_ld_field (S nt) (v7m_control M_REG_S) ::
       op_andi nt nt R_V7M_FPCCR_ASPEN_MASK ::
       op_xori nt nt R_V7M_FPCCR_ASPEN_MASK ::
       op_andi (S nt) (S nt) R_V7M_CONTROL_FPCA_MASK ::
       op_or (S nt) (S nt) nt ::
       op_brcondi c (S nt) 0 l :: rest)
      {| env := m; skip_to := None |}
    = run_from ext rest
        {| env := set_temps T m;
           skip_to := if eval_cond c (fpInactive_test m) 0
                      then Some l else None |}.
Proof.
  intros Hp. eexists.
  do 7 run_step_pending.
  reflexivity.
Qed.

(** Reading FPCXT_NS through any well-behaved sink. *)
Lemma fpcxt_ns_read_inactive {O} ext (storefn : O -> temp -> Gen unit)
    (opaque : O) g :
  sink_ok storefn opaque ->
  aa32_fpsp_v2 (cfg (dc g)) = true ->
  ARM_FEATURE_V8_1M (cfg (dc g)) = true ->
  v8m_secure (cfg (dc g)) = true ->
  exists g' before tmp gs gs' sink rest,
    gen_M_fp_sysreg_read ARM_VFP_FPCXT_NS storefn opaque g
    = Some (true, g', before ++ sink ++ rest) /\
    is_jmp (dc g') = DISAS_EXIT /\
    storefn opaque tmp gs = Some (tt, gs', sink) /\
    cfg (dc gs) = cfg (dc g) /\
    (tmp < next_temp (tcg gs))%nat /\
    forall m, pending m = None -> fpInactive m = true ->
      (exists T,
         run_from ext before {| env := m; skip_to := None |}
         = {| env := set_temps T m; skip_to := None |} /\
         T tmp = fpdscr m M_REG_NS) /\
      run ext (before ++ sink ++ rest) m
      = run ext (before ++ sink ++ [op_movi_pc (pc_next (cfg (dc g')))]) m.
Proof.
  intros Hsink H1 H2 H3.
  unfold gen_M_fp_sysreg_read.
  rewrite (bind_Some _ _ _ _ _ _ (fp_sysreg_checks_fpcxt_ns g H1 H2 H3)).
  destruct g as [[c l w n j] [nt nl]].
  unfold gen_branch_fpInactive. gen_eval_body.
  match goal with
  | |- context [storefn opaque ?t ?gs] =>
      destruct (Hsink t gs) as (gs1 & sink & Est & Hsl & Hlab);
      rewrite Est
  end.
  destruct gs1 as [[c1 l1 w1 n1 j1] [nt1 nl1]]. cbn [tcg next_label] in Hlab.
  gen_eval_body.
  match goal with
  | |- context [gen_preserve_fp_state ?gs] =>
      destruct (gen_preserve_fp_state_straight gs)
        as ([[c3 l3 w3 n3 j3] t3] & po & Ep & Et & Ec & Hpo)
  end.
  rewrite Ep. cbn [tcg dc cfg] in Et, Ec. subst t3 c3.
  gen_eval_body.
  match goal with
  | |- context [storefn opaque ?t ?gs] =>
      destruct (Hsink t gs) as (gs2 & sink2 & Est2 & Hsl2 & Hlab2);
      rewrite Est2
  end.
  destruct gs2 as [[c4 l4 w4 n4 j4] [nt4 nl4]].
  gen_eval_body. cbn [tcg next_label] in Hlab2.
  match goal with
  | |- context [sink ++ op_br nl1 :: ?M] => set (mid := M)
  end.
  assert (Hmid : has_label nl1 mid = false).
  { subst mid. pose proof (straight_line_has_label nl1 po Hpo) as Hl1.
    pose proof (straight_line_has_label nl1 sink2 Hsl2) as Hl2.
    unfold has_label in *. cbn [existsb]. rewrite existsb_app, Hl1.
    cbn [existsb orb]. rewrite existsb_app, Hl2. cbn [existsb orb].
    rewrite orb_false_r. apply Nat.eqb_neq. lia. }
  clearbody mid.
  eexists.
  exists [op_ld_field nt (v7m_fpccr M_REG_NS);
          op_ld_field (S nt) (v7m_control M_REG_S);
          op_andi nt nt R_V7M_FPCCR_ASPEN_MASK;
          op_xori nt nt R_V7M_FPCCR_ASPEN_MASK;
          op_andi (S nt) (S nt) R_V7M_CONTROL_FPCA_MASK;
          op_or (S nt) (S nt) nt;
          op_brcondi (tcg_invert_cond TCG_COND_EQ) (S nt) 0 nl;
          op_ld_field (S (S nt)) (v7m_fpdscr M_REG_NS)].
  exists (S (S nt)). eexists. eexists. exists sink.
  exists (op_br nl1 :: mid ++ [op_set_label nl1; op_movi_pc (pc_next c4)]).
  split; [cbn [app]; now rewrite <- app_assoc|].
  split; [reflexivity|].
  split; [exact Est|split; [reflexivity|split; [cbn; lia|]]].
  intros m Hp Hin. cbn [dc cfg].
  assert (Hhead : exists T,
    run_from ext
      [op_ld_field nt (v7m_fpccr M_REG_NS);
       op_ld_field (S nt) (v7m_control M_REG_S);
       op_andi nt nt R_V7M_FPCCR_ASPEN_MASK;
       op_xori nt nt R_V7M_FPCCR_ASPEN_MASK;
       op_andi (S nt) (S nt) R_V7M_CONTROL_FPCA_MASK;
       op_or (S nt) (S nt) nt;
       op_brcondi (tcg_invert_cond TCG_COND_EQ) (S nt) 0 nl;
       op_ld_field (S (S nt)) (v7m_fpdscr M_REG_NS)]
       {| env := m; skip_to := None |}
    = {| env := set_temps T m; skip_to := None |} /\
    T (S (S nt)) = fpdscr m M_REG_NS).
  { destruct (run_fpInactive_head ext nt (tcg_invert_cond TCG_COND_EQ) nl
                [op_ld_field (S (S nt)) (v7m_fpdscr M_REG_NS)] m Hp)
      as [T HT].
    rewrite HT. cbn [tcg_invert_cond eval_cond].
    rewrite fpInactive_test_zero, Hin. cbn [negb].
    run_step_pending.
    eexists. split; [reflexivity|]. cbn beta. now rewrite upd_nat_eq. }
  destruct Hhead as (T & HT & HTv).
  split.
  { now exists T. }
  unfold run. rewrite !run_from_app, HT.
  pose proof (run_from_straight_line ext sink (set_temps T m) Hsl) as Hsk.
  destruct (run_from ext sink {| env := set_temps T m; skip_to := None |})
    as [m2 sk].
  cbn [skip_to] in Hsk. subst sk.
  destruct (pending m2) as [r|] eqn:Hp2.
  { now rewrite !(run_from_pending _ _ _ r). }
  rewrite run_from_cons by exact Hp2. cbn [exec_op fst snd].
  rewrite run_from_app_skip by exact Hmid.
  now rewrite run_from_cons_label by exact Hp2.
Qed.

(** Writing FPCXT_NS from any well-behaved source. *)
Lemma fpcxt_ns_write_inactive {O} ext (loadfn : O -> Gen temp)
    (opaque : O) g :
  source_ok loadfn opaque ->
  aa32_fpsp_v2 (cfg (dc g)) = true ->
  ARM_FEATURE_V8_1M (cfg (dc g)) = true ->
  v8m_secure (cfg (dc g)) = true ->
  exists g' ops,
    gen_M_fp_sysreg_write ARM_VFP_FPCXT_NS loadfn opaque g
    = Some (true, g', ops) /\
    dc g' = after_preserve_fp_state (dc g) /\
    forall m, pending m = None -> fpInactive m = true ->
      exists T, run ext ops m = set_temps T m.
Proof.
  intros Hsrc H1 H2 H3.
  unfold gen_M_fp_sysreg_write.
  rewrite (bind_Some _ _ _ _ _ _ (fp_sysreg_checks_fpcxt_ns g H1 H2 H3)).
  destruct g as [[c l w n j] [nt nl]].
  unfold gen_branch_fpInactive, gen_M_fp_sysreg_write_fpcxt_s.
  gen_eval_body.
  match goal with
  | |- context [gen_preserve_fp_state ?gs] =>
      destruct (gen_preserve_fp_state_straight gs)
        as ([[c3 l3 w3 n3 j3] t3] & po & Ep & Et & Ec & Hpo)
  end.
  rewrite Ep. apply gen_preserve_fp_state_context in Ep.
  cbn [tcg dc cfg] in Et, Ec, Ep. subst t3 c3.
  gen_eval_body.
  match goal with
  | |- context [loadfn opaque ?gs] =>
      destruct (Hsrc gs) as (t & gs1 & lops & El & Hsl & Hdc);
      rewrite El
  end.
  destruct gs1 as [[c1 l1 w1 n1 j1] [nt1 nl1]].
  cbn [dc] in Hdc. rewrite Ep in Hdc.
  gen_eval_body.
  match goal with
  | |- context [op_brcondi _ _ _ _ :: ?M ++ [op_set_label nl]] =>
      set (mid := M)
  end.
  assert (Hmid : has_label nl mid = false).
  { subst mid. pose proof (straight_line_has_label nl po Hpo) as Hl1.
    pose proof (straight_line_has_label nl lops Hsl) as Hl2.
    unfold has_label in *.
    now rewrite !existsb_app, Hl1, Hl2. }
  clearbody mid.
  eexists. eexists. split; [reflexivity|]. split; [exact Hdc|].
  intros m Hp Hin. unfold run.
  destruct (run_fpInactive_head ext nt (tcg_invert_cond TCG_COND_NE) nl
              (mid ++ [op_set_label nl]) m Hp) as [T HT].
  rewrite HT. cbn [tcg_invert_cond eval_cond].
  rewrite fpInactive_test_zero, Hin.
  rewrite run_from_app_skip by exact Hmid.
  rewrite run_from_cons_label by exact Hp.
  now exists T.
Qed.

Lemma fp_sysreg_to_gpr_sink_ok a : sink_ok fp_sysreg_to_gpr a.
Proof.
  intros t [[c l w n j] [nt nl]]. unfold fp_sysreg_to_gpr.
  destruct (vmsr_rt a =? 15); gen_eval; eexists; eexists;
    (split; [reflexivity|split; [reflexivity|cbn; lia]]).
Qed.

Lemma fp_sysreg_to_memory_sink_ok a : sink_ok fp_sysreg_to_memory a.
Proof.
  intros t [[c l w n j] [nt nl]]. unfold fp_sysreg_to_memory.
  gen_eval.
  destruct (vldr_p a), (vldr_w a),
    (v8m_stackcheck c && (vldr_rn a =? 13)); gen_eval;
    eexists; eexists;
    (split; [reflexivity|split; [reflexivity|cbn; lia]]).
Qed.

Lemma gpr_to_fp_sysreg_source_ok a : source_ok gpr_to_fp_sysreg a.
Proof.
  intros [[c l w n j] [nt nl]]. unfold gpr_to_fp_sysreg. gen_eval.
  eexists; eexists; eexists. repeat split.
Qed.

Lemma memory_to_fp_sysreg_source_ok a : source_ok memory_to_fp_sysreg a.
Proof.
  intros [[c l w n j] [nt nl]]. unfold memory_to_fp_sysreg.
  gen_eval.
  destruct (vldr_p a), (vldr_w a),
    (v8m_stackcheck c && (vldr_rn a =? 13)); gen_eval;
    eexists; eexists; eexists; repeat split.
Qed.

Lemma vmrs_fpcxt_ns_inactive ext g m rt :
  ARM_FEATURE_M (cfg (dc g)) = true ->
  aa32_fpsp_v2 (cfg (dc g)) = true ->
  ARM_FEATURE_V8_1M (cfg (dc g)) = true ->
  v8m_secure (cfg (dc g)) = true ->
  pending m = None -> fpInactive m = true ->
  rt <> 15 ->
  exists g' ops,
    trans_VMSR_VMRS
      {| vmsr_l := true; vmsr_rt := rt; vmsr_reg := ARM_VFP_FPCXT_NS |} g
    = Some ((true, {| vmsr_l := true; vmsr_rt := rt;
                      vmsr_reg := ARM_VFP_FPCXT_NS |}), g', ops) /\
    is_jmp (dc g') = DISAS_EXIT /\
    regs (run ext ops m) rt = fpdscr m M_REG_NS /\
    fp_context (run ext ops m) = fp_context m /\
    memory (run ext ops m) = memory m /\
    NZCV (run ext ops m) = NZCV m /\
    pending (run ext ops m) = None /\
    forall r, r <> rt -> r <> 15 -> regs (run ext ops m) r = regs m r.
Proof.
  intros HM H1 H2 H3 Hp Hin Hrt.
  set (a := {| vmsr_l := true; vmsr_rt := rt; vmsr_reg := ARM_VFP_FPCXT_NS |}).
  destruct (fpcxt_ns_read_inactive ext fp_sysreg_to_gpr a g
              (fp_sysreg_to_gpr_sink_ok a) H1 H2 H3)
    as (g' & before & tmp & gs & gs' & sink & rest & Hgen & Hj & Hs & _ & _
        & Hrun).
  destruct (Hrun m Hp Hin) as ((T & HT & HTv) & Hrest). clear Hrun.
  exists g', (before ++ sink ++ rest).
  split.
  { destruct g as [[c l w n j] [nt nl]]. cbn [dc cfg] in HM.
    unfold trans_VMSR_VMRS, gen_M_VMSR_VMRS. gen_eval_body.
    rewrite HM. subst a. cbn [vmsr_rt vmsr_l vmsr_reg].
    apply Z.eqb_neq in Hrt. rewrite Hrt.
    rewrite Hgen. now rewrite app_nil_r. }
  split; [exact Hj|].
  rewrite Hrest. clear Hrest Hgen.
  assert (Hsink : sink = [op_store_reg rt tmp]).
  { destruct gs as [[c l w n j] [nt nl]]. unfold fp_sysreg_to_gpr in Hs.
    subst a. cbn [vmsr_rt] in Hs. apply Z.eqb_neq in Hrt. rewrite Hrt in Hs.
    gen_eval_in Hs. now inversion Hs. }
  subst sink. unfold run. rewrite run_from_app, HT.
  cbn [app]. do 2 run_step_pending. cbn [run_from fold_left env].
  unfold fp_context.
  cbn [regs xregs fp_status fpccr control fpdscr vfp_s memory NZCV pending
       set_regs set_temps].
  rewrite upd_Z_neq, upd_Z_eq by exact Hrt.
  repeat split; try assumption.
  intros r Hr Hr15. now rewrite !upd_Z_neq.
Qed.

Lemma vmsr_fpcxt_ns_inactive ext g m rt :
  ARM_FEATURE_M (cfg (dc g)) = true ->
  aa32_fpsp_v2 (cfg (dc g)) = true ->
  ARM_FEATURE_V8_1M (cfg (dc g)) = true ->
  v8m_secure (cfg (dc g)) = true ->
  pending m = None -> fpInactive m = true ->
  rt <> 15 ->
  exists g' ops T,
    trans_VMSR_VMRS
      {| vmsr_l := false; vmsr_rt := rt; vmsr_reg := ARM_VFP_FPCXT_NS |} g
    = Some ((true, {| vmsr_l := false; vmsr_rt := rt;
                      vmsr_reg := ARM_VFP_FPCXT_NS |}), g', ops) /\
    dc g' = after_preserve_fp_state (dc g) /\
    run ext ops m = set_temps T m.
Proof.
  intros HM H1 H2 H3 Hp Hin Hrt.
  set (a := {| vmsr_l := false; vmsr_rt := rt;
               vmsr_reg := ARM_VFP_FPCXT_NS |}).
  destruct (fpcxt_ns_write_inactive ext gpr_to_fp_sysreg a g
              (gpr_to_fp_sysreg_source_ok a) H1 H2 H3)
    as (g' & ops & Hgen & Hdc & Hrun).
  destruct (Hrun m Hp Hin) as (T & HT).
  exists g', ops, T. split; [|split; [exact Hdc|exact HT]].
  destruct g as [[c l w n j] [nt nl]]. cbn [dc cfg] in HM.
  unfold trans_VMSR_VMRS, gen_M_VMSR_VMRS. gen_eval_body.
  rewrite HM. subst a. cbn [vmsr_rt vmsr_l vmsr_reg].
  apply Z.eqb_neq in Hrt. rewrite Hrt.
  rewrite Hgen. now rewrite app_nil_r.
Qed.

Lemma vldr_fpcxt_ns_inactive ext g m a :
  aa32_fpsp_v2 (cfg (dc g)) = true ->
  ARM_FEATURE_V8_1M (cfg (dc g)) = true ->
  v8m_secure (cfg (dc g)) = true ->
  pending m = None -> fpInactive m = true ->
  vldr_reg a = ARM_VFP_FPCXT_NS -> vldr_rn a <> 15 ->
  exists g' ops T,
    trans_VLDR_sysreg a g = Some (true, g', ops) /\
    dc g' = after_preserve_fp_state (dc g) /\
    run ext ops m = set_temps T m.
Proof.
  intros H1 H2 H3 Hp Hin Hreg Hrn.
  destruct (fpcxt_ns_write_inactive ext memory_to_fp_sysreg a g
              (memory_to_fp_sysreg_source_ok a) H1 H2 H3)
    as (g' & ops & Hgen & Hdc & Hrun).
  destruct (Hrun m Hp Hin) as (T & HT).
  exists g', ops, T. split; [|split; [exact Hdc|exact HT]].
  destruct g as [[c l w n j] [nt nl]]. cbn [dc cfg] in H2.
  unfold trans_VLDR_sysreg. gen_eval_body.
  rewrite H2. apply Z.eqb_neq in Hrn. rewrite Hrn, Hreg. cbn [negb].
    now rewrite Hgen.
Qed.

Ltac run_sink_step :=
  first [ run_step_pending
        | erewrite run_from_pending by reflexivity
        | match goal with
          | |- context [if stackcheck_fails ?e ?s ?x then _ else _] =>
              destruct (stackcheck_fails e s x) eqn:?
          | |- context [if mem_ok ?e ?x then _ else _] =>
              destruct (mem_ok e x) eqn:?
          end ].

Lemma vstr_fpcxt_ns_inactive ext g m a :
  aa32_fpsp_v2 (cfg (dc g)) = true ->
  ARM_FEATURE_V8_1M (cfg (dc g)) = true ->
  v8m_secure (cfg (dc g)) = true ->
  pending m = None -> fpInactive m = true ->
  vldr_reg a = ARM_VFP_FPCXT_NS -> vldr_rn a <> 15 ->
  exists g' ops,
    trans_VSTR_sysreg a g = Some (true, g', ops) /\
    is_jmp (dc g') = DISAS_EXIT /\
    fp_context (run ext ops m) = fp_context m /\
    let addr := if vldr_p a
                then u32 (regs m (vldr_rn a) + sysreg_mem_offset a)
                else regs m (vldr_rn a) in
    (mem_ok ext addr = true ->
     (forall s, stackcheck_fails ext s addr = false) ->
     pending (run ext ops m) = None /\
     memory (run ext ops m)
     = upd_Z addr (u32 (fpdscr m M_REG_NS)) (memory m)).
Proof.
  intros H1 H2 H3 Hp Hin Hreg Hrn.
  destruct (fpcxt_ns_read_inactive ext fp_sysreg_to_memory a g
              (fp_sysreg_to_memory_sink_ok a) H1 H2 H3)
    as (g' & before & tmp & gs & gs' & sink & rest & Hgen & Hj & Hs & Hc & Ht
        & Hrun).
  destruct (Hrun m Hp Hin) as ((T & HT & HTv) & Hrest). clear Hrun.
  exists g', (before ++ sink ++ rest).
  split.
  { destruct g as [[c l w n j] [nt nl]]. cbn [dc cfg] in H2.
    unfold trans_VSTR_sysreg. gen_eval_body.
    rewrite H2. apply Z.eqb_neq in Hrn. rewrite Hrn, Hreg. cbn [negb].
    now rewrite Hgen. }
  split; [exact Hj|].
  rewrite Hrest. clear Hrest Hgen.
  destruct gs as [[c l w n j] [nt nl]]. cbn [tcg next_temp] in Ht.
  unfold fp_sysreg_to_memory in Hs. gen_eval_in Hs.
  unfold run. rewrite run_from_app, HT. unfold fp_context.
  destruct (vldr_p a), (vldr_w a),
    (v8m_stackcheck c && (vldr_rn a =? 13)); gen_eval_in Hs;
    inversion Hs; subst sink; clear Hs; cbn [app];
    repeat run_sink_step; cbn [run_from fold_left env];
    cbn [regs xregs fp_status fpccr control fpdscr vfp_s memory NZCV pending
         set_regs set_temps set_temp set_memory write_mem raise];
    (split; [reflexivity|]); intros Hm Hsc; try discriminate Hm;
    repeat match goal with
           | H : stackcheck_fails _ _ _ = true |- _ =>
               rewrite Hsc in H; discriminate H
           | H : mem_ok _ _ = false |- _ =>
               rewrite Hm in H; discriminate H
           end.
  all: split; [assumption|now rewrite HTv].
Qed.

(** What the cleared flag does to the rest of the block: with lazy state
    preservation pending and no icount, the context
    [gen_preserve_fp_state] leaves keeps the block open, and the access
    check of the next FP instruction no longer emits the preservation
    call. *)
Lemma vfp_access_check_after_preserve g g' :
  ARM_FEATURE_M (cfg (dc g)) = true ->
  fp_excp_el (cfg (dc g)) = 0 ->
  vfp_enabled (cfg (dc g)) = true ->
  v7m_lspact (dc g) = true ->
  CF_USE_ICOUNT (cfg (dc g)) = false ->
  dc g' = after_preserve_fp_state (dc g) ->
  is_jmp (dc g') = is_jmp (dc g) /\
  (exists g1 pre,
     vfp_access_check g = Some (true, g1, pre) /\
     In op_helper_v7m_preserve_fp_state pre) /\
  (exists g1 pre,
     vfp_access_check g' = Some (true, g1, pre) /\
     ~ In op_helper_v7m_preserve_fp_state pre).
Proof.
  destruct g as [[c l w n j] [nt nl]]. destruct g' as [s' [nt' nl']].
  cbn [dc cfg v7m_lspact is_jmp]. intros HM Hel Hen Hl Hic Hdc.
  subst l s'. unfold after_preserve_fp_state.
  cbn [v7m_lspact cfg andb]. rewrite Hic.
  split; [reflexivity|]. split.
  - gen_eval. rewrite Hel, Hen, HM. cbn [Z.eqb negb andb orb].
    gen_eval. rewrite ?Hic.
    destruct w, n, (v8m_secure c); gen_eval;
      eexists; eexists; (split; [reflexivity|left; reflexivity]).
  - gen_eval. rewrite Hel, Hen, HM. cbn [Z.eqb negb andb orb].
    gen_eval.
    destruct w, n, (v8m_secure c); gen_eval;
      eexists; eexists; (split; [reflexivity|]); cbn [In];
      intros H; repeat (destruct H as [H|H]; [discriminate H|]); exact H.
Qed.

(** C5.  On a Secure Armv8.1-M core with the FPU, when FPCXT_NS is accessed
    while the FP context is inactive (FPCCR_NS.ASPEN = 1 and
    CONTROL.FPCA = 0), every handler returns [true] and:
    - a read to a general register (VMRS) leaves FPDSCR_NS in that
      register, and a read to memory (VSTR) stores FPDSCR_NS at the
      transfer address when the access does not fault; in both cases the FP
      context state (system registers, float status, FPCCR, CONTROL,
      FPDSCR, register file) is unchanged, and the block ends with the
      instruction;
    - a write from a general register (VMSR) or from memory (VLDR) changes
      nothing of the processor state but translation temporaries; it does
      change the translation context, which is left as
      [gen_preserve_fp_state] leaves it although the preservation call
      is skipped on this path;
    - so when lazy state preservation is pending (and icount is off) the
      block goes on after the write, and the access check of the next FP
      instruction is emitted without the preservation call that it has
      when the write is not there. *)
Theorem fpcxt_ns_inactive_access (ext : Externals) (g : GenState)
    (m : CPUARMState) :
  ARM_FEATURE_M (cfg (dc g)) = true ->
  aa32_fpsp_v2 (cfg (dc g)) = true ->
  ARM_FEATURE_V8_1M (cfg (dc g)) = true ->
  v8m_secure (cfg (dc g)) = true ->
  pending m = None ->
  fpInactive m = true ->
  (forall rt, rt <> 15 ->
     exists g' ops,
       trans_VMSR_VMRS
         {| vmsr_l := true; vmsr_rt := rt; vmsr_reg := ARM_VFP_FPCXT_NS |} g
       = Some ((true, {| vmsr_l := true; vmsr_rt := rt;
                         vmsr_reg := ARM_VFP_FPCXT_NS |}), g', ops) /\
       is_jmp (dc g') = DISAS_EXIT /\
       regs (run ext ops m) rt = fpdscr m M_REG_NS /\
       fp_context (run ext ops m) = fp_context m /\
       memory (run ext ops m) = memory m /\
       NZCV (run ext ops m) = NZCV m /\
       pending (run ext ops m) = None /\
       forall r, r <> rt -> r <> 15 -> regs (run ext ops m) r = regs m r) /\
  (forall a, vldr_reg a = ARM_VFP_FPCXT_NS -> vldr_rn a <> 15 ->
     exists g' ops,
       trans_VSTR_sysreg a g = Some (true, g', ops) /\
       is_jmp (dc g') = DISAS_EXIT /\
       fp_context (run ext ops m) = fp_context m /\
       let addr := if vldr_p a
                   then u32 (regs m (vldr_rn a) + sysreg_mem_offset a)
                   else regs m (vldr_rn a) in
       (mem_ok ext addr = true ->
        (forall s, stackcheck_fails ext s addr = false) ->
        pending (run ext ops m) = None /\
        memory (run ext ops m)
        = upd_Z addr (u32 (fpdscr m M_REG_NS)) (memory m))) /\
  (forall rt, rt <> 15 ->
     exists g' ops T,
       trans_VMSR_VMRS
         {| vmsr_l := false; vmsr_rt := rt; vmsr_reg := ARM_VFP_FPCXT_NS |} g
       = Some ((true, {| vmsr_l := false; vmsr_rt := rt;
                         vmsr_reg := ARM_VFP_FPCXT_NS |}), g', ops) /\
       dc g' = after_preserve_fp_state (dc g) /\
       run ext ops m = set_temps T m) /\
  (forall a, vldr_reg a = ARM_VFP_FPCXT_NS -> vldr_rn a <> 15 ->
     exists g' ops T,
       trans_VLDR_sysreg a g = Some (true, g', ops) /\
       dc g' = after_preserve_fp_state (dc g) /\
       run ext ops m = set_temps T m) /\
  (fp_excp_el (cfg (dc g)) = 0 ->
   vfp_enabled (cfg (dc g)) = true ->
   v7m_lspact (dc g) = true ->
   CF_USE_ICOUNT (cfg (dc g)) = false ->
   forall g', dc g' = after_preserve_fp_state (dc g) ->
     is_jmp (dc g') = is_jmp (dc g) /\
     (exists g1 pre,
        vfp_access_check g = Some (true, g1, pre) /\
        In op_helper_v7m_preserve_fp_state pre) /\
     (exists g1 pre,
        vfp_access_check g' = Some (true, g1, pre) /\
        ~ In op_helper_v7m_preserve_fp_state pre)).
Proof.
  intros HM H1 H2 H3 Hp Hin.
  split; [|split; [|split; [|split]]].
  - intros rt Hrt. now apply vmrs_fpcxt_ns_inactive.
  - intros a Hreg Hrn. now apply vstr_fpcxt_ns_inactive.
  - intros rt Hrt. now apply vmsr_fpcxt_ns_inactive.
  - intros a Hreg Hrn. now apply vldr_fpcxt_ns_inactive.
  - intros Hel Hen Hl Hic g' Hdc.
    now apply vfp_access_check_after_preserve.
Qed.

Lemma fpcxt_ns_inactive_access_witness :
  fpInactive (cpu_example 0 2147483648 0) = true /\
  (exists g' ops,
     trans_VMSR_VMRS (arg_vmrs ARM_VFP_FPCXT_NS) (gen_start cfg_v8_1m true)
     = Some ((true, arg_vmrs ARM_VFP_FPCXT_NS), g', ops) /\
     is_jmp (dc g') = DISAS_EXIT /\
     regs (run ext_simple ops (cpu_example 0 2147483648 0)) 3 = 50331648) /\
  (exists g' ops T,
     trans_VMSR_VMRS (arg_vmsr ARM_VFP_FPCXT_NS) (gen_start cfg_v8_1m true)
     = Some ((true, arg_vmsr ARM_VFP_FPCXT_NS), g', ops) /\
     dc g' = {| cfg := cfg_v8_1m; v7m_lspact := false;
                v8m_fpccr_s_wrong := true; v7m_new_fp_ctxt_needed := true;
                is_jmp := DISAS_NEXT |} /\
     run ext_simple ops (cpu_example 0 2147483648 0)
     = set_temps T (cpu_example 0 2147483648 0) /\
     (exists g1 pre,
        vfp_access_check (gen_start cfg_v8_1m true) = Some (true, g1, pre) /\
        In op_helper_v7m_preserve_fp_state pre) /\
     (exists g1 pre,
        vfp_access_check g' = Some (true, g1, pre) /\
        ~ In op_helper_v7m_preserve_fp_state pre)).
Proof.
  destruct (fpcxt_ns_inactive_access ext_simple (gen_start cfg_v8_1m true)
              (cpu_example 0 2147483648 0)
              eq_refl eq_refl eq_refl eq_refl eq_refl eq_refl)
    as (Hread & _ & Hwrite & _ & Hnext).
  split; [reflexivity|split].
  - destruct (Hread 3 ltac:(lia)) as (g' & ops & Hgen & Hj & Hv & _).
    exists g', ops. split; [exact Hgen|split; [exact Hj|exact Hv]].
  - destruct (Hwrite 3 ltac:(lia)) as (g' & ops & T & Hgen & Hdc & Hv).
    destruct (Hnext eq_refl eq_refl eq_refl eq_refl g' Hdc)
      as (_ & Hfresh & Hafter).
    exists g', ops, T.
    split; [exact Hgen|]. split; [exact Hdc|]. split; [exact Hv|].
    split; [exact Hfresh|exact Hafter].
Defined.

(** The failing input of C5, evaluated.  [VMSR FPCXT_NS, r3] and then
    [VFMA.F32 s2, s5, s7] in one block, translated with lazy state
    preservation pending and run from a state where the FP context is
    inactive: the block never calls the preservation helper, so the frame
    at 8192 is not written, FPCCR_S.LSPACT stays set and the old s2 is
    lost when the instruction overwrites it.  The VFMA on its own first
    calls the helper: s2 is saved in the frame (word 8200) and LSPACT is
    cleared. *)
Example fpcxt_ns_write_then_fp_insn :
  exists g' wr g2 fp g3 fp0,
    trans_VMSR_VMRS (arg_vmsr ARM_VFP_FPCXT_NS) (gen_start cfg_v8_1m true)
    = Some ((true, arg_vmsr ARM_VFP_FPCXT_NS), g', wr) /\
    trans_vfm VFMA SP arg_vfm_example g' = Some (true, g2, fp) /\
    trans_vfm VFMA SP arg_vfm_example (gen_start cfg_v8_1m true)
    = Some (true, g3, fp0) /\
    fpInactive cpu_lazy_pending = true /\
    ~ In op_helper_v7m_preserve_fp_state fp /\
    hd_error fp0 = Some op_helper_v7m_preserve_fp_state /\
    vfp_s (run ext_lazy (wr ++ fp) cpu_lazy_pending) 2 = 7 /\
    memory (run ext_lazy (wr ++ fp) cpu_lazy_pending) 8200 = 0 /\
    Z.testbit (fpccr (run ext_lazy (wr ++ fp) cpu_lazy_pending) M_REG_S) 0
    = true /\
    vfp_s (run ext_lazy fp0 cpu_lazy_pending) 2 = 7 /\
    memory (run ext_lazy fp0 cpu_lazy_pending) 8200 = 3 /\
    Z.testbit (fpccr (run ext_lazy fp0 cpu_lazy_pending) M_REG_S) 0 = false.
Proof.
  do 6 eexists.
  split; [vm_compute; reflexivity|].
  split; [vm_compute; reflexivity|].
  split; [vm_compute; reflexivity|].
  split; [reflexivity|].
  split.
  { cbn [In]. intros H.
    repeat (destruct H as [H|H]; [discriminate H|]). exact H. }
  repeat split; vm_compute; reflexivity.
Qed.

(** The same read, evaluated: the op list of [VMRS r3, FPCXT_NS] and the
    register file after running it from an inactive state. *)
Example vmrs_fpcxt_ns_inactive_run :
  exists g' ops,
    trans_VMSR_VMRS (arg_vmrs ARM_VFP_FPCXT_NS) (gen_start cfg_v8_1m false)
    = Some ((true, arg_vmrs ARM_VFP_FPCXT_NS), g', ops) /\
    regs (run ext_simple ops (cpu_example 0 2147483648 0)) 3 = 50331648 /\
    regs (run ext_simple ops (cpu_example 0 2147483648 0)) 15 = 4100 /\
    xregs (run ext_simple ops (cpu_example 0 2147483648 0)) ARM_VFP_FPSCR
    = 0.
Proof.
  eexists. eexists. split; [vm_compute; reflexivity|].
  vm_compute. repeat split.
Qed.

(** ** C7: block transfers *)

Lemma u32_add_l a b : u32 (u32 a + b) = u32 (a + b).
Proof. unfold u32. now rewrite Z.add_mod_idemp_l. Qed.

Lemma u32_add_r a b : u32 (a + u32 b) = u32 (a + b).
Proof. unfold u32. now rewrite Z.add_mod_idemp_r. Qed.

Lemma u32_mul_l a b : u32 (u32 a * b) = u32 (a * b).
Proof. unfold u32. now rewrite Z.mul_mod_idemp_l. Qed.

Lemma u32_congr_add a b c : u32 a = u32 b -> u32 (a + c) = u32 (b + c).
Proof. intros H. now rewrite <- u32_add_l, H, u32_add_l. Qed.

Lemma u32_idem a : u32 (u32 a) = u32 a.
Proof. unfold u32. now rewrite Z.mod_mod. Qed.

Lemma VLDM_VSTM_sp_loop_unfold fuel a tmp addr offset i n :
  VLDM_VSTM_sp_loop (S fuel) a tmp addr offset i n
  = if i <? n then
      (if vldm_l a then
         gen_aa32_ld32u tmp addr ;;
         vfp_store_reg32 tmp (vldm_vd a + i)
       else
         vfp_load_reg32 tmp (vldm_vd a + i) ;;
         gen_aa32_st32 tmp addr) ;;
      emit (op_addi addr addr offset) ;;
      VLDM_VSTM_sp_loop fuel a tmp addr offset (i + 1) n
    else ret tt.
Proof. reflexivity. Qed.

Lemma VLDM_VSTM_dp_loop_unfold fuel a tmp addr offset i n :
  VLDM_VSTM_dp_loop (S fuel) a tmp addr offset i n
  = if i <? n then
      (if vldm_l a then
         gen_aa32_ld64 tmp addr ;;
         vfp_store_reg64 tmp (vldm_vd a + i)
       else
         vfp_load_reg64 tmp (vldm_vd a + i) ;;
         gen_aa32_st64 tmp addr) ;;
      emit (op_addi addr addr offset) ;;
      VLDM_VSTM_dp_loop fuel a tmp addr offset (i + 1) n
    else ret tt.
Proof. reflexivity. Qed.

Lemma loop_effect_nil ext addr : loop_effect ext [] addr 0.
Proof.
  split; [reflexivity|]. intros m _ _. cbn. now rewrite Z.add_0_r.
Qed.

Lemma run_cons ext o ops m :
  pending m = None ->
  snd (exec_op ext o m) = None ->
  run ext (o :: ops) m = run ext ops (fst (exec_op ext o m)).
Proof.
  intros Hp Hs. unfold run. rewrite run_from_cons by exact Hp.
  now rewrite Hs.
Qed.

Lemma run_pending ext ops m r : pending m = Some r -> run ext ops m = m.
Proof.
  intros H. unfold run. now rewrite (run_from_pending _ _ _ r).
Qed.

(** As [mcbv], for the loops that access memory. *)
Ltac mcbv_mem :=
  cbv beta iota zeta delta
    [bind when ret emit get_s vfp_load_reg32 vfp_store_reg32
     gen_aa32_ld_i32 gen_aa32_st_i32 gen_aa32_ld32u gen_aa32_st32];
  cbn [app negb].

(** One iteration in front of the rest of the loop. *)
Ltac loop_iteration Hrun :=
  let m := fresh "m" in
  let Hp := fresh "Hp" in
  let Hend := fresh "Hend" in
  intros m Hp; unfold run; repeat run_sink_step;
  try (cbn [env pending raise]; discriminate);
  match goal with
  | |- context [run_from _ _ {| env := ?m3; skip_to := None |}] =>
      intros Hend;
      destruct (Hrun m3 Hp Hend) as [Ht Hr];
      unfold run in Ht, Hr; rewrite Ht, Hr;
      cbn [temps regs set_temp set_temps set_vfp_s set_memory write_mem];
      temps_simpl;
      split; [rewrite u32_add_l; f_equal; lia|reflexivity]
  end.

Lemma VLDM_VSTM_sp_loop_effect ext a tmp addr offset n :
  tmp <> addr ->
  forall fuel i g, (Z.to_nat (n - i) < fuel)%nat ->
    exists lops,
      VLDM_VSTM_sp_loop fuel a tmp addr offset i n g = Some (tt, g, lops) /\
      loop_effect ext lops addr (offset * Z.max 0 (n - i)).
Proof.
  intros Hne. induction fuel as [|fuel IH]; intros i g Hfuel; [lia|].
  rewrite VLDM_VSTM_sp_loop_unfold.
  destruct (i <? n) eqn:Hin.
  - apply Z.ltb_lt in Hin.
    destruct (IH (i + 1) g ltac:(lia)) as (lops & Hgen & Hsl & Hrun).
    replace (Z.max 0 (n - i)) with (1 + Z.max 0 (n - (i + 1))) by lia.
    rewrite Z.mul_add_distr_l, Z.mul_1_r.
    destruct (vldm_l a); mcbv_mem; rewrite Hgen; mcbv_mem;
      (eexists; split; [reflexivity|]);
      (split; [exact Hsl|]).
    + loop_iteration Hrun.
    + loop_iteration Hrun.
  - apply Z.ltb_ge in Hin. exists []. split; [reflexivity|].
    replace (Z.max 0 (n - i)) with 0 by lia. rewrite Z.mul_0_r.
    apply loop_effect_nil.
Qed.

Ltac mcbv64 :=
  cbv beta iota zeta delta
    [bind when ret emit get_s vfp_load_reg64 vfp_store_reg64
     gen_aa32_ld64 gen_aa32_st64];
  cbn [app negb].

Lemma VLDM_VSTM_dp_loop_effect ext a tmp addr offset n :
  tmp <> addr ->
  forall fuel i g, (Z.to_nat (n - i) < fuel)%nat ->
    exists lops,
      VLDM_VSTM_dp_loop fuel a tmp addr offset i n g = Some (tt, g, lops) /\
      loop_effect ext lops addr (offset * Z.max 0 (n - i)).
Proof.
  intros Hne. induction fuel as [|fuel IH]; intros i g Hfuel; [lia|].
  rewrite VLDM_VSTM_dp_loop_unfold.
  destruct (i <? n) eqn:Hin.
  - apply Z.ltb_lt in Hin.
    destruct (IH (i + 1) g ltac:(lia)) as (lops & Hgen & Hsl & Hrun).
    replace (Z.max 0 (n - i)) with (1 + Z.max 0 (n - (i + 1))) by lia.
    rewrite Z.mul_add_distr_l, Z.mul_1_r.
    destruct (vldm_l a); mcbv64; rewrite Hgen; mcbv64;
      (eexists; split; [reflexivity|]);
      (split; [exact Hsl|]).
    + loop_iteration Hrun.
    + loop_iteration Hrun.
  - apply Z.ltb_ge in Hin. exists []. split; [reflexivity|].
    replace (Z.max 0 (n - i)) with 0 by lia. rewrite Z.mul_0_r.
    apply loop_effect_nil.
Qed.

(** The transfer code with pre-decrement and writeback, run to its end:
    the base register receives the base plus the pre-decrement, the loop's
    total advance and the writeback constant. *)
Lemma predecrement_writeback ext rn addr pre_dec sc lops total wb m :
  rn <> 15 ->
  loop_effect ext lops addr total ->
  sc = [] \/ sc = [op_helper_v8m_stackcheck addr] ->
  pending m = None ->
  pending (run ext (op_add_reg_for_lit addr rn 0 ::
                    op_addi addr addr pre_dec ::
                    sc ++ lops ++
                    [op_addi addr addr wb; op_store_reg rn addr]) m)
  = None ->
  regs (run ext (op_add_reg_for_lit addr rn 0 ::
                 op_addi addr addr pre_dec ::
                 sc ++ lops ++
                 [op_addi addr addr wb; op_store_reg rn addr]) m) rn
  = u32 (regs m rn + pre_dec + total + wb).
Proof.
  intros Hrn [Hsl Hrun] Hsc Hp. apply Z.eqb_neq in Hrn.
  assert (Htail : forall m2,
    pending m2 = None ->
    u32 (temps m2 addr) = u32 (regs m rn + pre_dec) ->
    regs m2 = regs m ->
    pending (run ext (lops ++ [op_addi addr addr wb; op_store_reg rn addr])
                 m2) = None ->
    regs (run ext (lops ++ [op_addi addr addr wb; op_store_reg rn addr])
              m2) rn
    = u32 (regs m rn + pre_dec + total + wb)).
  { intros m2 Hp2 Ht2 Hr2. unfold run. rewrite run_from_app.
    pose proof (run_from_straight_line ext lops m2 Hsl) as Hsk.
    specialize (Hrun m2 Hp2). unfold run in Hrun.
    destruct (run_from ext lops {| env := m2; skip_to := None |})
      as [m3 sk].
    cbn [skip_to env] in Hsk, Hrun. subst sk.
    destruct (pending m3) as [r|] eqn:Hp3.
    { rewrite (run_from_pending _ _ _ r) by exact Hp3. cbn [env].
      rewrite Hp3. discriminate. }
    destruct (Hrun eq_refl) as [Ht3 Hr3].
    do 2 run_step_pending. cbn [run_from fold_left env regs pending].
    intros _. cbn [regs set_regs]. rewrite upd_Z_eq.
    rewrite (u32_congr_add _ _ wb Ht3), <- Z.add_assoc.
    rewrite (u32_congr_add _ _ (total + wb) Ht2). f_equal. lia. }
  destruct Hsc as [-> | ->]; cbn [app]; unfold run;
    do 2 run_step_pending; rewrite Hrn.
  - apply Htail; cbn [pending temps regs set_temp set_temps]; temps_simpl;
      [assumption| |reflexivity].
    now rewrite u32_idem, Z.add_0_r, u32_add_l.
  - repeat run_sink_step.
    + cbn [env pending raise]. discriminate.
    + apply Htail; cbn [pending temps regs set_temp set_temps]; temps_simpl;
        [assumption| |reflexivity].
      now rewrite u32_idem, Z.add_0_r, u32_add_l.
Qed.

Lemma writeback_arith base imm n unit :
  0 <= n ->
  u32 (base + - Z.shiftl imm 2 + unit * Z.max 0 (n - 0)
       + u32 (u32 (- unit) * n))
  = u32 (base - 4 * imm).
Proof.
  intros Hn. rewrite u32_mul_l, u32_add_r, Z.shiftl_mul_pow2 by lia.
  rewrite Z.max_r by lia. f_equal. ring.
Qed.

Lemma u32_neg_nonzero x : 0 < 8 * x < 2 ^ 32 -> u32 (u32 (- 8) * x) <> 0.
Proof.
  intros Hx. rewrite u32_mul_l. unfold u32.
  replace (- 8 * x) with ((2 ^ 32 - 8 * x) + (- 1) * 2 ^ 32) by ring.
  rewrite Z_mod_plus_full, Z.mod_small by lia. lia.
Qed.

Lemma trans_VLDM_VSTM_sp_predecrement ext a g g1 pre :
  aa32_fpsp_v2 (cfg (dc g)) = true ->
  0 < vldm_imm a -> vldm_vd a + vldm_imm a <= 32 ->
  vldm_rn a <> 15 -> vldm_w a = true -> vldm_p a = true ->
  vfp_access_check g = Some (true, g1, pre) ->
  exists g2 body addr,
    trans_VLDM_VSTM_sp a g
    = Some (true, g2,
            pre ++ body ++
            [op_addi addr addr (u32 (u32 (- 4) * vldm_imm a));
             op_store_reg (vldm_rn a) addr]) /\
    forall m, pending m = None ->
      pending (run ext (body ++
                        [op_addi addr addr (u32 (u32 (- 4) * vldm_imm a));
                         op_store_reg (vldm_rn a) addr]) m) = None ->
      regs (run ext (body ++
                     [op_addi addr addr (u32 (u32 (- 4) * vldm_imm a));
                      op_store_reg (vldm_rn a) addr]) m) (vldm_rn a)
      = u32 (regs m (vldm_rn a) - 4 * vldm_imm a).
Proof.
  intros Hv2 Hn Hvd Hrn Hw Hp Hchk.
  destruct g as [[c l w n j] [nt nl]]. cbn [dc cfg] in Hv2.
  unfold trans_VLDM_VSTM_sp. gen_eval_body.
  rewrite Hv2.
  replace (vldm_imm a =? 0) with false by (symmetry; apply Z.eqb_neq; lia).
  replace (vldm_vd a + vldm_imm a >? 32) with false
    by (symmetry; rewrite Z.gtb_ltb; apply Z.ltb_ge; lia).
  replace (vldm_rn a =? 15) with false by (symmetry; now apply Z.eqb_neq).
  cbn [negb orb andb]. rewrite Hchk.
  destruct g1 as [[c1 l1 w1 n1 j1] [nt1 nl1]].
  gen_eval_body. rewrite Hw, Hp. gen_eval_body.
  destruct (v8m_stackcheck c1 && (vldm_rn a =? 13) && true);
    gen_eval_body;
    match goal with
    | |- context [VLDM_VSTM_sp_loop ?f a ?tmp ?addr ?o ?i ?n ?gs] =>
        destruct (VLDM_VSTM_sp_loop_effect ext a tmp addr o n
                    ltac:(lia) f i gs ltac:(lia))
          as (lops & Hgen & Hsl & Hrun);
        rewrite Hgen
    end; gen_eval_body.
  - eexists.
    exists (op_add_reg_for_lit nt1 (vldm_rn a) 0 ::
            op_addi nt1 nt1 (- Z.shiftl (vldm_imm a) 2) ::
            [op_helper_v8m_stackcheck nt1] ++ lops), nt1.
    split; [reflexivity|].
    intros m Hpm. cbn [app].
    change (op_helper_v8m_stackcheck nt1 :: lops ++ ?t)
      with ([op_helper_v8m_stackcheck nt1] ++ lops ++ t).
    intros Hend.
    rewrite (predecrement_writeback ext _ _ _ _ _ _ _ _ Hrn
               (conj Hsl Hrun) (or_intror eq_refl) Hpm Hend).
    apply writeback_arith. lia.
  - eexists.
    exists (op_add_reg_for_lit nt1 (vldm_rn a) 0 ::
            op_addi nt1 nt1 (- Z.shiftl (vldm_imm a) 2) :: [] ++ lops), nt1.
    split; [reflexivity|].
    intros m Hpm. cbn [app].
    change (lops ++ ?t) with ([] ++ lops ++ t).
    intros Hend.
    rewrite (predecrement_writeback ext _ _ _ _ _ _ _ _ Hrn
               (conj Hsl Hrun) (or_introl eq_refl) Hpm Hend).
    apply writeback_arith. lia.
Qed.

Lemma trans_VLDM_VSTM_dp_predecrement ext a g g1 pre :
  aa32_fpsp_v2 (cfg (dc g)) = true ->
  0 < Z.shiftr (vldm_imm a) 1 <= 16 ->
  vldm_vd a + Z.shiftr (vldm_imm a) 1 <= 32 ->
  aa32_simd_r32 (cfg (dc g)) = true \/
  vldm_vd a + Z.shiftr (vldm_imm a) 1 <= 16 ->
  vldm_rn a <> 15 -> vldm_w a = true -> vldm_p a = true ->
  vfp_access_check g = Some (true, g1, pre) ->
  exists g2 body addr,
    trans_VLDM_VSTM_dp a g
    = Some (true, g2,
            pre ++ body ++
            [op_addi addr addr
                     (u32 (u32 (- 8) * Z.shiftr (vldm_imm a) 1));
             op_store_reg (vldm_rn a) addr]) /\
    forall m, pending m = None ->
      pending (run ext (body ++
                        [op_addi addr addr
                                 (u32 (u32 (- 8) * Z.shiftr (vldm_imm a) 1));
                         op_store_reg (vldm_rn a) addr]) m) = None ->
      regs (run ext (body ++
                     [op_addi addr addr
                              (u32 (u32 (- 8) * Z.shiftr (vldm_imm a) 1));
                      op_store_reg (vldm_rn a) addr]) m) (vldm_rn a)
      = u32 (regs m (vldm_rn a) - 4 * vldm_imm a).
Proof.
  intros Hv2 Hn Hvd H32 Hrn Hw Hp Hchk.
  destruct g as [[c l w n j] [nt nl]]. cbn [dc cfg] in Hv2, H32.
  unfold trans_VLDM_VSTM_dp. gen_eval_body.
  rewrite Hv2.
  set (cnt := Z.shiftr (vldm_imm a) 1) in *.
  replace (cnt =? 0) with false by (symmetry; apply Z.eqb_neq; lia).
  replace (vldm_vd a + cnt >? 32) with false
    by (symmetry; rewrite Z.gtb_ltb; apply Z.ltb_ge; lia).
  replace (cnt >? 16) with false
    by (symmetry; rewrite Z.gtb_ltb; apply Z.ltb_ge; lia).
  replace (vldm_rn a =? 15) with false by (symmetry; now apply Z.eqb_neq).
  replace (negb (aa32_simd_r32 c) && (vldm_vd a + cnt >? 16)) with false
    by (symmetry; destruct H32 as [-> | H16]; [reflexivity|];
        rewrite Z.gtb_ltb; apply andb_false_iff; right;
        apply Z.ltb_ge; lia).
  cbn [negb orb andb]. rewrite Hchk.
  destruct g1 as [[c1 l1 w1 n1 j1] [nt1 nl1]].
  gen_eval_body. rewrite Hw, Hp. gen_eval_body.
  assert (Hwb : (u32 (u32 (- (8)) * cnt) =? 0) = false)
    by (apply Z.eqb_neq, u32_neg_nonzero; lia).
  destruct (v8m_stackcheck c1 && (vldm_rn a =? 13) && true);
    gen_eval_body;
    match goal with
    | |- context [VLDM_VSTM_dp_loop ?f a ?tmp ?addr ?o ?i ?n ?gs] =>
        destruct (VLDM_VSTM_dp_loop_effect ext a tmp addr o n
                    ltac:(lia) f i gs ltac:(lia))
          as (lops & Hgen & Hsl & Hrun);
        rewrite Hgen
    end; gen_eval_body; rewrite Hwb; gen_eval_body.
  - eexists.
    exists (op_add_reg_for_lit nt1 (vldm_rn a) 0 ::
            op_addi nt1 nt1 (- Z.shiftl (vldm_imm a) 2) ::
            [op_helper_v8m_stackcheck nt1] ++ lops), nt1.
    split; [reflexivity|].
    intros m Hpm. cbn [app].
    change (op_helper_v8m_stackcheck nt1 :: lops ++ ?t)
      with ([op_helper_v8m_stackcheck nt1] ++ lops ++ t).
    intros Hend.
    rewrite (predecrement_writeback ext _ _ _ _ _ _ _ _ Hrn
               (conj Hsl Hrun) (or_intror eq_refl) Hpm Hend).
    apply writeback_arith. lia.
  - eexists.
    exists (op_add_reg_for_lit nt1 (vldm_rn a) 0 ::
            op_addi nt1 nt1 (- Z.shiftl (vldm_imm a) 2) :: [] ++ lops), nt1.
    split; [reflexivity|].
    intros m Hpm. cbn [app].
    change (lops ++ ?t) with ([] ++ lops ++ t).
    intros Hend.
    rewrite (predecrement_writeback ext _ _ _ _ _ _ _ _ Hrn
               (conj Hsl Hrun) (or_introl eq_refl) Hpm Hend).
    apply writeback_arith. lia.
Qed.

Lemma trans_VLDM_VSTM_rejects dp a g :
  transfer_count dp a = 0 \/
  vldm_vd a + transfer_count dp a > 32 \/
  (vldm_rn a = 15 /\ vldm_w a = true) ->
  trans_VLDM_VSTM dp a g = Some (false, g, []).
Proof.
  intros H. destruct g as [[c l w n j] [nt nl]].
  assert (Hb : (transfer_count dp a =? 0)
               || (vldm_vd a + transfer_count dp a >? 32)
               || ((vldm_rn a =? 15) && vldm_w a) = true).
  { destruct H as [H | [H | [H1 H2]]].
    - apply Z.eqb_eq in H. now rewrite H.
    - apply Z.gt_lt, Z.ltb_lt in H. rewrite Z.gtb_ltb, H.
      now rewrite orb_true_r.
    - apply Z.eqb_eq in H1. rewrite H1, H2. now rewrite orb_true_r. }
  destruct dp; unfold trans_VLDM_VSTM, transfer_count in *;
    [unfold trans_VLDM_VSTM_dp|unfold trans_VLDM_VSTM_sp];
    gen_eval_body; destruct (aa32_fpsp_v2 c); cbn [negb]; try reflexivity.
  - destruct (Z.shiftr (vldm_imm a) 1 =? 0),
      (vldm_vd a + Z.shiftr (vldm_imm a) 1 >? 32),
      (Z.shiftr (vldm_imm a) 1 >? 16),
      ((vldm_rn a =? 15) && vldm_w a);
      cbn [orb] in *; try reflexivity; discriminate Hb.
  - destruct (vldm_imm a =? 0), (vldm_vd a + vldm_imm a >? 32),
      ((vldm_rn a =? 15) && vldm_w a);
      cbn [orb] in *; try reflexivity; discriminate Hb.
Qed.

Lemma even_shiftr_double x : Z.even x = true -> 8 * Z.shiftr x 1 = 4 * x.
Proof.
  intros H. rewrite Z.shiftr_div_pow2 by lia. change (2 ^ 1) with 2.
  pose proof (Zdiv2_odd_eqn x) as E. rewrite <- Z.negb_even, H in E.
  cbn [negb] in E. rewrite Z.div2_div in E. lia.
Qed.

(** C7. For VLDM/VSTM in single ([dp = false]) and double precision
    ([dp = true]), with the transfer count [n] of the handler ([imm],
    respectively [imm >> 1]):
    - a count of zero, a register range past the top of the bank
      ([vd + n > 32]) and writeback with the program counter as base are
      each rejected: the handler returns [false], emits nothing and leaves
      the translation state as it was, whatever the other fields are;
    - with writeback and pre-decrement, when the access check passes the
      emitted code ends with one addition of the constant
      [- unit_size * n] to the address and the store to the base register,
      and, run to its end without a fault, leaves [base - 4 * imm] in the
      base register; this is [base - unit_size * n] in single precision
      and, in double precision, when the immediate is even. *)
Theorem block_transfer_rejection_and_writeback (ext : Externals)
    (dp : bool) (a : arg_VLDM_VSTM) (g : GenState) :
  (transfer_count dp a = 0 \/
   vldm_vd a + transfer_count dp a > 32 \/
   (vldm_rn a = 15 /\ vldm_w a = true) ->
   trans_VLDM_VSTM dp a g = Some (false, g, [])) /\
  (forall g1 pre,
     aa32_fpsp_v2 (cfg (dc g)) = true ->
     0 < transfer_count dp a ->
     vldm_vd a + transfer_count dp a <= 32 ->
     (dp = true ->
      transfer_count dp a <= 16 /\
      (aa32_simd_r32 (cfg (dc g)) = true \/
       vldm_vd a + transfer_count dp a <= 16)) ->
     vldm_rn a <> 15 -> vldm_w a = true -> vldm_p a = true ->
     vfp_access_check g = Some (true, g1, pre) ->
     exists g2 ops,
       trans_VLDM_VSTM dp a g = Some (true, g2, pre ++ ops) /\
       (exists body addr,
          ops = body ++
                [op_addi addr addr
                         (u32 (u32 (- unit_size dp) * transfer_count dp a));
                 op_store_reg (vldm_rn a) addr]) /\
       forall m, pending m = None ->
         pending (run ext ops m) = None ->
         regs (run ext ops m) (vldm_rn a)
         = u32 (regs m (vldm_rn a) - 4 * vldm_imm a) /\
         (dp = false \/ Z.even (vldm_imm a) = true ->
          regs (run ext ops m) (vldm_rn a)
          = u32 (regs m (vldm_rn a)
                 - unit_size dp * transfer_count dp a))).
Proof.
  split; [apply trans_VLDM_VSTM_rejects|].
  intros g1 pre Hv2 Hn Hvd Hdp Hrn Hw Hp Hchk.
  destruct dp; cbn [transfer_count unit_size trans_VLDM_VSTM] in *.
  - destruct (Hdp eq_refl) as [H16 H32].
    destruct (trans_VLDM_VSTM_dp_predecrement ext a g g1 pre Hv2
                ltac:(lia) Hvd H32 Hrn Hw Hp Hchk)
      as (g2 & body & addr & Hgen & Hrun).
    exists g2. eexists. split; [exact Hgen|].
    split; [exists body, addr; reflexivity|].
    intros m Hpm Hend. pose proof (Hrun m Hpm Hend) as Hv.
    split; [exact Hv|].
    intros [Hf | Hev]; [discriminate Hf|].
    rewrite (even_shiftr_double _ Hev). exact Hv.
  - destruct (trans_VLDM_VSTM_sp_predecrement ext a g g1 pre Hv2
                Hn Hvd Hrn Hw Hp Hchk)
      as (g2 & body & addr & Hgen & Hrun).
    exists g2. eexists. split; [exact Hgen|].
    split; [exists body, addr; reflexivity|].
    intros m Hpm Hend. pose proof (Hrun m Hpm Hend) as Hv.
    split; [exact Hv|]. intros _. exact Hv.
Qed.

Lemma block_transfer_rejection_and_writeback_witness :
  trans_VLDM_VSTM true arg_vldm_empty (gen_start (cfg_vfpv3 0 0) false)
  = Some (false, gen_start (cfg_vfpv3 0 0) false, []) /\
  exists g2 ops,
    trans_VLDM_VSTM false arg_vstmdb_sp (gen_start (cfg_vfpv3 0 0) false)
    = Some (true, g2, ops) /\
    regs (run ext_simple ops (cpu_example 0 0 0)) 1 = 4096 - 4 * 3.
Proof.
  split.
  { apply (proj1 (block_transfer_rejection_and_writeback ext_simple true
                    arg_vldm_empty (gen_start (cfg_vfpv3 0 0) false))).
    left. reflexivity. }
  destruct (block_transfer_rejection_and_writeback ext_simple false
              arg_vstmdb_sp (gen_start (cfg_vfpv3 0 0) false))
    as [_ H].
  destruct (H (gen_start (cfg_vfpv3 0 0) false) [] eq_refl
              ltac:(cbn; lia) ltac:(cbn; lia)
              ltac:(intros Hf; discriminate Hf)
              ltac:(cbn; lia) eq_refl eq_refl eq_refl)
    as (g2 & ops & Hgen & _ & Hrun).
  exists g2, ops. split; [exact Hgen|].
  vm_compute in Hgen. injection Hgen as _ Hops. subst ops.
  exact (proj1 (Hrun (cpu_example 0 0 0) eq_refl eq_refl)).
Defined.

(** The double-precision form with an odd immediate (FLDMDBX): one
    register is transferred and the base moves down by 12, not by 8. *)
Lemma vldm_dp_odd_immediate_writeback :
  exists g2 ops,
    trans_VLDM_VSTM true arg_vldmdb_odd (gen_start (cfg_vfpv3 0 0) false)
    = Some (true, g2, ops) /\
    transfer_count true arg_vldmdb_odd = 1 /\
    regs (cpu_example 0 0 0) (vldm_rn arg_vldmdb_odd) = 4096 /\
    pending (run ext_simple ops (cpu_example 0 0 0)) = None /\
    regs (run ext_simple ops (cpu_example 0 0 0)) (vldm_rn arg_vldmdb_odd)
    = 4084 /\
    4084 <> u32 (4096 - unit_size true * transfer_count true arg_vldmdb_odd).
Proof.
  eexists. eexists. split; [reflexivity|].
  repeat split. vm_compute. discriminate.
Qed.

(** * Further properties *)

(** ** Immediate expansion *)

Lemma all_bytes_spec f :
  all_bytes f = true -> forall x, 0 <= x < 256 -> f x = true.
Proof.
  unfold all_bytes. rewrite forallb_forall. intros H x Hx.
  apply H. apply in_map_iff. exists (Z.to_nat x). split; [lia|].
  apply in_seq. lia.
Qed.

(** The test run over every byte by [vfp_expand_imm_fields]. *)
Lemma vfp_expand_imm_fields_byte size :
  size = MemOp.MO_16 \/ size = MemOp.MO_32 \/ size = MemOp.MO_64 ->
  all_bytes (fun b =>
    match vfp_expand_imm size b with
    | Some x =>
        (ieee_sign (ieee_ebits size) (ieee_fbits size) x =? b / 128) &&
        (ieee_exponent (ieee_ebits size) (ieee_fbits size) x
         =? ieee_bias (ieee_ebits size)
            + (if (b / 64) mod 2 =? 0 then 1 else - 3) + (b / 16) mod 4) &&
        (ieee_fraction (ieee_fbits size) x
         =? (b mod 16) * 2 ^ (ieee_fbits size - 4))
    | None => false
    end) = true.
Proof. intros [-> | [-> | ->]]; vm_compute; reflexivity. Qed.

(** X1 ([vfp_expand_imm], lines 38-64).  For each of the three supported
    sizes the expansion succeeds and yields an IEEE value whose sign is bit 7
    of the 8-bit immediate, whose biased exponent is the bias plus 1 (bit 6
    clear) or minus 3 (bit 6 set) plus bits 5:4, and whose fraction holds
    bits 3:0 in its top four places with zeros below; the exponent is
    neither all zeros nor all ones, so the value is a normal number.  Only
    the low eight bits of the immediate are looked at. *)
Theorem vfp_expand_imm_fields (size imm : Z) :
  size = MemOp.MO_16 \/ size = MemOp.MO_32 \/ size = MemOp.MO_64 ->
  exists x,
    vfp_expand_imm size imm = Some x /\
    let b := imm mod 2 ^ 8 in
    let ebits := ieee_ebits size in
    let fbits := ieee_fbits size in
    ieee_sign ebits fbits x = b / 128 /\
    ieee_exponent ebits fbits x
    = ieee_bias ebits + (if (b / 64) mod 2 =? 0 then 1 else - 3)
      + (b / 16) mod 4 /\
    0 < ieee_exponent ebits fbits x < 2 ^ ebits - 1 /\
    ieee_fraction fbits x = (b mod 16) * 2 ^ (fbits - 4).
Proof.
  intros Hsize.
  assert (Hb : 0 <= imm mod 2 ^ 8 < 256) by (apply Z.mod_pos_bound; lia).
  pose proof (all_bytes_spec _ (vfp_expand_imm_fields_byte size Hsize)
                _ Hb) as H.
  cbv beta in H.
  assert (E : vfp_expand_imm size (imm mod 2 ^ 8) = vfp_expand_imm size imm).
  { unfold vfp_expand_imm. now rewrite Z.mod_mod by lia. }
  rewrite E in H.
  destruct (vfp_expand_imm size imm) as [x|]; [|discriminate H].
  exists x. split; [reflexivity|].
  apply andb_true_iff in H as [H Hf]. apply andb_true_iff in H as [Hs He].
  apply Z.eqb_eq in Hs, He, Hf. cbv zeta.
  repeat split; try assumption.
  all: rewrite He;
    assert (0 <= (imm mod 2 ^ 8 / 16) mod 4 < 4)
      by (apply Z.mod_pos_bound; lia);
    set (e := (imm mod 2 ^ 8 / 16) mod 4) in *;
    destruct ((imm mod 2 ^ 8 / 64) mod 2 =? 0);
    destruct Hsize as [-> | [-> | ->]];
    [ change (ieee_bias (ieee_ebits MemOp.MO_16)) with 15;
      change (2 ^ ieee_ebits MemOp.MO_16) with 32
    | change (ieee_bias (ieee_ebits MemOp.MO_32)) with 127;
      change (2 ^ ieee_ebits MemOp.MO_32) with 256
    | change (ieee_bias (ieee_ebits MemOp.MO_64)) with 1023;
      change (2 ^ ieee_ebits MemOp.MO_64) with 2048
    | change (ieee_bias (ieee_ebits MemOp.MO_16)) with 15;
      change (2 ^ ieee_ebits MemOp.MO_16) with 32
    | change (ieee_bias (ieee_ebits MemOp.MO_32)) with 127;
      change (2 ^ ieee_ebits MemOp.MO_32) with 256
    | change (ieee_bias (ieee_ebits MemOp.MO_64)) with 1023;
      change (2 ^ ieee_ebits MemOp.MO_64) with 2048 ];
    lia.
Qed.

Lemma vfp_expand_imm_fields_witness :
  exists x,
    vfp_expand_imm MemOp.MO_32 112 = Some x /\
    ieee_sign 8 23 x = 0 /\ ieee_exponent 8 23 x = 127 /\
    ieee_fraction 23 x = 0.
Proof.
  destruct (vfp_expand_imm_fields MemOp.MO_32 112
              (or_intror (or_introl eq_refl)))
    as (x & Hx & Hs & He & _ & Hf).
  exists x. repeat split; [exact Hx|exact Hs|exact He|exact Hf].
Defined.

(** ** Register addressing *)

Lemma advance_bank_compose k reg a b :
  0 <= k ->
  advance_bank k (advance_bank k reg a) b = advance_bank k reg (a + b).
Proof.
  intros Hk. unfold advance_bank at 1 3.
  rewrite advance_bank_high by lia. f_equal.
  assert (Hpos : 0 < 2 ^ k) by (apply Z.pow_pos_nonneg; lia).
  rewrite <- Z.add_mod_idemp_l by lia.
  rewrite advance_bank_low by lia.
  rewrite Z.add_mod_idemp_l by lia. now rewrite Z.add_assoc.
Qed.

Lemma advance_bank_fixed k reg d :
  0 <= k -> (advance_bank k reg d = reg <-> d mod 2 ^ k = 0).
Proof.
  intros Hk.
  assert (Hpos : 0 < 2 ^ k) by (apply Z.pow_pos_nonneg; lia).
  unfold advance_bank.
  pose proof (Z.div_mod reg (2 ^ k) ltac:(lia)) as Hr.
  split; intros H.
  - assert (E : (reg + d) mod 2 ^ k = reg mod 2 ^ k) by lia.
    rewrite <- (Z.mod_0_l (2 ^ k)) by lia.
    replace d with ((reg + d) - reg) by lia.
    rewrite Zminus_mod, E, Z.sub_diag. reflexivity.
  - rewrite <- Z.add_mod_idemp_r, H, Z.add_0_r by lia. lia.
Qed.

(** X2 ([vfp_advance_sreg], [vfp_advance_dreg], lines 1680-1700).
    Advancing a register twice is advancing it once by the sum of the two
    steps, and an advance gives back the register it started from exactly
    when the step is a multiple of the bank size (8 single-precision, 4
    double-precision registers). *)
Theorem vfp_advance_compose_and_period (reg a b : Z) :
  vfp_advance_sreg (vfp_advance_sreg reg a) b = vfp_advance_sreg reg (a + b)
  /\
  vfp_advance_dreg (vfp_advance_dreg reg a) b = vfp_advance_dreg reg (a + b)
  /\
  (vfp_advance_sreg reg a = reg <-> a mod 8 = 0) /\
  (vfp_advance_dreg reg a = reg <-> a mod 4 = 0).
Proof.
  rewrite !vfp_advance_sreg_bank, !vfp_advance_dreg_bank.
  repeat split; try (apply advance_bank_compose; lia).
  all: try (apply (advance_bank_fixed 3); lia);
       try (apply (advance_bank_fixed 2); lia).
Qed.

Lemma land_high_div x k c :
  0 <= k -> 0 <= c ->
  Z.land x (2 ^ k * c) = 2 ^ k * Z.land (x / 2 ^ k) c.
Proof.
  intros Hk Hc. rewrite !(Z.mul_comm (2 ^ k)), <- !Z.shiftl_mul_pow2 by lia.
  rewrite <- Z.shiftr_div_pow2 by lia.
  apply Z.bits_inj'. intros n Hn.
  rewrite Z.land_spec.
  destruct (Z_lt_ge_dec n k) as [Hlt|Hge].
  - rewrite !Z.shiftl_spec_low by lia. now rewrite andb_false_r.
  - rewrite !Z.shiftl_spec by lia. rewrite Z.land_spec, Z.shiftr_spec by lia.
    now replace (n - k + k) with n by lia.
Qed.

(** X3 ([vfp_sreg_is_scalar], [vfp_dreg_is_scalar], [vfp_advance_sreg],
    [vfp_advance_dreg], lines 1670-1700).  Advancing never changes whether a
    register lies in a scalar bank, and a double-precision register never
    moves between D0-D15 and D16-D31. *)
Theorem vfp_advance_keeps_bank_class (reg d : Z) :
  vfp_sreg_is_scalar (vfp_advance_sreg reg d) = vfp_sreg_is_scalar reg /\
  vfp_dreg_is_scalar (vfp_advance_dreg reg d) = vfp_dreg_is_scalar reg /\
  Z.land (vfp_advance_dreg reg d) 16 = Z.land reg 16.
Proof.
  rewrite vfp_advance_sreg_bank, vfp_advance_dreg_bank.
  unfold vfp_sreg_is_scalar, vfp_dreg_is_scalar.
  change 24 with (2 ^ 3 * 3). change 12 with (2 ^ 2 * 3).
  change 16 with (2 ^ 2 * 4).
  rewrite !land_high_div by lia.
  now rewrite !advance_bank_high by lia.
Qed.

(** ** The FPU access check *)

Ltac rewrite_conditions :=
  repeat match goal with
         | E : ?x = ?x |- _ => clear E
         | E : _ = true |- _ => rewrite E; clear E
         | E : _ = false |- _ => rewrite E; clear E
         end.

(** Case analysis on every condition tested while producing [H]. *)
Ltac gen_split H :=
  repeat (match type of H with
          | context [if ?b then _ else _] => destruct b eqn:?
          end;
          gen_eval_in H; try discriminate).

(** X4 ([full_vfp_access_check], lines 123-196).  Once the access check
    has passed, running it again in the resulting translation state passes
    too, emits no operation and leaves the state as it is; on an M-profile
    core the three flags that ask for lazy state preservation, an FPCCR.S
    update and a new floating-point context are all clear afterwards. *)
Theorem full_vfp_access_check_once ign g g1 pre :
  full_vfp_access_check ign g = Some (true, g1, pre) ->
  full_vfp_access_check ign g1 = Some (true, g1, []) /\
  (ARM_FEATURE_M (cfg (dc g)) = true ->
   v7m_lspact (dc g1) = false /\
   v8m_fpccr_s_wrong (dc g1) = false /\
   v7m_new_fp_ctxt_needed (dc g1) = false).
Proof.
  destruct g as [[c l w n j] [nt nl]].
  intros H. destruct l, w, n; gen_eval_in H.
  all: gen_split H.
  all: inversion H; subst; clear H; gen_eval.
  all: split; [rewrite_conditions; gen_eval; reflexivity|].
  all: cbn [dc cfg v7m_lspact v8m_fpccr_s_wrong v7m_new_fp_ctxt_needed].
  all: intros HM; try (repeat split; reflexivity).
  all: congruence.
Qed.

Lemma full_vfp_access_check_once_witness :
  full_vfp_access_check false
    {| dc := {| cfg := cfg_v8_1m; v7m_lspact := false;
                v8m_fpccr_s_wrong := false;
                v7m_new_fp_ctxt_needed := false; is_jmp := DISAS_NEXT |};
       tcg := {| next_temp := 3; next_label := 0 |} |}
  = Some (true,
          {| dc := {| cfg := cfg_v8_1m; v7m_lspact := false;
                      v8m_fpccr_s_wrong := false;
                      v7m_new_fp_ctxt_needed := false;
                      is_jmp := DISAS_NEXT |};
             tcg := {| next_temp := 3; next_label := 0 |} |}, []).
Proof.
  refine (proj1 (full_vfp_access_check_once false (gen_start cfg_v8_1m true)
                   _ _ _)).
  reflexivity.
Defined.

(** X5 ([full_vfp_access_check], lines 123-196).  The access check fails
    only on a core that is not M-profile; it then emits exactly one
    undefined-instruction exception (uncategorized at the default exception
    level when no trap level is set, a floating-point access trap at the
    trap level otherwise), marks the block as not returning and allocates
    no temporary or label. *)
Theorem full_vfp_access_check_refusal ign g g1 ops :
  full_vfp_access_check ign g = Some (false, g1, ops) ->
  ARM_FEATURE_M (cfg (dc g)) = false /\
  tcg g1 = tcg g /\ cfg (dc g1) = cfg (dc g) /\
  is_jmp (dc g1) = DISAS_NORETURN /\
  ops = [if fp_excp_el (cfg (dc g)) =? 0
         then op_exception_insn (pc_curr (cfg (dc g))) EXCP_UDEF
                syn_uncategorized (default_exception_el (cfg (dc g)))
         else op_exception_insn (pc_curr (cfg (dc g))) EXCP_UDEF
                (syn_fp_access_trap 1 14 false) (fp_excp_el (cfg (dc g)))].
Proof.
  destruct g as [[c l w n j] [nt nl]].
  intros H. destruct l, w, n; gen_eval_in H.
  all: gen_split H.
  all: inversion H; subst; clear H; cbn [dc cfg tcg is_jmp].
  all: repeat match goal with
              | E : negb _ = _ |- _ => apply (f_equal negb) in E;
                                         rewrite negb_involutive in E;
                                         cbn [negb] in E
              end.
  all: rewrite_conditions; repeat split; reflexivity.
Qed.

Lemma full_vfp_access_check_refusal_witness :
  ARM_FEATURE_M cfg_fp_trapped = false /\
  full_vfp_access_check false (gen_start cfg_fp_trapped false)
  = Some (false,
          {| dc := {| cfg := cfg_fp_trapped; v7m_lspact := false;
                      v8m_fpccr_s_wrong := false;
                      v7m_new_fp_ctxt_needed := false;
                      is_jmp := DISAS_NORETURN |};
             tcg := {| next_temp := 0; next_label := 0 |} |},
          [op_exception_insn 4096 EXCP_UDEF (syn_fp_access_trap 1 14 false)
                             2]).
Proof.
  split; [|reflexivity].
  exact (proj1 (full_vfp_access_check_refusal false
                  (gen_start cfg_fp_trapped false) _ _ eq_refl)).
Defined.

Ltac run_any_step :=
  first [ run_step_pending
        | erewrite run_from_pending by reflexivity
        | match goal with
          | |- context [if stackcheck_fails ?e ?s ?x then _ else _] =>
              destruct (stackcheck_fails e s x) eqn:?
          | |- context [if mem_ok ?e ?x then _ else _] =>
              destruct (mem_ok e x) eqn:?
          | |- context [if snd (preserve_fp_state_sem ?e ?s) then _ else _] =>
              destruct (snd (preserve_fp_state_sem e s)) eqn:?
          end ].

Lemma testbit_u32_lor x bits k :
  0 <= k < 32 -> Z.testbit bits k = true ->
  Z.testbit (u32 (Z.lor x bits)) k = true.
Proof.
  intros Hk Hb. unfold u32. rewrite Z.mod_pow2_bits_low by lia.
  rewrite Z.lor_spec, Hb. apply orb_true_r.
Qed.

(** X6 ([full_vfp_access_check], lines 123-196).  On an M-profile core
    with a new floating-point context pending, the code emitted by a passing
    check, when it runs without raising, sets CONTROL.FPCA (and CONTROL.SFPA
    in secure state) and loads FPSCR from the FPDSCR of the current security
    state. *)
Theorem access_check_creates_fp_context ext ign g g1 pre m :
  ARM_FEATURE_M (cfg (dc g)) = true ->
  v7m_new_fp_ctxt_needed (dc g) = true ->
  full_vfp_access_check ign g = Some (true, g1, pre) ->
  pending m = None ->
  pending (run ext pre m) = None ->
  Z.testbit (control (run ext pre m) M_REG_S) 2 = true /\
  (v8m_secure (cfg (dc g)) = true ->
   Z.testbit (control (run ext pre m) M_REG_S) 3 = true) /\
  fpInactive (run ext pre m) = false /\
  xregs (run ext pre m) ARM_VFP_FPSCR
  = fst (vfp_set_fpscr_sem ext
           (fpdscr m (m_bank_of_bool (v8m_secure (cfg (dc g)))))
           (xregs m ARM_VFP_FPSCR) (fp_status m)).
Proof.
  destruct g as [[c l w n j] [nt nl]]. cbn [dc cfg v7m_new_fp_ctxt_needed].
  intros HM -> H Hp. destruct l, w; gen_eval_in H.
  all: gen_split H.
  all: inversion H; subst; clear H.
  all: unfold run; repeat run_any_step.
  all: cbn [run_from fold_left env pending raise]; try discriminate.
  all: intros _; unfold fpInactive.
  all: cbn [control xregs fpccr set_control set_temp set_temps set_fp_status
            set_xregs set_fpccr set_memory upd_bank m_bank_eqb sysreg_eqb
            m_bank_of_bool].
  all: assert (H2 : forall x bits, Z.testbit bits 2 = true ->
                    Z.testbit (u32 (Z.lor x bits)) 2 = true)
         by (intros; apply testbit_u32_lor; [lia|assumption]).
  all: assert (H3 : forall x bits, Z.testbit bits 3 = true ->
                    Z.testbit (u32 (Z.lor x bits)) 3 = true)
         by (intros; apply testbit_u32_lor; [lia|assumption]).
  all: rewrite ?H2 by reflexivity; rewrite ?andb_false_r.
  all: repeat split; try reflexivity; try discriminate.
  all: intros _; apply H3; reflexivity.
Qed.

Lemma access_check_creates_fp_context_witness :
  exists g1 pre,
    full_vfp_access_check false (gen_start cfg_v8_1m true)
    = Some (true, g1, pre) /\
    fpInactive (cpu_example 0 2147483648 0) = true /\
    fpInactive (run ext_simple pre (cpu_example 0 2147483648 0)) = false.
Proof.
  eexists. eexists. split; [vm_compute; reflexivity|].
  split; [reflexivity|].
  refine (proj1 (proj2 (proj2
            (access_check_creates_fp_context ext_simple false
               (gen_start cfg_v8_1m true) _ _
               (cpu_example 0 2147483648 0)
               eq_refl eq_refl eq_refl eq_refl eq_refl)))).
Defined.

(** ** Rejection leaves no trace *)

Lemma results_in_ret {A} (a : A) (P : A -> Prop) : P a -> results_in (ret a) P.
Proof. intros H g r g' o E. unfold ret in E. now inversion E; subst. Qed.

Lemma results_in_bind {A B} (m : Gen A) (k : A -> Gen B) P :
  (forall a, results_in (k a) P) -> results_in (bind m k) P.
Proof.
  intros H g r g' o E.
  apply bind_inv in E as (a & g1 & o1 & o2 & _ & E & _).
  exact (H a _ _ _ _ E).
Qed.

Lemma results_in_abort {A} (P : A -> Prop) : results_in abort P.
Proof. intros g r g' o E. discriminate E. Qed.

Lemma rejects_cleanly_ret {A} rej (a : A) : rejects_cleanly rej (ret a).
Proof. intros g r g' o E _. unfold ret in E. now inversion E. Qed.

Lemma rejects_cleanly_get_s {A} rej (k : DisasContext -> Gen A) :
  (forall s, rejects_cleanly rej (k s)) ->
  rejects_cleanly rej (bind get_s k).
Proof.
  intros H g r g' o E Hr. unfold bind, get_s in E.
  destruct (k (dc g) g) as [[[b g2] o2]|] eqn:Ek; [|discriminate E].
  inversion E; subst. exact (H _ _ _ _ _ Ek Hr).
Qed.

(** After the point of no return every result is an acceptance. *)
Lemma rejects_cleanly_accepting {A} rej (m : Gen A) :
  results_in m (fun r => rej r = false) -> rejects_cleanly rej m.
Proof. intros H g r g' o E Hr. rewrite (H _ _ _ _ E) in Hr. discriminate. Qed.

Ltac solve_results_in :=
  repeat first
    [ apply results_in_ret; reflexivity
    | apply results_in_abort
    | apply results_in_bind; intros
    | match goal with
      | |- results_in (if ?c then _ else _) _ => destruct c
      | |- results_in (when ?c _) _ => unfold when
      | |- results_in (match ?x with pair _ _ => _ end) _ => destruct x
      | |- results_in (match ?x with Some _ => _ | None => _ end) _ =>
          destruct x
      end ].

Ltac solve_rejects :=
  repeat first
    [ apply rejects_cleanly_ret
    | apply rejects_cleanly_get_s; intros
    | match goal with
      | |- rejects_cleanly _ (if ?c then _ else _) => destruct c
      | |- rejects_cleanly _ (let _ := _ in _) => cbv zeta
      | |- rejects_cleanly _ (match ?x with Some _ => _ | None => _ end) =>
          destruct x
      end
    | apply rejects_cleanly_accepting; solve [solve_results_in] ].

Lemma trans_VMOV_half_rejects a : rejects_cleanly negb (trans_VMOV_half a).
Proof. unfold trans_VMOV_half. solve_rejects. Qed.

Lemma rejects_cleanly_bind_split {A B} rej (m : Gen A) (k : A -> Gen B) :
  (forall g a g' o, m g = Some (a, g', o) ->
     (g' = g /\ o = [] /\ rejects_cleanly rej (k a)) \/
     results_in (k a) (fun r => rej r = false)) ->
  rejects_cleanly rej (bind m k).
Proof.
  intros H g r g' o E Hr.
  apply bind_inv in E as (a & g1 & o1 & o2 & Hm & E & ->).
  destruct (H _ _ _ _ Hm) as [(-> & -> & Hk) | Hk].
  - exact (Hk _ _ _ _ E Hr).
  - rewrite (Hk _ _ _ _ E) in Hr. discriminate Hr.
Qed.

Lemma rejects_cleanly_assert {A} rej b (k : Gen A) :
  rejects_cleanly rej k -> rejects_cleanly rej (assert b ;; k).
Proof.
  intros H g r g' o E Hr.
  apply bind_inv in E as ([] & g1 & o1 & o2 & Ha & E & ->).
  unfold assert in Ha. destruct b; [|discriminate Ha].
  unfold ret in Ha. inversion Ha; subst. exact (H _ _ _ _ E Hr).
Qed.

Ltac solve_rejects_deep :=
  repeat first
    [ apply rejects_cleanly_ret
    | apply rejects_cleanly_get_s; intros
    | apply rejects_cleanly_assert
    | apply rejects_cleanly_accepting; solve [solve_results_in]
    | match goal with
      | |- rejects_cleanly _ (if ?c then _ else _) => destruct c
      | |- rejects_cleanly _ (let _ := _ in _) => cbv zeta
      | |- rejects_cleanly _ (match ?x with _ => _ end) => destruct x
      end ].

Lemma fp_sysreg_checks_rejects regno :
  rejects_cleanly is_failed (fp_sysreg_checks regno).
Proof. unfold fp_sysreg_checks. solve_rejects_deep. Qed.

Lemma gen_M_fp_sysreg_read_rejects {O} regno
    (storefn : O -> temp -> Gen unit) opaque :
  rejects_cleanly negb (gen_M_fp_sysreg_read regno storefn opaque).
Proof.
  unfold gen_M_fp_sysreg_read. apply rejects_cleanly_bind_split.
  intros g chk g' o Hc. destruct chk.
  - left. destruct (fp_sysreg_checks_rejects _ _ _ _ _ Hc eq_refl) as [-> ->].
    split; [reflexivity|split; [reflexivity|apply rejects_cleanly_ret]].
  - right. solve_results_in.
  - right. solve_results_in.
Qed.

Lemma gen_M_fp_sysreg_write_rejects {O} regno
    (loadfn : O -> Gen temp) opaque :
  rejects_cleanly negb (gen_M_fp_sysreg_write regno loadfn opaque).
Proof.
  unfold gen_M_fp_sysreg_write. apply rejects_cleanly_bind_split.
  intros g chk g' o Hc. destruct chk.
  - left. destruct (fp_sysreg_checks_rejects _ _ _ _ _ Hc eq_refl) as [-> ->].
    split; [reflexivity|split; [reflexivity|apply rejects_cleanly_ret]].
  - right. solve_results_in.
  - right. solve_results_in.
Qed.

Lemma verdict_rejects {A} (m : Gen (bool * A)) :
  rejects_cleanly (fun p => negb (fst p)) m ->
  rejects_cleanly negb (verdict m).
Proof.
  intros H g r g' o E Hr. unfold verdict in E.
  apply bind_inv in E as (p & g1 & o1 & o2 & Hm & E & ->).
  unfold ret in E. inversion E; subst.
  destruct (H _ _ _ _ Hm Hr) as [-> ->]. now split.
Qed.

Lemma rejects_cleanly_pair {A B} (m : Gen bool) (f : bool -> A * B)
    (rej : A * B -> bool) :
  (forall b, rej (f b) = negb b) ->
  rejects_cleanly negb m ->
  rejects_cleanly rej (b <- m ;; ret (f b)).
Proof.
  intros Hf H g r g' o E Hr.
  apply bind_inv in E as (b & g1 & o1 & o2 & Hm & E & ->).
  unfold ret in E. inversion E; subst. rewrite Hf in Hr.
  destruct (H _ _ _ _ Hm Hr) as [-> ->]. now split.
Qed.

Lemma trans_VMSR_VMRS_rejects a :
  rejects_cleanly (fun p => negb (fst p)) (trans_VMSR_VMRS a).
Proof.
  unfold trans_VMSR_VMRS. apply rejects_cleanly_get_s. intros s.
  destruct (ARM_FEATURE_M (cfg s)).
  - unfold gen_M_VMSR_VMRS.
    repeat match goal with
           | |- rejects_cleanly _ (if ?c then _ else _) => destruct c
           end;
      try apply rejects_cleanly_ret;
      (apply rejects_cleanly_pair; [reflexivity|]);
      first [apply gen_M_fp_sysreg_read_rejects
            |apply gen_M_fp_sysreg_write_rejects].
  - solve_rejects_deep.
Qed.

(** X7 (every handler of [handler_call]).  A handler that returns
    [false], leaving the instruction to the decoder, has emitted no
    operation and has left the translation state as it found it. *)
Theorem rejection_emits_nothing (h : handler_call) (g g' : GenState)
    (ops : list tcg_op) :
  translate h g = Some (false, g', ops) -> g' = g /\ ops = [].
Proof.
  intros H.
  assert (Hr : rejects_cleanly negb (translate h)).
  { destruct h; cbn [translate].
    - apply verdict_rejects, trans_VMSR_VMRS_rejects.
    - unfold trans_VLDR_sysreg. apply rejects_cleanly_get_s. intros s.
      repeat match goal with
             | |- rejects_cleanly _ (if ?c then _ else _) => destruct c
             end; try apply rejects_cleanly_ret.
      apply gen_M_fp_sysreg_write_rejects.
    - unfold trans_VSTR_sysreg. apply rejects_cleanly_get_s. intros s.
      repeat match goal with
             | |- rejects_cleanly _ (if ?c then _ else _) => destruct c
             end; try apply rejects_cleanly_ret.
      apply gen_M_fp_sysreg_read_rejects.
    - apply verdict_rejects. unfold trans_NOCP. solve_rejects_deep.
    - apply verdict_rejects. unfold trans_NOCP_8_1, trans_NOCP.
      solve_rejects_deep.
    - unfold trans_VLDM_VSTM_sp. solve_rejects.
    - unfold trans_VLDM_VSTM_dp. solve_rejects.
    - unfold do_vfp_3op_sp. solve_rejects.
    - unfold do_vfp_3op_hp. solve_rejects.
    - unfold do_vfp_3op_dp. solve_rejects.
    - unfold do_vfp_2op_sp. solve_rejects.
    - unfold do_vfp_2op_hp. solve_rejects.
    - unfold do_vfp_2op_dp. solve_rejects.
    - unfold do_vfm_hp. solve_rejects.
    - unfold do_vfm_sp. solve_rejects.
    - unfold do_vfm_dp. solve_rejects.
    - unfold trans_VRINT. solve_rejects.
    - unfold trans_VCVT. solve_rejects.
    - unfold trans_VRINTZ_hp. solve_rejects.
    - unfold trans_VRINTZ_sp. solve_rejects.
    - unfold trans_VRINTZ_dp. solve_rejects.
    - unfold trans_VMOV_half. solve_rejects.
    - unfold trans_VMOV_single. solve_rejects.
    - unfold trans_VMOV_64_sp. solve_rejects.
    - unfold trans_VMOV_64_dp. solve_rejects.
    - unfold trans_VLDR_VSTR_sp. solve_rejects.
    - unfold trans_VLDR_VSTR_dp. solve_rejects.
    - unfold trans_VMOV_imm_hp. solve_rejects.
    - unfold trans_VMOV_imm_sp. solve_rejects.
    - unfold trans_VINS. solve_rejects.
    - unfold trans_VMOVX. solve_rejects. }
  exact (Hr _ _ _ _ H eq_refl).
Qed.

Lemma rejection_emits_nothing_witness :
  translate (call_VLDM_VSTM_sp {| vldm_rn := 1; vldm_vd := 0; vldm_imm := 0;
                                  vldm_l := true; vldm_w := false;
                                  vldm_p := false |})
            (gen_start (cfg_vfpv3 0 0) false)
  = Some (false, gen_start (cfg_vfpv3 0 0) false, []) /\
  gen_start (cfg_vfpv3 0 0) false = gen_start (cfg_vfpv3 0 0) false /\
  @nil tcg_op = [].
Proof.
  split; [reflexivity|].
  apply (rejection_emits_nothing
           (call_VLDM_VSTM_sp {| vldm_rn := 1; vldm_vd := 0; vldm_imm := 0;
                                 vldm_l := true; vldm_w := false;
                                 vldm_p := false |})).
  reflexivity.
Defined.

(** ** Moves between general-purpose and VFP registers *)

(** Once a check has passed, later checks in the block are free, wherever
    the temporary and label counters stand. *)
Lemma full_vfp_access_check_again ign g g1 pre t :
  full_vfp_access_check ign g = Some (true, g1, pre) ->
  full_vfp_access_check ign {| dc := dc g1; tcg := t |}
  = Some (true, {| dc := dc g1; tcg := t |}, []).
Proof.
  destruct g as [[c l w n j] [nt nl]], t as [nt' nl'].
  intros H. destruct l, w, n; gen_eval_in H.
  all: gen_split H.
  all: inversion H; subst; clear H; gen_eval.
  all: rewrite_conditions; gen_eval; reflexivity.
Qed.

Lemma vfp_access_check_again g g1 pre t :
  vfp_access_check g = Some (true, g1, pre) ->
  vfp_access_check {| dc := dc g1; tcg := t |}
  = Some (true, {| dc := dc g1; tcg := t |}, []).
Proof. apply full_vfp_access_check_again. Qed.

Ltac check_again Hchk :=
  match goal with
  | |- context [vfp_access_check {| dc := ?d; tcg := ?t |}] =>
      let Hagain := fresh "Hagain" in
      pose proof (vfp_access_check_again _ _ _ t Hchk) as Hagain;
      cbn [dc] in Hagain; rewrite Hagain; clear Hagain
  end;
  gen_eval_body.

Lemma wrap_int_succ_neq x : wrap_int (x + 1) <> x.
Proof.
  intros H.
  pose proof (wrap_int_mod_pow2 (x + 1) 32 ltac:(lia)) as E.
  rewrite H in E.
  assert (E' : (x + 1 - x) mod 2 ^ 32 = 0).
  { rewrite Zminus_mod, <- E, Z.sub_diag. reflexivity. }
  replace (x + 1 - x) with 1 in E' by lia. discriminate E'.
Qed.

Lemma VMOV_64_sp_roundtrip_gp ext rt rt2 vm g g1 pre :
  aa32_fpsp_v2 (cfg (dc g)) = true ->
  vfp_access_check g = Some (true, g1, pre) ->
  exists g2 body,
    (trans_VMOV_64_sp {| vmov64_op := false; vmov64_rt := rt;
                         vmov64_rt2 := rt2; vmov64_vm := vm |} ;;
     trans_VMOV_64_sp {| vmov64_op := true; vmov64_rt := rt;
                         vmov64_rt2 := rt2; vmov64_vm := vm |}) g
    = Some (true, g2, pre ++ body) /\
    forall m, pending m = None ->
      pending (run ext body m) = None /\
      regs (run ext body m) rt = u32 (regs m rt) /\
      regs (run ext body m) rt2 = u32 (regs m rt2) /\
      forall r, r <> rt -> r <> rt2 -> regs (run ext body m) r = regs m r.
Proof.
  intros Hv2 Hchk.
  destruct g as [[c l w n j] [nt nl]]. cbn [dc cfg] in Hv2.
  pose proof (vfp_access_check_cfg _ _ _ _ Hchk) as Hc.
  destruct g1 as [[c1 l1 w1 n1 j1] [nt1 nl1]]. cbn [dc cfg] in Hc. subst c1.
  unfold trans_VMOV_64_sp, VMOV_64_body. cbn [vmov64_op vmov64_rt vmov64_rt2 vmov64_vm].
  gen_eval_body. rewrite Hv2. cbn [negb]. rewrite Hchk. gen_eval_body.
  rewrite Hv2. cbn [negb].
  check_again Hchk.
  eexists. eexists. split; [rewrite <- app_assoc; reflexivity|].
  intros m Hp. unfold run. cbn [app]. repeat run_step_pending.
  cbn [run_from fold_left env pending regs vfp_s set_regs set_vfp_s
       set_temp set_temps].
  pose proof (wrap_int_succ_neq vm) as Hvm.
  rewrite (upd_Z_neq (wrap_int (vm + 1)) _ _ vm) by congruence.
  rewrite !upd_Z_eq.
  repeat split; try assumption.
  - destruct (Z.eq_dec rt rt2) as [->|Hne];
      [now rewrite upd_Z_eq|now rewrite upd_Z_neq, upd_Z_eq by congruence].
  - intros r Hr Hr2. now rewrite !upd_Z_neq by congruence.
Qed.

Lemma VMOV_64_sp_roundtrip_fp ext rt rt2 vm g g1 pre :
  aa32_fpsp_v2 (cfg (dc g)) = true ->
  rt <> rt2 ->
  vfp_access_check g = Some (true, g1, pre) ->
  exists g2 body,
    (trans_VMOV_64_sp {| vmov64_op := true; vmov64_rt := rt;
                         vmov64_rt2 := rt2; vmov64_vm := vm |} ;;
     trans_VMOV_64_sp {| vmov64_op := false; vmov64_rt := rt;
                         vmov64_rt2 := rt2; vmov64_vm := vm |}) g
    = Some (true, g2, pre ++ body) /\
    forall m, pending m = None ->
      pending (run ext body m) = None /\
      vfp_s (run ext body m) vm = u32 (vfp_s m vm) /\
      vfp_s (run ext body m) (wrap_int (vm + 1))
      = u32 (vfp_s m (wrap_int (vm + 1))) /\
      forall r, r <> vm -> r <> wrap_int (vm + 1) ->
                vfp_s (run ext body m) r = vfp_s m r.
Proof.
  intros Hv2 Hrt Hchk.
  destruct g as [[c l w n j] [nt nl]]. cbn [dc cfg] in Hv2.
  pose proof (vfp_access_check_cfg _ _ _ _ Hchk) as Hc.
  destruct g1 as [[c1 l1 w1 n1 j1] [nt1 nl1]]. cbn [dc cfg] in Hc. subst c1.
  unfold trans_VMOV_64_sp, VMOV_64_body.
  cbn [vmov64_op vmov64_rt vmov64_rt2 vmov64_vm].
  gen_eval_body. rewrite Hv2. cbn [negb]. rewrite Hchk. gen_eval_body.
  rewrite Hv2. cbn [negb]. check_again Hchk.
  eexists. eexists. split; [rewrite <- app_assoc; reflexivity|].
  intros m Hp. unfold run. cbn [app]. repeat run_step_pending.
  cbn [run_from fold_left env pending regs vfp_s set_regs set_vfp_s
       set_temp set_temps].
  pose proof (wrap_int_succ_neq vm) as Hvm.
  rewrite (upd_Z_neq rt2 _ _ rt) by congruence.
  rewrite !upd_Z_eq.
  repeat split; try assumption.
  - now rewrite upd_Z_neq, upd_Z_eq by congruence.
  - intros r Hr Hr2. now rewrite !upd_Z_neq by congruence.
Qed.

(** X8 ([trans_VMOV_64_sp], lines 1283-1319).  Moving a pair of
    single-precision registers to two distinct general-purpose registers
    (neither of them the PC) and back restores the two floating-point
    registers, truncated to 32 bits, and changes no other floating-point
    register; moving two general-purpose registers to the pair and back
    restores the general-purpose registers likewise. *)
Theorem VMOV_64_sp_roundtrip ext rt rt2 vm g g1 pre :
  aa32_fpsp_v2 (cfg (dc g)) = true ->
  rt <> 15 -> rt2 <> 15 ->
  vfp_access_check g = Some (true, g1, pre) ->
  (exists g2 body,
     (trans_VMOV_64_sp {| vmov64_op := false; vmov64_rt := rt;
                          vmov64_rt2 := rt2; vmov64_vm := vm |} ;;
      trans_VMOV_64_sp {| vmov64_op := true; vmov64_rt := rt;
                          vmov64_rt2 := rt2; vmov64_vm := vm |}) g
     = Some (true, g2, pre ++ body) /\
     forall m, pending m = None ->
       pending (run ext body m) = None /\
       regs (run ext body m) rt = u32 (regs m rt) /\
       regs (run ext body m) rt2 = u32 (regs m rt2) /\
       forall r, r <> rt -> r <> rt2 ->
                 regs (run ext body m) r = regs m r) /\
  (rt <> rt2 ->
   exists g2 body,
     (trans_VMOV_64_sp {| vmov64_op := true; vmov64_rt := rt;
                          vmov64_rt2 := rt2; vmov64_vm := vm |} ;;
      trans_VMOV_64_sp {| vmov64_op := false; vmov64_rt := rt;
                          vmov64_rt2 := rt2; vmov64_vm := vm |}) g
     = Some (true, g2, pre ++ body) /\
     forall m, pending m = None ->
       pending (run ext body m) = None /\
       vfp_s (run ext body m) vm = u32 (vfp_s m vm) /\
       vfp_s (run ext body m) (wrap_int (vm + 1))
       = u32 (vfp_s m (wrap_int (vm + 1))) /\
       forall r, r <> vm -> r <> wrap_int (vm + 1) ->
                 vfp_s (run ext body m) r = vfp_s m r).
Proof.
  intros Hv2 _ _ Hchk. split.
  - exact (VMOV_64_sp_roundtrip_gp ext rt rt2 vm g g1 pre Hv2 Hchk).
  - intros Hrt.
    exact (VMOV_64_sp_roundtrip_fp ext rt rt2 vm g g1 pre Hv2 Hrt Hchk).
Qed.

Lemma VMOV_64_sp_roundtrip_witness :
  exists g2 body,
    (trans_VMOV_64_sp {| vmov64_op := false; vmov64_rt := 1;
                         vmov64_rt2 := 2; vmov64_vm := 6 |} ;;
     trans_VMOV_64_sp {| vmov64_op := true; vmov64_rt := 1;
                         vmov64_rt2 := 2; vmov64_vm := 6 |})
      (gen_start (cfg_vfpv3 0 0) false)
    = Some (true, g2, body) /\
    regs (run ext_simple body (cpu_example 0 0 0)) 1 = 4096.
Proof.
  destruct (VMOV_64_sp_roundtrip ext_simple 1 2 6
              (gen_start (cfg_vfpv3 0 0) false)
              (gen_start (cfg_vfpv3 0 0) false) [] eq_refl
              ltac:(discriminate) ltac:(discriminate) eq_refl)
    as [(g2 & body & Hgen & Hrun) _].
  exists g2, body. split; [exact Hgen|].
  exact (proj1 (proj2 (Hrun (cpu_example 0 0 0) eq_refl))).
Defined.

Lemma wrap_int_small x : - 2 ^ 31 <= x < 2 ^ 31 -> wrap_int x = x.
Proof. intros H. unfold wrap_int. rewrite Z.mod_small; lia. Qed.

(** X9 ([trans_VMOV_64_dp], [trans_VMOV_64_sp], lines 1283-1363).  When
    the double-precision register is available, the double-precision form
    of the 64-bit move emits exactly what the single-precision form emits
    for the pair of single-precision registers [2 * vm], [2 * vm + 1] that
    alias it. *)
Theorem VMOV_64_dp_aliases_sp (a : arg_VMOV_64) (g : GenState) :
  - 2 ^ 30 <= vmov64_vm a < 2 ^ 30 ->
  aa32_simd_r32 (cfg (dc g)) = true \/ Z.land (vmov64_vm a) 16 = 0 ->
  trans_VMOV_64_dp a g
  = trans_VMOV_64_sp {| vmov64_op := vmov64_op a; vmov64_rt := vmov64_rt a;
                        vmov64_rt2 := vmov64_rt2 a;
                        vmov64_vm := 2 * vmov64_vm a |} g.
Proof.
  intros Hvm H32.
  unfold trans_VMOV_64_dp, trans_VMOV_64_sp, bind, get_s.
  cbn [vmov64_op vmov64_rt vmov64_rt2 vmov64_vm].
  destruct (negb (aa32_fpsp_v2 (cfg (dc g)))); [reflexivity|].
  replace (negb (aa32_simd_r32 (cfg (dc g))) &&
           negb (Z.land (vmov64_vm a) 16 =? 0)) with false
    by (destruct H32 as [-> | ->]; [reflexivity|now rewrite andb_false_r]).
  rewrite (wrap_int_small (vmov64_vm a * 2)) by lia.
  rewrite (Z.mul_comm (vmov64_vm a) 2).
  unfold VMOV_64_body. cbn [vmov64_op vmov64_rt vmov64_rt2 vmov64_vm].
  reflexivity.
Qed.

Lemma VMOV_64_dp_aliases_sp_witness :
  trans_VMOV_64_dp {| vmov64_op := true; vmov64_rt := 1; vmov64_rt2 := 2;
                      vmov64_vm := 3 |} (gen_start (cfg_vfpv3 0 0) false)
  = trans_VMOV_64_sp {| vmov64_op := true; vmov64_rt := 1; vmov64_rt2 := 2;
                        vmov64_vm := 6 |} (gen_start (cfg_vfpv3 0 0) false).
Proof.
  refine (VMOV_64_dp_aliases_sp
            {| vmov64_op := true; vmov64_rt := 1; vmov64_rt2 := 2;
               vmov64_vm := 3 |} (gen_start (cfg_vfpv3 0 0) false) _ _).
  - cbn. lia.
  - left. reflexivity.
Defined.

Lemma u32_land_ones x k : 0 <= k <= 32 -> u32 (Z.land x (Z.ones k)) = x mod 2 ^ k.
Proof.
  intros Hk. rewrite Z.land_ones by lia. unfold u32.
  assert (0 < 2 ^ k) by (apply Z.pow_pos_nonneg; lia).
  assert (2 ^ k <= 2 ^ 32) by (apply Z.pow_le_mono_r; lia).
  pose proof (Z.mod_pos_bound x (2 ^ k) ltac:(lia)).
  apply Z.mod_small. lia.
Qed.

(** X10 ([trans_VMOV_single], lines 1249-1281).  A move from a
    single-precision register to general-purpose register 15 writes the top
    four bits of the value to the condition flags and changes no
    general-purpose and no floating-point register. *)
Theorem VMOV_single_to_flags ext vn g g1 pre :
  aa32_fpsp_v2 (cfg (dc g)) = true ->
  vfp_access_check g = Some (true, g1, pre) ->
  exists g2 body,
    trans_VMOV_single {| vmov_l := true; vmov_rt := 15; vmov_vn := vn |} g
    = Some (true, g2, pre ++ body) /\
    forall m, pending m = None ->
      pending (run ext body m) = None /\
      NZCV (run ext body m) = Z.land (vfp_s m vn) FPCR_NZCV_MASK /\
      regs (run ext body m) = regs m /\
      vfp_s (run ext body m) = vfp_s m.
Proof.
  intros Hv2 Hchk.
  destruct g as [[c l w n j] [nt nl]]. cbn [dc cfg] in Hv2.
  destruct g1 as [[c1 l1 w1 n1 j1] [nt1 nl1]].
  unfold trans_VMOV_single. cbn [vmov_l vmov_rt vmov_vn].
  gen_eval_body. rewrite Hv2. cbn [negb]. rewrite Hchk. gen_eval_body.
  eexists. eexists. split; [reflexivity|].
  intros m Hp. unfold run. cbn [app]. repeat run_step_pending.
  cbn [run_from fold_left env pending regs vfp_s NZCV set_NZCV set_temp
       set_temps].
  repeat split; first [assumption|reflexivity].
Qed.

Lemma VMOV_single_to_flags_witness :
  exists g2 body,
    trans_VMOV_single {| vmov_l := true; vmov_rt := 15; vmov_vn := 3 |}
                      (gen_start (cfg_vfpv3 0 0) false)
    = Some (true, g2, body) /\
    regs (run ext_simple body (cpu_example 0 0 0)) 15 = 0.
Proof.
  destruct (VMOV_single_to_flags ext_simple 3
              (gen_start (cfg_vfpv3 0 0) false)
              (gen_start (cfg_vfpv3 0 0) false) [] eq_refl eq_refl)
    as (g2 & body & Hgen & Hrun).
  exists g2, body. split; [exact Hgen|].
  destruct (Hrun (cpu_example 0 0 0) eq_refl) as (_ & _ & Hr & _).
  now rewrite Hr.
Defined.

(** X11 ([trans_VMOV_half], lines 1214-1247).  The half-precision move
    refuses general-purpose register 15 in both directions; for any other
    register, the move to the general-purpose register yields the low 16
    bits of the floating-point register, and the move to the floating-point
    register stores the low 16 bits of the general-purpose register with a
    zero upper half. *)
Theorem VMOV_half_masks ext rt vn g g1 pre :
  aa32_fp16_arith (cfg (dc g)) = true ->
  vfp_access_check g = Some (true, g1, pre) ->
  trans_VMOV_half {| vmov_l := true; vmov_rt := 15; vmov_vn := vn |} g
  = Some (false, g, []) /\
  trans_VMOV_half {| vmov_l := false; vmov_rt := 15; vmov_vn := vn |} g
  = Some (false, g, []) /\
  (rt <> 15 ->
   (exists g2 body,
      trans_VMOV_half {| vmov_l := true; vmov_rt := rt; vmov_vn := vn |} g
      = Some (true, g2, pre ++ body) /\
      forall m, pending m = None ->
        regs (run ext body m) rt = vfp_s m vn mod 2 ^ 16 /\
        vfp_s (run ext body m) = vfp_s m) /\
   (exists g2 body,
      trans_VMOV_half {| vmov_l := false; vmov_rt := rt; vmov_vn := vn |} g
      = Some (true, g2, pre ++ body) /\
      forall m, pending m = None ->
        vfp_s (run ext body m) vn = regs m rt mod 2 ^ 16 /\
        regs (run ext body m) = regs m)).
Proof.
  intros Hfp Hchk.
  destruct g as [[c l w n j] [nt nl]]. cbn [dc cfg] in Hfp.
  destruct g1 as [[c1 l1 w1 n1 j1] [nt1 nl1]].
  unfold trans_VMOV_half. cbn [vmov_l vmov_rt vmov_vn].
  gen_eval_body. rewrite Hfp. cbn [negb].
  split; [reflexivity|split; [reflexivity|]].
  intros Hrt. apply Z.eqb_neq in Hrt. rewrite Hrt, Hchk. gen_eval_body.
  split.
  - eexists. eexists. split; [reflexivity|].
    intros m Hp. unfold run. cbn [app]. repeat run_step_pending.
    cbn [run_from fold_left env pending regs vfp_s set_regs set_temp
         set_temps].
    rewrite upd_Z_eq. change 65535 with (Z.ones 16).
    now rewrite u32_land_ones by lia.
  - eexists. eexists. split; [reflexivity|].
    intros m Hp. unfold run. cbn [app]. repeat run_step_pending.
    cbn [run_from fold_left env pending regs vfp_s set_vfp_s set_temp
         set_temps].
    rewrite upd_Z_eq. change 65535 with (Z.ones 16).
    now rewrite u32_idem, u32_land_ones by lia.
Qed.

Lemma VMOV_half_masks_witness :
  exists g2 body,
    trans_VMOV_half {| vmov_l := false; vmov_rt := 1; vmov_vn := 2 |}
                    (gen_start (cfg_vfpv3 0 0) false)
    = Some (true, g2, body) /\
    vfp_s (run ext_simple body (cpu_example 0 0 0)) 2 = 4096.
Proof.
  destruct (VMOV_half_masks ext_simple 1 2
              (gen_start (cfg_vfpv3 0 0) false)
              (gen_start (cfg_vfpv3 0 0) false) [] eq_refl eq_refl)
    as (_ & _ & H).
  destruct (H ltac:(lia)) as (_ & g2 & body & Hgen & Hrun).
  exists g2, body. split; [exact Hgen|].
  exact (proj1 (Hrun (cpu_example 0 0 0) eq_refl)).
Defined.

(** ** Single-register load and store *)

Lemma u32_wrap_int x : u32 (wrap_int x) = u32 x.
Proof. unfold u32. apply wrap_int_mod_pow2. lia. Qed.

Lemma u32_add_wrap_int b x : u32 (b + wrap_int x) = u32 (b + x).
Proof. now rewrite <- u32_add_r, u32_wrap_int, u32_add_r. Qed.

(** The transfer address: the base plus or minus four times the
    immediate. *)
Lemma vldr_vstr_address a b :
  u32 (b + vldr_vstr_offset a)
  = u32 (b + (if vldr_vstr_u a then 4 * vldr_vstr_imm a
              else - (4 * vldr_vstr_imm a))).
Proof.
  unfold vldr_vstr_offset. rewrite u32_add_wrap_int.
  rewrite Z.shiftl_mul_pow2 by lia. change (2 ^ 2) with 4.
  destruct (vldr_vstr_u a).
  - rewrite u32_add_r. f_equal. lia.
  - rewrite u32_add_r, !Z.add_opp_r. unfold u32.
    rewrite Zminus_mod_idemp_r. f_equal. lia.
Qed.


(** X12 ([trans_VLDR_VSTR_sp], lines 1401-1434).  Storing a
    single-precision register with VSTR and loading from the same base and
    offset with VLDR, when neither access faults, puts the stored 32-bit
    value at the address base plus or minus four times the immediate and in
    the loaded register; no other floating-point register and no
    general-purpose register changes. *)
Theorem VSTR_VLDR_sp_roundtrip ext u rn imm vd vd' g g1 pre :
  aa32_fpsp_v2 (cfg (dc g)) = true ->
  rn <> 15 ->
  vfp_access_check g = Some (true, g1, pre) ->
  exists g2 body,
    (trans_VLDR_VSTR_sp {| vldr_vstr_l := false; vldr_vstr_u := u;
                           vldr_vstr_rn := rn; vldr_vstr_vd := vd;
                           vldr_vstr_imm := imm |} ;;
     trans_VLDR_VSTR_sp {| vldr_vstr_l := true; vldr_vstr_u := u;
                           vldr_vstr_rn := rn; vldr_vstr_vd := vd';
                           vldr_vstr_imm := imm |}) g
    = Some (true, g2, pre ++ body) /\
    forall m, pending m = None ->
      pending (run ext body m) = None ->
      memory (run ext body m)
             (u32 (regs m rn + (if u then 4 * imm else - (4 * imm))))
      = u32 (vfp_s m vd) /\
      vfp_s (run ext body m) vd' = u32 (vfp_s m vd) /\
      (forall r, r <> vd' -> vfp_s (run ext body m) r = vfp_s m r) /\
      regs (run ext body m) = regs m.
Proof.
  intros Hv2 Hrn Hchk. apply Z.eqb_neq in Hrn.
  destruct g as [[c l w n j] [nt nl]]. cbn [dc cfg] in Hv2.
  destruct g1 as [[c1 l1 w1 n1 j1] [nt1 nl1]].
  pose proof (vfp_access_check_cfg _ _ _ _ Hchk) as Hc.
  cbn [dc cfg] in Hc. subst c1.
  assert (Hoff : forall l' v,
            vldr_vstr_offset {| vldr_vstr_l := l'; vldr_vstr_u := u;
                                vldr_vstr_rn := rn; vldr_vstr_vd := v;
                                vldr_vstr_imm := imm |}
            = vldr_vstr_offset {| vldr_vstr_l := false; vldr_vstr_u := u;
                                  vldr_vstr_rn := rn; vldr_vstr_vd := 0;
                                  vldr_vstr_imm := imm |}) by reflexivity.
  pose proof (vldr_vstr_address
                {| vldr_vstr_l := false; vldr_vstr_u := u;
                   vldr_vstr_rn := rn; vldr_vstr_vd := 0;
                   vldr_vstr_imm := imm |}) as Haddr.
  cbn [vldr_vstr_u vldr_vstr_imm] in Haddr.
  unfold trans_VLDR_VSTR_sp.
  cbn [vldr_vstr_l vldr_vstr_rn vldr_vstr_vd].
  gen_eval_body. rewrite Hv2. cbn [negb]. rewrite Hchk. gen_eval_body.
  rewrite Hv2. cbn [negb]. check_again Hchk.
  rewrite (Hoff true vd'), (Hoff false vd). clear Hoff.
  remember (vldr_vstr_offset {| vldr_vstr_l := false; vldr_vstr_u := u;
                                vldr_vstr_rn := rn; vldr_vstr_vd := 0;
                                vldr_vstr_imm := imm |}) as off eqn:Eoff.
  clear Eoff.
  eexists. eexists. split; [rewrite <- app_assoc; reflexivity|].
  intros m Hp. unfold run. cbn [app]. rewrite <- Haddr.
  repeat (run_any_step; rewrite ?Hrn).
  all: cbn [run_from fold_left env pending raise]; try discriminate.
  intros _.
  cbn [regs vfp_s memory set_regs set_vfp_s set_temp set_temps set_memory
       write_mem read_mem].
  rewrite !upd_Z_eq, u32_idem.
  repeat split. intros r Hr. now rewrite upd_Z_neq.
Qed.

Lemma VSTR_VLDR_sp_roundtrip_witness :
  exists g2 body,
    (trans_VLDR_VSTR_sp {| vldr_vstr_l := false; vldr_vstr_u := false;
                           vldr_vstr_rn := 1; vldr_vstr_vd := 0;
                           vldr_vstr_imm := 2 |} ;;
     trans_VLDR_VSTR_sp {| vldr_vstr_l := true; vldr_vstr_u := false;
                           vldr_vstr_rn := 1; vldr_vstr_vd := 5;
                           vldr_vstr_imm := 2 |})
      (gen_start (cfg_vfpv3 0 0) false)
    = Some (true, g2, body) /\
    regs (run ext_simple body (cpu_example 0 0 0)) 1 = 4096.
Proof.
  destruct (VSTR_VLDR_sp_roundtrip ext_simple false 1 2 0 5
              (gen_start (cfg_vfpv3 0 0) false)
              (gen_start (cfg_vfpv3 0 0) false) []
              eq_refl ltac:(lia) eq_refl)
    as (g2 & body & Hgen & Hrun).
  exists g2, body. split; [exact Hgen|].
  vm_compute in Hgen. injection Hgen as _ Hb. subst body.
  destruct (Hrun (cpu_example 0 0 0) eq_refl eq_refl) as (_ & _ & _ & Hr).
  now rewrite Hr.
Defined.

Lemma u32_low_word lo hi : 0 <= lo < 2 ^ 32 -> u32 (lo + 2 ^ 32 * hi) = lo.
Proof.
  intros H. unfold u32. rewrite Z.mul_comm, Z_mod_plus_full.
  now apply Z.mod_small.
Qed.

Lemma u32_high_word lo hi :
  0 <= lo < 2 ^ 32 -> 0 <= hi < 2 ^ 32 ->
  u32 (Z.shiftr (lo + 2 ^ 32 * hi) 32) = hi.
Proof.
  intros Hlo Hhi. rewrite Z.shiftr_div_pow2 by lia.
  rewrite Z.mul_comm, Z.div_add by lia. rewrite Z.div_small by lia.
  unfold u32. now apply Z.mod_small.
Qed.

Lemma u32_range x : 0 <= u32 x < 2 ^ 32.
Proof. unfold u32. apply Z.mod_pos_bound. lia. Qed.

Lemma u32_add4_neq x : u32 (u32 x + 4) <> u32 x.
Proof.
  pose proof (u32_range x) as H. unfold u32 in *.
  destruct (Z_lt_ge_dec (x mod 2 ^ 32 + 4) (2 ^ 32)) as [Hlt|Hge].
  - rewrite Z.mod_small; lia.
  - replace (x mod 2 ^ 32 + 4) with ((x mod 2 ^ 32 + 4 - 2 ^ 32) + 1 * 2 ^ 32)
      by lia.
    rewrite Z_mod_plus_full, Z.mod_small; lia.
Qed.

(** X13 ([trans_VLDR_VSTR_dp], lines 1436-1476).  The same round trip for
    a double-precision register: both words come back into the two halves
    of the loaded register.  In memory the low word is at the address and
    the high word four bytes above when the data is little-endian; the two
    change places when it is big-endian ([s->be_data]), and once more in
    BE32 mode. *)
Theorem VSTR_VLDR_dp_roundtrip ext u rn imm vd vd' g g1 pre :
  aa32_fpsp_v2 (cfg (dc g)) = true ->
  aa32_simd_r32 (cfg (dc g)) = true \/
  (Z.land vd 16 = 0 /\ Z.land vd' 16 = 0) ->
  rn <> 15 ->
  vfp_access_check g = Some (true, g1, pre) ->
  exists g2 body,
    (trans_VLDR_VSTR_dp {| vldr_vstr_l := false; vldr_vstr_u := u;
                           vldr_vstr_rn := rn; vldr_vstr_vd := vd;
                           vldr_vstr_imm := imm |} ;;
     trans_VLDR_VSTR_dp {| vldr_vstr_l := true; vldr_vstr_u := u;
                           vldr_vstr_rn := rn; vldr_vstr_vd := vd';
                           vldr_vstr_imm := imm |}) g
    = Some (true, g2, pre ++ body) /\
    forall m, pending m = None ->
      0 <= vfp_s m (2 * vd) < 2 ^ 32 ->
      0 <= vfp_s m (2 * vd + 1) < 2 ^ 32 ->
      pending (run ext body m) = None ->
      let addr := u32 (regs m rn + (if u then 4 * imm else - (4 * imm))) in
      let high_first :=
        high_word_first (be_data (cfg (dc g))) (sctlr_b (cfg (dc g))) in
      memory (run ext body m) addr
      = vfp_s m (if high_first then 2 * vd + 1 else 2 * vd) /\
      memory (run ext body m) (u32 (addr + 4))
      = vfp_s m (if high_first then 2 * vd else 2 * vd + 1) /\
      vfp_s (run ext body m) (2 * vd') = vfp_s m (2 * vd) /\
      vfp_s (run ext body m) (2 * vd' + 1) = vfp_s m (2 * vd + 1) /\
      (forall r, r <> 2 * vd' -> r <> 2 * vd' + 1 ->
                 vfp_s (run ext body m) r = vfp_s m r) /\
      regs (run ext body m) = regs m.
Proof.
  intros Hv2 H32 Hrn Hchk. apply Z.eqb_neq in Hrn.
  destruct g as [[c l w n j] [nt nl]]. cbn [dc cfg] in Hv2, H32.
  destruct g1 as [[c1 l1 w1 n1 j1] [nt1 nl1]].
  pose proof (vfp_access_check_cfg _ _ _ _ Hchk) as Hc.
  cbn [dc cfg] in Hc. subst c1.
  assert (Hoff : forall l' v,
            vldr_vstr_offset {| vldr_vstr_l := l'; vldr_vstr_u := u;
                                vldr_vstr_rn := rn; vldr_vstr_vd := v;
                                vldr_vstr_imm := imm |}
            = vldr_vstr_offset {| vldr_vstr_l := false; vldr_vstr_u := u;
                                  vldr_vstr_rn := rn; vldr_vstr_vd := 0;
                                  vldr_vstr_imm := imm |}) by reflexivity.
  pose proof (vldr_vstr_address
                {| vldr_vstr_l := false; vldr_vstr_u := u;
                   vldr_vstr_rn := rn; vldr_vstr_vd := 0;
                   vldr_vstr_imm := imm |}) as Haddr.
  cbn [vldr_vstr_u vldr_vstr_imm] in Haddr.
  assert (Hd : negb (aa32_simd_r32 c) && negb (Z.land vd 16 =? 0) = false).
  { destruct H32 as [-> | [-> _]]; [reflexivity|apply andb_false_r]. }
  assert (Hd' : negb (aa32_simd_r32 c) && negb (Z.land vd' 16 =? 0) = false).
  { destruct H32 as [-> | [_ ->]]; [reflexivity|apply andb_false_r]. }
  unfold trans_VLDR_VSTR_dp.
  cbn [vldr_vstr_l vldr_vstr_rn vldr_vstr_vd].
  gen_eval_body. rewrite Hv2, Hd. cbn [negb]. rewrite Hchk. gen_eval_body.
  rewrite Hv2, Hd'. cbn [negb]. check_again Hchk.
  rewrite (Hoff true vd'), (Hoff false vd). clear Hoff.
  remember (vldr_vstr_offset {| vldr_vstr_l := false; vldr_vstr_u := u;
                                vldr_vstr_rn := rn; vldr_vstr_vd := 0;
                                vldr_vstr_imm := imm |}) as off eqn:Eoff.
  clear Eoff.
  eexists. eexists. split; [rewrite <- app_assoc; reflexivity|].
  intros m Hp Hlo Hhi. unfold run. cbn [app]. cbv zeta. rewrite <- Haddr.
  repeat (run_any_step; rewrite ?Hrn).
  all: cbn [run_from fold_left env pending raise]; try discriminate.
  intros _.
  cbn [regs vfp_s memory set_regs set_vfp_s set_temp set_temps set_memory
       write_mem read_mem].
  pose proof (u32_add4_neq (regs m rn + off)) as Hne.
  assert (E1 : u32 (vfp_s m (2 * vd) + 2 ^ 32 * vfp_s m (2 * vd + 1))
               = vfp_s m (2 * vd)) by (apply u32_low_word; lia).
  assert (E2 : u32 (Z.shiftr (vfp_s m (2 * vd)
                              + 2 ^ 32 * vfp_s m (2 * vd + 1)) 32)
               = vfp_s m (2 * vd + 1)) by (apply u32_high_word; lia).
  cbn [dc cfg].
  destruct (high_word_first (be_data c) (sctlr_b c));
    rewrite !upd_Z_eq;
    rewrite (upd_Z_neq (u32 (u32 (regs m rn + off) + 4)) _ _
                       (u32 (regs m rn + off))) by congruence;
    rewrite !upd_Z_eq;
    repeat rewrite ?E1, ?E2;
    rewrite (upd_Z_neq (2 * vd' + 1) _ _ (2 * vd')) by lia;
    rewrite !upd_Z_eq;
    (split; [reflexivity|]); (split; [reflexivity|]);
    (split; [reflexivity|]); (split; [reflexivity|]);
    (split; [|reflexivity]);
    intros r Hr Hr'; now rewrite !upd_Z_neq.
Qed.

Lemma VSTR_VLDR_dp_roundtrip_witness :
  (exists g2 body,
     (trans_VLDR_VSTR_dp {| vldr_vstr_l := false; vldr_vstr_u := true;
                            vldr_vstr_rn := 1; vldr_vstr_vd := 2;
                            vldr_vstr_imm := 4 |} ;;
      trans_VLDR_VSTR_dp {| vldr_vstr_l := true; vldr_vstr_u := true;
                            vldr_vstr_rn := 1; vldr_vstr_vd := 7;
                            vldr_vstr_imm := 4 |})
       (gen_start (cfg_vfpv3 0 0) false)
     = Some (true, g2, body) /\
     memory (run ext_simple body cpu_d2_example) 4112 = 11 /\
     memory (run ext_simple body cpu_d2_example) 4116 = 22 /\
     vfp_s (run ext_simple body cpu_d2_example) 14 = 11 /\
     vfp_s (run ext_simple body cpu_d2_example) 15 = 22 /\
     regs (run ext_simple body cpu_d2_example) 1 = 4096) /\
  (exists g2 body,
     (trans_VLDR_VSTR_dp {| vldr_vstr_l := false; vldr_vstr_u := true;
                            vldr_vstr_rn := 1; vldr_vstr_vd := 2;
                            vldr_vstr_imm := 4 |} ;;
      trans_VLDR_VSTR_dp {| vldr_vstr_l := true; vldr_vstr_u := true;
                            vldr_vstr_rn := 1; vldr_vstr_vd := 7;
                            vldr_vstr_imm := 4 |})
       (gen_start cfg_vfpv3_be false)
     = Some (true, g2, body) /\
     memory (run ext_simple body cpu_d2_example) 4112 = 22 /\
     memory (run ext_simple body cpu_d2_example) 4116 = 11 /\
     vfp_s (run ext_simple body cpu_d2_example) 14 = 11 /\
     vfp_s (run ext_simple body cpu_d2_example) 15 = 22 /\
     regs (run ext_simple body cpu_d2_example) 1 = 4096).
Proof.
  split.
  - destruct (VSTR_VLDR_dp_roundtrip ext_simple true 1 4 2 7
                (gen_start (cfg_vfpv3 0 0) false)
                (gen_start (cfg_vfpv3 0 0) false) []
                eq_refl (or_introl eq_refl) ltac:(lia) eq_refl)
      as (g2 & body & Hgen & Hrun).
    exists g2, body. split; [exact Hgen|].
    vm_compute in Hgen. injection Hgen as _ Hb. subst body.
    destruct (Hrun cpu_d2_example eq_refl ltac:(cbn; lia) ltac:(cbn; lia)
                eq_refl) as (Hm0 & Hm4 & Hv0 & Hv1 & _ & Hr).
    split; [exact Hm0|]. split; [exact Hm4|]. split; [exact Hv0|].
    split; [exact Hv1|]. now rewrite Hr.
  - destruct (VSTR_VLDR_dp_roundtrip ext_simple true 1 4 2 7
                (gen_start cfg_vfpv3_be false)
                (gen_start cfg_vfpv3_be false) []
                eq_refl (or_introl eq_refl) ltac:(lia) eq_refl)
      as (g2 & body & Hgen & Hrun).
    exists g2, body. split; [exact Hgen|].
    vm_compute in Hgen. injection Hgen as _ Hb. subst body.
    destruct (Hrun cpu_d2_example eq_refl ltac:(cbn; lia) ltac:(cbn; lia)
                eq_refl) as (Hm0 & Hm4 & Hv0 & Hv1 & _ & Hr).
    split; [exact Hm0|]. split; [exact Hm4|]. split; [exact Hv0|].
    split; [exact Hv1|]. now rewrite Hr.
Defined.

(** ** Half-precision insert and extract *)

Lemma deposit32_high a b :
  deposit32 a b 16 16 = a mod 2 ^ 16 + 2 ^ 16 * (b mod 2 ^ 16).
Proof.
  assert (Ha : 0 <= a mod 2 ^ 16 < 2 ^ 16) by (apply Z.mod_pos_bound; lia).
  rewrite <- lor_low_high by lia.
  unfold deposit32, u32. apply Z.bits_inj'. intros n Hn.
  rewrite Z.lor_spec, (Z.mul_comm (2 ^ 16)), <- Z.shiftl_mul_pow2 by lia.
  destruct (Z_lt_ge_dec n 16) as [H16|H16].
  - rewrite Z.mod_pow2_bits_low by lia.
    rewrite Z.lor_spec, Z.land_spec, Z.lnot_spec by lia.
    rewrite !Z.shiftl_spec_low by lia.
    rewrite Z.mod_pow2_bits_low by lia.
    now rewrite !orb_false_r, andb_true_r.
  - rewrite (Z.mod_pow2_bits_high a) by lia.
    rewrite (Z.shiftl_spec (b mod 2 ^ 16)) by lia. cbn [orb].
    destruct (Z_lt_ge_dec n 32) as [H32|H32].
    + rewrite Z.mod_pow2_bits_low by lia.
      rewrite Z.lor_spec, Z.land_spec, Z.lnot_spec by lia.
      rewrite !Z.shiftl_spec by lia.
      rewrite Z.land_spec, Z.ones_spec_low by lia.
      rewrite Z.mod_pow2_bits_low by lia.
      now rewrite andb_true_r, andb_false_r.
    + rewrite Z.mod_pow2_bits_high by lia.
      now rewrite Z.mod_pow2_bits_high by lia.
Qed.

Lemma halves_low a b :
  (a mod 2 ^ 16 + 2 ^ 16 * (b mod 2 ^ 16)) mod 2 ^ 16 = a mod 2 ^ 16.
Proof.
  rewrite (Z.mul_comm (2 ^ 16)), Z_mod_plus_full. apply Z.mod_mod. lia.
Qed.

Lemma halves_high a b :
  Z.shiftr (u32 (a mod 2 ^ 16 + 2 ^ 16 * (b mod 2 ^ 16))) 16 = b mod 2 ^ 16.
Proof.
  assert (Ha : 0 <= a mod 2 ^ 16 < 2 ^ 16) by (apply Z.mod_pos_bound; lia).
  assert (Hb : 0 <= b mod 2 ^ 16 < 2 ^ 16) by (apply Z.mod_pos_bound; lia).
  unfold u32. rewrite Z.mod_small by lia.
  rewrite Z.shiftr_div_pow2 by lia.
  rewrite (Z.mul_comm (2 ^ 16)), Z.div_add by lia.
  rewrite Z.div_small by lia. reflexivity.
Qed.

(** X14 ([trans_VINS], [trans_VMOVX], lines 4069-4121).  VINS puts the
    low half of [Vm] into the high half of [Vd] and keeps the low half of
    [Vd]; a VMOVX from [Vd] that follows yields exactly the half that was
    inserted, with a zero upper half. *)
Theorem VINS_then_VMOVX ext vd vm ve g g1 pre :
  aa32_fp16_arith (cfg (dc g)) = true ->
  vec_len (cfg (dc g)) = 0 -> vec_stride (cfg (dc g)) = 0 ->
  vfp_access_check g = Some (true, g1, pre) ->
  exists g2 body,
    (trans_VINS {| op2_vd := vd; op2_vm := vm |} ;;
     trans_VMOVX {| op2_vd := ve; op2_vm := vd |}) g
    = Some (true, g2, pre ++ body) /\
    forall m, pending m = None ->
      pending (run ext body m) = None /\
      vfp_s (run ext body m) ve = vfp_s m vm mod 2 ^ 16 /\
      (ve <> vd ->
       vfp_s (run ext body m) vd
       = vfp_s m vd mod 2 ^ 16 + 2 ^ 16 * (vfp_s m vm mod 2 ^ 16)) /\
      (forall r, r <> vd -> r <> ve -> vfp_s (run ext body m) r = vfp_s m r).
Proof.
  intros Hfp Hlen Hstride Hchk.
  destruct g as [[c l w n j] [nt nl]]. cbn [dc cfg] in Hfp, Hlen, Hstride.
  destruct g1 as [[c1 l1 w1 n1 j1] [nt1 nl1]].
  pose proof (vfp_access_check_cfg _ _ _ _ Hchk) as Hc.
  cbn [dc cfg] in Hc. subst c1.
  unfold trans_VINS, trans_VMOVX. cbn [op2_vd op2_vm].
  gen_eval_body. rewrite Hfp, Hlen, Hstride. cbn [negb orb Z.eqb].
  rewrite Hchk. gen_eval_body.
  rewrite Hfp, Hlen, Hstride. cbn [negb orb Z.eqb]. check_again Hchk.
  eexists. eexists. split; [rewrite <- app_assoc; reflexivity|].
  intros m Hp. unfold run. cbn [app]. repeat run_step_pending.
  cbn [run_from fold_left env pending regs vfp_s set_regs set_vfp_s
       set_temp set_temps].
  rewrite !upd_Z_eq, deposit32_high.
  assert (Hr : 0 <= vfp_s m vd mod 2 ^ 16 + 2 ^ 16 * (vfp_s m vm mod 2 ^ 16)
               < 2 ^ 32).
  { pose proof (Z.mod_pos_bound (vfp_s m vd) (2 ^ 16) ltac:(lia)).
    pose proof (Z.mod_pos_bound (vfp_s m vm) (2 ^ 16) ltac:(lia)). lia. }
  rewrite u32_idem, halves_high.
  assert (Hb : u32 (vfp_s m vm mod 2 ^ 16) = vfp_s m vm mod 2 ^ 16).
  { pose proof (Z.mod_pos_bound (vfp_s m vm) (2 ^ 16) ltac:(lia)).
    unfold u32. apply Z.mod_small. lia. }
  rewrite Hb.
  repeat split; try assumption.
  - intros Hne. rewrite upd_Z_neq, upd_Z_eq by congruence.
    unfold u32. now apply Z.mod_small.
  - intros r Hr1 Hr2. now rewrite !upd_Z_neq by congruence.
Qed.

Lemma VINS_then_VMOVX_witness :
  exists g2 body,
    (trans_VINS {| op2_vd := 2; op2_vm := 3 |} ;;
     trans_VMOVX {| op2_vd := 4; op2_vm := 2 |})
      (gen_start (cfg_vfpv3 0 0) false)
    = Some (true, g2, body) /\
    vfp_s (run ext_simple body (cpu_example 0 0 0)) 4 = 0.
Proof.
  destruct (VINS_then_VMOVX ext_simple 2 3 4
              (gen_start (cfg_vfpv3 0 0) false)
              (gen_start (cfg_vfpv3 0 0) false) []
              eq_refl eq_refl eq_refl eq_refl)
    as (g2 & body & Hgen & Hrun).
  exists g2, body. split; [exact Hgen|].
  exact (proj1 (proj2 (Hrun (cpu_example 0 0 0) eq_refl))).
Defined.

(** ** Immediate moves over a short vector *)

Lemma vfp_expand_imm_32_range imm x :
  vfp_expand_imm MemOp.MO_32 imm = Some x -> 0 <= x < 2 ^ 32.
Proof.
  assert (Hb : 0 <= imm mod 2 ^ 8 < 256) by (apply Z.mod_pos_bound; lia).
  assert (Hall : all_bytes (fun b =>
            match vfp_expand_imm MemOp.MO_32 b with
            | Some x => (0 <=? x) && (x <? 2 ^ 32)
            | None => false
            end) = true) by (vm_compute; reflexivity).
  pose proof (all_bytes_spec _ Hall _ Hb) as H. cbv beta in H.
  assert (E : vfp_expand_imm MemOp.MO_32 (imm mod 2 ^ 8)
              = vfp_expand_imm MemOp.MO_32 imm).
  { unfold vfp_expand_imm. now rewrite Z.mod_mod by lia. }
  rewrite E in H. intros Hx. rewrite Hx in H.
  apply andb_true_iff in H as [H1 H2]. lia.
Qed.

Lemma vfp_advance_sreg_range reg d :
  0 <= reg < 32 -> 0 <= vfp_advance_sreg reg d < 32.
Proof.
  intros Hr. rewrite vfp_advance_sreg_bank. unfold advance_bank.
  pose proof (Z.mod_pos_bound (reg + d) (2 ^ 3) ltac:(lia)).
  assert (0 <= reg / 2 ^ 3 < 4).
  { split; [apply Z.div_pos; lia|apply Z.div_lt_upper_bound; lia]. }
  lia.
Qed.

Lemma vfp_advance_sreg_zero reg : vfp_advance_sreg reg 0 = reg.
Proof.
  rewrite vfp_advance_sreg_bank.
  apply (advance_bank_fixed 3); [lia|reflexivity].
Qed.

Lemma VMOV_imm_sp_loop_unfold fuel fd delta_d veclen vd :
  VMOV_imm_sp_loop (S fuel) fd delta_d veclen vd
  = (vfp_store_reg32 fd (wrap_int vd) ;;
     if veclen =? 0 then ret tt
     else VMOV_imm_sp_loop fuel fd delta_d (wrap_int (veclen - 1))
            (u32 (vfp_advance_sreg (wrap_int vd) (wrap_int delta_d)))).
Proof. reflexivity. Qed.

Lemma VMOV_imm_sp_loop_ops fd stride :
  0 <= stride < 2 ^ 32 - 1 ->
  forall k vd g, Z.of_nat k < 2 ^ 31 -> 0 <= vd < 32 ->
  VMOV_imm_sp_loop (S k) fd (u32 (stride + 1)) (Z.of_nat k) vd g
  = Some (tt, g,
          map (fun i => op_vfp_store_reg32 fd
                          (vfp_advance_sreg vd (Z.of_nat i * (stride + 1))))
              (seq 0 (S k))).
Proof.
  intros Hs. induction k as [|k IH]; intros vd [s t] Hk Hvd.
  - cbn [VMOV_imm_sp_loop Z.of_nat Z.eqb seq map]. mcbv.
    rewrite wrap_int_small by lia.
    change (0 * (stride + 1)) with 0. now rewrite vfp_advance_sreg_zero.
  - assert (Hnz : (Z.of_nat (S k) =? 0) = false) by (apply Z.eqb_neq; lia).
    assert (Hdec : wrap_int (Z.of_nat (S k) - 1) = Z.of_nat k).
    { unfold wrap_int. rewrite Z.mod_small; lia. }
    rewrite VMOV_imm_sp_loop_unfold. rewrite Hnz, Hdec.
    rewrite wrap_int_small by lia. rewrite vfp_advance_sreg_wrap.
    pose proof (vfp_advance_sreg_range vd (stride + 1) Hvd) as Hr.
    assert (Eu : u32 (vfp_advance_sreg vd (stride + 1))
                 = vfp_advance_sreg vd (stride + 1)).
    { unfold u32. apply Z.mod_small. lia. }
    rewrite Eu. mcbv. rewrite IH by lia.
    cbn [app]. f_equal. f_equal.
    change (seq 0 (S (S k))) with (0%nat :: seq 1 (S k)).
    cbn [map]. f_equal.
    + change (Z.of_nat 0 * (stride + 1)) with 0.
      now rewrite vfp_advance_sreg_zero.
    + rewrite <- seq_shift, map_map. apply map_ext. intros i.
      f_equal. rewrite !vfp_advance_sreg_bank.
      rewrite advance_bank_compose by lia. f_equal. lia.
Qed.

(** Storing one temporary to a list of single-precision registers. *)
Lemma run_stores ext fd rs :
  forall m, pending m = None ->
    let m' := env (run_from ext (map (op_vfp_store_reg32 fd) rs)
                            {| env := m; skip_to := None |}) in
    pending m' = None /\ regs m' = regs m /\
    (forall r, In r rs -> vfp_s m' r = u32 (temps m fd)) /\
    (forall r, ~ In r rs -> vfp_s m' r = vfp_s m r).
Proof.
  induction rs as [|r0 rs IH]; intros m Hp; cbv zeta.
  - cbn [map run_from fold_left env]. repeat split; try assumption.
    intros r [].
  - cbn [map]. rewrite run_from_cons by assumption.
    cbn [exec_op fst snd].
    set (m1 := set_vfp_s (upd_Z r0 (u32 (temps m fd)) (vfp_s m)) m).
    assert (Hp1 : pending m1 = None) by exact Hp.
    destruct (IH m1 Hp1) as (Hq & Hregs & Hin & Hout).
    change (temps m1 fd) with (temps m fd) in Hin.
    repeat split.
    + exact Hq.
    + exact Hregs.
    + intros r [<-|Hr].
      * destruct (in_dec Z.eq_dec r0 rs) as [Hi|Hn].
        -- now apply Hin.
        -- rewrite Hout by assumption. subst m1. cbn [vfp_s set_vfp_s].
           apply upd_Z_eq.
      * now apply Hin.
    + intros r Hr. rewrite Hout by (intros Hi; apply Hr; now right).
      subst m1. cbn [vfp_s set_vfp_s]. apply upd_Z_neq.
      intros ->. apply Hr. now left.
Qed.

(** X15 ([trans_VMOV_imm_sp], lines 2713-2762).  A legal single-precision
    VMOV immediate that passes the access check writes the expanded
    constant to the destination and, when the destination is in a vector
    bank, to each of the [vec_len + 1] registers reached from it in steps
    of [vec_stride + 1] within its bank; it changes no other
    floating-point register and no general-purpose register. *)
Theorem VMOV_imm_sp_fills_vector ext vd imm g g1 pre :
  aa32_fpsp_v3 (cfg (dc g)) = true ->
  shvec_unsupported (dc g) (vec_len (cfg (dc g))) = false ->
  0 <= vec_len (cfg (dc g)) < 2 ^ 31 ->
  0 <= vec_stride (cfg (dc g)) < 2 ^ 32 - 1 ->
  0 <= vd < 32 ->
  vfp_access_check g = Some (true, g1, pre) ->
  exists g2 body x,
    vfp_expand_imm MemOp.MO_32 imm = Some x /\
    trans_VMOV_imm_sp {| vmov_imm_vd := vd; vmov_imm_imm := imm |} g
    = Some (true, g2, pre ++ body) /\
    forall m, pending m = None ->
      let n := if vfp_sreg_is_scalar vd then 0 else vec_len (cfg (dc g)) in
      let dest i := vfp_advance_sreg vd (i * (vec_stride (cfg (dc g)) + 1)) in
      pending (run ext body m) = None /\
      regs (run ext body m) = regs m /\
      (forall i, 0 <= i <= n -> vfp_s (run ext body m) (dest i) = x) /\
      (forall r, (forall i, 0 <= i <= n -> r <> dest i) ->
                 vfp_s (run ext body m) r = vfp_s m r).
Proof.
  intros Hv3 Hsh Hlen Hstr Hvd Hchk.
  assert (Hx : exists x, vfp_expand_imm MemOp.MO_32 imm = Some x)
    by (unfold vfp_expand_imm; eexists; reflexivity).
  destruct Hx as (x & Hx).
  pose proof (vfp_expand_imm_32_range _ _ Hx) as Hxr.
  destruct g as [[c l w n j] [nt nl]]. cbn [dc cfg] in *.
  destruct g1 as [[c1 l1 w1 n1 j1] [nt1 nl1]].
  pose proof (vfp_access_check_cfg _ _ _ _ Hchk) as Hc.
  cbn [dc cfg] in Hc. subst c1.
  set (len := vec_len c) in *. set (stride := vec_stride c) in *.
  set (k := if vfp_sreg_is_scalar vd then 0 else len).
  assert (Hk : 0 <= k < 2 ^ 31) by (subst k; destruct vfp_sreg_is_scalar; lia).
  assert (Hgen :
    trans_VMOV_imm_sp {| vmov_imm_vd := vd; vmov_imm_imm := imm |}
      {| dc := {| cfg := c; v7m_lspact := l; v8m_fpccr_s_wrong := w;
                  v7m_new_fp_ctxt_needed := n; is_jmp := j |};
         tcg := {| next_temp := nt; next_label := nl |} |}
    = Some (true,
            {| dc := {| cfg := c; v7m_lspact := l1; v8m_fpccr_s_wrong := w1;
                        v7m_new_fp_ctxt_needed := n1; is_jmp := j1 |};
               tcg := {| next_temp := S nt1; next_label := nl1 |} |},
            pre ++ op_movi nt1 x ::
              map (op_vfp_store_reg32 nt1)
                  (map (fun i => vfp_advance_sreg vd
                                   (Z.of_nat i * (stride + 1)))
                       (seq 0 (S (Z.to_nat k)))))).
  { unfold trans_VMOV_imm_sp, const_expand_imm. cbn [vmov_imm_vd vmov_imm_imm].
    gen_eval_body. fold len. rewrite Hv3, Hsh. cbn [negb].
    rewrite Hchk. gen_eval_body. rewrite Hx.
    assert (Eu : u32 vd = vd) by (unfold u32; apply Z.mod_small; lia).
    rewrite Eu, (wrap_int_small vd) by lia. fold len stride.
    assert (Hloop := fun fd kk g H =>
              VMOV_imm_sp_loop_ops fd stride Hstr kk vd g H Hvd).
    assert (Hone : forall fd dd g,
              VMOV_imm_sp_loop 1 fd dd 0 vd g
              = Some (tt, g, [op_vfp_store_reg32 fd vd])).
    { intros fd dd [s t]. cbn [VMOV_imm_sp_loop Z.eqb]. mcbv.
      now rewrite wrap_int_small by lia. }
    subst k.
    destruct (len >? 0) eqn:Hgt.
    - destruct (vfp_sreg_is_scalar vd).
      + gen_eval_body. cbn [Z.to_nat]. rewrite Hone. gen_eval_body.
        cbn [seq map]. change (Z.of_nat 0 * (stride + 1)) with 0.
        rewrite vfp_advance_sreg_zero. rewrite ?app_nil_r. reflexivity.
      + gen_eval_body.
        pose proof (Hloop nt1 (Z.to_nat len)) as Hl.
        rewrite Z2Nat.id in Hl by lia. rewrite Hl by lia.
        gen_eval_body. rewrite map_map, ?app_nil_r. reflexivity.
    - assert (E0 : len = 0) by lia. rewrite E0.
      replace (if vfp_sreg_is_scalar vd then 0 else 0) with 0
        by (now destruct vfp_sreg_is_scalar).
      gen_eval_body. cbn [Z.to_nat]. rewrite Hone. gen_eval_body.
      cbn [seq map]. change (Z.of_nat 0 * (stride + 1)) with 0.
      rewrite vfp_advance_sreg_zero. rewrite ?app_nil_r. reflexivity. }
  eexists. eexists. exists x. split; [exact Hx|]. split; [exact Hgen|].
  intros m Hp. cbv zeta. fold k.
  unfold run. rewrite run_from_cons by assumption. cbn [exec_op fst snd].
  set (m1 := set_temp nt1 (u32 x) m).
  destruct (run_stores ext nt1
              (map (fun i => vfp_advance_sreg vd (Z.of_nat i * (stride + 1)))
                   (seq 0 (S (Z.to_nat k)))) m1 Hp)
    as (Hq & Hregs & Hin & Hout).
  assert (Et : u32 (temps m1 nt1) = x).
  { subst m1. unfold set_temp. cbn [temps set_temps].
    rewrite upd_nat_eq, u32_idem. unfold u32. apply Z.mod_small. lia. }
  rewrite Et in Hin.
  repeat split.
  - exact Hq.
  - exact Hregs.
  - intros i Hi. apply Hin. apply in_map_iff. exists (Z.to_nat i).
    split; [now rewrite Z2Nat.id by lia|]. apply in_seq. lia.
  - intros r Hr. rewrite Hout; [reflexivity|].
    intros Hi. apply in_map_iff in Hi as (i & <- & Hi). apply in_seq in Hi.
    apply (Hr (Z.of_nat i)); [lia|reflexivity].
Qed.

Lemma VMOV_imm_sp_fills_vector_witness :
  exists g2 body,
    trans_VMOV_imm_sp {| vmov_imm_vd := 10; vmov_imm_imm := 112 |}
                      (gen_start (cfg_vfpv3 3 1) false)
    = Some (true, g2, body) /\
    vfp_s (run ext_simple body (cpu_example 0 0 0)) 8 = 1065353216 /\
    vfp_s (run ext_simple body (cpu_example 0 0 0)) 9
    = vfp_s (cpu_example 0 0 0) 9.
Proof.
  destruct (VMOV_imm_sp_fills_vector ext_simple 10 112
              (gen_start (cfg_vfpv3 3 1) false)
              (gen_start (cfg_vfpv3 3 1) false) []
              eq_refl eq_refl ltac:(cbn; lia) ltac:(cbn; lia) ltac:(lia)
              eq_refl)
    as (g2 & body & x & Hx & Hgen & Hrun).
  exists g2, body. split; [exact Hgen|].
  injection Hx as <-.
  destruct (Hrun (cpu_example 0 0 0) eq_refl) as (_ & _ & Hin & Hout).
  split.
  - exact (Hin 3 ltac:(cbn; lia)).
  - apply Hout. intros i Hi. cbn in Hi.
    assert (Hc : i = 0 \/ i = 1 \/ i = 2 \/ i = 3) by lia.
    destruct Hc as [-> | [-> | [-> | ->]]]; vm_compute; discriminate.
Defined.

(** ** Register moves over a short vector *)

Lemma vfp_advance_sreg_land_bank reg d :
  Z.land (vfp_advance_sreg reg d) 24 = Z.land reg 24.
Proof.
  rewrite vfp_advance_sreg_bank. change 24 with (2 ^ 3 * 3).
  rewrite !land_high_div by lia. now rewrite advance_bank_high by lia.
Qed.

Lemma vfp_advance_sreg_step reg i d :
  vfp_advance_sreg (vfp_advance_sreg reg d) (Z.of_nat i * d)
  = vfp_advance_sreg reg (Z.of_nat (S i) * d).
Proof.
  rewrite !vfp_advance_sreg_bank, advance_bank_compose by lia.
  f_equal. lia.
Qed.

Lemma do_vfp_2op_sp_bcast_unfold fuel fd delta_d veclen vd :
  do_vfp_2op_sp_bcast (S fuel) fd delta_d veclen vd
  = (if veclen =? 0 then ret tt
     else
       vfp_store_reg32 fd (vfp_advance_sreg vd (wrap_int delta_d)) ;;
       do_vfp_2op_sp_bcast fuel fd delta_d (wrap_int (veclen - 1))
                           (vfp_advance_sreg vd (wrap_int delta_d))).
Proof. reflexivity. Qed.

Lemma do_vfp_2op_sp_bcast_ops fd stride :
  0 <= stride < 2 ^ 32 - 1 ->
  forall k vd g, Z.of_nat k < 2 ^ 31 ->
  do_vfp_2op_sp_bcast (S k) fd (u32 (stride + 1)) (Z.of_nat k) vd g
  = Some (tt, g,
          map (fun i => op_vfp_store_reg32 fd
                          (vfp_advance_sreg vd (Z.of_nat i * (stride + 1))))
              (seq 1 k)).
Proof.
  intros Hs. induction k as [|k IH]; intros vd [s t] Hk.
  - reflexivity.
  - assert (Hnz : (Z.of_nat (S k) =? 0) = false) by (apply Z.eqb_neq; lia).
    assert (Hdec : wrap_int (Z.of_nat (S k) - 1) = Z.of_nat k).
    { unfold wrap_int. rewrite Z.mod_small; lia. }
    rewrite do_vfp_2op_sp_bcast_unfold, Hnz, Hdec, vfp_advance_sreg_wrap.
    mcbv. rewrite IH by lia. cbn [app seq map]. f_equal. f_equal. f_equal.
    + f_equal. f_equal. lia.
    + rewrite <- (seq_shift k 1), map_map. apply map_ext. intros i.
      f_equal. apply vfp_advance_sreg_step.
Qed.

Lemma do_vfp_2op_sp_loop_mov_ops f0 fd stride :
  0 <= stride < 2 ^ 32 - 1 ->
  forall k vd vm g, Z.of_nat k < 2 ^ 31 ->
  do_vfp_2op_sp_loop (S k) gen_mov f0 fd (u32 (stride + 1))
                     (u32 (stride + 1)) (Z.of_nat k) vd vm g
  = Some (tt, g,
          op_mov fd f0 :: op_vfp_store_reg32 fd vd ::
          flat_map (copy_ops f0 fd)
            (map (fun i => (vfp_advance_sreg vm (Z.of_nat i * (stride + 1)),
                            vfp_advance_sreg vd (Z.of_nat i * (stride + 1))))
                 (seq 1 k))).
Proof.
  intros Hs. induction k as [|k IH]; intros vd vm [s t] Hk.
  - reflexivity.
  - assert (Hnz : Z.of_nat (S k) <> 0) by lia.
    assert (Hdec : wrap_int (Z.of_nat (S k) - 1) = Z.of_nat k).
    { unfold wrap_int. rewrite Z.mod_small; lia. }
    assert (Hd : u32 (stride + 1) <> 0).
    { unfold u32. rewrite Z.mod_small; lia. }
    rewrite do_vfp_2op_sp_loop_vector_step by assumption.
    rewrite Hdec, !vfp_advance_sreg_wrap.
    unfold gen_mov at 1. mcbv. rewrite IH by lia. cbn [app seq map flat_map].
    unfold copy_ops at 2. cbn [fst snd app].
    f_equal. f_equal. f_equal. f_equal.
    replace (Z.of_nat 1 * (stride + 1)) with (stride + 1) by lia.
    f_equal. f_equal. f_equal.
    rewrite <- (seq_shift k 1), !map_map. f_equal. apply map_ext. intros i.
    f_equal; apply vfp_advance_sreg_step.
Qed.

(** Element-wise copies, when no source is also a destination and a
    destination written twice is written from the same source. *)
Lemma run_copies ext f0 fd ps :
  forall m, pending m = None ->
    (forall p q, In p ps -> In q ps -> fst p <> snd q) ->
    (forall p q, In p ps -> In q ps -> snd p = snd q -> fst p = fst q) ->
    let m' := env (run_from ext (flat_map (copy_ops f0 fd) ps)
                            {| env := m; skip_to := None |}) in
    pending m' = None /\ regs m' = regs m /\
    (forall p, In p ps -> vfp_s m' (snd p) = u32 (vfp_s m (fst p))) /\
    (forall r, (forall p, In p ps -> r <> snd p) -> vfp_s m' r = vfp_s m r).
Proof.
  induction ps as [|[s0 d0] ps IH]; intros m Hp Hdisj Hfun; cbv zeta.
  - cbn [flat_map run_from fold_left env]. repeat split; try assumption.
    intros p [].
  - cbn [flat_map].
    change (copy_ops f0 fd (s0, d0))
      with [op_vfp_load_reg32 f0 s0; op_mov fd f0; op_vfp_store_reg32 fd d0].
    cbn [app]. repeat run_step_pending.
    match goal with
    | |- context [run_from ext _ {| env := ?x; skip_to := None |}] =>
        set (m1 := x)
    end.
    assert (Hp1 : pending m1 = None) by exact Hp.
    assert (Hv1 : vfp_s m1 = upd_Z d0 (u32 (vfp_s m s0)) (vfp_s m)).
    { subst m1. unfold set_temp.
      cbn [vfp_s set_vfp_s set_temps temps]. rewrite ?upd_nat_eq; reflexivity. }
    destruct (IH m1 Hp1) as (Hq & Hregs & Hin & Hout).
    { intros p q Hi Hj. apply Hdisj; now right. }
    { intros p q Hi Hj. apply Hfun; now right. }
    repeat split.
    + exact Hq.
    + exact Hregs.
    + intros p [<-|Hi]; cbn [fst snd].
      * destruct (in_dec Z.eq_dec d0 (map snd ps)) as [Hd|Hd].
        -- apply in_map_iff in Hd as (q & Eq & Hq').
           assert (Es : fst q = s0).
           { apply (Hfun q (s0, d0)); [now right|now left|exact Eq]. }
           rewrite <- Eq, (Hin q Hq'), Hv1, Es.
           rewrite upd_Z_neq; [reflexivity|].
           apply (Hdisj (s0, d0) (s0, d0)); now left.
        -- rewrite Hout, Hv1; [apply upd_Z_eq|].
           intros q Hq' E. apply Hd. apply in_map_iff. now exists q.
      * rewrite (Hin p Hi), Hv1. rewrite upd_Z_neq; [reflexivity|].
        apply (Hdisj p (s0, d0)); [now right|now left].
    + intros r Hr. rewrite Hout, Hv1.
      * apply upd_Z_neq. apply (Hr (s0, d0)). now left.
      * intros p Hi. apply Hr. now right.
Qed.

(** X16 ([do_vfp_2op_sp], [trans_VMOV_reg_sp], lines 1918-1990 and
    2820-2828).  With the destination in a vector bank other than the
    source's, a single-precision register VMOV writes the [vec_len + 1]
    destination registers reached in steps of [vec_stride + 1]: each gets
    the source register of the same position, or the one source register
    when that is in the scalar bank; nothing else changes. *)
Theorem VMOV_reg_sp_short_vector ext vd vm g g1 pre :
  aa32_fpsp_v2 (cfg (dc g)) = true ->
  shvec_unsupported (dc g) (vec_len (cfg (dc g))) = false ->
  0 <= vec_len (cfg (dc g)) < 2 ^ 31 ->
  0 <= vec_stride (cfg (dc g)) < 2 ^ 32 - 1 ->
  vfp_sreg_is_scalar vd = false ->
  Z.land vd 24 <> Z.land vm 24 ->
  vfp_access_check g = Some (true, g1, pre) ->
  exists g2 body,
    trans_VMOV_reg_sp {| op2_vd := vd; op2_vm := vm |} g
    = Some (true, g2, pre ++ body) /\
    forall m, pending m = None ->
      let step := vec_stride (cfg (dc g)) + 1 in
      let dst i := vfp_advance_sreg vd (i * step) in
      let src i := if vfp_sreg_is_scalar vm then vm
                   else vfp_advance_sreg vm (i * step) in
      pending (run ext body m) = None /\
      regs (run ext body m) = regs m /\
      (forall i, 0 <= i <= vec_len (cfg (dc g)) ->
         vfp_s (run ext body m) (dst i) = u32 (vfp_s m (src i))) /\
      (forall r, (forall i, 0 <= i <= vec_len (cfg (dc g)) -> r <> dst i) ->
                 vfp_s (run ext body m) r = vfp_s m r).
Proof.
  intros Hv2 Hsh Hlen Hstr Hvd Hbank Hchk.
  destruct g as [[c l w n j] [nt nl]]. cbn [dc cfg] in *.
  destruct g1 as [[c1 l1 w1 n1 j1] [nt1 nl1]].
  pose proof (vfp_access_check_cfg _ _ _ _ Hchk) as Hc.
  cbn [dc cfg] in Hc. subst c1.
  set (len := vec_len c) in *. set (stride := vec_stride c) in *.
  set (dst := fun i : nat => vfp_advance_sreg vd (Z.of_nat i * (stride + 1))).
  set (srcv := fun i : nat => vfp_advance_sreg vm (Z.of_nat i * (stride + 1))).
  assert (Hgen :
    trans_VMOV_reg_sp {| op2_vd := vd; op2_vm := vm |}
      {| dc := {| cfg := c; v7m_lspact := l; v8m_fpccr_s_wrong := w;
                  v7m_new_fp_ctxt_needed := n; is_jmp := j |};
         tcg := {| next_temp := nt; next_label := nl |} |}
    = Some (true,
            {| dc := {| cfg := c; v7m_lspact := l1; v8m_fpccr_s_wrong := w1;
                        v7m_new_fp_ctxt_needed := n1; is_jmp := j1 |};
               tcg := {| next_temp := S (S nt1); next_label := nl1 |} |},
            pre ++
            if vfp_sreg_is_scalar vm
            then op_vfp_load_reg32 nt1 vm :: op_mov (S nt1) nt1 ::
                 map (op_vfp_store_reg32 (S nt1))
                     (map dst (seq 0 (S (Z.to_nat len))))
            else flat_map (copy_ops nt1 (S nt1))
                   (map (fun i => (srcv i, dst i))
                        (seq 0 (S (Z.to_nat len)))))).
  { unfold trans_VMOV_reg_sp, do_vfp_2op_sp. cbn [op2_vd op2_vm].
    gen_eval_body. fold len. rewrite Hv2, Hsh. cbn [negb].
    rewrite Hchk. gen_eval_body. fold len stride. rewrite Hvd.
    assert (Hone : forall f0 fd dd dm g,
              do_vfp_2op_sp_loop 1 gen_mov f0 fd dd dm 0 vd vm g
              = Some (tt, g, [op_mov fd f0; op_vfp_store_reg32 fd vd])).
    { intros f0 fd dd dm [s t]. reflexivity. }
    assert (Ed0 : dst 0%nat = vd).
    { subst dst. cbv beta. change (Z.of_nat 0 * (stride + 1)) with 0.
      apply vfp_advance_sreg_zero. }
    assert (Es0 : srcv 0%nat = vm).
    { subst srcv. cbv beta. change (Z.of_nat 0 * (stride + 1)) with 0.
      apply vfp_advance_sreg_zero. }
    destruct (len >? 0) eqn:Hgt.
    - destruct (vfp_sreg_is_scalar vm) eqn:Hvm.
      + gen_eval_body.
        assert (Hnz : (len =? 0) = false) by (apply Z.eqb_neq; lia).
        cbn [do_vfp_2op_sp_loop]. unfold gen_mov at 1. mcbv.
        rewrite Hnz. cbn [Z.eqb].
        pose proof (do_vfp_2op_sp_bcast_ops (S nt1) stride Hstr
                      (Z.to_nat len) vd) as Hb.
        rewrite Z2Nat.id in Hb by lia. rewrite Hb by lia.
        gen_eval_body. rewrite ?app_nil_r. cbn [app].
        change (seq 0 (S (Z.to_nat len)))
          with (0%nat :: seq 1 (Z.to_nat len)).
        cbn [map]. rewrite Ed0, map_map. reflexivity.
      + gen_eval_body.
        pose proof (do_vfp_2op_sp_loop_mov_ops nt1 (S nt1) stride Hstr
                      (Z.to_nat len) vd vm) as Hl.
        rewrite Z2Nat.id in Hl by lia. rewrite Hl by lia.
        gen_eval_body. rewrite ?app_nil_r. cbn [app].
        change (seq 0 (S (Z.to_nat len)))
          with (0%nat :: seq 1 (Z.to_nat len)).
        cbn [map flat_map]. unfold copy_ops at 1. cbn [fst snd app].
        rewrite Ed0, Es0. reflexivity.
    - assert (E0 : len = 0) by lia. rewrite E0.
      gen_eval_body. cbn [Z.to_nat]. rewrite Hone. gen_eval_body.
      cbn [seq map flat_map app]. unfold copy_ops. cbn [fst snd app].
      rewrite Ed0, Es0. rewrite ?app_nil_r.
      destruct (vfp_sreg_is_scalar vm); reflexivity. }
  eexists. eexists. split; [exact Hgen|].
  intros m Hp. cbv zeta.
  assert (Hdstb : forall i, Z.land (dst i) 24 = Z.land vd 24)
    by (intros i; apply vfp_advance_sreg_land_bank).
  assert (Hsrcb : forall i, Z.land (srcv i) 24 = Z.land vm 24)
    by (intros i; apply vfp_advance_sreg_land_bank).
  destruct (vfp_sreg_is_scalar vm) eqn:Hvm.
  - unfold run. repeat run_step_pending.
    match goal with
    | |- context [run_from ext _ {| env := ?x; skip_to := None |}] =>
        set (m1 := x)
    end.
    destruct (run_stores ext (S nt1) (map dst (seq 0 (S (Z.to_nat len))))
                m1 Hp) as (Hq & Hregs & Hin & Hout).
    assert (Et : temps m1 (S nt1) = vfp_s m vm).
    { subst m1. unfold set_temp. cbn [temps set_temps vfp_s].
      rewrite ?upd_nat_eq; reflexivity. }
    rewrite Et in Hin.
    repeat split.
    + exact Hq.
    + exact Hregs.
    + intros i Hi. apply Hin. apply in_map_iff. exists (Z.to_nat i).
      split; [subst dst; cbv beta; now rewrite Z2Nat.id by lia|].
      apply in_seq. lia.
    + intros r Hr. rewrite Hout; [reflexivity|].
      intros Hi. apply in_map_iff in Hi as (i & <- & Hi). apply in_seq in Hi.
      apply (Hr (Z.of_nat i)); [lia|reflexivity].
  - unfold run.
    destruct (run_copies ext nt1 (S nt1)
                (map (fun i => (srcv i, dst i)) (seq 0 (S (Z.to_nat len))))
                m Hp) as (Hq & Hregs & Hin & Hout).
    + intros p q Hi Hj.
      apply in_map_iff in Hi as (i & <- & _).
      apply in_map_iff in Hj as (k & <- & _). cbn [fst snd].
      intros E. apply Hbank. now rewrite <- (Hdstb k), <- E, Hsrcb.
    + intros p q Hi Hj.
      apply in_map_iff in Hi as (i & <- & _).
      apply in_map_iff in Hj as (k & <- & _). cbn [fst snd].
      subst dst srcv. cbv beta. rewrite !vfp_advance_sreg_bank.
      unfold advance_bank. intros E.
      assert (E' : (vd + Z.of_nat i * (stride + 1)) mod 2 ^ 3
                   = (vd + Z.of_nat k * (stride + 1)) mod 2 ^ 3) by lia.
      f_equal.
      rewrite <- (Z.add_mod_idemp_r vm (Z.of_nat i * _)) by lia.
      rewrite <- (Z.add_mod_idemp_r vm (Z.of_nat k * _)) by lia.
      f_equal. f_equal.
      rewrite <- (Z.add_mod_idemp_r vd (Z.of_nat i * _)) in E' by lia.
      rewrite <- (Z.add_mod_idemp_r vd (Z.of_nat k * _)) in E' by lia.
      pose proof (Z.mod_pos_bound (Z.of_nat i * (stride + 1)) (2 ^ 3)
                    ltac:(lia)) as Bi.
      pose proof (Z.mod_pos_bound (Z.of_nat k * (stride + 1)) (2 ^ 3)
                    ltac:(lia)) as Bk.
      set (a := (Z.of_nat i * (stride + 1)) mod 2 ^ 3) in *.
      set (b := (Z.of_nat k * (stride + 1)) mod 2 ^ 3) in *.
      assert (Hab : (a - b) mod 2 ^ 3 = 0).
      { replace (a - b) with ((vd + a) - (vd + b)) by lia.
        rewrite Zminus_mod, E', Z.sub_diag. reflexivity. }
      destruct (Z_le_gt_dec b a).
      * rewrite Z.mod_small in Hab by lia. lia.
      * assert (Hba : (b - a) mod 2 ^ 3 = 0).
        { replace (b - a) with (- (a - b)) by lia.
          now apply Z.mod_opp_l_z; [lia|]. }
        rewrite Z.mod_small in Hba by lia. lia.
    + repeat split.
      * exact Hq.
      * exact Hregs.
      * intros i Hi.
        specialize (Hin (srcv (Z.to_nat i), dst (Z.to_nat i))).
        cbn [fst snd] in Hin. subst dst srcv. cbv beta in Hin.
        rewrite Z2Nat.id in Hin by lia. apply Hin.
        apply in_map_iff. exists (Z.to_nat i). cbv beta.
        rewrite Z2Nat.id by lia. split; [reflexivity|]. apply in_seq. lia.
      * intros r Hr. rewrite Hout; [reflexivity|].
        intros p Hi. apply in_map_iff in Hi as (i & <- & Hi).
        apply in_seq in Hi. cbn [snd].
        apply (Hr (Z.of_nat i)). lia.
Qed.

Lemma VMOV_reg_sp_short_vector_witness :
  exists g2 body,
    trans_VMOV_reg_sp {| op2_vd := 8; op2_vm := 16 |}
                      (gen_start (cfg_vfpv3 3 0) false)
    = Some (true, g2, body) /\
    vfp_s (run ext_simple body (cpu_example 0 0 0)) 10
    = u32 (vfp_s (cpu_example 0 0 0) 18).
Proof.
  destruct (VMOV_reg_sp_short_vector ext_simple 8 16
              (gen_start (cfg_vfpv3 3 0) false)
              (gen_start (cfg_vfpv3 3 0) false) []
              eq_refl eq_refl ltac:(cbn; lia) ltac:(cbn; lia) eq_refl
              ltac:(discriminate) eq_refl)
    as (g2 & body & Hgen & Hrun).
  exists g2, body. split; [exact Hgen|].
  destruct (Hrun (cpu_example 0 0 0) eq_refl) as (_ & _ & Hin & _).
  exact (Hin 2 ltac:(cbn; lia)).
Defined.

(** ** Double-precision register moves over a short vector *)

Lemma do_vfp_2op_dp_loop_mov_ops f0 fd delta :
  delta <> 0 ->
  forall k vd vm g, Z.of_nat k < 2 ^ 31 ->
  do_vfp_2op_dp_loop (S k) gen_mov f0 fd delta delta (Z.of_nat k) vd vm g
  = Some (tt, g,
          op_mov fd f0 :: op_vfp_store_reg64 fd vd ::
          flat_map (copy64_ops f0 fd vm)
                   (repeat (vfp_advance_dreg vm (wrap_int delta)) k)).
Proof.
  intros Hd. induction k as [|k IH]; intros vd vm [s t] Hk.
  - reflexivity.
  - assert (Hnz : Z.of_nat (S k) <> 0) by lia.
    assert (Hdec : wrap_int (Z.of_nat (S k) - 1) = Z.of_nat k).
    { unfold wrap_int. rewrite Z.mod_small; lia. }
    rewrite do_vfp_2op_dp_loop_vector_step by assumption.
    rewrite Hdec. unfold gen_mov at 1. mcbv.
    cbv beta iota zeta delta [vfp_load_reg64 vfp_store_reg64].
    mcbv. rewrite IH by lia. cbn [app repeat flat_map].
    unfold copy64_ops at 2. cbn [app]. reflexivity.
Qed.

(** Copies of the register [vm], whose two halves are 32-bit values, to
    a list of double-precision registers. *)
Lemma run_copies64 ext f0 fd vm ds :
  forall m, pending m = None ->
    0 <= vfp_s m (2 * vm) < 2 ^ 32 ->
    0 <= vfp_s m (2 * vm + 1) < 2 ^ 32 ->
    let m' := env (run_from ext (flat_map (copy64_ops f0 fd vm) ds)
                            {| env := m; skip_to := None |}) in
    pending m' = None /\ regs m' = regs m /\
    (forall d, In d ds ->
       vfp_s m' (2 * d) = vfp_s m (2 * vm) /\
       vfp_s m' (2 * d + 1) = vfp_s m (2 * vm + 1)) /\
    (forall r, (forall d, In d ds -> r <> 2 * d /\ r <> 2 * d + 1) ->
               vfp_s m' r = vfp_s m r).
Proof.
  induction ds as [|d0 ds IH]; intros m Hp Hlo Hhi; cbv zeta.
  - cbn [flat_map run_from fold_left env].
    split; [assumption|]. split; [reflexivity|].
    split; [intros d []|reflexivity].
  - cbn [flat_map].
    change (copy64_ops f0 fd vm d0)
      with [op_vfp_load_reg64 f0 vm; op_mov fd f0; op_vfp_store_reg64 fd d0].
    cbn [app]. repeat run_step_pending.
    match goal with
    | |- context [run_from ext _ {| env := ?x; skip_to := None |}] =>
        set (m1 := x)
    end.
    assert (Hp1 : pending m1 = None) by exact Hp.
    assert (Hv1 : vfp_s m1
                  = upd_Z (2 * d0 + 1) (vfp_s m (2 * vm + 1))
                      (upd_Z (2 * d0) (vfp_s m (2 * vm)) (vfp_s m))).
    { subst m1. unfold set_temp.
      cbn [vfp_s set_vfp_s set_temps temps]. rewrite ?upd_nat_eq.
      now rewrite u32_low_word, u32_high_word by assumption. }
    assert (Elo : vfp_s m1 (2 * vm) = vfp_s m (2 * vm)).
    { rewrite Hv1. rewrite upd_Z_neq by lia.
      destruct (Z.eq_dec vm d0) as [->|Hne];
        [apply upd_Z_eq|apply upd_Z_neq; lia]. }
    assert (Ehi : vfp_s m1 (2 * vm + 1) = vfp_s m (2 * vm + 1)).
    { rewrite Hv1.
      destruct (Z.eq_dec vm d0) as [->|Hne];
        [apply upd_Z_eq|rewrite !upd_Z_neq by lia; reflexivity]. }
    destruct (IH m1 Hp1) as (Hq & Hregs & Hin & Hout);
      [rewrite Elo; exact Hlo|rewrite Ehi; exact Hhi|].
    rewrite Elo, Ehi in Hin.
    split; [exact Hq|]. split; [exact Hregs|]. split.
    + intros d [<-|Hi]; [|now apply Hin].
      destruct (in_dec Z.eq_dec d0 ds) as [Hd|Hd]; [now apply Hin|].
      assert (Hfresh : forall d, In d ds -> d <> d0)
        by (intros d Hi ->; now apply Hd).
      split; rewrite Hout, Hv1.
      * rewrite upd_Z_neq by lia. apply upd_Z_eq.
      * intros d Hi. specialize (Hfresh d Hi). lia.
      * apply upd_Z_eq.
      * intros d Hi. specialize (Hfresh d Hi). lia.
    + intros r Hr. rewrite Hout, Hv1.
      * destruct (Hr d0 (or_introl eq_refl)) as [H1 H2].
        now rewrite !upd_Z_neq by assumption.
      * intros d Hi. apply Hr. now right.
Qed.

(** X17 ([do_vfp_2op_dp], [trans_VMOV_reg_dp], lines 2025-2102 and
    2820-2828).  With destination and source both in vector banks and a
    non-zero vector length, the double-precision register VMOV writes the
    old value of [Dm] to [Dd] and to the one register
    [vfp_advance_dreg vm delta]; the other registers of the destination
    vector are never written and the source is never advanced. *)
Theorem VMOV_reg_dp_short_vector ext vd vm g g1 pre :
  aa32_fpdp_v2 (cfg (dc g)) = true ->
  aa32_simd_r32 (cfg (dc g)) = true \/ Z.land (Z.lor vd vm) 16 = 0 ->
  shvec_unsupported (dc g) (vec_len (cfg (dc g))) = false ->
  0 < vec_len (cfg (dc g)) < 2 ^ 31 ->
  0 <= vec_stride (cfg (dc g)) < 2 ^ 32 - 2 ->
  vfp_dreg_is_scalar vd = false ->
  vfp_dreg_is_scalar vm = false ->
  vfp_access_check g = Some (true, g1, pre) ->
  exists g2 body,
    trans_VMOV_reg_dp {| op2_vd := vd; op2_vm := vm |} g
    = Some (true, g2, pre ++ body) /\
    forall m, pending m = None ->
      0 <= vfp_s m (2 * vm) < 2 ^ 32 ->
      0 <= vfp_s m (2 * vm + 1) < 2 ^ 32 ->
      let vt := vfp_advance_dreg vm
                  (Z.shiftr (vec_stride (cfg (dc g))) 1 + 1) in
      pending (run ext body m) = None /\
      regs (run ext body m) = regs m /\
      (forall d, d = vd \/ d = vt ->
         vfp_s (run ext body m) (2 * d) = vfp_s m (2 * vm) /\
         vfp_s (run ext body m) (2 * d + 1) = vfp_s m (2 * vm + 1)) /\
      (forall r, r <> 2 * vd -> r <> 2 * vd + 1 ->
                 r <> 2 * vt -> r <> 2 * vt + 1 ->
                 vfp_s (run ext body m) r = vfp_s m r).
Proof.
  intros Hv2 Hr32 Hsh Hlen Hstr Hvd Hvm Hchk.
  destruct g as [[c l w n j] [nt nl]]. cbn [dc cfg] in *.
  destruct g1 as [[c1 l1 w1 n1 j1] [nt1 nl1]].
  pose proof (vfp_access_check_cfg _ _ _ _ Hchk) as Hc.
  cbn [dc cfg] in Hc. subst c1.
  set (len := vec_len c) in *. set (stride := vec_stride c) in *.
  set (vt := vfp_advance_dreg vm (Z.shiftr stride 1 + 1)).
  assert (Hsr : 0 <= Z.shiftr stride 1 < 2 ^ 32 - 2).
  { rewrite Z.shiftr_div_pow2 by lia. change (2 ^ 1) with 2.
    split; [apply Z.div_pos; lia|].
    apply Z.div_lt_upper_bound; lia. }
  assert (Hgen :
    trans_VMOV_reg_dp {| op2_vd := vd; op2_vm := vm |}
      {| dc := {| cfg := c; v7m_lspact := l; v8m_fpccr_s_wrong := w;
                  v7m_new_fp_ctxt_needed := n; is_jmp := j |};
         tcg := {| next_temp := nt; next_label := nl |} |}
    = Some (true,
            {| dc := {| cfg := c; v7m_lspact := l1; v8m_fpccr_s_wrong := w1;
                        v7m_new_fp_ctxt_needed := n1; is_jmp := j1 |};
               tcg := {| next_temp := S (S nt1); next_label := nl1 |} |},
            pre ++ flat_map (copy64_ops nt1 (S nt1) vm)
                     (vd :: repeat vt (Z.to_nat len)))).
  { unfold trans_VMOV_reg_dp, do_vfp_2op_dp. cbn [op2_vd op2_vm].
    gen_eval_body. fold len. rewrite Hv2, Hsh. cbn [negb].
    assert (Hr : negb (aa32_simd_r32 c)
                 && negb (Z.land (Z.lor vd vm) 16 =? 0) = false).
    { destruct Hr32 as [->| ->]; [reflexivity|].
      cbn [Z.eqb negb]. apply andb_false_r. }
    rewrite Hr. rewrite Hchk. gen_eval_body. fold len stride.
    rewrite Hvd, Hvm.
    replace (len >? 0) with true by (symmetry; apply Z.gtb_lt; lia).
    gen_eval_body.
    assert (Hd : u32 (Z.shiftr stride 1 + 1) <> 0).
    { unfold u32. rewrite Z.mod_small; lia. }
    pose proof (do_vfp_2op_dp_loop_mov_ops nt1 (S nt1) _ Hd
                  (Z.to_nat len) vd vm) as Hl.
    rewrite Z2Nat.id in Hl by lia. rewrite Hl by lia.
    gen_eval_body. rewrite ?app_nil_r. cbn [app flat_map].
    unfold copy64_ops at 1. cbn [app].
    rewrite vfp_advance_dreg_bank, advance_bank_wrap,
      <- vfp_advance_dreg_bank by lia.
    reflexivity. }
  eexists. eexists. split; [exact Hgen|].
  intros m Hp Hlo Hhi. cbv zeta. fold vt. unfold run.
  destruct (run_copies64 ext nt1 (S nt1) vm (vd :: repeat vt (Z.to_nat len))
              m Hp Hlo Hhi) as (Hq & Hregs & Hin & Hout).
  split; [exact Hq|]. split; [exact Hregs|]. split.
  - intros d Hd. apply Hin. destruct Hd as [->| ->]; [now left|right].
    destruct (Z.to_nat len) eqn:E; [lia|now left].
  - intros r H1 H2 H3 H4. apply Hout.
    intros d [<-|Hi]; [now split|].
    apply repeat_spec in Hi. subst d. now split.
Qed.

Lemma VMOV_reg_dp_short_vector_witness :
  exists g2 body,
    trans_VMOV_reg_dp {| op2_vd := 4; op2_vm := 8 |}
                      (gen_start (cfg_vfpv3 3 0) false)
    = Some (true, g2, body) /\
    vfp_s (run ext_simple body (cpu_example 0 0 0)) 18
    = vfp_s (cpu_example 0 0 0) 16 /\
    vfp_s (run ext_simple body (cpu_example 0 0 0)) 10
    = vfp_s (cpu_example 0 0 0) 10.
Proof.
  destruct (VMOV_reg_dp_short_vector ext_simple 4 8
              (gen_start (cfg_vfpv3 3 0) false)
              (gen_start (cfg_vfpv3 3 0) false) []
              eq_refl (or_introl eq_refl) eq_refl ltac:(cbn; lia)
              ltac:(cbn; lia) eq_refl eq_refl eq_refl)
    as (g2 & body & Hgen & Hrun).
  exists g2, body. split; [exact Hgen|].
  destruct (Hrun (cpu_example 0 0 0) eq_refl ltac:(cbn; lia) ltac:(cbn; lia))
    as (_ & _ & Hin & Hout).
  split.
  - exact (proj1 (Hin 9 (or_intror eq_refl))).
  - apply Hout; vm_compute; discriminate.
Defined.

(** ** System registers on A-profile *)

Lemma u32_land_pow2 x k : 0 <= k < 32 -> u32 (Z.land x (2 ^ k)) = Z.land x (2 ^ k).
Proof.
  intros Hk. rewrite land_pow2 by lia.
  assert (0 < 2 ^ k < 2 ^ 32).
  { split; [apply Z.pow_pos_nonneg; lia|apply Z.pow_lt_mono_r; lia]. }
  unfold u32. destruct (Z.testbit x k); apply Z.mod_small; lia.
Qed.

(** X18 ([trans_VMSR_VMRS], lines 978-1119).  On an A-profile core in a
    privileged mode, a VMSR to FPEXC followed by a VMRS from it returns the
    written value with every bit but EN (bit 30) cleared, whether or not
    the FPU is enabled; for FPINST and FPINST2 (pre-VFPv3, FPU enabled) the
    value read back is the value written.  No other system register and no
    general-purpose register but the destination and the PC changes. *)
Theorem VMSR_VMRS_roundtrip ext reg rt rt' g :
  ARM_FEATURE_M (cfg (dc g)) = false ->
  aa32_fpsp_v2 (cfg (dc g)) = true ->
  user (cfg (dc g)) = false ->
  fp_excp_el (cfg (dc g)) = 0 ->
  reg = ARM_VFP_FPEXC \/
  ((reg = ARM_VFP_FPINST \/ reg = ARM_VFP_FPINST2) /\
   aa32_fpsp_v3 (cfg (dc g)) = false /\ vfp_enabled (cfg (dc g)) = true) ->
  rt <> 15 -> rt' <> 15 ->
  exists g2 body,
    (trans_VMSR_VMRS {| vmsr_l := false; vmsr_rt := rt; vmsr_reg := reg |} ;;
     verdict (trans_VMSR_VMRS
                {| vmsr_l := true; vmsr_rt := rt'; vmsr_reg := reg |})) g
    = Some (true, g2, body) /\
    forall m, pending m = None ->
      let v := match reg with
               | ARM_VFP_FPEXC => Z.land (regs m rt) (2 ^ 30)
               | _ => regs m rt
               end in
      pending (run ext body m) = None /\
      xregs (run ext body m) reg = v /\
      regs (run ext body m) rt' = v /\
      (forall x, x <> reg -> xregs (run ext body m) x = xregs m x) /\
      (forall r, r <> rt' -> r <> 15 -> regs (run ext body m) r = regs m r).
Proof.
  intros HM Hv2 Hu Hel Hreg Hrt Hrt'.
  destruct g as [[c l w n j] [nt nl]]. cbn [dc cfg] in *.
  assert (H15 : (rt' =? 15) = false) by (apply Z.eqb_neq; assumption).
  destruct Hreg as [->|[[->| ->] [Hv3 Hen]]].
  all: unfold trans_VMSR_VMRS, verdict, VMSR_VMRS_legality, VMSR_body,
         VMRS_body; cbn [vmsr_l vmsr_rt vmsr_reg].
  all: gen_eval_body; rewrite ?HM, ?Hv2, ?Hu, ?Hv3; cbn [negb andb orb].
  all: rewrite full_vfp_access_check_not_M
         by (cbn [dc cfg]; rewrite ?Hen; try assumption;
             try reflexivity; apply orb_true_r).
  all: gen_eval_body; rewrite ?HM, ?Hv2, ?Hu, ?Hv3; cbn [negb andb orb].
  all: rewrite full_vfp_access_check_not_M
         by (cbn [dc cfg]; rewrite ?Hen; try assumption;
             try reflexivity; apply orb_true_r).
  all: gen_eval_body; rewrite H15; gen_eval_body.
  all: eexists; eexists; (split; [reflexivity|]).
  all: intros m Hp; cbv zeta; unfold run; repeat run_step_pending.
  all: cbn [run_from fold_left env pending regs xregs set_regs set_xregs
            set_temp set_temps temps write_field read_field sysreg_eqb].
  all: rewrite ?upd_nat_eq, ?upd_Z_eq, ?u32_land_pow2 by lia.
  all: split; [assumption|]; split; [reflexivity|]; split; [reflexivity|].
  all: split; [intros x Hx; destruct x; try reflexivity; congruence|].
  all: intros r Hr1 Hr2; now rewrite ?upd_Z_neq by congruence.
Qed.

Lemma VMSR_VMRS_roundtrip_witness :
  exists g2 body,
    (trans_VMSR_VMRS {| vmsr_l := false; vmsr_rt := 1;
                        vmsr_reg := ARM_VFP_FPEXC |} ;;
     verdict (trans_VMSR_VMRS {| vmsr_l := true; vmsr_rt := 2;
                                 vmsr_reg := ARM_VFP_FPEXC |}))
      (gen_start (cfg_vfpv3 0 0) false)
    = Some (true, g2, body) /\
    regs (run ext_simple body (cpu_example 0 0 0)) 2 = 0.
Proof.
  destruct (VMSR_VMRS_roundtrip ext_simple ARM_VFP_FPEXC 1 2
              (gen_start (cfg_vfpv3 0 0) false)
              eq_refl eq_refl eq_refl eq_refl (or_introl eq_refl)
              ltac:(discriminate) ltac:(discriminate))
    as (g2 & body & Hgen & Hrun).
  exists g2, body. split; [exact Hgen|].
  exact (proj1 (proj2 (proj2 (Hrun (cpu_example 0 0 0) eq_refl)))).
Defined.

(** ** Block transfers: what is stored and loaded *)

Lemma u32_add_neq t d : 0 < d < 2 ^ 32 -> u32 (u32 t + d) <> u32 t.
Proof.
  intros Hd. pose proof (u32_range t) as H. unfold u32 in *.
  destruct (Z_lt_ge_dec (t mod 2 ^ 32 + d) (2 ^ 32)) as [Hlt|Hge].
  - rewrite Z.mod_small; lia.
  - replace (t mod 2 ^ 32 + d)
      with ((t mod 2 ^ 32 + d - 2 ^ 32) + 1 * 2 ^ 32) by lia.
    rewrite Z_mod_plus_full, Z.mod_small; lia.
Qed.

(** The store loop, run to its end from a 32-bit address [A]: register
    [vd + k] goes to [A + 4 * (k - i)]. *)
Lemma VSTM_sp_loop_run ext a tmp addr n :
  vldm_l a = false -> tmp <> addr ->
  forall fuel i g, (Z.to_nat (n - i) < fuel)%nat -> n - i < 2 ^ 30 ->
    exists lops,
      VLDM_VSTM_sp_loop fuel a tmp addr 4 i n g = Some (tt, g, lops) /\
      straight_line lops = true /\
      forall m, pending m = None ->
        temps m addr = u32 (temps m addr) ->
        pending (run ext lops m) = None ->
        (forall k, i <= k < n ->
           memory (run ext lops m) (u32 (temps m addr + 4 * (k - i)))
           = u32 (vfp_s m (vldm_vd a + k))) /\
        (forall x, (forall k, i <= k < n ->
                      x <> u32 (temps m addr + 4 * (k - i))) ->
                   memory (run ext lops m) x = memory m x) /\
        vfp_s (run ext lops m) = vfp_s m /\
        regs (run ext lops m) = regs m /\
        temps (run ext lops m) addr
        = u32 (temps m addr + 4 * Z.max 0 (n - i)).
Proof.
  intros Hl Hne. induction fuel as [|fuel IH]; intros i g Hfuel Hsmall; [lia|].
  rewrite VLDM_VSTM_sp_loop_unfold.
  destruct (i <? n) eqn:Hin.
  - apply Z.ltb_lt in Hin.
    destruct (IH (i + 1) g ltac:(lia) ltac:(lia))
      as (lops & Hgen & Hsl & Hrun).
    rewrite Hl. mcbv_mem. rewrite Hgen. mcbv_mem.
    eexists. split; [reflexivity|]. split; [exact Hsl|].
    intros m Hp Hnorm. unfold run. repeat run_sink_step;
      [|cbn [env pending raise]; discriminate].
    match goal with
    | |- context [run_from _ _ {| env := ?x; skip_to := None |}] =>
        set (m3 := x)
    end.
    intros Hend.
    assert (Et : temps m3 addr = u32 (temps m addr + 4)).
    { subst m3. cbn [temps set_temp set_temps set_memory write_mem].
      now temps_simpl. }
    assert (Em : memory m3
                 = upd_Z (temps m addr) (u32 (vfp_s m (vldm_vd a + i)))
                         (memory m)).
    { subst m3. cbn [memory set_temp set_temps set_memory write_mem].
      temps_simpl. reflexivity. }
    assert (Ev : vfp_s m3 = vfp_s m) by reflexivity.
    assert (Er : regs m3 = regs m) by reflexivity.
    assert (Hn3 : temps m3 addr = u32 (temps m3 addr))
      by (now rewrite Et, u32_idem).
    destruct (Hrun m3 Hp Hn3 Hend) as (Hmem & Hother & Hvfp & Hregs & Haddr).
    unfold run in Hmem, Hother, Hvfp, Hregs, Haddr.
    rewrite Et in Hmem, Hother, Haddr. rewrite Ev in Hmem, Hvfp.
    rewrite Er in Hregs.
    assert (Eaddr : forall k,
              u32 (u32 (temps m addr + 4) + 4 * (k - (i + 1)))
              = u32 (temps m addr + 4 * (k - i))).
    { intros k. rewrite u32_add_l. f_equal. lia. }
    split; [|split; [|split; [|split]]].
    + intros k Hk. destruct (Z.eq_dec k i) as [->|Hki].
      * rewrite Z.sub_diag, Z.mul_0_r, Z.add_0_r, <- Hnorm.
        rewrite Hother; [rewrite Em; apply upd_Z_eq|].
        intros k Hk'. rewrite Eaddr. intros E'.
        apply (u32_add_neq (temps m addr) (4 * (k - i))); [lia|].
        rewrite u32_add_l, <- Hnorm. now symmetry.
      * rewrite <- (Hmem k ltac:(lia)). now rewrite Eaddr.
    + intros x Hx. rewrite Hother.
      * rewrite Em. apply upd_Z_neq.
        specialize (Hx i ltac:(lia)).
        rewrite Z.sub_diag, Z.mul_0_r, Z.add_0_r, <- Hnorm in Hx. exact Hx.
      * intros k Hk. rewrite Eaddr. apply Hx. lia.
    + exact Hvfp.
    + exact Hregs.
    + rewrite Haddr, u32_add_l. f_equal. lia.
  - apply Z.ltb_ge in Hin. exists []. split; [reflexivity|].
    split; [reflexivity|]. intros m Hp Hnorm _.
    cbn [run run_from fold_left env].
    split; [intros k Hk; lia|]. split; [reflexivity|].
    split; [reflexivity|]. split; [reflexivity|].
    replace (Z.max 0 (n - i)) with 0 by lia.
    now rewrite Z.mul_0_r, Z.add_0_r.
Qed.

(** The load loop: register [vd + k] is loaded from [A + 4 * (k - i)]. *)
Lemma VLDM_sp_loop_run ext a tmp addr n :
  vldm_l a = true -> tmp <> addr ->
  forall fuel i g, (Z.to_nat (n - i) < fuel)%nat ->
    exists lops,
      VLDM_VSTM_sp_loop fuel a tmp addr 4 i n g = Some (tt, g, lops) /\
      straight_line lops = true /\
      forall m, pending m = None ->
        temps m addr = u32 (temps m addr) ->
        pending (run ext lops m) = None ->
        (forall k, i <= k < n ->
           vfp_s (run ext lops m) (vldm_vd a + k)
           = u32 (memory m (u32 (temps m addr + 4 * (k - i))))) /\
        (forall r, (forall k, i <= k < n -> r <> vldm_vd a + k) ->
                   vfp_s (run ext lops m) r = vfp_s m r) /\
        memory (run ext lops m) = memory m /\
        regs (run ext lops m) = regs m /\
        temps (run ext lops m) addr
        = u32 (temps m addr + 4 * Z.max 0 (n - i)).
Proof.
  intros Hl Hne. induction fuel as [|fuel IH]; intros i g Hfuel; [lia|].
  rewrite VLDM_VSTM_sp_loop_unfold.
  destruct (i <? n) eqn:Hin.
  - apply Z.ltb_lt in Hin.
    destruct (IH (i + 1) g ltac:(lia)) as (lops & Hgen & Hsl & Hrun).
    rewrite Hl. mcbv_mem. rewrite Hgen. mcbv_mem.
    eexists. split; [reflexivity|]. split; [exact Hsl|].
    intros m Hp Hnorm. unfold run. repeat run_sink_step;
      [|cbn [env pending raise]; discriminate].
    match goal with
    | |- context [run_from _ _ {| env := ?x; skip_to := None |}] =>
        set (m3 := x)
    end.
    intros Hend.
    assert (Et : temps m3 addr = u32 (temps m addr + 4)).
    { subst m3. cbn [temps set_temp set_temps set_vfp_s].
      now temps_simpl. }
    assert (Ev : vfp_s m3
                 = upd_Z (vldm_vd a + i) (u32 (memory m (temps m addr)))
                         (vfp_s m)).
    { subst m3. cbn [vfp_s set_temp set_temps set_vfp_s read_mem].
      temps_simpl. reflexivity. }
    assert (Em : memory m3 = memory m) by reflexivity.
    assert (Er : regs m3 = regs m) by reflexivity.
    assert (Hn3 : temps m3 addr = u32 (temps m3 addr))
      by (now rewrite Et, u32_idem).
    destruct (Hrun m3 Hp Hn3 Hend) as (Hin' & Hother & Hmem & Hregs & Haddr).
    unfold run in Hin', Hother, Hmem, Hregs, Haddr.
    rewrite Et in Hin', Haddr. rewrite Em in Hin', Hmem.
    rewrite Er in Hregs.
    assert (Eaddr : forall k,
              u32 (u32 (temps m addr + 4) + 4 * (k - (i + 1)))
              = u32 (temps m addr + 4 * (k - i))).
    { intros k. rewrite u32_add_l. f_equal. lia. }
    split; [|split; [|split; [|split]]].
    + intros k Hk. destruct (Z.eq_dec k i) as [->|Hki].
      * rewrite Z.sub_diag, Z.mul_0_r, Z.add_0_r, <- Hnorm.
        rewrite Hother; [rewrite Ev; apply upd_Z_eq|].
        intros k Hk'. lia.
      * rewrite (Hin' k ltac:(lia)). now rewrite Eaddr.
    + intros r Hr. rewrite Hother.
      * rewrite Ev. apply upd_Z_neq. apply Hr. lia.
      * intros k Hk. apply Hr. lia.
    + exact Hmem.
    + exact Hregs.
    + rewrite Haddr, u32_add_l. f_equal. lia.
  - apply Z.ltb_ge in Hin. exists []. split; [reflexivity|].
    split; [reflexivity|]. intros m Hp Hnorm _.
    cbn [run run_from fold_left env].
    split; [intros k Hk; lia|]. split; [reflexivity|].
    split; [reflexivity|]. split; [reflexivity|].
    replace (Z.max 0 (n - i)) with 0 by lia.
    now rewrite Z.mul_0_r, Z.add_0_r.
Qed.

Lemma run_from_loop_app ext lops post m2 :
  straight_line lops = true ->
  pending (env (run_from ext (lops ++ post) {| env := m2; skip_to := None |}))
  = None ->
  pending (run ext lops m2) = None /\
  run_from ext (lops ++ post) {| env := m2; skip_to := None |}
  = run_from ext post {| env := run ext lops m2; skip_to := None |}.
Proof.
  intros Hsl. rewrite run_from_app. unfold run.
  pose proof (run_from_straight_line ext lops m2 Hsl) as Hsk.
  destruct (run_from ext lops {| env := m2; skip_to := None |}) as [m3 sk].
  cbn [skip_to env] in *. subst sk. intros Hend. split; [|reflexivity].
  destruct (pending m3) as [r|] eqn:Hp3; [|reflexivity].
  rewrite (run_from_pending _ _ _ r) in Hend by exact Hp3.
  cbn [env] in Hend. congruence.
Qed.

(** Run the emitted transfer loop in the middle of a block, using its
    run lemma [Hrun]. *)
Ltac through_loop :=
  match goal with
  | Hsl : straight_line ?lops = true,
    Hrun : forall m, pending m = None -> temps m ?addr = _ -> _
    |- context [run_from ?ext (?lops ++ ?post)
                         {| env := ?x; skip_to := None |}] =>
      let m2 := fresh "m2" in
      let Hend := fresh "Hend" in
      let Hpl := fresh "Hpl" in
      let Happ := fresh "Happ" in
      let Hp2 := fresh "Hp2" in
      let Hn2 := fresh "Hn2" in
      set (m2 := x); intros Hend;
      destruct (run_from_loop_app ext lops post m2 Hsl Hend) as [Hpl Happ];
      rewrite Happ; clear Happ Hend;
      assert (Hp2 : pending m2 = None) by assumption;
      assert (Hn2 : temps m2 addr = u32 (temps m2 addr))
        by (subst m2; cbn [temps set_temp set_temps]; temps_simpl;
            now rewrite u32_idem);
      destruct (Hrun m2 Hp2 Hn2 Hpl) as (?Hmem & ?Hother & ?Hvfp & ?Hregs & ?Haddr);
      repeat (rewrite run_from_cons by exact Hpl; cbn [exec_op fst snd])
  end.

Lemma trans_VSTM_sp_run ext a g g1 pre :
  aa32_fpsp_v2 (cfg (dc g)) = true ->
  0 < vldm_imm a -> 0 <= vldm_vd a -> vldm_vd a + vldm_imm a <= 32 ->
  vldm_rn a <> 15 -> vldm_l a = false ->
  vfp_access_check g = Some (true, g1, pre) ->
  exists t body,
    trans_VLDM_VSTM_sp a g = Some (true, {| dc := dc g1; tcg := t |},
                                   pre ++ body) /\
    straight_line body = true /\
    forall m, pending m = None ->
      pending (run ext body m) = None ->
      let A := u32 (regs m (vldm_rn a)
                    - (if vldm_p a then 4 * vldm_imm a else 0)) in
      (forall k, 0 <= k < vldm_imm a ->
         memory (run ext body m) (u32 (A + 4 * k))
         = u32 (vfp_s m (vldm_vd a + k))) /\
      (forall x, (forall k, 0 <= k < vldm_imm a -> x <> u32 (A + 4 * k)) ->
                 memory (run ext body m) x = memory m x) /\
      vfp_s (run ext body m) = vfp_s m /\
      (forall r, r <> vldm_rn a -> regs (run ext body m) r = regs m r) /\
      regs (run ext body m) (vldm_rn a)
      = if vldm_w a
        then u32 (A + (if vldm_p a then 0 else 4 * vldm_imm a))
        else regs m (vldm_rn a).
Proof.
  intros Hv2 Hn Hvd0 Hvd Hrn Hl Hchk.
  destruct g as [[c l w n j] [nt nl]]. cbn [dc cfg] in Hv2.
  unfold trans_VLDM_VSTM_sp. gen_eval_body.
  rewrite Hv2.
  replace (vldm_imm a =? 0) with false by (symmetry; apply Z.eqb_neq; lia).
  replace (vldm_vd a + vldm_imm a >? 32) with false
    by (symmetry; rewrite Z.gtb_ltb; apply Z.ltb_ge; lia).
  assert (Hrn' : (vldm_rn a =? 15) = false) by now apply Z.eqb_neq.
  rewrite Hrn'.
  cbn [negb orb andb]. rewrite Hchk.
  destruct g1 as [[c1 l1 w1 n1 j1] [nt1 nl1]].
  gen_eval_body.
  destruct (vldm_p a) eqn:Hp, (vldm_w a) eqn:Hw;
    destruct (v8m_stackcheck c1 && (vldm_rn a =? 13)); cbn [andb];
    gen_eval_body;
    match goal with
    | |- context [VLDM_VSTM_sp_loop ?f a ?tmp ?addr ?o ?i ?n ?gs] =>
        destruct (VSTM_sp_loop_run ext a tmp addr n Hl
                    ltac:(lia) f i gs ltac:(lia) ltac:(lia))
          as (lops & Hgen & Hsl & Hrun);
        rewrite Hgen
    end; gen_eval_body.
  all: eexists; eexists; (split; [reflexivity|]).
  all: split; [rewrite ?app_nil_r; cbn [straight_line forallb app andb];
               fold (straight_line lops);
               rewrite ?forallb_app; cbn [forallb andb];
               fold (straight_line lops); rewrite ?Hsl; reflexivity|].
  all: intros m Hpm; unfold run; repeat run_sink_step;
    try (cbn [env pending raise]; discriminate).
  all: rewrite ?Hrn'.
  all: through_loop.
  all: cbn [run_from fold_left env memory vfp_s regs temps set_regs set_temp
            set_temps]; temps_simpl.
  all: match goal with
       | m2 := _ : CPUARMState |- _ =>
           assert (EA : temps m2 nt1
                        = u32 (regs m (vldm_rn a)
                               - (if vldm_p a then 4 * vldm_imm a else 0)))
             by (subst m2; cbn [temps set_temp set_temps regs]; temps_simpl;
                 rewrite Hp, ?u32_add_l, ?Z.shiftl_mul_pow2 by lia;
                 f_equal; change (2 ^ 2) with 4; lia);
           change (vfp_s m2) with (vfp_s m) in *;
           change (memory m2) with (memory m) in *;
           change (regs m2) with (regs m) in *
       end.
  all: rewrite Hp in EA; rewrite EA in *.
  all: split; [intros k Hk; rewrite <- (Hmem k Hk); do 2 f_equal; lia|].
  all: split; [intros x Hx; apply Hother; intros k Hk;
               replace (k - 0) with k by lia; now apply Hx|].
  all: split; [exact Hvfp|].
  all: rewrite ?Haddr, ?Hregs.
  all: split; [intros r Hr; now rewrite ?upd_Z_neq by assumption|].
  all: rewrite ?upd_Z_eq; try reflexivity.
  all: rewrite ?u32_mul_l, ?u32_add_r, ?u32_add_l, <- ?Z.add_assoc, ?u32_add_l.
  all: f_equal; lia.
Qed.

Lemma trans_VLDM_sp_run ext a g g1 pre :
  aa32_fpsp_v2 (cfg (dc g)) = true ->
  0 < vldm_imm a -> vldm_vd a + vldm_imm a <= 32 ->
  vldm_rn a <> 15 -> vldm_l a = true ->
  vfp_access_check g = Some (true, g1, pre) ->
  exists t body,
    trans_VLDM_VSTM_sp a g = Some (true, {| dc := dc g1; tcg := t |},
                                   pre ++ body) /\
    straight_line body = true /\
    forall m, pending m = None ->
      pending (run ext body m) = None ->
      let A := u32 (regs m (vldm_rn a)
                    - (if vldm_p a then 4 * vldm_imm a else 0)) in
      (forall k, 0 <= k < vldm_imm a ->
         vfp_s (run ext body m) (vldm_vd a + k)
         = u32 (memory m (u32 (A + 4 * k)))) /\
      (forall r, (forall k, 0 <= k < vldm_imm a -> r <> vldm_vd a + k) ->
                 vfp_s (run ext body m) r = vfp_s m r) /\
      memory (run ext body m) = memory m /\
      (forall r, r <> vldm_rn a -> regs (run ext body m) r = regs m r) /\
      regs (run ext body m) (vldm_rn a)
      = if vldm_w a
        then u32 (A + (if vldm_p a then 0 else 4 * vldm_imm a))
        else regs m (vldm_rn a).
Proof.
  intros Hv2 Hn Hvd Hrn Hl Hchk.
  destruct g as [[c l w n j] [nt nl]]. cbn [dc cfg] in Hv2.
  unfold trans_VLDM_VSTM_sp. gen_eval_body.
  rewrite Hv2.
  replace (vldm_imm a =? 0) with false by (symmetry; apply Z.eqb_neq; lia).
  replace (vldm_vd a + vldm_imm a >? 32) with false
    by (symmetry; rewrite Z.gtb_ltb; apply Z.ltb_ge; lia).
  assert (Hrn' : (vldm_rn a =? 15) = false) by now apply Z.eqb_neq.
  rewrite Hrn'.
  cbn [negb orb andb]. rewrite Hchk.
  destruct g1 as [[c1 l1 w1 n1 j1] [nt1 nl1]].
  gen_eval_body.
  destruct (vldm_p a) eqn:Hp, (vldm_w a) eqn:Hw;
    destruct (v8m_stackcheck c1 && (vldm_rn a =? 13)); cbn [andb];
    gen_eval_body;
    match goal with
    | |- context [VLDM_VSTM_sp_loop ?f a ?tmp ?addr ?o ?i ?n ?gs] =>
        destruct (VLDM_sp_loop_run ext a tmp addr n Hl
                    ltac:(lia) f i gs ltac:(lia))
          as (lops & Hgen & Hsl & Hrun);
        rewrite Hgen
    end; gen_eval_body.
  all: eexists; eexists; (split; [reflexivity|]).
  all: split; [rewrite ?app_nil_r; cbn [straight_line forallb app andb];
               fold (straight_line lops);
               rewrite ?forallb_app; cbn [forallb andb];
               fold (straight_line lops); rewrite ?Hsl; reflexivity|].
  all: intros m Hpm; unfold run; repeat run_sink_step;
    try (cbn [env pending raise]; discriminate).
  all: rewrite ?Hrn'.
  all: through_loop.
  all: cbn [run_from fold_left env memory vfp_s regs temps set_regs set_temp
            set_temps]; temps_simpl.
  all: match goal with
       | m2 := _ : CPUARMState |- _ =>
           assert (EA : temps m2 nt1
                        = u32 (regs m (vldm_rn a)
                               - (if vldm_p a then 4 * vldm_imm a else 0)))
             by (subst m2; cbn [temps set_temp set_temps regs]; temps_simpl;
                 rewrite Hp, ?u32_add_l, ?Z.shiftl_mul_pow2 by lia;
                 f_equal; change (2 ^ 2) with 4; lia);
           change (vfp_s m2) with (vfp_s m) in *;
           change (memory m2) with (memory m) in *;
           change (regs m2) with (regs m) in *
       end.
  all: rewrite Hp in EA; rewrite EA in *.
  all: split; [intros k Hk; rewrite (Hmem k Hk); do 3 f_equal; lia|].
  all: split; [intros x Hx; apply Hother; intros k Hk; now apply Hx|].
  all: split; [exact Hvfp|].
  all: rewrite ?Haddr, ?Hregs.
  all: split; [intros r Hr; now rewrite ?upd_Z_neq by assumption|].
  all: rewrite ?upd_Z_eq; try reflexivity.
  all: rewrite ?u32_mul_l, ?u32_add_r, ?u32_add_l, <- ?Z.add_assoc, ?u32_add_l.
  all: f_equal; lia.
Qed.

(** X19 ([trans_VLDM_VSTM_sp], lines 1478-1553).  A legal VSTM of [n]
    single-precision registers that runs without a fault stores register
    [vd + k] at the start address plus [4 * k], the start address being
    the base, or the base minus [4 * n] with pre-decrement; it changes no
    other memory word and no floating-point register, and writes back the
    start address (pre-decrement) or the end address (post-increment) to
    the base register when writeback is asked for. *)
Theorem VSTM_sp_stores ext a g g1 pre :
  aa32_fpsp_v2 (cfg (dc g)) = true ->
  0 < vldm_imm a -> 0 <= vldm_vd a -> vldm_vd a + vldm_imm a <= 32 ->
  vldm_rn a <> 15 -> vldm_l a = false ->
  vfp_access_check g = Some (true, g1, pre) ->
  exists g2 body,
    trans_VLDM_VSTM_sp a g = Some (true, g2, pre ++ body) /\
    forall m, pending m = None ->
      pending (run ext body m) = None ->
      let A := u32 (regs m (vldm_rn a)
                    - (if vldm_p a then 4 * vldm_imm a else 0)) in
      (forall k, 0 <= k < vldm_imm a ->
         memory (run ext body m) (u32 (A + 4 * k))
         = u32 (vfp_s m (vldm_vd a + k))) /\
      (forall x, (forall k, 0 <= k < vldm_imm a -> x <> u32 (A + 4 * k)) ->
                 memory (run ext body m) x = memory m x) /\
      vfp_s (run ext body m) = vfp_s m /\
      (forall r, r <> vldm_rn a -> regs (run ext body m) r = regs m r) /\
      regs (run ext body m) (vldm_rn a)
      = if vldm_w a
        then u32 (A + (if vldm_p a then 0 else 4 * vldm_imm a))
        else regs m (vldm_rn a).
Proof.
  intros Hv2 Hn Hvd0 Hvd Hrn Hl Hchk.
  destruct (trans_VSTM_sp_run ext a g g1 pre Hv2 Hn Hvd0 Hvd Hrn Hl Hchk)
    as (t & body & Hgen & _ & Hrun).
  now exists {| dc := dc g1; tcg := t |}, body.
Qed.

Lemma VSTM_sp_stores_witness :
  exists g2 body,
    trans_VLDM_VSTM_sp {| vldm_rn := 1; vldm_vd := 4; vldm_imm := 3;
                          vldm_l := false; vldm_w := true; vldm_p := true |}
                       (gen_start (cfg_vfpv3 0 0) false)
    = Some (true, g2, body) /\
    regs (run ext_simple body (cpu_example 0 0 0)) 1 = 4084.
Proof.
  destruct (VSTM_sp_stores ext_simple
              {| vldm_rn := 1; vldm_vd := 4; vldm_imm := 3;
                 vldm_l := false; vldm_w := true; vldm_p := true |}
              (gen_start (cfg_vfpv3 0 0) false)
              (gen_start (cfg_vfpv3 0 0) false) []
              eq_refl ltac:(cbn; lia) ltac:(cbn; lia) ltac:(cbn; lia)
              ltac:(discriminate) eq_refl eq_refl)
    as (g2 & body & Hgen & Hrun).
  exists g2, body. split; [exact Hgen|].
  vm_compute in Hgen. injection Hgen as _ Hb. subst body.
  destruct (Hrun (cpu_example 0 0 0) eq_refl eq_refl) as (_ & _ & _ & _ & Hr).
  exact Hr.
Defined.

(** X20 ([trans_VLDM_VSTM_sp], lines 1478-1553).  A legal VLDM of [n]
    single-precision registers that runs without a fault loads register
    [vd + k] from the start address plus [4 * k] and changes no other
    floating-point register and no memory; the base register is written
    back as for the store. *)
Theorem VLDM_sp_loads ext a g g1 pre :
  aa32_fpsp_v2 (cfg (dc g)) = true ->
  0 < vldm_imm a -> vldm_vd a + vldm_imm a <= 32 ->
  vldm_rn a <> 15 -> vldm_l a = true ->
  vfp_access_check g = Some (true, g1, pre) ->
  exists g2 body,
    trans_VLDM_VSTM_sp a g = Some (true, g2, pre ++ body) /\
    forall m, pending m = None ->
      pending (run ext body m) = None ->
      let A := u32 (regs m (vldm_rn a)
                    - (if vldm_p a then 4 * vldm_imm a else 0)) in
      (forall k, 0 <= k < vldm_imm a ->
         vfp_s (run ext body m) (vldm_vd a + k)
         = u32 (memory m (u32 (A + 4 * k)))) /\
      (forall r, (forall k, 0 <= k < vldm_imm a -> r <> vldm_vd a + k) ->
                 vfp_s (run ext body m) r = vfp_s m r) /\
      memory (run ext body m) = memory m /\
      (forall r, r <> vldm_rn a -> regs (run ext body m) r = regs m r) /\
      regs (run ext body m) (vldm_rn a)
      = if vldm_w a
        then u32 (A + (if vldm_p a then 0 else 4 * vldm_imm a))
        else regs m (vldm_rn a).
Proof.
  intros Hv2 Hn Hvd Hrn Hl Hchk.
  destruct (trans_VLDM_sp_run ext a g g1 pre Hv2 Hn Hvd Hrn Hl Hchk)
    as (t & body & Hgen & _ & Hrun).
  now exists {| dc := dc g1; tcg := t |}, body.
Qed.

Lemma VLDM_sp_loads_witness :
  exists g2 body,
    trans_VLDM_VSTM_sp {| vldm_rn := 1; vldm_vd := 4; vldm_imm := 3;
                          vldm_l := true; vldm_w := true; vldm_p := false |}
                       (gen_start (cfg_vfpv3 0 0) false)
    = Some (true, g2, body) /\
    regs (run ext_simple body (cpu_example 0 0 0)) 1 = 4108.
Proof.
  destruct (VLDM_sp_loads ext_simple
              {| vldm_rn := 1; vldm_vd := 4; vldm_imm := 3;
                 vldm_l := true; vldm_w := true; vldm_p := false |}
              (gen_start (cfg_vfpv3 0 0) false)
              (gen_start (cfg_vfpv3 0 0) false) []
              eq_refl ltac:(cbn; lia) ltac:(cbn; lia)
              ltac:(discriminate) eq_refl eq_refl)
    as (g2 & body & Hgen & Hrun).
  exists g2, body. split; [exact Hgen|].
  vm_compute in Hgen. injection Hgen as _ Hb. subst body.
  destruct (Hrun (cpu_example 0 0 0) eq_refl eq_refl) as (_ & _ & _ & _ & Hr).
  exact Hr.
Defined.

(** X21 ([trans_VLDM_VSTM_sp], lines 1478-1553).  Push and pop: a VSTM
    with pre-decrement and writeback followed by a VLDM with
    post-increment and writeback of the same number of registers restores
    the base register, brings the values stored from [vd ..] back into
    [vd' ..], and leaves every other register as it was. *)
Theorem VPUSH_VPOP_sp_roundtrip ext rn vd vd' n g g1 pre :
  aa32_fpsp_v2 (cfg (dc g)) = true ->
  0 < n -> 0 <= vd -> vd + n <= 32 -> vd' + n <= 32 ->
  rn <> 15 ->
  vfp_access_check g = Some (true, g1, pre) ->
  exists g2 body,
    (trans_VLDM_VSTM_sp {| vldm_rn := rn; vldm_vd := vd; vldm_imm := n;
                           vldm_l := false; vldm_w := true;
                           vldm_p := true |} ;;
     trans_VLDM_VSTM_sp {| vldm_rn := rn; vldm_vd := vd'; vldm_imm := n;
                           vldm_l := true; vldm_w := true;
                           vldm_p := false |}) g
    = Some (true, g2, pre ++ body) /\
    forall m, pending m = None ->
      pending (run ext body m) = None ->
      regs (run ext body m) rn = u32 (regs m rn) /\
      (forall r, r <> rn -> regs (run ext body m) r = regs m r) /\
      (forall k, 0 <= k < n ->
         vfp_s (run ext body m) (vd' + k) = u32 (vfp_s m (vd + k))) /\
      (forall r, (forall k, 0 <= k < n -> r <> vd' + k) ->
                 vfp_s (run ext body m) r = vfp_s m r) /\
      (forall k, 0 <= k < n ->
         memory (run ext body m) (u32 (regs m rn - 4 * n + 4 * k))
         = u32 (vfp_s m (vd + k))).
Proof.
  intros Hv2 Hn Hvd0 Hvd Hvd' Hrn Hchk.
  destruct (trans_VSTM_sp_run ext
              {| vldm_rn := rn; vldm_vd := vd; vldm_imm := n;
                 vldm_l := false; vldm_w := true; vldm_p := true |}
              g g1 pre Hv2 Hn Hvd0 Hvd Hrn eq_refl Hchk)
    as (t1 & b1 & Hg1 & Hs1 & Hr1).
  pose proof (vfp_access_check_cfg _ _ _ _ Hchk) as Hcfg.
  destruct (trans_VLDM_sp_run ext
              {| vldm_rn := rn; vldm_vd := vd'; vldm_imm := n;
                 vldm_l := true; vldm_w := true; vldm_p := false |}
              {| dc := dc g1; tcg := t1 |} {| dc := dc g1; tcg := t1 |} [])
    as (t2 & b2 & Hg2 & Hs2 & Hr2); try assumption; try reflexivity.
  { cbn [dc]. now rewrite Hcfg. }
  { apply (vfp_access_check_again g g1 pre t1 Hchk). }
  cbn [vldm_rn vldm_vd vldm_imm vldm_l vldm_w vldm_p dc app] in *.
  exists {| dc := dc g1; tcg := t2 |}, (b1 ++ b2). split.
  - unfold bind. rewrite Hg1, Hg2. now rewrite app_assoc.
  - intros m Hp Hend. unfold run in Hend |- *.
    destruct (run_from_loop_app ext b1 b2 m Hs1 Hend) as [Hp1 Happ].
    rewrite Happ in *. clear Happ.
    fold (run ext b2 (run ext b1 m)) in *.
    destruct (Hr1 m Hp Hp1) as (Hmem1 & _ & Hvfp1 & Hregs1 & Hrn1).
    destruct (Hr2 (run ext b1 m) Hp1 Hend)
      as (Hld2 & Hoth2 & Hmem2 & Hregs2 & Hrn2).
    rewrite Hrn1 in Hld2, Hrn2.
    rewrite Z.add_0_r, Z.sub_0_r, !u32_idem in Hld2, Hrn2.
    split; [|split; [|split; [|split]]].
    + rewrite Hrn2, u32_add_l. f_equal. lia.
    + intros r Hr. now rewrite Hregs2, Hregs1.
    + intros k Hk. rewrite (Hld2 k Hk), (Hmem1 k Hk).
      apply u32_idem.
    + intros r Hr. now rewrite Hoth2, Hvfp1.
    + intros k Hk. rewrite Hmem2, <- (Hmem1 k Hk). f_equal.
      rewrite u32_add_l. reflexivity.
Qed.

Lemma VPUSH_VPOP_sp_roundtrip_witness :
  exists g2 body,
    (trans_VLDM_VSTM_sp {| vldm_rn := 1; vldm_vd := 4; vldm_imm := 3;
                           vldm_l := false; vldm_w := true;
                           vldm_p := true |} ;;
     trans_VLDM_VSTM_sp {| vldm_rn := 1; vldm_vd := 8; vldm_imm := 3;
                           vldm_l := true; vldm_w := true;
                           vldm_p := false |})
      (gen_start (cfg_vfpv3 0 0) false)
    = Some (true, g2, body) /\
    regs (run ext_simple body (cpu_example 0 0 0)) 1 = 4096.
Proof.
  destruct (VPUSH_VPOP_sp_roundtrip ext_simple 1 4 8 3
              (gen_start (cfg_vfpv3 0 0) false)
              (gen_start (cfg_vfpv3 0 0) false) []
              eq_refl ltac:(lia) ltac:(lia) ltac:(lia) ltac:(lia)
              ltac:(discriminate) eq_refl)
    as (g2 & body & Hgen & Hrun).
  exists g2, body. split; [exact Hgen|].
  vm_compute in Hgen. injection Hgen as _ Hb. subst body.
  destruct (Hrun (cpu_example 0 0 0) eq_refl eq_refl) as (Hr & _).
  now rewrite Hr.
Defined.

(** ** The flag view of FPSCR on M-profile *)

Lemma FPCR_NZCV_MASK_bits k :
  0 <= k -> Z.testbit FPCR_NZCV_MASK k = (28 <=? k) && (k <? 32).
Proof.
  intros Hk. change FPCR_NZCV_MASK with (Z.shiftl (Z.ones 4) 28).
  destruct (Z_lt_ge_dec k 28) as [Hlt|Hge].
  - rewrite Z.shiftl_spec_low by lia.
    replace (28 <=? k) with false by (symmetry; apply Z.leb_gt; lia).
    reflexivity.
  - rewrite Z.shiftl_spec by lia.
    replace (28 <=? k) with true by (symmetry; apply Z.leb_le; lia).
    destruct (Z_lt_ge_dec k 32) as [H32|H32].
    + rewrite Z.ones_spec_low by lia.
      symmetry. apply Z.ltb_lt. lia.
    + rewrite Z.ones_spec_high by lia.
      symmetry. apply Z.ltb_ge. lia.
Qed.

Lemma flags_merge_bits old v k :
  0 <= k ->
  Z.testbit (u32 (Z.lor (u32 (Z.land old (Z.lnot FPCR_NZCV_MASK)))
                        (u32 (Z.land v FPCR_NZCV_MASK)))) k
  = if k <? 28 then Z.testbit old k
    else if k <? 32 then Z.testbit v k else false.
Proof.
  intros Hk. unfold u32.
  destruct (Z_lt_ge_dec k 32) as [H32|H32].
  - rewrite Z.mod_pow2_bits_low, Z.lor_spec by lia.
    rewrite !Z.mod_pow2_bits_low, !Z.land_spec, Z.lnot_spec by lia.
    rewrite FPCR_NZCV_MASK_bits by lia.
    replace (k <? 32) with true by (symmetry; apply Z.ltb_lt; lia).
    destruct (Z_lt_ge_dec k 28) as [H28|H28].
    + replace (k <? 28) with true by (symmetry; apply Z.ltb_lt; lia).
      replace (28 <=? k) with false by (symmetry; apply Z.leb_gt; lia).
      cbn [andb negb]. now rewrite andb_true_r, andb_false_r, orb_false_r.
    + replace (k <? 28) with false by (symmetry; apply Z.ltb_ge; lia).
      replace (28 <=? k) with true by (symmetry; apply Z.leb_le; lia).
      cbn [andb negb]. now rewrite andb_true_r, andb_false_r.
  - rewrite Z.mod_pow2_bits_high by lia.
    replace (k <? 28) with false by (symmetry; apply Z.ltb_ge; lia).
    replace (k <? 32) with false by (symmetry; apply Z.ltb_ge; lia).
    reflexivity.
Qed.

Lemma flags_readback old v :
  u32 (Z.land (u32 (Z.lor (u32 (Z.land old (Z.lnot FPCR_NZCV_MASK)))
                          (u32 (Z.land v FPCR_NZCV_MASK))))
              FPCR_NZCV_MASK)
  = Z.land v FPCR_NZCV_MASK.
Proof.
  apply Z.bits_inj'. intros k Hk. unfold u32 at 1.
  destruct (Z_lt_ge_dec k 32) as [H32|H32].
  - rewrite Z.mod_pow2_bits_low by lia.
    rewrite !Z.land_spec, flags_merge_bits, FPCR_NZCV_MASK_bits by lia.
    replace (k <? 32) with true by (symmetry; apply Z.ltb_lt; lia).
    destruct (k <? 28) eqn:H28.
    + apply Z.ltb_lt in H28.
      replace (28 <=? k) with false by (symmetry; apply Z.leb_gt; lia).
      now rewrite !andb_false_r.
    + reflexivity.
  - rewrite Z.mod_pow2_bits_high by lia.
    rewrite Z.land_spec, FPCR_NZCV_MASK_bits by lia.
    replace (k <? 32) with false by (symmetry; apply Z.ltb_ge; lia).
    now rewrite !andb_false_r.
Qed.

(** X22 ([gen_M_fp_sysreg_write], [gen_M_fp_sysreg_read], lines 732-930).
    On an Armv8.1-M core a VMSR to FPSCR_nzcvqc replaces bits 31:28 of
    FPSCR by those of [Rt] and keeps every bit below, the QC bit (27)
    included; a VMRS from FPSCR_nzcvqc that follows returns exactly the
    four flag bits written.  No other system register, no other
    general-purpose register and no float status changes. *)
Theorem VMSR_VMRS_nzcvqc ext rt rt' g g1 pre :
  ARM_FEATURE_M (cfg (dc g)) = true ->
  ARM_FEATURE_V8_1M (cfg (dc g)) = true ->
  aa32_fpsp_v2 (cfg (dc g)) = true ->
  rt <> 15 -> rt' <> 15 ->
  vfp_access_check g = Some (true, g1, pre) ->
  exists g2 body,
    (trans_VMSR_VMRS {| vmsr_l := false; vmsr_rt := rt;
                        vmsr_reg := ARM_VFP_FPSCR_NZCVQC |} ;;
     verdict (trans_VMSR_VMRS {| vmsr_l := true; vmsr_rt := rt';
                                 vmsr_reg := ARM_VFP_FPSCR_NZCVQC |})) g
    = Some (true, g2, pre ++ body) /\
    forall m, pending m = None ->
      pending (run ext body m) = None /\
      (forall k, 0 <= k ->
         Z.testbit (xregs (run ext body m) ARM_VFP_FPSCR) k
         = if k <? 28 then Z.testbit (xregs m ARM_VFP_FPSCR) k
           else if k <? 32 then Z.testbit (regs m rt) k else false) /\
      regs (run ext body m) rt' = Z.land (regs m rt) FPCR_NZCV_MASK /\
      (forall x, x <> ARM_VFP_FPSCR ->
                 xregs (run ext body m) x = xregs m x) /\
      (forall r, r <> rt' -> regs (run ext body m) r = regs m r) /\
      fp_status (run ext body m) = fp_status m.
Proof.
  intros HM H81 Hv2 Hrt Hrt' Hchk.
  destruct g as [[c l w n j] [nt nl]]. cbn [dc cfg] in *.
  destruct g1 as [[c1 l1 w1 n1 j1] [nt1 nl1]].
  pose proof (vfp_access_check_cfg _ _ _ _ Hchk) as Hc.
  cbn [dc cfg] in Hc. subst c1.
  assert (H15 : (rt =? 15) = false) by (apply Z.eqb_neq; assumption).
  assert (H15' : (rt' =? 15) = false) by (apply Z.eqb_neq; assumption).
  unfold trans_VMSR_VMRS, verdict, gen_M_VMSR_VMRS, gen_M_fp_sysreg_write,
    gen_M_fp_sysreg_read, fp_sysreg_checks, gpr_to_fp_sysreg,
    fp_sysreg_to_gpr, gen_set_label_opt.
  cbn [vmsr_l vmsr_rt vmsr_reg].
  gen_eval_body. rewrite HM, H15. gen_eval_body. rewrite Hv2, H81.
  cbn [negb]. rewrite Hchk. gen_eval_body.
  rewrite HM, H15'. gen_eval_body. rewrite Hv2, H81. cbn [negb].
  check_again Hchk. rewrite ?H15'. gen_eval_body.
  eexists. eexists.
  split; [rewrite <- !app_assoc; cbn [app]; reflexivity|].
  intros m Hp. unfold run. cbn [app]. repeat run_step_pending.
  cbn [run_from fold_left env pending regs xregs fp_status set_regs set_xregs
       set_temp set_temps temps write_field read_field sysreg_eqb].
  rewrite ?upd_nat_eq, ?upd_Z_eq.
  split; [assumption|]. split; [intros k Hk; now apply flags_merge_bits|].
  split; [apply flags_readback|].
  split; [intros x Hx; destruct x; try reflexivity; congruence|].
  split; [|reflexivity].
  intros r Hr. now rewrite ?upd_Z_neq by congruence.
Qed.

Lemma VMSR_VMRS_nzcvqc_witness :
  exists g2 body,
    (trans_VMSR_VMRS {| vmsr_l := false; vmsr_rt := 1;
                        vmsr_reg := ARM_VFP_FPSCR_NZCVQC |} ;;
     verdict (trans_VMSR_VMRS {| vmsr_l := true; vmsr_rt := 2;
                                 vmsr_reg := ARM_VFP_FPSCR_NZCVQC |}))
      (gen_start cfg_v8_1m false)
    = Some (true, g2, body) /\
    regs (run ext_simple body (cpu_example 0 0 0)) 2 = 0.
Proof.
  destruct (VMSR_VMRS_nzcvqc ext_simple 1 2
              (gen_start cfg_v8_1m false) (gen_start cfg_v8_1m false) []
              eq_refl eq_refl eq_refl ltac:(discriminate)
              ltac:(discriminate) eq_refl)
    as (g2 & body & Hgen & Hrun).
  exists g2, body. split; [exact Hgen|].
  exact (proj1 (proj2 (proj2 (Hrun (cpu_example 0 0 0) eq_refl)))).
Defined.

(** ** Saving and restoring the secure floating-point context *)

Lemma clear_flags_low F :
  u32 (Z.land F (Z.lnot FPCR_NZCV_MASK)) = F mod 2 ^ 28.
Proof.
  apply Z.bits_inj'. intros k Hk. unfold u32.
  destruct (Z_lt_ge_dec k 32) as [H32|H32].
  - rewrite Z.mod_pow2_bits_low, Z.land_spec, Z.lnot_spec by lia.
    rewrite FPCR_NZCV_MASK_bits by lia.
    replace (k <? 32) with true by (symmetry; apply Z.ltb_lt; lia).
    destruct (Z_lt_ge_dec k 28) as [H28|H28].
    + rewrite Z.mod_pow2_bits_low by lia.
      replace (28 <=? k) with false by (symmetry; apply Z.leb_gt; lia).
      apply andb_true_r.
    + rewrite Z.mod_pow2_bits_high by lia.
      replace (28 <=? k) with true by (symmetry; apply Z.leb_le; lia).
      apply andb_false_r.
  - now rewrite !Z.mod_pow2_bits_high by lia.
Qed.

Lemma sfpa_bit_out Y (b : bool) :
  0 <= Y < 2 ^ 28 ->
  Z.shiftr (u32 (u32 (Z.lor Y (u32 (Z.shiftl (u32 (if b then 8 else 0))
                                             28))))) 31
  = if b then 1 else 0.
Proof.
  intros HY. destruct b.
  - change (u32 (Z.shiftl (u32 8) 28)) with (2 ^ 31 * 1).
    rewrite lor_low_high by lia. rewrite u32_idem.
    unfold u32. rewrite Z.mod_small by lia.
    rewrite Z.shiftr_div_pow2 by lia.
    replace (Y + 2 ^ 31 * 1) with (Y + 1 * 2 ^ 31) by lia.
    rewrite Z.div_add by lia. rewrite Z.div_small by lia. reflexivity.
  - change (u32 (Z.shiftl (u32 0) 28)) with 0. rewrite Z.lor_0_r, u32_idem.
    unfold u32. rewrite Z.mod_small by lia.
    rewrite Z.shiftr_div_pow2 by lia. apply Z.div_small. lia.
Qed.

Lemma deposit_sfpa C :
  deposit32 (u32 (Z.land C (Z.lnot 8))) (if Z.testbit C 3 then 1 else 0) 3 1
  = u32 C.
Proof.
  unfold deposit32. change (Z.shiftl (Z.ones 1) 3) with (2 ^ 3).
  replace (Z.shiftl (Z.land (if Z.testbit C 3 then 1 else 0) (Z.ones 1)) 3)
    with (if Z.testbit C 3 then 2 ^ 3 else 0)
    by (now destruct (Z.testbit C 3)).
  change 8 with (2 ^ 3).
  apply Z.bits_inj'. intros k Hk. unfold u32.
  destruct (Z_lt_ge_dec k 32) as [H32|H32].
  - rewrite !Z.mod_pow2_bits_low by lia.
    rewrite Z.lor_spec, Z.land_spec, Z.lnot_spec by lia.
    rewrite Z.mod_pow2_bits_low by lia.
    rewrite Z.land_spec, Z.lnot_spec, Z.pow2_bits_eqb by lia.
    destruct (3 =? k) eqn:E3.
    + apply Z.eqb_eq in E3. subst k. cbn [negb].
      rewrite !andb_false_r. cbn [orb].
      destruct (Z.testbit C 3); reflexivity.
    + cbn [negb]. rewrite !andb_true_r.
      replace (Z.testbit (if Z.testbit C 3 then 2 ^ 3 else 0) k) with false;
        [apply orb_false_r|].
      destruct (Z.testbit C 3); [|now rewrite Z.bits_0].
      now rewrite Z.pow2_bits_eqb, E3 by lia.
  - now rewrite !Z.mod_pow2_bits_high by lia.
Qed.

(** The check stays passed when the block has been marked as ending. *)
Lemma vfp_access_check_again_jmp g g1 pre t j' :
  vfp_access_check g = Some (true, g1, pre) ->
  vfp_access_check {| dc := set_is_jmp j' (dc g1); tcg := t |}
  = Some (true, {| dc := set_is_jmp j' (dc g1); tcg := t |}, []).
Proof.
  unfold vfp_access_check.
  destruct g as [[c l w n j] [nt nl]], t as [nt' nl'].
  intros H. destruct l, w, n; gen_eval_in H.
  all: gen_split H.
  all: inversion H; subst; clear H; gen_eval.
  all: rewrite_conditions; gen_eval; reflexivity.
Qed.

(** X23 ([gen_M_fp_sysreg_read], [gen_M_fp_sysreg_write], lines 732-930).
    Saving the secure floating-point context with VMRS from FPCXT_S and
    restoring it from the same register with VMSR leaves CONTROL_S as it
    was: the SFPA bit the read clears is put back by the write from bit
    31 of the saved word.  CONTROL_NS and the other general-purpose
    registers (the PC apart) are untouched. *)
Theorem FPCXT_S_save_restore ext rt g g1 pre :
  ARM_FEATURE_M (cfg (dc g)) = true ->
  ARM_FEATURE_V8_1M (cfg (dc g)) = true ->
  v8m_secure (cfg (dc g)) = true ->
  aa32_fpsp_v2 (cfg (dc g)) = true ->
  rt <> 15 ->
  vfp_access_check g = Some (true, g1, pre) ->
  exists g2 body,
    (trans_VMSR_VMRS {| vmsr_l := true; vmsr_rt := rt;
                        vmsr_reg := ARM_VFP_FPCXT_S |} ;;
     verdict (trans_VMSR_VMRS {| vmsr_l := false; vmsr_rt := rt;
                                 vmsr_reg := ARM_VFP_FPCXT_S |})) g
    = Some (true, g2, pre ++ body) /\
    forall m, pending m = None ->
      pending (run ext body m) = None /\
      control (run ext body m) M_REG_S = u32 (control m M_REG_S) /\
      control (run ext body m) M_REG_NS = control m M_REG_NS /\
      (forall r, r <> rt -> r <> 15 -> regs (run ext body m) r = regs m r).
Proof.
  intros HM H81 Hsec Hv2 Hrt Hchk.
  destruct g as [[c l w n j] [nt nl]]. cbn [dc cfg] in *.
  destruct g1 as [[c1 l1 w1 n1 j1] [nt1 nl1]].
  pose proof (vfp_access_check_cfg _ _ _ _ Hchk) as Hc.
  cbn [dc cfg] in Hc. subst c1.
  assert (H15 : (rt =? 15) = false) by (apply Z.eqb_neq; assumption).
  unfold trans_VMSR_VMRS, verdict, gen_M_VMSR_VMRS, gen_M_fp_sysreg_write,
    gen_M_fp_sysreg_read, gen_M_fp_sysreg_write_fpcxt_s, fp_sysreg_checks,
    gpr_to_fp_sysreg, fp_sysreg_to_gpr, gen_set_label_opt.
  cbn [vmsr_l vmsr_rt vmsr_reg].
  gen_eval_body. rewrite HM, H15. gen_eval_body. rewrite Hv2, H81, Hsec.
  cbn [negb]. rewrite Hchk. gen_eval_body.
  rewrite ?HM, ?H15. gen_eval_body. rewrite ?Hv2, ?H81, ?Hsec. cbn [negb].
  match goal with
  | |- context [vfp_access_check {| dc := _; tcg := ?t |}] =>
      pose proof (vfp_access_check_again_jmp _ _ _ t DISAS_EXIT Hchk)
        as Hagain;
      unfold set_is_jmp in Hagain;
      cbn [dc cfg v7m_lspact v8m_fpccr_s_wrong
           v7m_new_fp_ctxt_needed] in Hagain;
      rewrite Hagain; clear Hagain
  end.
  gen_eval_body.
  eexists. eexists.
  split; [rewrite <- !app_assoc; cbn [app]; reflexivity|].
  intros m Hp. unfold run. cbn [app]. repeat run_step_pending.
  cbn [run_from fold_left env pending regs xregs fp_status set_regs set_xregs
       set_fp_status control set_control upd_bank
       set_temp set_temps temps write_field read_field sysreg_eqb].
  rewrite ?upd_nat_eq, ?upd_Z_eq.
  split; [assumption|].
  split; [|split; [reflexivity|
                   intros r Hr1 Hr2; now rewrite !upd_Z_neq by assumption]].
  rewrite (upd_Z_neq 15) by assumption. rewrite upd_Z_eq.
  unfold R_V7M_CONTROL_SFPA_MASK, R_V7M_CONTROL_SFPA_SHIFT.
  change (31 - 3) with 28.
  rewrite clear_flags_low, (land_pow2 _ 3) by lia.
  change (2 ^ 3) with 8.
  rewrite sfpa_bit_out by (apply Z.mod_pos_bound; lia).
  apply deposit_sfpa.
Qed.

Lemma FPCXT_S_save_restore_witness :
  exists g2 body,
    (trans_VMSR_VMRS {| vmsr_l := true; vmsr_rt := 1;
                        vmsr_reg := ARM_VFP_FPCXT_S |} ;;
     verdict (trans_VMSR_VMRS {| vmsr_l := false; vmsr_rt := 1;
                                 vmsr_reg := ARM_VFP_FPCXT_S |}))
      (gen_start cfg_v8_1m false)
    = Some (true, g2, body) /\
    control (run ext_simple body (cpu_example 0 0 12)) M_REG_S = 12.
Proof.
  destruct (FPCXT_S_save_restore ext_simple 1
              (gen_start cfg_v8_1m false) (gen_start cfg_v8_1m false) []
              eq_refl eq_refl eq_refl eq_refl ltac:(discriminate) eq_refl)
    as (g2 & body & Hgen & Hrun).
  exists g2, body. split; [exact Hgen|].
  exact (proj1 (proj2 (Hrun (cpu_example 0 0 12) eq_refl))).
Defined.

(** ** Short vectors where they are not supported *)

(** X24 (the handlers of [handler_call] with a vector check).  With a
    non-zero vector length or stride, every handler that has no vector
    loop (the half-precision templates and immediate move, the fused
    multiply-adds, VINS, VMOVX) returns [false] without emitting; so do
    the templates with a vector loop and the single-precision immediate
    move on a core without short-vector support. *)
Theorem short_vectors_refused (h : handler_call) (g : GenState) :
  vec_len (cfg (dc g)) <> 0 \/ vec_stride (cfg (dc g)) <> 0 ->
  scalar_only_handler h = true \/
  (short_vector_handler h = true /\ aa32_fpshvec (cfg (dc g)) = false) ->
  translate h g = Some (false, g, []).
Proof.
  intros Hvec Hh. destruct g as [[c l w n j] [nt nl]]. cbn [dc cfg] in *.
  assert (Hv : negb (vec_len c =? 0) || negb (vec_stride c =? 0) = true).
  { destruct Hvec as [H|H]; apply Z.eqb_neq in H; rewrite H;
      [reflexivity|apply orb_true_r]. }
  destruct h; cbn [scalar_only_handler short_vector_handler] in Hh;
    destruct Hh as [Hh|[Hh Hsh]]; try discriminate Hh; cbn [translate].
  all: unfold do_vfp_3op_sp, do_vfp_3op_hp, do_vfp_3op_dp, do_vfp_2op_sp,
         do_vfp_2op_hp, do_vfp_2op_dp, do_vfm_hp, do_vfm_sp, do_vfm_dp,
         trans_VMOV_imm_hp, trans_VMOV_imm_sp, trans_VINS, trans_VMOVX,
         shvec_unsupported.
  all: gen_eval_body; rewrite ?Hsh, ?Hv; cbn [negb andb].
  all: repeat match goal with
              | |- context [if ?b then _ else _] => destruct b
              end; reflexivity.
Qed.

Lemma short_vectors_refused_witness :
  translate (call_VINS {| op2_vd := 1; op2_vm := 2 |})
            (gen_start (cfg_vfpv3 3 0) false)
  = Some (false, gen_start (cfg_vfpv3 3 0) false, []).
Proof.
  apply short_vectors_refused.
  - left. cbn. discriminate.
  - left. reflexivity.
Defined.

(** * RISC-V privileged instructions *)

Section RiscvPrivilegedFacts.

Variable CONFIG_USER_ONLY : bool.
Variable generate_exception : Z -> RiscvPrivileged.RGen unit.
Variable exit_tb : RiscvPrivileged.RGen unit.
Variable has_ext : RiscvPrivileged.DisasContextRisc -> Z -> bool.
Variables RISCV_EXCP_U_ECALL RISCV_EXCP_BREAKPOINT RVS RVH : Z.

Ltac priv_eval :=
  cbv beta iota zeta delta
    [RiscvPrivileged.translate_priv RiscvPrivileged.trans_ecall
     RiscvPrivileged.trans_ebreak RiscvPrivileged.trans_uret
     RiscvPrivileged.trans_sret RiscvPrivileged.trans_mret
     RiscvPrivileged.trans_wfi RiscvPrivileged.trans_sfence_vma
     RiscvPrivileged.trans_sfence_vm RiscvPrivileged.trans_hfence_gvma
     RiscvPrivileged.trans_hfence_bvma RiscvPrivileged.rbind
     RiscvPrivileged.rret RiscvPrivileged.remit RiscvPrivileged.rget
     RiscvPrivileged.set_base_is_jmp] in *.

Ltac priv_cases H :=
  repeat match type of H with
         | context [if ?b then _ else _] => destruct b eqn:?
         | context [generate_exception ?e ?c] =>
             destruct (generate_exception e c) as [[? ?] ?]
         | context [exit_tb ?c] => destruct (exit_tb c) as [[? ?] ?]
         end.

(** X25 (trans_privileged.inc.c, lines 21-141).  A privileged-instruction
    handler that returns [false] leaves the translation context as it was
    and has emitted nothing, with one exception: [trans_sret] in a system
    build on a core without the S extension has already emitted the
    update of the program counter to [pc_next]. *)
Theorem privileged_rejection (i : RiscvPrivileged.priv_insn)
    (c c' : RiscvPrivileged.DisasContextRisc)
    (ops : list RiscvPrivileged.riscv_op) :
  RiscvPrivileged.translate_priv
    CONFIG_USER_ONLY generate_exception exit_tb has_ext
    RISCV_EXCP_U_ECALL RISCV_EXCP_BREAKPOINT RVS RVH i c
  = (false, c', ops) ->
  c' = c /\
  (ops = [] \/
   (i = RiscvPrivileged.insn_sret /\ CONFIG_USER_ONLY = false /\
    has_ext c RVS = false /\
    ops = [RiscvPrivileged.op_movi_pc_risc
             (RiscvPrivileged.base_pc_next c)])).
Proof.
  intros H. destruct i; priv_eval.
  all: priv_cases H.
  all: inversion H; subst; clear H; split; try reflexivity.
  all: try (left; reflexivity).
  right. repeat split; reflexivity.
Qed.

(** X26 (trans_privileged.inc.c, lines 21-141).  In a user-only build
    every handler but [trans_ecall] and [trans_ebreak] returns [false]
    and emits nothing.  When a handler returns [true], ecall, ebreak,
    sret and mret have marked the block as not returning, while wfi and
    the fences leave the context as it was (and the build is a system
    build). *)
Theorem privileged_outcome (i : RiscvPrivileged.priv_insn)
    (c c' : RiscvPrivileged.DisasContextRisc)
    (ops : list RiscvPrivileged.riscv_op) :
  (CONFIG_USER_ONLY = true ->
   i <> RiscvPrivileged.insn_ecall -> i <> RiscvPrivileged.insn_ebreak ->
   RiscvPrivileged.translate_priv
     CONFIG_USER_ONLY generate_exception exit_tb has_ext
     RISCV_EXCP_U_ECALL RISCV_EXCP_BREAKPOINT RVS RVH i c
   = (false, c, [])) /\
  (RiscvPrivileged.translate_priv
     CONFIG_USER_ONLY generate_exception exit_tb has_ext
     RISCV_EXCP_U_ECALL RISCV_EXCP_BREAKPOINT RVS RVH i c
   = (true, c', ops) ->
   if RiscvPrivileged.ends_block i
   then RiscvPrivileged.base_is_jmp c' = RiscvPrivileged.RISCV_DISAS_NORETURN
   else c' = c /\ CONFIG_USER_ONLY = false).
Proof.
  split.
  - intros Hu H1 H2. destruct i; priv_eval; try congruence;
      rewrite ?Hu; reflexivity.
  - intros H. destruct i; priv_eval; cbn [RiscvPrivileged.ends_block].
    all: priv_cases H.
    all: inversion H; subst; clear H; try reflexivity.
    all: split; reflexivity.
Qed.

End RiscvPrivilegedFacts.

Lemma privileged_rejection_witness :
  RiscvPrivileged.translate_priv
    false RiscvPrivileged.generate_exception_example
    RiscvPrivileged.exit_tb_example RiscvPrivileged.has_ext_example
    8 3 (2 ^ 18) (2 ^ 7) RiscvPrivileged.insn_sret
    (RiscvPrivileged.ctx_example 0)
  = (false, RiscvPrivileged.ctx_example 0,
     [RiscvPrivileged.op_movi_pc_risc 4100]) /\
  RiscvPrivileged.ctx_example 0 = RiscvPrivileged.ctx_example 0.
Proof.
  split; [reflexivity|].
  exact (proj1 (privileged_rejection
                  false RiscvPrivileged.generate_exception_example
                  RiscvPrivileged.exit_tb_example
                  RiscvPrivileged.has_ext_example 8 3 (2 ^ 18) (2 ^ 7)
                  RiscvPrivileged.insn_sret (RiscvPrivileged.ctx_example 0)
                  _ _ eq_refl)).
Defined.

Lemma privileged_outcome_witness :
  RiscvPrivileged.translate_priv
    true RiscvPrivileged.generate_exception_example
    RiscvPrivileged.exit_tb_example RiscvPrivileged.has_ext_example
    8 3 (2 ^ 18) (2 ^ 7) RiscvPrivileged.insn_mret
    (RiscvPrivileged.ctx_example (2 ^ 18))
  = (false, RiscvPrivileged.ctx_example (2 ^ 18), []).
Proof.
  apply (proj1 (privileged_outcome
                  true RiscvPrivileged.generate_exception_example
                  RiscvPrivileged.exit_tb_example
                  RiscvPrivileged.has_ext_example 8 3 (2 ^ 18) (2 ^ 7)
                  RiscvPrivileged.insn_mret
                  (RiscvPrivileged.ctx_example (2 ^ 18))
                  (RiscvPrivileged.ctx_example 0) []));
    [reflexivity|discriminate|discriminate].
Defined.

(** ** Ownership of the floating-point context *)

Lemma fpccr_s_bits x (secure : bool) k :
  0 <= k < 32 ->
  Z.testbit (u32 (if secure then Z.lor x R_V7M_FPCCR_S_MASK
                  else Z.land x (Z.lnot R_V7M_FPCCR_S_MASK))) k
  = if k =? 2 then secure else Z.testbit x k.
Proof.
  intros Hk. unfold u32, R_V7M_FPCCR_S_MASK. change 4 with (2 ^ 2).
  rewrite Z.mod_pow2_bits_low by lia.
  destruct secure.
  - rewrite Z.lor_spec, Z.pow2_bits_eqb by lia.
    rewrite (Z.eqb_sym 2 k). destruct (k =? 2);
      [apply orb_true_r|apply orb_false_r].
  - rewrite Z.land_spec, Z.lnot_spec, Z.pow2_bits_eqb by lia.
    rewrite (Z.eqb_sym 2 k). destruct (k =? 2);
      [apply andb_false_r|apply andb_true_r].
Qed.

(** X27 ([full_vfp_access_check], lines 123-192).  On an M-profile core
    whose FPCCR.S is marked as wrong, the code emitted by a passing check,
    when it runs without raising, leaves FPCCR_S.S (bit 2) equal to the
    current security state; when no lazy state preservation is pending it
    changes no other bit of FPCCR_S and leaves FPCCR_NS alone. *)
Theorem access_check_sets_fpccr_s ext ign g g1 pre m :
  ARM_FEATURE_M (cfg (dc g)) = true ->
  v8m_fpccr_s_wrong (dc g) = true ->
  full_vfp_access_check ign g = Some (true, g1, pre) ->
  pending m = None ->
  pending (run ext pre m) = None ->
  Z.testbit (fpccr (run ext pre m) M_REG_S) 2 = v8m_secure (cfg (dc g)) /\
  (v7m_lspact (dc g) = false ->
   fpccr (run ext pre m) M_REG_NS = fpccr m M_REG_NS /\
   forall k, 0 <= k < 32 -> k <> 2 ->
     Z.testbit (fpccr (run ext pre m) M_REG_S) k
     = Z.testbit (fpccr m M_REG_S) k).
Proof.
  destruct g as [[c l w n j] [nt nl]]. cbn [dc cfg v8m_fpccr_s_wrong v7m_lspact].
  intros HM -> H Hp. destruct l, n; gen_eval_in H.
  all: gen_split H.
  all: inversion H; subst; clear H.
  all: unfold run; repeat run_any_step.
  all: cbn [run_from fold_left env pending raise]; try discriminate.
  all: intros _.
  all: cbn [control xregs fpccr set_control set_temp set_temps set_fp_status
            set_xregs set_fpccr set_memory upd_bank m_bank_eqb sysreg_eqb
            m_bank_of_bool].
  all: pose proof (fun x => fpccr_s_bits x true) as Hset;
       pose proof (fun x => fpccr_s_bits x false) as Hclr;
       cbv iota in Hset, Hclr.
  all: split; [rewrite ?Hset, ?Hclr by lia; reflexivity|].
  all: intros Hl; try discriminate Hl.
  all: split; [reflexivity|].
  all: intros k Hk Hk2; rewrite ?Hset, ?Hclr by lia.
  all: apply Z.eqb_neq in Hk2; rewrite Hk2; reflexivity.
Qed.

Lemma access_check_sets_fpccr_s_witness :
  exists g1 pre,
    full_vfp_access_check false (gen_start cfg_v8_1m true)
    = Some (true, g1, pre) /\
    Z.testbit (fpccr (run ext_simple pre (cpu_example 0 0 0)) M_REG_S) 2
    = true.
Proof.
  eexists. eexists. split; [vm_compute; reflexivity|].
  refine (proj1 (access_check_sets_fpccr_s ext_simple false
                   (gen_start cfg_v8_1m true) _ _ (cpu_example 0 0 0)
                   eq_refl eq_refl eq_refl eq_refl eq_refl)).
Defined.

(** ** System registers to memory *)

Lemma u32_sub_r a b : u32 (a + - u32 b) = u32 (a - b).
Proof.
  rewrite Z.add_opp_r. unfold u32. now rewrite Zminus_mod_idemp_r.
Qed.

Lemma sysreg_mem_address base a :
  u32 (base + sysreg_mem_offset a)
  = u32 (base + (if vldr_a a then vldr_imm a else - vldr_imm a)).
Proof.
  unfold sysreg_mem_offset. destruct (vldr_a a).
  - apply u32_add_r.
  - rewrite u32_add_r, u32_sub_r. now rewrite Z.add_opp_r.
Qed.

(** X28 ([trans_VSTR_sysreg], [fp_sysreg_to_memory], lines 1121-1154 and
    1203-1212).  VSTR of FPSCR_nzcvqc stores the four flag bits of FPSCR
    at the base plus or minus the immediate when pre-indexed and at the
    base itself when post-indexed, changes no other memory word and no
    system register, and with writeback leaves the base plus or minus
    the immediate in the base register. *)
Theorem VSTR_sysreg_addressing ext a g g1 pre :
  ARM_FEATURE_V8_1M (cfg (dc g)) = true ->
  aa32_fpsp_v2 (cfg (dc g)) = true ->
  vldr_rn a <> 15 ->
  vldr_reg a = ARM_VFP_FPSCR_NZCVQC ->
  vfp_access_check g = Some (true, g1, pre) ->
  exists g2 body,
    trans_VSTR_sysreg a g = Some (true, g2, pre ++ body) /\
    forall m, pending m = None ->
      pending (run ext body m) = None ->
      let off := if vldr_a a then vldr_imm a else - vldr_imm a in
      let addr := if vldr_p a then u32 (regs m (vldr_rn a) + off)
                  else regs m (vldr_rn a) in
      memory (run ext body m) addr
      = u32 (Z.land (xregs m ARM_VFP_FPSCR) FPCR_NZCV_MASK) /\
      (forall x, x <> addr -> memory (run ext body m) x = memory m x) /\
      regs (run ext body m) (vldr_rn a)
      = (if vldr_w a then u32 (regs m (vldr_rn a) + off)
         else regs m (vldr_rn a)) /\
      (forall r, r <> vldr_rn a -> regs (run ext body m) r = regs m r) /\
      xregs (run ext body m) = xregs m.
Proof.
  intros H81 Hv2 Hrn Hreg Hchk.
  destruct g as [[c l w n j] [nt nl]]. cbn [dc cfg] in *.
  destruct g1 as [[c1 l1 w1 n1 j1] [nt1 nl1]].
  pose proof (vfp_access_check_cfg _ _ _ _ Hchk) as Hc.
  cbn [dc cfg] in Hc. subst c1.
  assert (H15 : (vldr_rn a =? 15) = false) by (apply Z.eqb_neq; assumption).
  unfold trans_VSTR_sysreg, gen_M_fp_sysreg_read, fp_sysreg_checks,
    fp_sysreg_to_memory, gen_set_label_opt.
  rewrite Hreg. gen_eval_body. rewrite ?H81, ?H15. cbn [negb].
  gen_eval_body. rewrite ?Hv2, ?H81. cbn [negb].
  rewrite Hchk. gen_eval_body.
  destruct (vldr_p a) eqn:Hp, (vldr_w a) eqn:Hw;
    destruct (v8m_stackcheck c && (vldr_rn a =? 13)); cbn [andb];
    gen_eval_body.
  all: eexists; eexists;
    (split; [rewrite <- ?app_assoc; cbn [app]; reflexivity|]).
  all: intros m Hpm; unfold run; repeat run_any_step;
    try (cbn [env pending raise]; discriminate).
  all: cbn [run_from fold_left env pending regs xregs memory set_regs
            set_memory set_temp set_temps temps write_mem read_field].
  all: intros _; rewrite ?upd_nat_eq, ?u32_idem, ?sysreg_mem_address,
         ?upd_Z_eq.
  all: repeat split; try reflexivity.
  all: try (intros x Hx; now rewrite upd_Z_neq by assumption).
  all: try (intros r Hr; now rewrite upd_Z_neq by assumption).
Qed.

Lemma VSTR_sysreg_addressing_witness :
  exists g2 body,
    trans_VSTR_sysreg {| vldr_rn := 1; vldr_reg := ARM_VFP_FPSCR_NZCVQC;
                         vldr_imm := 8; vldr_a := false; vldr_w := true;
                         vldr_p := true |}
                      (gen_start cfg_v8_1m false)
    = Some (true, g2, body) /\
    regs (run ext_simple body (cpu_example 0 0 0)) 1 = 4088.
Proof.
  destruct (VSTR_sysreg_addressing ext_simple
              {| vldr_rn := 1; vldr_reg := ARM_VFP_FPSCR_NZCVQC;
                 vldr_imm := 8; vldr_a := false; vldr_w := true;
                 vldr_p := true |}
              (gen_start cfg_v8_1m false) (gen_start cfg_v8_1m false) []
              eq_refl eq_refl ltac:(discriminate) eq_refl eq_refl)
    as (g2 & body & Hgen & Hrun).
  exists g2, body. split; [exact Hgen|].
  vm_compute in Hgen. injection Hgen as _ Hb. subst body.
  destruct (Hrun (cpu_example 0 0 0) eq_refl eq_refl) as (_ & _ & Hr & _).
  exact Hr.
Defined.

Lemma flags_store_load old :
  u32 (Z.lor (u32 (Z.land old (Z.lnot FPCR_NZCV_MASK)))
             (u32 (Z.land (u32 (Z.land old FPCR_NZCV_MASK))
                          FPCR_NZCV_MASK)))
  = u32 old.
Proof.
  apply Z.bits_inj'. intros k Hk. rewrite flags_merge_bits by lia.
  unfold u32.
  destruct (Z_lt_ge_dec k 32) as [H32|H32].
  - rewrite !Z.mod_pow2_bits_low, Z.land_spec by lia.
    rewrite FPCR_NZCV_MASK_bits by lia.
    replace (k <? 32) with true by (symmetry; apply Z.ltb_lt; lia).
    destruct (k <? 28) eqn:H28; [reflexivity|].
    apply Z.ltb_ge in H28.
    replace (28 <=? k) with true by (symmetry; apply Z.leb_le; lia).
    apply andb_true_r.
  - rewrite !Z.mod_pow2_bits_high by lia.
    replace (k <? 28) with false by (symmetry; apply Z.ltb_ge; lia).
    replace (k <? 32) with false by (symmetry; apply Z.ltb_ge; lia).
    reflexivity.
Qed.

(** X29 ([trans_VSTR_sysreg], [trans_VLDR_sysreg], [fp_sysreg_to_memory],
    [memory_to_fp_sysreg], lines 1121-1212).  Storing FPSCR_nzcvqc with
    VSTR and loading it back with VLDR from the same offset address leaves
    FPSCR as it was (as a 32-bit value); the memory word holds the flag
    bits and no general-purpose register changes. *)
Theorem VSTR_VLDR_sysreg_roundtrip ext rn imm add g g1 pre :
  ARM_FEATURE_V8_1M (cfg (dc g)) = true ->
  aa32_fpsp_v2 (cfg (dc g)) = true ->
  rn <> 15 ->
  vfp_access_check g = Some (true, g1, pre) ->
  exists g2 body,
    (trans_VSTR_sysreg {| vldr_rn := rn; vldr_reg := ARM_VFP_FPSCR_NZCVQC;
                          vldr_imm := imm; vldr_a := add; vldr_w := false;
                          vldr_p := true |} ;;
     trans_VLDR_sysreg {| vldr_rn := rn; vldr_reg := ARM_VFP_FPSCR_NZCVQC;
                          vldr_imm := imm; vldr_a := add; vldr_w := false;
                          vldr_p := true |}) g
    = Some (true, g2, pre ++ body) /\
    forall m, pending m = None ->
      pending (run ext body m) = None ->
      xregs (run ext body m) ARM_VFP_FPSCR = u32 (xregs m ARM_VFP_FPSCR) /\
      memory (run ext body m)
             (u32 (regs m rn + (if add then imm else - imm)))
      = u32 (Z.land (xregs m ARM_VFP_FPSCR) FPCR_NZCV_MASK) /\
      regs (run ext body m) = regs m.
Proof.
  intros H81 Hv2 Hrn Hchk.
  destruct g as [[c l w n j] [nt nl]]. cbn [dc cfg] in *.
  destruct g1 as [[c1 l1 w1 n1 j1] [nt1 nl1]].
  pose proof (vfp_access_check_cfg _ _ _ _ Hchk) as Hc.
  cbn [dc cfg] in Hc. subst c1.
  assert (H15 : (rn =? 15) = false) by (apply Z.eqb_neq; assumption).
  unfold trans_VSTR_sysreg, trans_VLDR_sysreg, gen_M_fp_sysreg_read,
    gen_M_fp_sysreg_write, fp_sysreg_checks, fp_sysreg_to_memory,
    memory_to_fp_sysreg, gen_set_label_opt.
  cbn [vldr_rn vldr_reg vldr_imm vldr_a vldr_w vldr_p].
  repeat (progress (gen_eval_body;
                    rewrite ?H81, ?H15, ?Hv2, ?andb_false_r;
                    cbn [negb andb])).
  rewrite Hchk.
  repeat (progress (gen_eval_body;
                    rewrite ?H81, ?H15, ?Hv2, ?andb_false_r;
                    cbn [negb andb])).
  check_again Hchk. rewrite ?andb_false_r. gen_eval_body.
  eexists. eexists. split; [rewrite <- !app_assoc; cbn [app]; reflexivity|].
  intros m Hpm. unfold run. repeat run_any_step;
    try (cbn [env pending raise]; discriminate).
  cbn [run_from fold_left env pending regs xregs memory set_regs set_xregs
       set_memory set_temp set_temps temps write_mem read_mem write_field
       read_field sysreg_eqb].
  intros _.
  rewrite ?upd_nat_eq, ?u32_idem, ?upd_Z_eq.
  set (off := sysreg_mem_offset _).
  assert (Eoff : u32 (regs m rn + off)
                 = u32 (regs m rn + (if add then imm else - imm)))
    by apply (sysreg_mem_address (regs m rn)
                {| vldr_rn := rn; vldr_reg := ARM_VFP_FPSCR_NZCVQC;
                   vldr_imm := imm; vldr_a := add; vldr_w := false;
                   vldr_p := true |}).
  rewrite ?Eoff, ?upd_Z_eq.
  split; [apply flags_store_load|]. split; reflexivity.
Qed.

Lemma VSTR_VLDR_sysreg_roundtrip_witness :
  exists g2 body,
    (trans_VSTR_sysreg {| vldr_rn := 1; vldr_reg := ARM_VFP_FPSCR_NZCVQC;
                          vldr_imm := 8; vldr_a := true; vldr_w := false;
                          vldr_p := true |} ;;
     trans_VLDR_sysreg {| vldr_rn := 1; vldr_reg := ARM_VFP_FPSCR_NZCVQC;
                          vldr_imm := 8; vldr_a := true; vldr_w := false;
                          vldr_p := true |})
      (gen_start cfg_v8_1m false)
    = Some (true, g2, body) /\
    xregs (run ext_simple body (cpu_example 0 0 0)) ARM_VFP_FPSCR = 0.
Proof.
  destruct (VSTR_VLDR_sysreg_roundtrip ext_simple 1 8 true
              (gen_start cfg_v8_1m false) (gen_start cfg_v8_1m false) []
              eq_refl eq_refl ltac:(discriminate) eq_refl)
    as (g2 & body & Hgen & Hrun).
  exists g2, body. split; [exact Hgen|].
  vm_compute in Hgen. injection Hgen as _ Hb. subst body.
  destruct (Hrun (cpu_example 0 0 0) eq_refl eq_refl) as (Hx & _).
  exact Hx.
Defined.

(** ** Lazy state preservation comes first *)

(** X30 ([gen_preserve_fp_state], [full_vfp_access_check], lines 90-192).
    On an M-profile core with lazy state preservation pending, the code
    emitted by a passing check starts with the call of the preservation
    helper, preceded only by the I/O start marker when instruction
    counting is on (the block is then marked to end after this
    instruction), and calls the helper exactly once; with nothing pending
    the helper is not called and the block's end marker is untouched. *)
Theorem lazy_preservation_first ign g g1 pre :
  ARM_FEATURE_M (cfg (dc g)) = true ->
  full_vfp_access_check ign g = Some (true, g1, pre) ->
  if v7m_lspact (dc g) then
    exists rest,
      pre = (if CF_USE_ICOUNT (cfg (dc g)) then [op_io_start] else [])
            ++ op_helper_v7m_preserve_fp_state :: rest /\
      existsb is_preserve_fp_state rest = false /\
      is_jmp (dc g1) = (if CF_USE_ICOUNT (cfg (dc g))
                        then DISAS_UPDATE_EXIT else is_jmp (dc g))
  else
    existsb is_preserve_fp_state pre = false /\
    is_jmp (dc g1) = is_jmp (dc g).
Proof.
  destruct g as [[c l w n j] [nt nl]].
  cbn [dc cfg v7m_lspact is_jmp].
  intros HM H. destruct l, w, n; gen_eval_in H.
  all: gen_split H.
  all: inversion H; subst; clear H; cbn [dc is_jmp].
  all: try (eexists; split; [reflexivity|]).
  all: split; reflexivity.
Qed.

Lemma lazy_preservation_first_witness :
  exists g1 pre rest,
    full_vfp_access_check false (gen_start cfg_v8_1m true)
    = Some (true, g1, pre) /\
    pre = op_helper_v7m_preserve_fp_state :: rest.
Proof.
  pose proof (lazy_preservation_first false (gen_start cfg_v8_1m true)
                _ _ eq_refl eq_refl) as H.
  unfold gen_start in H. cbn [dc v7m_lspact cfg] in H.
  destruct H as (rest & Hpre & _).
  eexists. eexists. exists rest. split; [reflexivity|exact Hpre].
Defined.
